(* ===== verification/_CoqProject ===== *)
-Q . S2P
Prelude.v
Async.v
Json.v
Http.v
App.v
Html.v
Utils.v
Fetch.v
Polling.v
Notifications.v
Jwt.v
Preserves.v
SharedState.v
Settles.v
Uri.v
Samples.v
Groups.v
GroupsList.v
GroupsListSpec.v
GroupsPolicies.v
Widgets.v
SimpleDropdown.v
GroupsView.v
GroupsPage.v
GroupsSettle.v
GroupsWellFormed.v
Packages.v
PackagesSpec.v
PackagesView.v
PackagesPage.v
Devices.v
DevicesList.v
DevicesView.v
Device.v
DeviceView.v
DevicesSpec.v
DevicesPage.v
DevicePageSpec.v
DevicePage.v
PagesSettle.v
PagesWellFormed.v
HomeView.v
HomeSpec.v
HomeTemplate.v
Application.v
Session.v
Terminal.v
PollingSpec.v
