(* ===== verification/Prelude.v ===== *)
(** * RDFM web frontend: verification library

    The frontend of the RDFM device-management server is a Vue application under
    [src/frontend/src]. It shows the packages, devices and groups the server knows,
    lets users change them as far as their roles and permissions go, and connects
    terminals to devices. This library models its TypeScript and its templates, and
    proves what the pages guarantee. File names below are relative to
    [src/frontend/src].

    ** The program

    - [common/utils.ts] holds what the pages share: the endpoints, the roles and
      permissions of the session, [fetchWrapper], through which every request goes,
      [resourcesGetter], which polls one endpoint, and the notifications.
    - [groups.ts], [packages.ts] and [devices.ts] under [components] each own the
      polled resources of one page and one function per request; [GroupsList.vue],
      [PackagesList.vue], [DevicesList.vue] and [Device.vue] are the pages. A page
      polls while it is mounted; its handlers are [async] functions that the browser
      interleaves at every [await].
    - [views/HomeView.vue] is the frame around the pages: menu, tabs, and the event
      stream of running updates. [main.ts], [router/index.ts], [LoginHandler.vue] and
      [LogoutHandler.vue] start and end a session, whose token is kept in the
      browser's storage. [Terminal.vue] is the shell of a device.
    All modules run in one browser tab and share its state; components interact
    through the module state, through properties and emitted events, and through
    bubbling of clicks.

    ** How it is modelled

    - Code. [Async.v]: an [async] function is a value of [proc], a tree whose nodes
      read the state, write it, await a request, send a promise off, return or throw;
      [pbind], [catch], [finally] and [detach] are the control structures. A tree is
      finite on every path, so that [run] (sequential execution against a server, with
      the requests sent) and [advance] (up to the next await) need no fuel. [step] is
      the event loop: any handler may be started in any state it belongs to, and any
      suspended one resumed with any answer. [wp] is the calculus the proofs use, with
      a rely on what others do during an await; [keeps] and [Preserves.v] specialise
      it to invariants, [Settles.v] counts requests and resumptions.
    - State. [App.v]: one field per [ref], [reactive] and module-level variable of the
      modules, with the storage, location, timers and opened windows of the browser
      and the toasts on the page. A component adds its own record. Lenses (Prelude)
      name the parts; the class [HasApp] lets the operations of a module work inside
      any page. Objects that the code shares and mutates are shared here: the
      [Headers] object of [groups.ts] is a field of the module state.
    - Requests. [Http.v]: types of the resources, requests, and answers. The type of
      an answer is that of the endpoint, as the interfaces of [utils.ts] declare it;
      [denote] and [doc] say which. [Json.v]: [JSON.stringify] of bodies and of the
      values the code compares by their serialisation.
    - Rendering. [Html.v]: a template is a function to a tree of elements. Listeners
      carry a constructor of the page's type of handlers, so that a rendered page can
      be searched: [bubble] is the event dispatch of the browser with [.self], [.stop]
      and disabled buttons, [click] finds what a click runs, [user_event] what the
      user can cause. [Widgets.v] has the presentational components, and
      [SimpleDropdown.v] the one with a state of its own.

    ** Files and sources

    - [Utils.v], [Fetch.v], [Notifications.v], [Jwt.v]: [common/utils.ts] (endpoints
      and [allowedTo]; [fetchWrapper] and [resourcesGetter]; the queue of notifications;
      [parseJWT] and [updatePermissions]). [Polling.v], [PollingSpec.v]: the mounting,
      unmounting and timers of the three list pages.
    - [Groups.v]: [groups.ts]. [GroupsList.v]: the script of [GroupsList.vue];
      [GroupsView.v]: its template; [GroupsListSpec.v], [GroupsPolicies.v],
      [GroupsPage.v], [GroupsSettle.v], [GroupsWellFormed.v]: its properties.
      [PagesSettle.v] has the termination of all pages, [PagesWellFormed.v] the
      well-formedness of what they render.
    - [Packages.v]: [packages.ts] and the scripts of [PackagesList.vue] and
      [DownloadButton.vue]; [PackagesView.v]: the template of the list;
      [PackagesSpec.v], [PackagesPage.v]: properties.
    - [Devices.v], [DevicesList.v], [DevicesView.v]: [devices.ts] and the script and
      template of [DevicesList.vue]; [Device.v], [DeviceView.v]: those of
      [Device.vue]; [DevicesSpec.v], [DevicesPage.v], [DevicePageSpec.v],
      [DevicePage.v]: properties. [Uri.v]: the decoding of percent-encoded routes and
      of query strings, which [Device.vue] and [LoginHandler.vue] take from the
      language and the browser.
    - [Widgets.v]: [TitleBar.vue], [BlurPanel.vue], [RemovePopup.vue], [Status.vue],
      [UpdateProgress.vue], [Dropdown.vue] and the template of [DownloadButton.vue];
      [SimpleDropdown.v]: [SimpleDropdown.vue].
    - [HomeView.v], [HomeTemplate.v], [HomeSpec.v]: [views/HomeView.vue] with the
      child routes of [router/index.ts]; [Session.v]: [main.ts], the guard of
      [router/index.ts], [LoginHandler.vue], [LogoutHandler.vue]; [Terminal.v]:
      [Terminal.vue].
    - [SharedState.v]: the invariant of the module state that the pages share, and the
      rights of a session; [Application.v]: the home view, the event stream and any
      number of instances of the pages in one event loop.
    - [Samples.v]: the inputs at which theorems with hypotheses are instantiated.

    ** What the theorems show

    - Access. [allowedTo] grants exactly what a declarative policy does, and this
      carries to the pages: over all executions of the event loop, with all that a
      user can do to what is rendered, [groups_page_safe], [groups_page_authorized],
      [packages_page_authorized], [devices_page_authorized] and
      [device_page_authorized] say that a page only sends polls and the requests that
      the roles and permissions allow, on the objects its popups show, and keeps its
      invariant. A right on a group counts for a package only if a list of groups that
      was loaded in a state the execution passed ([passes]) has the package in the
      group. [application_authorized] puts these together: the pages that a user
      moves between share the module state, and the handlers of instances that have
      been left are resumed among those of others. All concern the frontend alone: the
      server must check again.
    - Groups. [configureGroup], which computes what to change while it changes it,
      refines a plan computed at the start and executed up to its first failure;
      comparing serialisations is comparing values; the patches of devices turn the
      old assignment into the selected one; policies, warnings and errors are as
      specified.
    - Rendering. What the pages render is well formed for unique identifiers
      ([pages_well_formed]).
    - Termination. The list pages come to rest: each handler sends a bounded number of
      requests, so that a page that is left alone can only be resumed so often, and it
      can be resumed as long as a handler has not ended. So does the page of a device,
      except for the effect that loads its actions: it is run again by the empty list
      it stores for a device without actions, and never rests ([pages_settle]).
      [application_settles] says the same of all pages together.
    - Requests. One contract per module: which request is sent, with which token,
      what the answers cause, that nothing is sent when input is incomplete, and which
      missing fields are then reported. The messages for the commands on groups are
      compared with the texts of the server's documentation.
    - Notifications. The queue is bounded, first in first out, and drains.
    - Tokens. The payload of a token is read back with a character for each byte, as
      [atob] gives them: an ASCII text is read as it was encoded, no other is, and
      neither is the URL-safe alphabet. The session theorems follow a path through
      login: it is returned to if it was visited with a token, and otherwise it is not,
      since [main.ts] leaves before the guard of the router is installed.
    - Devices. Routes are resolved to devices; one run per action under every
      interleaving; downloads of files; tracking of the updates the server streams is
      a transition system, and its announcements are balanced.
    - Frame and widgets. Every route shows one page below one active tab, except the
      devices with a tag; clicks outside the menu close it, unless the page below the
      bar keeps them (the template takes what the page renders, of which only the
      modifiers of listeners count); the dropdown's label only opens it; colours are
      six hexadecimal digits. Unmounting the terminal closes its socket quietly, unless
      it is still connecting.
    - Timers. Leaving a list page stops its timer, unless the first fetch is under way.
    Several theorems state what the code does where a comment or its purpose says
    otherwise (an empty path is downloaded, the shared headers keep a token, the
    dropdown does not close): they are behaviour, not requirements.

    ** Bounds

    The recursion of all definitions is structural, with three exceptions:
    [HomeView.hex_digits] takes the digits of a number below [2^24] with fuel 16, where
    six digits are enough; [Uri.decode_component] and [Uri.query_decode] have the length
    of the text as their fuel, and every step takes a character.
    [Device.fetch_actions] is an effect that starts itself again without end: its
    argument, of any length, says how many runs are followed, and the theorems hold for
    every length.
    [N_MAX_NOTIF] is the code's 6. The numbers of [pages_settle] are the
    largest numbers of requests of one handler of each page; the 8 of the groups page is
    a configuration with four commands, each followed by a poll. Numbers are [Z]: identifiers, counts,
    times and the hash of [HomeView.vue], which all stay where the code's numbers are
    exact.

    ** Parameters

    The server is a function from requests to answers in [run], and unconstrained in
    [step]. [BuildEnv] has the variables of the build, [JsonParser] is [JSON.parse] on
    the payload of a token, [Router] the matching of paths of the router library,
    [Collation] the order of [localeCompare] on versions.

    ** Not modelled

    - [third-party/hterm.js] is the terminal emulator of another project; [Terminal.v]
      has the calls the frontend makes to it as effects on a record of its state.
    - The server, the device clients and the command-line tools (Python, Go, Java)
      share no code with the frontend.
    - Style sheets, icons, images, [App.vue] (a router outlet) and build files have no
      behaviour; the height that [Dropdown.vue] computes for its table, the focus of
      buttons, and the reading of positions on the screen are left out.
    - Vue's scheduling of re-rendering: a page is taken to show its current state. The
      one exception is a device without groups, for which the template of
      [DevicesList.vue] raises: what the page then still shows is approximated from
      above, by all handlers that an earlier rendering may have offered.
    - In [Application.v], the moment when the home view stores the roles and permissions
      of the session, and what changes them: the theorem begins after it, for users
      whose permissions no page fetches again. Each route of a device is taken to lead
      to one device.
    - Numbers with a fraction, which the server never sends for identifiers and which
      the field of a priority would accept. *)

From Stdlib Require Import Sorting.Sorted.
From stdpp Require Import base tactics option list numbers strings pretty gmap sets fin_maps sorting.

#[local] Open Scope Z_scope.

(** ** JavaScript primitives shared by the components *)

(** [Array.prototype.includes] on values compared with [===]. *)
Definition includes `{EqDecision A} (x : A) (l : list A) : bool := bool_decide (x ∈ l).

(** [Array.prototype.some] and [Array.prototype.every]. *)
Definition js_some {A} (f : A -> bool) (l : list A) : bool := existsb f l.
Definition js_every {A} (f : A -> bool) (l : list A) : bool := forallb f l.

(** [Array.prototype.filter] with a boolean callback. *)
Definition js_filter {A} (f : A -> bool) (l : list A) : list A := List.filter f l.

(** [Array.prototype.find]; [None] is [undefined]. *)
Definition js_find {A} (f : A -> bool) (l : list A) : option A := List.find f l.

(** [Array.prototype.sort] with a comparison callback: a stable sort. *)
Fixpoint insert_before {A} (cmp : A -> A -> Z) (x : A) (l : list A) : list A :=
  match l with
  | [] => [x]
  | y :: l' => if cmp x y <=? 0 then x :: l else y :: insert_before cmp x l'
  end.

Fixpoint sort_defined {A} (cmp : A -> A -> Z) (l : list A) : list A :=
  match l with
  | [] => []
  | x :: l => insert_before cmp x (sort_defined cmp l)
  end.

(** Missing elements ([undefined]) are not compared and go to the end. *)
Definition js_sort {A} (cmp : A -> A -> Z) (l : list (option A)) : list (option A) :=
  map Some (sort_defined cmp (omap id l)) ++
  List.filter (fun o => match o with None => true | Some _ => false end) l.

(** The values of [new Set(l)], in insertion order. *)
Definition js_set `{EqDecision A} (l : list A) : list A :=
  foldl (fun acc x => if includes x acc then acc else acc ++ [x]) [] l.

(** Truthiness of a string (or of a missing one): the empty string is falsy. *)
Definition truthy_str (s : option string) : bool :=
  match s with Some s => negb (String.eqb s "") | None => false end.

(** Truthiness of a number (or of a missing one): zero is falsy. *)
Definition truthy_num (n : option Z) : bool :=
  match n with Some n => negb (n =? 0) | None => false end.

Lemma truthy_str_false s : truthy_str s = false <-> s = None \/ s = Some "".
Proof. destruct s as [s|]; cbn; [destruct (String.eqb_spec s ""); cbn|]; intuition congruence. Qed.

Lemma truthy_num_false n : truthy_num n = false <-> n = None \/ n = Some 0.
Proof. destruct n as [n|]; cbn; [destruct (Z.eqb_spec n 0); cbn|]; intuition congruence. Qed.

(** ** Lenses: a part of a larger state, read and replaced *)

Record lens (S T : Type) : Type := Lens {
  view : S -> T;
  put : T -> S -> S;
  view_put : forall t s, view (put t s) = t;
  put_view : forall s, put (view s) s = s;
  put_put : forall t t' s, put t (put t' s) = put t s;
}.
Arguments Lens {S T}.
Arguments view {S T}.
Arguments put {S T}.
Arguments view_put {S T}.
Arguments put_view {S T}.
Arguments put_put {S T}.

Definition over {S T} (l : lens S T) (f : T -> T) (s : S) : S := put l (f (view l s)) s.

Definition lens_comp {S T U} (l : lens S T) (m : lens T U) : lens S U.
Proof.
  refine (Lens (fun s => view m (view l s))
               (fun u s => put l (put m u (view l s)) s) _ _ _).
  - intros. now rewrite !view_put.
  - intros. now rewrite !put_view.
  - intros. now rewrite !view_put, !put_put.
Defined.

Definition lens_id (S : Type) : lens S S :=
  Lens (fun s => s) (fun t _ => t) (fun _ _ => eq_refl) (fun _ => eq_refl) (fun _ _ _ => eq_refl).

Definition lens_fst (S T : Type) : lens (S * T) S.
Proof. now refine (Lens fst (fun a p => (a, snd p)) _ _ _); intros; destruct s. Defined.

Definition lens_snd (S T : Type) : lens (S * T) T.
Proof. now refine (Lens snd (fun b p => (fst p, b)) _ _ _); intros; destruct s. Defined.

(** ** Automation *)

Create Rewrite HintDb js.
#[export] Hint Rewrite @view_put @put_view @put_put : js.

(** Case analysis on the innermost [match] or [if] of the goal or of a hypothesis. *)
Ltac break_match :=
  match goal with
  | |- context [match ?x with _ => _ end] =>
      lazymatch x with context [match _ with _ => _ end] => fail | _ => destruct x eqn:? end
  | H : context [match ?x with _ => _ end] |- _ =>
      lazymatch x with context [match _ with _ => _ end] => fail | _ => destruct x eqn:? end
  end.

(** Turn boolean tests of the code into the propositions they decide. *)
Ltac reflect_bools :=
  repeat match goal with
  | H : (_ && _)%bool = true |- _ => apply andb_prop in H as [? ?]
  | H : (_ || _)%bool = false |- _ => apply orb_false_elim in H as [? ?]
  | H : negb _ = true |- _ => apply negb_true_iff in H
  | H : negb _ = false |- _ => apply negb_false_iff in H
  | H : (_ =? _)%Z = true |- _ => apply Z.eqb_eq in H
  | H : (_ =? _)%Z = false |- _ => apply Z.eqb_neq in H
  | H : (_ <? _)%Z = true |- _ => apply Z.ltb_lt in H
  | H : (_ <? _)%Z = false |- _ => apply Z.ltb_ge in H
  | H : (_ <=? _)%Z = true |- _ => apply Z.leb_le in H
  | H : (_ <=? _)%Z = false |- _ => apply Z.leb_gt in H
  | H : String.eqb _ _ = true |- _ => apply String.eqb_eq in H
  | H : String.eqb _ _ = false |- _ => apply String.eqb_neq in H
  | H : bool_decide _ = true |- _ => apply bool_decide_eq_true in H
  | H : bool_decide _ = false |- _ => apply bool_decide_eq_false in H
  end.

(** Linear arithmetic with [/] and [mod] by constants. *)
Ltac euclid := Z.to_euclidean_division_equations; lia.

(** ** Lemmas on the list primitives *)

Lemma includes_spec `{EqDecision A} (x : A) (l : list A) : includes x l = true <-> x ∈ l.
Proof. apply bool_decide_eq_true. Qed.

Lemma includes_false `{EqDecision A} (x : A) (l : list A) : includes x l = false <-> x ∉ l.
Proof. apply bool_decide_eq_false. Qed.

Lemma js_some_spec {A} (f : A -> bool) (l : list A) :
  js_some f l = true <-> exists x, x ∈ l /\ f x = true.
Proof.
  unfold js_some. rewrite existsb_exists. setoid_rewrite list_elem_of_In. reflexivity.
Qed.

Lemma js_every_spec {A} (f : A -> bool) (l : list A) :
  js_every f l = true <-> forall x, x ∈ l -> f x = true.
Proof.
  unfold js_every. rewrite forallb_forall. setoid_rewrite list_elem_of_In. reflexivity.
Qed.

Lemma js_filter_spec {A} (f : A -> bool) (l : list A) (x : A) :
  x ∈ js_filter f l <-> x ∈ l /\ f x = true.
Proof. unfold js_filter. rewrite !list_elem_of_In. apply filter_In. Qed.

Lemma js_find_some {A} (f : A -> bool) (l : list A) (x : A) :
  js_find f l = Some x -> x ∈ l /\ f x = true.
Proof. intros H. apply find_some in H. now rewrite list_elem_of_In. Qed.

Lemma js_find_none {A} (f : A -> bool) (l : list A) :
  js_find f l = None -> forall x, x ∈ l -> f x = false.
Proof. intros H x Hx. apply list_elem_of_In in Hx. eapply find_none; eauto. Qed.

Lemma insert_before_perm {A} (cmp : A -> A -> Z) x l : insert_before cmp x l ≡ₚ x :: l.
Proof.
  induction l as [|y l IH]; cbn; [done|]. destruct (_ <=? 0); [done|].
  rewrite IH. apply Permutation_swap.
Qed.

Lemma sort_defined_perm {A} (cmp : A -> A -> Z) l : sort_defined cmp l ≡ₚ l.
Proof. induction l as [|x l IH]; cbn; [done|]. now rewrite insert_before_perm, IH. Qed.

Lemma js_sort_elem {A} (cmp : A -> A -> Z) l o : o ∈ js_sort cmp l <-> o ∈ l.
Proof.
  assert (Hp : forall x, x ∈ sort_defined cmp (omap id l) <-> x ∈ omap id l)
    by (intros x; now rewrite (sort_defined_perm cmp (omap id l))).
  unfold js_sort. rewrite elem_of_app, !list_elem_of_In, in_map_iff, filter_In.
  setoid_rewrite <- list_elem_of_In. setoid_rewrite Hp. setoid_rewrite list_elem_of_omap. split.
  - intros [(x & <- & y & Hy & Hx)|[Ho _]]; [|done]. cbn in Hx. now subst y.
  - destruct o as [x|]; intros Ho; [left|right; done]. exists x. split; [done|]. now exists (Some x).
Qed.

(** With a comparison that is total and transitive, the defined elements come out
    in order. *)
Section Sorted.
Context {A : Type} (cmp : A -> A -> Z).
Context (Htotal : forall x y, cmp x y <= 0 \/ cmp y x <= 0).
Context (Htrans : forall x y z, cmp x y <= 0 -> cmp y z <= 0 -> cmp x z <= 0).

Lemma insert_before_sorted x l :
  StronglySorted (fun a b => cmp a b <= 0) l ->
  StronglySorted (fun a b => cmp a b <= 0) (insert_before cmp x l).
Proof.
  induction 1 as [|y l Hl IH Hy]; cbn; [repeat constructor|].
  destruct (cmp x y <=? 0) eqn:E.
  - apply Z.leb_le in E. constructor; [by constructor|]. constructor; [done|].
    eapply List.Forall_impl; [|exact Hy]. cbn. intros z Hz. now apply Htrans with y.
  - apply Z.leb_gt in E. constructor; [done|]. rewrite insert_before_perm.
    constructor; [|done]. destruct (Htotal x y); [lia|done].
Qed.

Lemma sort_defined_sorted l : StronglySorted (fun a b => cmp a b <= 0) (sort_defined cmp l).
Proof. induction l; cbn; [constructor|]. now apply insert_before_sorted. Qed.
End Sorted.

Lemma js_set_acc `{EqDecision A} (l acc : list A) :
  NoDup acc ->
  NoDup (foldl (fun acc x => if includes x acc then acc else acc ++ [x]) acc l) /\
  forall x, x ∈ foldl (fun acc x => if includes x acc then acc else acc ++ [x]) acc l <->
    x ∈ acc \/ x ∈ l.
Proof.
  revert acc. induction l as [|y l IH]; cbn; intros acc Hacc.
  - split; [done|]. intros x. rewrite elem_of_nil. tauto.
  - destruct (includes y acc) eqn:E.
    + apply includes_spec in E. destruct (IH acc Hacc) as [IH1 IH2]. split; [done|].
      intros x. rewrite IH2, elem_of_cons. split; [tauto|]. intros [?|[->|?]]; auto.
    + apply includes_false in E. destruct (IH (acc ++ [y])) as [IH1 IH2].
      { apply NoDup_app. repeat split; [done| |apply NoDup_singleton].
        intros z Hz Hz'. apply list_elem_of_singleton in Hz' as ->. done. }
      split; [done|]. intros x. rewrite IH2, elem_of_app, !elem_of_cons, elem_of_nil. tauto.
Qed.

Lemma js_set_NoDup `{EqDecision A} (l : list A) : NoDup (js_set l).
Proof. apply js_set_acc. constructor. Qed.

Lemma js_set_elem `{EqDecision A} (l : list A) x : x ∈ js_set l <-> x ∈ l.
Proof.
  unfold js_set. destruct (js_set_acc l []) as [_ ->]; [constructor|].
  rewrite elem_of_nil. tauto.
Qed.

#[export] Hint Rewrite @includes_spec @includes_false @js_some_spec @js_every_spec
  @js_filter_spec : js.

(** ** Bit fields *)

(** Fields that do not overlap are joined by addition. *)
Lemma lor_shiftl_add a b n :
  0 <= n -> 0 <= b < 2 ^ n -> Z.lor (Z.shiftl a n) b = a * 2 ^ n + b.
Proof.
  intros Hn Hb. rewrite <- Z.shiftl_mul_pow2 by done.
  rewrite <- Z.add_lor_land.
  enough (Z.land (Z.shiftl a n) b = 0) as ->; [lia|].
  apply Z.bits_inj'. intros i Hi. rewrite Z.land_spec, Z.bits_0.
  destruct (decide (i < n)).
  - now rewrite Z.shiftl_spec_low.
  - rewrite <- (Z.mod_small b (2 ^ n)) by done.
    rewrite Z.mod_pow2_bits_high by lia. apply andb_false_r.
Qed.
