(* ===== verification/Async.v ===== *)
(** * Asynchronous JavaScript code

    An [async] function or an event handler of the frontend is a value of
    [proc]: it reads and writes the module state, raises exceptions, and
    suspends at each [await] of a server request; a promise that is not awaited
    is sent off with [Spawn]. Between two awaits a process runs to completion, as
    JavaScript's event loop guarantees. The file gives
    - [run]: the sequential execution against a server, with the trace of the
      requests that were sent and the callbacks left pending;
    - [wp]: a weakest-precondition calculus whose rely relation says what other
      handlers may do to the state while the process is suspended;
    - [step]: the event loop, where handlers are started at any moment and
      suspended ones are resumed in any order;
    and the theorems that relate them. *)

From S2P Require Import Prelude.
From Stdlib Require Import FunctionalExtensionality.
From stdpp Require Import base tactics list strings relations.

(** A JavaScript exception, named by its class. *)
Inductive exn : Type :=
| TypeError
| SyntaxError
| JsError (message : string).

(** How a promise settles. *)
Inductive outcome (A : Type) : Type :=
| Done (a : A)
| Raised (e : exn).
Arguments Done {A}.
Arguments Raised {A}.

Section Proc.
(** [event] is what a process awaits, [reply] the type of the answer. *)
Context {event : Type} {reply : event -> Type} {state : Type}.

Inductive proc (A : Type) : Type :=
| Ret (a : A)
| Throw (e : exn)
| Get (k : state -> proc A)
| Put (s : state) (k : proc A)
| Await (e : event) (k : reply e -> proc A)
| Spawn (e : event) (h : reply e -> proc unit) (k : proc A).
#[global] Arguments Ret {A}.
#[global] Arguments Throw {A}.
#[global] Arguments Get {A}.
#[global] Arguments Put {A}.
#[global] Arguments Await {A}.
#[global] Arguments Spawn {A}.

(** ** Composition *)

Fixpoint pbind {A B} (p : proc A) (f : A -> proc B) : proc B :=
  match p with
  | Ret a => f a
  | Throw e => Throw e
  | Get k => Get (fun s => pbind (k s) f)
  | Put s k => Put s (pbind k f)
  | Await e k => Await e (fun r => pbind (k r) f)
  | Spawn e cb k => Spawn e cb (pbind k f)
  end.

Lemma pbind_assoc {A B C} (p : proc A) (f : A -> proc B) (g : B -> proc C) :
  pbind (pbind p f) g = pbind p (fun a => pbind (f a) g).
Proof. revert f. induction p; cbn; intros f; f_equal; auto; extensionality x; auto. Qed.

(** [try { p } catch (e) { h e }] *)
Fixpoint catch {A} (p : proc A) (h : exn -> proc A) : proc A :=
  match p with
  | Ret a => Ret a
  | Throw e => h e
  | Get k => Get (fun s => catch (k s) h)
  | Put s k => Put s (catch k h)
  | Await e k => Await e (fun r => catch (k r) h)
  | Spawn e cb k => Spawn e cb (catch k h)
  end.

(** [try { p } finally { f }] *)
Fixpoint finally {A} (p : proc A) (f : proc unit) : proc A :=
  match p with
  | Ret a => pbind f (fun _ => Ret a)
  | Throw e => pbind f (fun _ => Throw e)
  | Get k => Get (fun s => finally (k s) f)
  | Put s k => Put s (finally k f)
  | Await e k => Await e (fun r => finally (k r) f)
  | Spawn e cb k => Spawn e cb (finally k f)
  end.

Definition await (e : event) : proc (reply e) := Await e Ret.
Definition reads {A} (f : state -> A) : proc A := Get (fun s => Ret (f s)).
Definition modify (f : state -> state) : proc unit := Get (fun s => Put (f s) (Ret tt)).

(** [p] is called and its promise is not awaited: it runs up to its first
    await, the rest becomes a callback, and the caller goes on with [k]. An
    exception in it is an unhandled rejection, which changes nothing. *)
Fixpoint detach {A} (p : proc unit) (k : proc A) : proc A :=
  match p with
  | Ret _ | Throw _ => k
  | Get f => Get (fun s => detach (f s) k)
  | Put s p' => Put s (detach p' k)
  | Await e h => Spawn e h k
  | Spawn e h p' => Spawn e h (detach p' k)
  end.

(** ** Sequential execution *)

(** What has gone to the network: the requests in the order they were sent,
    and the callbacks whose answers are still to be handled. *)
Record net : Type := Net { sent : list event; pending : list (proc unit) }.

(** [srv tr e] is the server's answer to [e] after the requests [tr]. *)
Fixpoint run {A} (srv : list event -> forall e, reply e) (p : proc A)
    (n : net) (s : state) : outcome A * state * net :=
  match p with
  | Ret a => (Done a, s, n)
  | Throw e => (Raised e, s, n)
  | Get k => run srv (k s) n s
  | Put s' k => run srv k n s'
  | Await e k => run srv (k (srv (sent n) e)) (Net (sent n ++ [e]) (pending n)) s
  | Spawn e h k =>
      run srv k (Net (sent n ++ [e]) (pending n ++ [h (srv (sent n) e)])) s
  end.

Definition idle : net := Net [] [].

(** ** Weakest preconditions under interference *)

Section WP.
(** [G e s]: the obligation when [e] is sent in state [s]; [R s s']: what
    the rest of the program may do before the answer is handled; [I]: what
    must hold wherever the process suspends, and what a detached callback
    finds and must leave. *)
Context (G : event -> state -> Prop) (R : state -> state -> Prop) (I : state -> Prop).

Fixpoint wp {A : Type} (p : proc A) (Q : A -> state -> Prop) (X : exn -> state -> Prop)
    (s : state) : Prop :=
  match p with
  | Ret a => Q a s
  | Throw e => X e s
  | Get k => wp (k s) Q X s
  | Put s' k => wp k Q X s'
  | Await e k => G e s /\ I s /\ forall r s', R s s' -> wp (k r) Q X s'
  | Spawn e h k =>
      G e s /\ (forall r s', I s' -> wp (h r) (fun _ => I) (fun _ => I) s') /\ wp k Q X s
  end.

Lemma wp_mono {A} (p : proc A) (Q Q' : A -> state -> Prop) (X X' : exn -> state -> Prop) s :
  (forall a s, Q a s -> Q' a s) -> (forall e s, X e s -> X' e s) ->
  wp p Q X s -> wp p Q' X' s.
Proof.
  intros HQ HX. revert Q Q' HQ s.
  induction p as [A a|A e|A k IH|A s' k IH|A e k IH|A e h _ k IH]; cbn;
    intros Q Q' HQ s H; eauto.
  - destruct H as (HG & HI & H). eauto.
  - destruct H as (HG & Hh & H). eauto.
Qed.

Lemma wp_bind {A B} (p : proc A) (f : A -> proc B) Q X s :
  wp (pbind p f) Q X s <-> wp p (fun a => wp (f a) Q X) X s.
Proof.
  revert f s. induction p as [A a|A e|A k IH|A s' k IH|A e k IH|A e h _ k IH]; cbn;
    intros f s; try reflexivity; auto.
  - do 2 apply and_iff_compat_l. now setoid_rewrite IH.
  - now rewrite IH.
Qed.

Lemma wp_catch {A} (p : proc A) (h : exn -> proc A) Q X s :
  wp (catch p h) Q X s <-> wp p Q (fun e => wp (h e) Q X) s.
Proof.
  revert h Q s. induction p as [A a|A e|A k IH|A s' k IH|A e k IH|A e cb _ k IH]; cbn;
    intros h Q s; try reflexivity; auto.
  - do 2 apply and_iff_compat_l. now setoid_rewrite IH.
  - now rewrite IH.
Qed.

Lemma wp_finally {A} (p : proc A) (f : proc unit) Q X s :
  wp (finally p f) Q X s <->
  wp p (fun a => wp f (fun _ => Q a) X) (fun e => wp f (fun _ => X e) X) s.
Proof.
  revert Q s. induction p as [A a|A e|A k IH|A s' k IH|A e k IH|A e cb _ k IH]; cbn;
    intros Q s; try (rewrite wp_bind; reflexivity); auto.
  - do 2 apply and_iff_compat_l. now setoid_rewrite IH.
  - now rewrite IH.
Qed.
End WP.

Lemma run_bind {A B} srv (p : proc A) (f : A -> proc B) n s :
  run srv (pbind p f) n s =
  match run srv p n s with
  | (Done a, s', n') => run srv (f a) n' s'
  | (Raised e, s', n') => (Raised e, s', n')
  end.
Proof. revert f n s. induction p as [| | | | |? ? ? ? ? IH]; cbn; intros; auto. Qed.

Lemma run_catch {A} srv (p : proc A) (h : exn -> proc A) n s :
  run srv (catch p h) n s =
  match run srv p n s with
  | (Done a, s', n') => (Done a, s', n')
  | (Raised e, s', n') => run srv (h e) n' s'
  end.
Proof. revert h n s. induction p as [| | | | |? ? ? ? ? IH]; cbn; intros; auto. Qed.

Lemma run_finally {A} srv (p : proc A) (f : proc unit) n s :
  run srv (finally p f) n s =
  match run srv p n s with
  | (o, s', n') =>
      match run srv f n' s' with
      | (Done _, s2, n2) => (o, s2, n2)
      | (Raised e, s2, n2) => (Raised e, s2, n2)
      end
  end.
Proof.
  revert n s. induction p as [| | |? st ? ?| |]; cbn; intros n s; auto; rewrite run_bind;
    now destruct (run srv f n s) as [[[] ?] ?].
Qed.

(** Requests are only ever appended to the trace. *)
Lemma run_trace_extends {A} srv (p : proc A) n s :
  exists new, sent (snd (run srv p n s)) = sent n ++ new.
Proof.
  revert n s. induction p as [| |A k IH|A s' k IH|A e k IH|A e h _ k IH]; cbn; intros n s; auto.
  - exists []. now rewrite app_nil_r.
  - exists []. now rewrite app_nil_r.
  - destruct (IH (srv (sent n) e) (Net (sent n ++ [e]) (pending n)) s) as [new ->].
    exists (e :: new). cbn. now rewrite <- app_assoc.
  - destruct (IH (Net (sent n ++ [e]) (pending n ++ [h (srv (sent n) e)])) s) as [new ->].
    exists (e :: new). cbn. now rewrite <- app_assoc.
Qed.

(** What [wp] promises with nobody interfering holds of [run]. *)
Definition settles {A} (Q : A -> state -> Prop) (X : exn -> state -> Prop)
    (res : outcome A * state * net) : Prop :=
  match res with
  | (Done a, s, _) => Q a s
  | (Raised e, s, _) => X e s
  end.

Lemma wp_run {A} G I (p : proc A) Q X srv n s :
  wp G eq I p Q X s -> settles Q X (run srv p n s).
Proof.
  revert Q n s. induction p as [| |A k IH|A s' k IH|A e k IH|A e h _ k IH]; cbn;
    intros Q n s H; auto.
  - apply IH. now apply H.
  - apply IH. apply H.
Qed.

(** ** The event loop *)

(** Run to completion up to the next await, collecting the callbacks of the
    promises that are not awaited and the requests that are sent. *)
Fixpoint advance {A} (p : proc A) (s : state) : state * proc A * list (proc unit) * list event :=
  match p with
  | Get k => advance (k s) s
  | Put s' k => advance k s'
  | Spawn e h k =>
      let '(s', p', cbs, es) := advance k s in (s', p', Await e h :: cbs, e :: es)
  | Await e k => (s, p, [], [e])
  | Ret _ | Throw _ => (s, p, [], [])
  end.

Lemma advance_bind_sync {A B} (p : proc A) (f : A -> proc B) s s' a :
  advance p s = (s', Ret a, [], []) -> advance (pbind p f) s = advance (f a) s'.
Proof.
  revert f s. induction p as [A a0|A e|A k IH|A s1 k IH|A e k IH|A e h _ k IH]; cbn; intros f s Hp.
  - injection Hp as -> ->. reflexivity.
  - discriminate.
  - now apply IH.
  - now apply IH.
  - discriminate.
  - now destruct (advance k s) as [[[]]].
Qed.

(** A promise that is not awaited runs up to its first await, then the caller goes on. *)
Lemma advance_detach {A} (p : proc unit) (k : proc A) s :
  advance (detach p k) s =
  let '(s1, p1, cbs, es) := advance p s in
  let '(s2, k', cbs', es') := advance k s1 in
  (s2, k', cbs ++ (match p1 with Await e h => [Await e h] | _ => [] end) ++ cbs', es ++ es').
Proof.
  revert p s. fix IH 1. intros [a|e|f|s' p|e h|e h p] s; cbn [detach advance].
  - now destruct (advance k s) as [[[]]].
  - now destruct (advance k s) as [[[]]].
  - apply (IH (f s)).
  - apply (IH p).
  - now destruct (advance k s) as [[[]]].
  - rewrite (IH p). destruct (advance p s) as [[[s1 p1] cbs] es].
    now destruct (advance k s1) as [[[]]].
Qed.

Record config : Type := Config {
  store : state;
  threads : list (proc unit);
  trace : list event;
}.

(** [handlers s p]: in state [s] the handler [p] may be started. *)
Inductive step (handlers : state -> proc unit -> Prop) : config -> config -> Prop :=
| step_start s ts tr p s' p' cbs es :
    handlers s p ->
    advance p s = (s', p', cbs, es) ->
    step handlers (Config s ts tr) (Config s' (ts ++ p' :: cbs) (tr ++ es))
| step_resume s ts tr i e k r s' p' cbs es :
    ts !! i = Some (Await e k) ->
    advance (k r) s = (s', p', cbs, es) ->
    step handlers (Config s ts tr) (Config s' (<[i := p']> ts ++ cbs) (tr ++ es)).

Definition reachable (handlers : state -> proc unit -> Prop) (s0 : state) : config -> Prop :=
  rtc (step handlers) (Config s0 [] []).

(** *** Executions with the states they have passed *)

Inductive passes (handlers : state -> proc unit -> Prop) (s0 : state) : list state -> config -> Prop :=
| passes_init : passes handlers s0 [s0] (Config s0 [] [])
| passes_step past c c' :
    passes handlers s0 past c -> step handlers c c' -> passes handlers s0 (past ++ [store c']) c'.

Lemma step_mono (P Q : state -> proc unit -> Prop) c c' :
  (forall p, P (store c) p -> Q (store c) p) -> step P c c' -> step Q c c'.
Proof. intros HPQ Hs. destruct Hs; econstructor; eauto. Qed.

(** The executions of [reachable], where handlers are only started in states that have
    been passed. *)
Lemma passes_reachable handlers s0 past c :
  passes handlers s0 past c ->
  store c ∈ past /\ reachable (fun s p => s ∈ past /\ handlers s p) s0 c.
Proof.
  induction 1 as [|past c c' Hp [Hin Hr] Hs]; [split; [now left|apply rtc_refl]|].
  split; [apply elem_of_app; right; now left|]. eapply rtc_r.
  - apply (rtc_subrel (step (fun s p => s ∈ past /\ handlers s p))); [|exact Hr].
    intros c1 c2. apply step_mono. intros p [Hc Hh]. split; [|done]. apply elem_of_app. now left.
  - revert Hs. apply step_mono. intros p Hh. split; [|done]. apply elem_of_app. now left.
Qed.

Lemma reachable_passes handlers s0 c : reachable handlers s0 c -> exists past, passes handlers s0 past c.
Proof.
  intros Hr. refine (rtc_ind_r (fun c => exists past, passes handlers s0 past c) _ _ _ c Hr).
  - eexists. constructor.
  - intros c1 c2 _ Hs [past Hp]. eexists. econstructor; eauto.
Qed.

(** *** Sequential execution is one of the interleavings *)

Definition finished (p : proc unit) : Prop :=
  match p with Ret _ | Throw _ => True | _ => False end.

(** A process all of whose promises are awaited. *)
Fixpoint spawn_free {A} (p : proc A) : Prop :=
  match p with
  | Ret _ | Throw _ => True
  | Get k => forall s, spawn_free (k s)
  | Put _ k => spawn_free k
  | Await _ k => forall r, spawn_free (k r)
  | Spawn _ _ _ => False
  end.

Lemma spawn_free_bind {A B} (p : proc A) (f : A -> proc B) :
  spawn_free p -> (forall a, spawn_free (f a)) -> spawn_free (pbind p f).
Proof. revert f. induction p; cbn; eauto; contradiction. Qed.

Lemma spawn_free_catch {A} (p : proc A) (h : exn -> proc A) :
  spawn_free p -> (forall e, spawn_free (h e)) -> spawn_free (catch p h).
Proof. revert h. induction p; cbn; eauto; contradiction. Qed.

(** A suspended process can be resumed until it has finished, in the state [run]
    computes, without the other threads moving. *)
Lemma drive srv handlers (p : proc unit) :
  spawn_free p -> forall s s1 p1 cbs es, advance p s = (s1, p1, cbs, es) ->
  cbs = [] /\
  forall (ts : list (proc unit)) tr i n, ts !! i = Some p1 ->
  exists q tr',
    rtc (step handlers) (Config s1 ts tr)
      (Config (snd (fst (run srv p n s))) (<[i := q]> ts) tr') /\ finished q.
Proof.
  revert p. fix IH 1.
  intros [a|e|k|s' k|e k|]; cbn; intros Hf s s1 p1 cbs es Hadv; [| |eauto|eauto| |contradiction].
  1,2: injection Hadv as <- <- <- <-; split; [done|]; intros ts tr i n Hi;
    eexists _, tr; rewrite (list_insert_id ts i _ Hi); split; [apply rtc_refl|exact I].
  - injection Hadv as <- <- <- <-. split; [done|]. intros ts tr i n Hi.
    destruct (advance (k (srv (sent n) e)) s) as [[[s2 p2] cbs2] es2] eqn:E.
    destruct (IH (k (srv (sent n) e)) (Hf _) s s2 p2 cbs2 es2 E) as [-> IH'].
    assert (Hlt : (i < length ts)%nat) by (eapply lookup_lt_Some; eauto).
    destruct (IH' (<[i := p2]> ts) (tr ++ es2) i (Net (sent n ++ [e]) (pending n)))
      as (q & tr' & Hq & Hfin); [now apply list_lookup_insert_eq|].
    exists q, tr'. split; [|done]. rewrite list_insert_insert_eq in Hq.
    refine (rtc_l _ _ _ _ _ Hq). rewrite <- (app_nil_r (<[i := p2]> ts)).
    exact (step_resume _ s ts tr i e k _ s2 p2 [] es2 Hi E).
Qed.

Section Invariant.
(** [I] holds whenever no handler is running; [P] of every request sent. *)
Context (I : state -> Prop) (P : event -> Prop).

Definition keeps {A} (p : proc A) (s : state) : Prop :=
  wp (fun e _ => P e) (fun _ s' => I s') I p (fun _ => I) (fun _ => I) s.

(** A process that may be resumed in any state satisfying [I]. *)
Definition suspended_ok (p : proc unit) : Prop :=
  match p with
  | Await e k => forall r s, I s -> keeps (k r) s
  | _ => True
  end.

Lemma advance_keeps {A} (p : proc A) s :
  keeps p s ->
  forall s' p' cbs es, advance p s = (s', p', cbs, es) ->
  I s' /\ Forall P es /\ Forall suspended_ok cbs /\
  match p' with Await e k => forall r s, I s -> keeps (k r) s | _ => True end.
Proof.
  unfold keeps. revert s.
  induction p as [A a|A e|A k IH|A s1 k IH|A e k IH|A e h _ k IH]; cbn; intros s H s' p' cbs es Hadv.
  - injection Hadv as <- <- <- <-. auto.
  - injection Hadv as <- <- <- <-. auto.
  - eapply IH; eauto.
  - eapply IH; eauto.
  - injection Hadv as <- <- <- <-. destruct H as (HP & HI & H). auto.
  - destruct H as (HP & Hh & H).
    destruct (advance k s) as [[[s2 p2] cbs2] es2] eqn:E.
    injection Hadv as <- <- <- <-.
    destruct (IH s H _ _ _ _ E) as (HI & HF & Hc & Hk). auto.
Qed.

Definition config_ok (c : config) : Prop :=
  I (store c) /\ Forall suspended_ok (threads c) /\ Forall P (trace c).

Context (handlers : state -> proc unit -> Prop).
Hypothesis handlers_keep : forall p s, handlers s p -> I s -> keeps p s.

Lemma step_ok c c' : step handlers c c' -> config_ok c -> config_ok c'.
Proof.
  intros [s ts tr p s' p' cbs es Hp Hadv | s ts tr i e k r s' p' cbs es Hi Hadv]
    (HI & Hts & Htr); cbn in *.
  - destruct (advance_keeps p s (handlers_keep p s Hp HI) _ _ _ _ Hadv)
      as (HI' & HP & Hc & Hk).
    split; [done|]. split; cbn; repeat (apply Forall_app; split; auto).
  - assert (Hk : suspended_ok (Await e k)) by (eapply Forall_lookup_1; eauto).
    destruct (advance_keeps (k r) s (Hk r s HI) _ _ _ _ Hadv) as (HI' & HP & Hc & Hp').
    split; [done|]. split; cbn; apply Forall_app; split; auto.
    apply Forall_insert; auto.
Qed.

Theorem reachable_ok s0 c : I s0 -> reachable handlers s0 c -> config_ok c.
Proof.
  intros HI Hr.
  assert (H0 : config_ok (Config s0 [] [])) by (repeat split; cbn; auto).
  unfold reachable in Hr. revert H0.
  induction Hr as [c|c c1 c2 Hs Hr IH]; auto. intros H0.
  apply IH. eapply step_ok; eauto.
Qed.
End Invariant.
End Proc.

Arguments proc {event} reply state A.

(** ** Processes on a part of the state *)

Section Zoom.
Context {event : Type} {reply : event -> Type} {S T : Type} (l : lens S T).

(** [p] works on the part of the state at [l]. *)
Fixpoint zoom {A : Type} (p : proc reply T A) : proc reply S A :=
  match p with
  | Ret a => Ret a
  | Throw e => Throw e
  | Get k => Get (fun s => zoom (k (view l s)))
  | Put t k => Get (fun s => Put (put l t s) (zoom k))
  | Await e k => Await e (fun r => zoom (k r))
  | Spawn e h k => Spawn e (fun r => zoom (h r)) (zoom k)
  end.

Lemma keeps_zoom (I : T -> Prop) (P : event -> Prop) {A} (p : proc reply T A) s :
  keeps I P p (view l s) -> keeps (fun s => I (view l s)) P (zoom p) s.
Proof.
  unfold keeps. revert s.
  induction p as [A a|A e|A k IH|A t k IH|A e k IH|A e h IHh k IH]; cbn; intros s Hp; auto.
  - apply IH. now rewrite view_put.
  - destruct Hp as (HP & HI & Hp). auto.
  - destruct Hp as (HP & Hh & Hp). auto.
Qed.

Lemma advance_zoom {A} (p : proc reply T A) s :
  advance (zoom p) s =
  let '(t, p', cbs, es) := advance p (view l s) in (put l t s, zoom p', map zoom cbs, es).
Proof.
  revert s. induction p as [A a|A e|A k IH|A t k IH|A e k IH|A e h IHh k IH]; cbn; intros s.
  - now rewrite put_view.
  - now rewrite put_view.
  - apply IH.
  - rewrite IH, view_put. destruct (advance k t) as [[[t' p'] cbs] es]. now rewrite put_put.
  - now rewrite put_view.
  - rewrite IH. now destruct (advance k (view l s)) as [[[t' p'] cbs] es].
Qed.

(** The rest of the state keeps a property that does not depend on this part. *)
Lemma keeps_zoom_frame (F : S -> Prop) (J : T -> Prop) (P : event -> Prop) {A} (p : proc reply T A) s :
  (forall t s, F s -> F (put l t s)) -> F s -> keeps J P p (view l s) ->
  keeps (fun s => F s /\ J (view l s)) P (zoom p) s.
Proof.
  intros HF. unfold keeps. revert s.
  induction p as [A a|A e|A k IH|A t k IH|A e k IH|A e h IHh k IH]; cbn; intros s Hs Hp; auto.
  - apply IH; [auto|]. now rewrite view_put.
  - destruct Hp as (HP & HI & Hp). split; [done|]. split; [done|]. intros r s' [Hs' HJ]. auto.
  - destruct Hp as (HP & Hh & Hp). split; [done|]. split; [|auto]. intros r s' [Hs' HJ]. auto.
Qed.

Lemma run_zoom srv {A} (p : proc reply T A) n n' s :
  sent n = sent n' ->
  run srv (zoom p) n s =
  let '(o, t, _) := run srv p n' (view l s) in
  (o, put l t s, (run srv (zoom p) n s).2).
Proof.
  revert n n' s.
  induction p as [A a|A e|A k IH|A t k IH|A e k IH|A e h IHh k IH]; cbn; intros n n' s Hn.
  1,2: now rewrite put_view.
  - now apply IH.
  - rewrite (IH n n' (put l t s) Hn), view_put.
    destruct (run srv k n' t) as [[o t'] n2]. cbn. now rewrite put_put.
  - rewrite Hn. now apply IH.
  - apply IH. cbn. now rewrite Hn.
Qed.
End Zoom.

Create Rewrite HintDb proc.
#[export] Hint Rewrite @run_bind @run_catch @run_finally : proc.

(** Unfold the monad of processes down to its primitive operations. *)
Ltac proc_simpl :=
  unfold reads, modify, await in *; cbn in *.
