(* ===== verification/Json.v ===== *)
(** * JSON values and their serialisation

    [JSON.stringify] as the frontend uses it: request bodies are [json] values,
    and [GroupsList.vue] compares lists of identifiers and nullable strings by
    comparing their serialisations. The file proves that this comparison is
    equality. *)

From S2P Require Import Prelude.
From Stdlib Require Import Ascii.
From stdpp Require Import base tactics list numbers strings pretty.


#[local] Set Warnings "-register-all".
#[local] Arguments String.append !_ _ /.

Inductive json : Type :=
| JNull
| JBool (b : bool)
| JNum (n : Z)
| JStr (s : string)
| JArr (l : list json)
| JObj (fields : list (string * json)).

(** ** Text of a value *)

Definition chr (n : nat) : string := String (ascii_of_nat n) EmptyString.
Definition dquote : string := chr 34.
Definition backslash : string := chr 92.

Definition hex_digit (n : nat) : string :=
  chr (if decide (n < 10)%nat then 48 + n else 87 + n)%nat.

(** QuoteJSONString on one code unit. *)
Definition json_escape (c : ascii) : string :=
  let n := nat_of_ascii c in
  match n with
  | 8%nat => backslash +:+ "b"
  | 9%nat => backslash +:+ "t"
  | 10%nat => backslash +:+ "n"
  | 12%nat => backslash +:+ "f"
  | 13%nat => backslash +:+ "r"
  | 34%nat => backslash +:+ dquote
  | 92%nat => backslash +:+ backslash
  | _ => if decide (n < 32)%nat
         then backslash +:+ "u00" +:+ hex_digit (n / 16) +:+ hex_digit (n mod 16)
         else String c EmptyString
  end.

Fixpoint escape_string (s : string) : string :=
  match s with
  | EmptyString => EmptyString
  | String c s => json_escape c +:+ escape_string s
  end.

Definition json_quote (s : string) : string := dquote +:+ escape_string s +:+ dquote.

Fixpoint js_join (sep : string) (l : list string) : string :=
  match l with
  | [] => ""
  | [x] => x
  | x :: l => x +:+ sep +:+ js_join sep l
  end.

Fixpoint stringify (v : json) : string :=
  match v with
  | JNull => "null"
  | JBool b => if b then "true" else "false"
  | JNum n => pretty n
  | JStr s => json_quote s
  | JArr l => "[" +:+ js_join "," (map stringify l) +:+ "]"
  | JObj fs => "{" +:+ js_join "," (map (fun '(k, v) => json_quote k +:+ ":" +:+ stringify v) fs) +:+ "}"
  end.

Definition json_nums (l : list Z) : json := JArr (map JNum l).
Definition json_nullable (s : option string) : json :=
  match s with Some s => JStr s | None => JNull end.

(** ** Injectivity *)

(** [s] begins with [p]: the rest of [s]. *)
Fixpoint strip_prefix (p s : string) : option string :=
  match p, s with
  | EmptyString, _ => Some s
  | String a p, String b s => if Ascii.eqb a b then strip_prefix p s else None
  | _, EmptyString => None
  end.

Lemma strip_prefix_app p s : strip_prefix p (p +:+ s) = Some s.
Proof.
  induction p as [|a p IH]; auto. cbn [strip_prefix String.append].
  now rewrite Ascii.eqb_refl.
Qed.

Definition comparable (p q : string) : bool :=
  match strip_prefix p q, strip_prefix q p with None, None => false | _, _ => true end.

Lemma comparable_app p q r1 r2 : p +:+ r1 = q +:+ r2 -> comparable p q = true.
Proof.
  revert q. induction p as [|a p IH]; intros q H; [now destruct q|].
  destruct q as [|b q]; [now cbn|].
  cbn in H. injection H as -> H. apply IH in H. unfold comparable in *.
  cbn [strip_prefix].
  now rewrite Ascii.eqb_refl.
Qed.

Lemma string_app_inv_l p (r1 r2 : string) : p +:+ r1 = p +:+ r2 -> r1 = r2.
Proof. induction p as [|a p IH]; cbn; auto. intros H. injection H. auto. Qed.

(** All code units, for checks by computation. *)
Definition all_ascii : list ascii := map ascii_of_nat (seq 0 256).

Lemma all_ascii_complete c : c ∈ all_ascii.
Proof.
  apply list_elem_of_In, in_map_iff. exists (nat_of_ascii c). split.
  - apply ascii_nat_embedding.
  - apply in_seq. pose proof (nat_ascii_bounded c). lia.
Qed.

(** The escape sequences and the closing quote form a prefix code. *)
Definition escape_table : list (ascii * string) :=
  map (fun a => (a, json_escape a)) all_ascii.

Definition escapes_prefix_free : bool :=
  let t := escape_table in
  forallb (fun '(a, ea) => negb (comparable dquote ea) &&
    forallb (fun '(b, eb) => Ascii.eqb a b || negb (comparable ea eb)) t) t.

Lemma escapes_prefix_free_ok : escapes_prefix_free = true.
Proof. vm_compute. reflexivity. Qed.

Lemma escape_in_table c : In (c, json_escape c) escape_table.
Proof.
  unfold escape_table. apply in_map_iff. exists c. split; auto.
  apply list_elem_of_In, all_ascii_complete.
Qed.

(** What the table's check says of two code units. *)
Lemma escapes_prefix_free_spec c d :
  comparable dquote (json_escape c) = false /\
  (c <> d -> comparable (json_escape c) (json_escape d) = false).
Proof.
  pose proof escapes_prefix_free_ok as Hp. unfold escapes_prefix_free in Hp.
  rewrite forallb_forall in Hp. specialize (Hp _ (escape_in_table c)). cbn beta iota in Hp.
  apply andb_prop in Hp as [Hq Hp]. split; [now apply negb_true_iff|]. intros Hne.
  rewrite forallb_forall in Hp. specialize (Hp _ (escape_in_table d)). cbn beta iota in Hp.
  apply orb_prop in Hp as [Hp|Hp]; [now apply Ascii.eqb_eq in Hp|now apply negb_true_iff].
Qed.

Lemma escape_not_quote c r1 r2 : json_escape c +:+ r1 <> dquote +:+ r2.
Proof.
  intros H. symmetry in H. apply comparable_app in H.
  destruct (escapes_prefix_free_spec c c). congruence.
Qed.

Lemma escape_inj c d r1 r2 : json_escape c +:+ r1 = json_escape d +:+ r2 -> c = d /\ r1 = r2.
Proof.
  intros H. destruct (decide (c = d)) as [->|Hne].
  { split; auto. eapply string_app_inv_l; eauto. }
  apply comparable_app in H. destruct (escapes_prefix_free_spec c d) as [_ Hc].
  rewrite Hc in H by done. discriminate.
Qed.

Lemma string_app_assoc (a b c : string) : (a +:+ b) +:+ c = a +:+ (b +:+ c).
Proof. induction a; cbn; congruence. Qed.

Lemma escape_string_inj s t r1 r2 :
  escape_string s +:+ dquote +:+ r1 = escape_string t +:+ dquote +:+ r2 -> s = t.
Proof.
  revert t. induction s as [|c s IH]; intros [|d t]; cbn [escape_string]; auto;
    rewrite ?string_app_assoc; intros H.
  - symmetry in H. now apply escape_not_quote in H.
  - now apply escape_not_quote in H.
  - apply escape_inj in H as [-> H]. f_equal. eauto.
Qed.

Lemma json_quote_inj s t : json_quote s = json_quote t -> s = t.
Proof.
  unfold json_quote. intros H. apply string_app_inv_l in H.
  apply (escape_string_inj s t "" "").
  exact H.
Qed.

Lemma stringify_nullable_inj a b :
  stringify (json_nullable a) = stringify (json_nullable b) -> a = b.
Proof.
  destruct a as [a|], b as [b|]; cbn; try discriminate; auto.
  intros H. now apply json_quote_inj in H as ->.
Qed.

(** ** Lists of numbers: decimal numerals contain no separator *)

Fixpoint str_has (c : ascii) (s : string) : bool :=
  match s with
  | EmptyString => false
  | String d s => Ascii.eqb c d || str_has c s
  end.

Lemma str_has_app c s t : str_has c (s +:+ t) = str_has c s || str_has c t.
Proof.
  induction s as [|d s IH]; auto. cbn [str_has String.append]. rewrite IH.
  now destruct (Ascii.eqb c d).
Qed.

(** A numeral is made of digits and possibly a leading minus sign. *)
Definition numeral_free (c : ascii) : bool := negb (str_has c "-0123456789").

Lemma digit_free c n : numeral_free c = true -> Ascii.eqb c (pretty_N_char n) = false.
Proof.
  unfold numeral_free. cbn [str_has]. intros H. apply negb_true_iff in H.
  repeat (apply orb_false_elim in H as [? H]). unfold pretty_N_char.
  repeat case_match; auto.
Qed.

Lemma pretty_N_go_free c n s :
  numeral_free c = true -> str_has c s = false -> str_has c (pretty_N_go n s) = false.
Proof.
  intros Hc. revert s. induction (N.lt_wf_0 n) as [n _ IH]; intros s Hs.
  assert (n = 0 \/ 0 < n)%N as [->|Hn] by lia; [now rewrite pretty_N_go_0|].
  rewrite pretty_N_go_step by done. apply IH; [now apply N.div_lt|].
  cbn [str_has]. now rewrite digit_free.
Qed.

Lemma pretty_N_free c (n : N) : numeral_free c = true -> str_has c (pretty n) = false.
Proof.
  intros Hc. unfold pretty, pretty_N. case_decide.
  - exact (f_equal (fun b => b || false) (digit_free c 0 Hc)).
  - now apply pretty_N_go_free.
Qed.

Lemma pretty_Z_free c (z : Z) : numeral_free c = true -> str_has c (pretty z) = false.
Proof.
  intros Hc. destruct z as [|p|p].
  - exact (f_equal (fun b => b || false) (digit_free c 0 Hc)).
  - now apply (pretty_N_free c (N.pos p)).
  - change (pretty (Z.neg p)) with ("-" +:+ pretty (N.pos p)).
    rewrite str_has_app, pretty_N_free by done. rewrite orb_false_r.
    unfold numeral_free in Hc. apply negb_true_iff in Hc. cbn [str_has] in Hc |- *.
    apply orb_false_elim in Hc as [-> _]. reflexivity.
Qed.

Lemma split_at_char c x y r1 r2 :
  str_has c x = false -> str_has c y = false ->
  x +:+ String c r1 = y +:+ String c r2 -> x = y /\ r1 = r2.
Proof.
  revert y. induction x as [|a x IH]; intros [|b y] Hx Hy H; cbn in H.
  - injection H. auto.
  - injection H as -> H. cbn [str_has] in Hy. now rewrite Ascii.eqb_refl in Hy.
  - injection H as -> H. cbn [str_has] in Hx. now rewrite Ascii.eqb_refl in Hx.
  - injection H as -> H. cbn [str_has] in Hx, Hy.
    apply orb_false_elim in Hx as [_ Hx], Hy as [_ Hy].
    destruct (IH y Hx Hy H) as [-> ->]. auto.
Qed.

(** Two different separators cannot end numerals at the same place. *)
Lemma sep_mismatch c d (x y : Z) r1 r2 :
  numeral_free c = true -> numeral_free d = true -> c <> d ->
  pretty x +:+ String c r1 <> pretty y +:+ String d r2.
Proof.
  intros Hc Hd Hne.
  pose proof (pretty_Z_free c x Hc) as Hcx. pose proof (pretty_Z_free c y Hc) as Hcy.
  pose proof (pretty_Z_free d x Hd) as Hdx. pose proof (pretty_Z_free d y Hd) as Hdy.
  revert Hcx Hcy Hdx Hdy. generalize (pretty y) as t. generalize (pretty x) as s.
  induction s as [|a s IH]; intros [|b t] Hcx Hcy Hdx Hdy H; cbn in H.
  - injection H. congruence.
  - injection H as -> H. cbn [str_has] in Hcy. now rewrite Ascii.eqb_refl in Hcy.
  - injection H as -> H. cbn [str_has] in Hdx. now rewrite Ascii.eqb_refl in Hdx.
  - injection H as -> H. cbn [str_has] in *. reflect_bools. eapply IH; eauto.
Qed.

Definition comma : ascii := ascii_of_nat 44.
Definition bracket : ascii := ascii_of_nat 93.

(** The tail of a serialised list: either the end or a comma and more. *)
Lemma js_join_cons_tail (x : string) (l : list string) (e : string) :
  js_join "," (x :: l) +:+ e = x +:+ (match l with [] => e | _ => String comma (js_join "," l +:+ e) end).
Proof.
  destruct l as [|y l]; auto. cbn [js_join]. rewrite !string_app_assoc. reflexivity.
Qed.

Lemma pretty_N_go_length n s : (String.length s <= String.length (pretty_N_go n s))%nat.
Proof.
  revert s. induction (N.lt_wf_0 n) as [n _ IH]; intros s.
  assert (n = 0 \/ 0 < n)%N as [->|Hn] by lia; [now rewrite pretty_N_go_0|].
  rewrite pretty_N_go_step by done. etrans; [|apply IH; now apply N.div_lt]. cbn. lia.
Qed.

Lemma pretty_Z_nonempty (z : Z) : pretty z <> "".
Proof.
  destruct z as [|p|p]; try discriminate.
  change (pretty (Z.pos p)) with (pretty (N.pos p)). unfold pretty, pretty_N.
  case_decide; [discriminate|]. rewrite pretty_N_go_step by lia. intros Hp.
  pose proof (pretty_N_go_length (N.pos p `div` 10)
                (String (pretty_N_char (N.pos p `mod` 10)) "")) as L.
  rewrite Hp in L. cbn in L. lia.
Qed.

(** A numeral does not begin with a separator. *)
Lemma numeral_head (z : Z) c r r' :
  numeral_free c = true -> pretty z +:+ r <> String c r'.
Proof.
  intros Hc H. destruct (pretty z) as [|a s] eqn:E; [now apply (pretty_Z_nonempty z)|].
  pose proof (pretty_Z_free c z Hc) as Hf. rewrite E in Hf. cbn in H.
  injection H as -> _. cbn [str_has] in Hf. now rewrite Ascii.eqb_refl in Hf.
Qed.

Lemma js_join_nums_inj l m :
  js_join "," (map (fun n : Z => pretty n) l) +:+ String bracket "" =
  js_join "," (map (fun n : Z => pretty n) m) +:+ String bracket "" -> l = m.
Proof.
  revert m. induction l as [|x l IH]; intros [|y m]; auto; cbn [map];
    rewrite ?js_join_cons_tail; intros H.
  - symmetry in H. now apply numeral_head in H.
  - now apply numeral_head in H.
  - destruct l as [|x' l], m as [|y' m]; cbn [map] in *.
    + apply split_at_char in H as [H _]; try now apply pretty_Z_free.
      now apply (inj pretty) in H as ->.
    + now apply sep_mismatch in H.
    + now apply sep_mismatch in H.
    + apply split_at_char in H as [H H']; try now apply pretty_Z_free.
      apply (inj pretty) in H as ->. f_equal. now apply IH.
Qed.

Lemma stringify_nums_inj l m :
  stringify (json_nums l) = stringify (json_nums m) -> l = m.
Proof.
  intros H. unfold json_nums in H. cbn [stringify] in H. rewrite !map_map in H.
  apply (string_app_inv_l "[") in H. now apply js_join_nums_inj.
Qed.

#[global] Arguments stringify : simpl never.
#[global] Arguments json_nums : simpl never.
