(* ===== verification/Http.v ===== *)
(** * Requests to the management server

    The resource types of [common/utils.ts], the requests the frontend sends,
    and the answers it may get. The type of an answer's JSON document is
    determined by the endpoint, as the interfaces of [utils.ts] declare; a
    document that does not parse is the answer without one. *)

From S2P Require Import Prelude Json.
From stdpp Require Import base tactics list gmap strings.
#[local] Open Scope Z_scope.

(** ** Resources (the interfaces of [common/utils.ts]) *)

Inductive PermissionKind : Type := PRead | PUpdate | PDelete | PShell.
Inductive ResourceKind : Type := RPackage | RGroup | RDevice.

#[export] Instance PermissionKind_eq_dec : EqDecision PermissionKind.
Proof. solve_decision. Defined.
#[export] Instance ResourceKind_eq_dec : EqDecision ResourceKind.
Proof. solve_decision. Defined.

Record Permission : Type := MkPermission {
  perm_permission : PermissionKind;
  perm_resource : ResourceKind;
  perm_resource_id : Z;
  perm_user_id : string;
}.

Record Package : Type := MkPackage {
  pkg_id : Z;
  pkg_created : string;
  pkg_sha256 : string;
  pkg_driver : string;
  pkg_metadata : gmap string string;
}.

(** A metadata value of a device: [string | string[]]. *)
Inductive MetaValue : Type :=
| MStr (s : string)
| MList (l : list string).

#[export] Instance MetaValue_eq_dec : EqDecision MetaValue.
Proof. solve_decision. Defined.

Record PendingDevice : Type := MkPendingDevice {
  pd_public_key : string;
  pd_mac_address : string;
  pd_last_appeared : string;
  pd_metadata : gmap string MetaValue;
}.

Record RegisteredDevice : Type := MkRegisteredDevice {
  dev_id : Z;
  dev_last_access : string;
  dev_name : string;
  dev_mac_address : string;
  dev_groups : option (list Z);
  dev_metadata : gmap string MetaValue;
  dev_capabilities : gmap string bool;
  dev_public_key : string;
  dev_connected : bool;
  dev_progress : option Z;
}.

#[export] Instance RegisteredDevice_eq_dec : EqDecision RegisteredDevice.
Proof. solve_decision. Defined.

Record Group : Type := MkGroup {
  grp_id : Z;
  grp_created : string;
  grp_packages : list Z;
  grp_devices : list Z;
  grp_metadata : gmap string string;
  grp_policy : string;
  grp_priority : Z;
}.

(** [type Action] of [components/devices/devices.ts]. *)
Record Action : Type := MkAction {
  action_id : string;
  action_name : string;
  action_command : list string;
  action_description : string;
}.

(** The entries of the action log, as [Device.vue] reads them. *)
Record Task : Type := MkTask {
  task_id : string;
  task_status : string;
  task_selected : bool;
  task_action : string;
  task_created : string;
  task_download_url : option string;
}.

(** ** Documents the endpoints return *)

Inductive doc : Type :=
| DPermissions | DPackages | DPending | DDevices | DGroups
| DTags | DActions | DActionLog | DExec | DDownloadUrl | DFile | DIgnored.

Definition denote (d : doc) : Type :=
  match d with
  | DPermissions => list Permission
  | DPackages => list Package
  | DPending => list PendingDevice
  | DDevices => list RegisteredDevice
  | DGroups => list Group
  | DTags => list string
  | DActions => list Action
  | DActionLog => list Task
  | DExec => option Z         (* [status_code]; [None]: the document is falsy *)
  | DDownloadUrl => string    (* [download_url] *)
  | DFile => Z * string       (* [status] and [url] *)
  | DIgnored => unit
  end.

(** ** Requests and answers *)

Abbreviation Headers := (gmap string string).

Inductive body : Type :=
| BJson (v : json)
| BForm (fields : list (string * string)).

Record request : Type := Request {
  rq_doc : doc;
  rq_url : string;
  rq_method : string;
  rq_headers : Headers;
  rq_body : option body;
}.

Inductive http_outcome (D : Type) : Type :=
| NetworkError
| Response (status : Z) (json : option D).
Arguments NetworkError {D}.
Arguments Response {D}.

(** What the frontend awaits: a request, or a navigation of the router. *)
Inductive event : Type :=
| EHttp (r : request)
| ENavigate (name : string).

Definition reply (e : event) : Type :=
  match e with
  | EHttp r => http_outcome (denote (rq_doc r))
  | ENavigate _ => unit
  end.

(** [Response.ok] *)
Definition response_ok (status : Z) : bool := (200 <=? status) && (status <=? 299).

(** The codes of [http-status-codes] the frontend names. *)
Module StatusCodes.
Definition BAD_REQUEST : Z := 400.
Definition UNAUTHORIZED : Z := 401.
Definition FORBIDDEN : Z := 403.
Definition NOT_FOUND : Z := 404.
Definition CONFLICT : Z := 409.
End StatusCodes.
