(* ===== verification/App.v ===== *)
(** * The frontend's module state

    Every [ref], [reactive] and module-level variable of [common/utils.ts],
    [groups.ts], [packages.ts] and [devices.ts], with the browser's storage and
    location and the toasts on the page. The state of a mounted component is
    kept apart: a component works on [world L], the module state with its own
    [L], and the operations of the modules work on any state that holds an [App]
    ([HasApp]). *)

From S2P Require Import Prelude Json Http Async.
From stdpp Require Import base tactics list gmap strings.
#[local] Open Scope Z_scope.

(** ** Building blocks *)

Inductive PollingStatus : Type := InitialPoll | UnreachableURL | ActivePolling.

#[export] Instance PollingStatus_eq_dec : EqDecision PollingStatus.
Proof. solve_decision. Defined.

(** The two refs of one [resourcesGetter]. *)
Record resource (T : Type) : Type := MkResource {
  resources : option T;
  pollingStatus : PollingStatus;
}.
Arguments MkResource {T}.
Arguments resources {T}.
Arguments pollingStatus {T}.

Definition fresh_resource {T} : resource T := MkResource None InitialPoll.

(** A notification: its kind and its HTML. *)
Inductive toast : Type :=
| ToastSuccess (html : string)
| ToastError (html : string).

#[export] Instance toast_eq_dec : EqDecision toast.
Proof. solve_decision. Defined.

(** ** The state *)

Record browser : Type := MkBrowser {
  localStorage : gmap string string;
  location_href : string;
  opened : list string;        (* [window.open], in order *)
  timers : list Z;             (* the intervals that are running *)
  next_timer : Z;              (* the identifier the next one gets *)
}.

Record toasts : Type := MkToasts {
  on_page : list toast;        (* the [.v-toast__item] elements *)
  enqueued : list toast;       (* the callbacks waiting in [enqueued] *)
  displayed : list toast;      (* the calls of the toast plugin, in order *)
}.

Record access : Type := MkAccess {
  adminRoles : list string;
  permissions : list Permission;
}.

Record groups_module : Type := MkGroupsModule {
  gm_headers : Headers;        (* the one [headers] object all requests share *)
  gm_groups : resource (list Group);
  gm_packages : resource (list Package);
  gm_devices : resource (list RegisteredDevice);
}.

Record packages_module : Type := MkPackagesModule {
  pm_packages : resource (list Package);
  pm_groups : resource (list Group);
}.

Record devices_module : Type := MkDevicesModule {
  dm_pending : resource (list PendingDevice);
  dm_registered : resource (list RegisteredDevice);
  dm_groups : resource (list Group);
  deviceUpdates : gmap string Z;
  deviceVersions : gmap string string;
  deviceConnections : gmap string bool;
  deviceActions : gmap string (list Action);
}.

Record App : Type := MkApp {
  app_browser : browser;
  app_toasts : toasts;
  app_access : access;
  app_groups : groups_module;
  app_packages : packages_module;
  app_devices : devices_module;
}.

(** ** Lenses *)

Ltac lens_laws := try reflexivity; intros []; reflexivity.

Definition l_browser : lens App browser.
Proof.
  refine (Lens app_browser (fun x a => MkApp x (app_toasts a) (app_access a) (app_groups a)
    (app_packages a) (app_devices a)) _ _ _); lens_laws.
Defined.
Definition l_toasts : lens App toasts.
Proof.
  refine (Lens app_toasts (fun x a => MkApp (app_browser a) x (app_access a) (app_groups a)
    (app_packages a) (app_devices a)) _ _ _); lens_laws.
Defined.
Definition l_access : lens App access.
Proof.
  refine (Lens app_access (fun x a => MkApp (app_browser a) (app_toasts a) x (app_groups a)
    (app_packages a) (app_devices a)) _ _ _); lens_laws.
Defined.
Definition l_groups : lens App groups_module.
Proof.
  refine (Lens app_groups (fun x a => MkApp (app_browser a) (app_toasts a) (app_access a) x
    (app_packages a) (app_devices a)) _ _ _); lens_laws.
Defined.
Definition l_packages : lens App packages_module.
Proof.
  refine (Lens app_packages (fun x a => MkApp (app_browser a) (app_toasts a) (app_access a)
    (app_groups a) x (app_devices a)) _ _ _); lens_laws.
Defined.
Definition l_devices : lens App devices_module.
Proof.
  refine (Lens app_devices (fun x a => MkApp (app_browser a) (app_toasts a) (app_access a)
    (app_groups a) (app_packages a) x) _ _ _); lens_laws.
Defined.

Definition l_storage : lens App (gmap string string).
Proof.
  refine (lens_comp l_browser (Lens localStorage
    (fun x b => MkBrowser x (location_href b) (opened b) (timers b) (next_timer b)) _ _ _)); lens_laws.
Defined.
Definition l_href : lens App string.
Proof.
  refine (lens_comp l_browser (Lens location_href
    (fun x b => MkBrowser (localStorage b) x (opened b) (timers b) (next_timer b)) _ _ _)); lens_laws.
Defined.
Definition l_opened : lens App (list string).
Proof.
  refine (lens_comp l_browser (Lens opened
    (fun x b => MkBrowser (localStorage b) (location_href b) x (timers b) (next_timer b)) _ _ _)); lens_laws.
Defined.
Definition l_timers : lens App (list Z * Z).
Proof.
  refine (lens_comp l_browser (Lens (fun b => (timers b, next_timer b))
    (fun x b => MkBrowser (localStorage b) (location_href b) (opened b) x.1 x.2) _ _ _));
    try reflexivity; now intros [].
Defined.
Definition l_adminRoles : lens App (list string).
Proof.
  refine (lens_comp l_access (Lens adminRoles (fun x b => MkAccess x (permissions b)) _ _ _));
    lens_laws.
Defined.
Definition l_permissions : lens App (list Permission).
Proof.
  refine (lens_comp l_access (Lens permissions (fun x b => MkAccess (adminRoles b) x) _ _ _));
    lens_laws.
Defined.

Definition l_gm_headers : lens App Headers.
Proof.
  refine (lens_comp l_groups (Lens gm_headers (fun x m =>
    MkGroupsModule x (gm_groups m) (gm_packages m) (gm_devices m)) _ _ _)); lens_laws.
Defined.
Definition l_gm_groups : lens App (resource (list Group)).
Proof.
  refine (lens_comp l_groups (Lens gm_groups (fun x m =>
    MkGroupsModule (gm_headers m) x (gm_packages m) (gm_devices m)) _ _ _)); lens_laws.
Defined.
Definition l_gm_packages : lens App (resource (list Package)).
Proof.
  refine (lens_comp l_groups (Lens gm_packages (fun x m =>
    MkGroupsModule (gm_headers m) (gm_groups m) x (gm_devices m)) _ _ _)); lens_laws.
Defined.
Definition l_gm_devices : lens App (resource (list RegisteredDevice)).
Proof.
  refine (lens_comp l_groups (Lens gm_devices (fun x m =>
    MkGroupsModule (gm_headers m) (gm_groups m) (gm_packages m) x) _ _ _)); lens_laws.
Defined.
Definition l_pm_packages : lens App (resource (list Package)).
Proof.
  refine (lens_comp l_packages (Lens pm_packages (fun x m =>
    MkPackagesModule x (pm_groups m)) _ _ _)); lens_laws.
Defined.
Definition l_pm_groups : lens App (resource (list Group)).
Proof.
  refine (lens_comp l_packages (Lens pm_groups (fun x m =>
    MkPackagesModule (pm_packages m) x) _ _ _)); lens_laws.
Defined.
Definition l_dm_pending : lens App (resource (list PendingDevice)).
Proof.
  refine (lens_comp l_devices (Lens dm_pending (fun x m => MkDevicesModule
    x (dm_registered m) (dm_groups m) (deviceUpdates m) (deviceVersions m) (deviceConnections m) (deviceActions m)) _ _ _)); lens_laws.
Defined.
Definition l_dm_registered : lens App (resource (list RegisteredDevice)).
Proof.
  refine (lens_comp l_devices (Lens dm_registered (fun x m => MkDevicesModule
    (dm_pending m) x (dm_groups m) (deviceUpdates m) (deviceVersions m) (deviceConnections m) (deviceActions m)) _ _ _)); lens_laws.
Defined.
Definition l_dm_groups : lens App (resource (list Group)).
Proof.
  refine (lens_comp l_devices (Lens dm_groups (fun x m => MkDevicesModule
    (dm_pending m) (dm_registered m) x (deviceUpdates m) (deviceVersions m) (deviceConnections m) (deviceActions m)) _ _ _)); lens_laws.
Defined.
Definition l_deviceUpdates : lens App (gmap string Z).
Proof.
  refine (lens_comp l_devices (Lens deviceUpdates (fun x m => MkDevicesModule
    (dm_pending m) (dm_registered m) (dm_groups m) x (deviceVersions m) (deviceConnections m) (deviceActions m)) _ _ _)); lens_laws.
Defined.
Definition l_deviceVersions : lens App (gmap string string).
Proof.
  refine (lens_comp l_devices (Lens deviceVersions (fun x m => MkDevicesModule
    (dm_pending m) (dm_registered m) (dm_groups m) (deviceUpdates m) x (deviceConnections m) (deviceActions m)) _ _ _)); lens_laws.
Defined.
Definition l_deviceConnections : lens App (gmap string bool).
Proof.
  refine (lens_comp l_devices (Lens deviceConnections (fun x m => MkDevicesModule
    (dm_pending m) (dm_registered m) (dm_groups m) (deviceUpdates m) (deviceVersions m) x (deviceActions m)) _ _ _)); lens_laws.
Defined.
Definition l_deviceActions : lens App (gmap string (list Action)).
Proof.
  refine (lens_comp l_devices (Lens deviceActions (fun x m => MkDevicesModule
    (dm_pending m) (dm_registered m) (dm_groups m) (deviceUpdates m) (deviceVersions m) (deviceConnections m) x) _ _ _)); lens_laws.
Defined.

(** ** States that hold the module state *)

Class HasApp (S : Type) : Type := app_lens : lens S App.

#[export] Instance HasApp_App : HasApp App := lens_id App.

(** A mounted component: the module state and its own. *)
Definition world (L : Type) : Type := App * L.
#[export] Instance HasApp_world (L : Type) : HasApp (world L) := lens_fst App L.

Definition at_app {S T} `{HasApp S} (l : lens App T) : lens S T := lens_comp app_lens l.
#[global] Arguments at_app : simpl never.

(** A write to one part of the module state, seen from another part. *)
Lemma view_at_app_put {S T U} `{HasApp S} (l : lens App T) (m : lens App U) u (s : S) :
  view (at_app l) (put (at_app m) u s) = view l (put m u (view app_lens s)).
Proof. unfold at_app. cbn. now rewrite view_put. Qed.

Lemma view_app_put {S U} `{HasApp S} (m : lens App U) u (s : S) :
  view app_lens (put (at_app m) u s) = put m u (view app_lens s).
Proof. unfold at_app. cbn. now rewrite view_put. Qed.

Lemma view_at_app {S T} `{HasApp S} (l : lens App T) (s : S) :
  view (at_app l) s = view l (view app_lens s).
Proof. reflexivity. Qed.

(** The module state of a mounted component. *)
Lemma put_world {L T} (m : lens App T) t (a : App) (l : L) :
  put (at_app (S := world L) m) t (a, l) = (put m t a, l).
Proof. reflexivity. Qed.
Lemma view_world {L T} (m : lens App T) (a : App) (l : L) :
  view (at_app (S := world L) m) (a, l) = view m a.
Proof. reflexivity. Qed.

Definition local_state {L} : lens (world L) L := lens_snd App L.

(** A page with a component mounted in it: the page and the component. *)
Definition l_page {L C} : lens (world (L * C)) (world L).
Proof.
  refine (Lens (fun s => (fst s, fst (snd s))) (fun t s => (fst t, (snd t, snd (snd s)))) _ _ _);
    [now intros []|now intros [? []]|reflexivity].
Defined.
Definition l_component {L C} : lens (world (L * C)) (world C).
Proof.
  refine (Lens (fun s => (fst s, snd (snd s))) (fun t s => (fst t, (fst (snd s), snd t))) _ _ _);
    [now intros []|now intros [? []]|reflexivity].
Defined.
Definition l_child {L C} : lens (world (L * C)) C := lens_comp local_state (lens_snd L C).

(** ** Processes of the frontend *)

Abbreviation js S A := (proc (event := event) reply S A).
Abbreviation server := (list event -> forall e : event, reply e).

Declare Scope js_scope.
Delimit Scope js_scope with js.

Section Ops.
Context {S : Type} {A B T : Type}.
Definition jret (a : A) : js S A := Ret a.
Definition jthrow (e : exn) : js S A := Throw e.
Definition jbind (p : js S A) (f : A -> js S B) : js S B := pbind p f.
Definition ask (f : S -> A) : js S A := reads f.
Definition read (l : lens S T) : js S T := reads (view l).
Definition assign (l : lens S T) (t : T) : js S unit := modify (put l t).
Definition update (l : lens S T) (f : T -> T) : js S unit := modify (over l f).
(** The browser's [fetch], with the JSON document of its answer. *)
Definition fetch (d : doc) (url method : string) (headers : Headers) (b : option body)
    : js S (http_outcome (denote d)) := await (EHttp (Request d url method headers b)).
Definition navigate (name : string) : js S unit := await (ENavigate name).
End Ops.

Section Timers.
Context {S : Type} `{HasApp S}.

(** [setInterval(..)]: a new timer starts; its identifier is returned. *)
Definition setInterval : js S Z :=
  Get (fun s =>
    let '(running, next) := view (at_app l_timers) s in
    Put (put (at_app l_timers) (running ++ [next], next + 1) s) (Ret next)).

(** [clearInterval(id)] *)
Definition clearInterval (id : Z) : js S unit :=
  update (at_app l_timers) (fun '(running, next) =>
    (List.filter (fun t => negb (t =? id)) running, next)).

(** [window.open(url)] *)
Definition window_open (url : string) : js S unit := update (at_app l_opened) (fun l => l ++ [url]).
End Timers.

(** Sequencing in the order of the source's statements. *)
Notation "'let*' x := p 'in' q" := (jbind p (fun x => q))
  (at level 10, x name, p at level 200, q at level 200) : js_scope.
Notation "p ;;; q" := (jbind p (fun _ => q))
  (at level 101, q at level 200, right associativity) : js_scope.
#[global] Open Scope js_scope.

(** Reads of parts that a write has not touched. *)
Ltac frame := rewrite ?view_at_app, ?view_at_app_put, ?view_app_put; cbn; auto.

(** *** Running the primitives *)

Section RunOps.
Context {S A B C T : Type} (srv : server).
Implicit Types (n : net (event := event) (reply := reply) (state := S)) (s : S).

Lemma run_read (l : lens S T) (f : T -> js S B) n s :
  run srv (jbind (read l) f) n s = run srv (f (view l s)) n s.
Proof. reflexivity. Qed.
Lemma run_ask (g : S -> A) (f : A -> js S B) n s :
  run srv (jbind (ask g) f) n s = run srv (f (g s)) n s.
Proof. reflexivity. Qed.
Lemma run_ret (a : A) (f : A -> js S B) n s :
  run srv (jbind (jret a) f) n s = run srv (f a) n s.
Proof. reflexivity. Qed.
Lemma run_throw e (f : A -> js S B) n s :
  run srv (jbind (jthrow e) f) n s = (Raised e, s, n).
Proof. reflexivity. Qed.
Lemma run_assign (l : lens S T) t (f : unit -> js S B) n s :
  run srv (jbind (assign l t) f) n s = run srv (f tt) n (put l t s).
Proof. reflexivity. Qed.
Lemma run_update (l : lens S T) g (f : unit -> js S B) n s :
  run srv (jbind (update l g) f) n s = run srv (f tt) n (over l g s).
Proof. reflexivity. Qed.
Lemma run_assoc (p : js S A) (f : A -> js S B) (g : B -> js S C) n s :
  run srv (jbind (jbind p f) g) n s = run srv (jbind p (fun a => jbind (f a) g)) n s.
Proof.
  unfold jbind. rewrite !run_bind. destruct (run srv p n s) as [[[a|e] s'] n']; auto.
  now rewrite run_bind.
Qed.
Lemma run_jbind (p : js S A) (f : A -> js S B) n s :
  run srv (jbind p f) n s =
  match run srv p n s with
  | (Done a, s', n') => run srv (f a) n' s'
  | (Raised e, s', n') => (Raised e, s', n')
  end.
Proof. apply run_bind. Qed.
End RunOps.

(** *** Weakest preconditions of the primitives *)

Section WpOps.
Context {S A B C T : Type}.
Context (G : event -> S -> Prop) (R : S -> S -> Prop) (I : S -> Prop).
Implicit Types (s : S).

Lemma wp_read (l : lens S T) (f : T -> js S B) Q X s :
  wp G R I (jbind (read l) f) Q X s <-> wp G R I (f (view l s)) Q X s.
Proof. reflexivity. Qed.
Lemma wp_ask (g : S -> A) (f : A -> js S B) Q X s :
  wp G R I (jbind (ask g) f) Q X s <-> wp G R I (f (g s)) Q X s.
Proof. reflexivity. Qed.
Lemma wp_ret (a : A) (f : A -> js S B) Q X s :
  wp G R I (jbind (jret a) f) Q X s <-> wp G R I (f a) Q X s.
Proof. reflexivity. Qed.
Lemma wp_throw e (f : A -> js S B) Q X s :
  wp G R I (jbind (jthrow e) f) Q X s <-> X e s.
Proof. reflexivity. Qed.
Lemma wp_assign (l : lens S T) t (f : unit -> js S B) Q X s :
  wp G R I (jbind (assign l t) f) Q X s <-> wp G R I (f tt) Q X (put l t s).
Proof. reflexivity. Qed.
Lemma wp_update (l : lens S T) g (f : unit -> js S B) Q X s :
  wp G R I (jbind (update l g) f) Q X s <-> wp G R I (f tt) Q X (over l g s).
Proof. reflexivity. Qed.
Lemma wp_assoc (p : js S A) (f : A -> js S B) (g : B -> js S C) Q X s :
  wp G R I (jbind (jbind p f) g) Q X s <->
  wp G R I (jbind p (fun a => jbind (f a) g)) Q X s.
Proof.
  unfold jbind. rewrite !wp_bind. split; apply wp_mono; auto; intros; now apply wp_bind.
Qed.
Lemma wp_end_ret (a : A) Q X s : wp G R I (jret a) Q X s <-> Q a s.
Proof. reflexivity. Qed.
Lemma wp_end_throw e (Q : A -> S -> Prop) X s : wp G R I (jthrow e) Q X s <-> X e s.
Proof. reflexivity. Qed.
Lemma wp_end_assign (l : lens S T) t Q X s :
  wp G R I (assign l t) Q X s <-> Q tt (put l t s).
Proof. reflexivity. Qed.
Lemma wp_end_update (l : lens S T) g Q X s :
  wp G R I (update l g) Q X s <-> Q tt (over l g s).
Proof. reflexivity. Qed.
Lemma wp_jbind (p : js S A) (f : A -> js S B) Q X s :
  wp G R I (jbind p f) Q X s <-> wp G R I p (fun a => wp G R I (f a) Q X) X s.
Proof. apply wp_bind. Qed.
End WpOps.

Create Rewrite HintDb jswp.
#[export] Hint Rewrite @wp_read @wp_ask @wp_ret @wp_throw @wp_assign @wp_update @wp_assoc
  @wp_end_ret @wp_end_throw @wp_end_assign @wp_end_update : jswp.

Ltac js_wp := try unfold keeps; autorewrite with jswp; cbn beta.

Create Rewrite HintDb jsrun.
#[export] Hint Rewrite @run_read @run_ask @run_ret @run_throw @run_assign @run_update
  @run_assoc : jsrun.

(** Step through the primitives at the head of a run. *)
Ltac js_run := autorewrite with jsrun; cbn beta.

(** Unfold the primitives of [js] processes. *)
Ltac js_simpl :=
  unfold jret, jthrow, jbind, ask, read, assign, update, fetch, navigate, reads, modify, await in *;
  cbn in *.

(** The requests of a trace, navigations left out. *)
Definition requests (tr : list event) : list request :=
  omap (fun e => match e with EHttp r => Some r | ENavigate _ => None end) tr.
