(* ===== verification/Html.v ===== *)
(** * Rendered pages

    A Vue template is a function from the component's state to a tree of
    elements whose listeners name what they run. [H] is the type of these names:
    each page has its own, so that a rendered page is a value that can be
    computed and searched. The file gives
    - [bubble]: what a click on an element runs, from the target outwards, with
      the modifiers [.self] and [.stop] and disabled buttons;
    - [clicks]: the handlers of a tree, which include all that a click can run;
    - [well_formed]: siblings with different keys, void elements without children;
    - [dispatch]: the processes of the handlers, started one after the other. *)

From S2P Require Import Prelude Json Http Async App.
From stdpp Require Import base tactics list gmap strings pretty.
#[local] Open Scope Z_scope.

(** ** Trees *)

(** What an interpolation or an attribute holds. Objects are shown as JSON,
    [undefined] and [null] as nothing. *)
Inductive content : Type :=
| TStr (s : string)
| TNum (n : Z)
| TNone
| TFlags (m : gmap string bool)
| TMeta (v : MetaValue)
| TMap (m : gmap string MetaValue).

Definition t_opt (o : option string) : content := match o with Some s => TStr s | None => TNone end.
Definition t_num (o : option Z) : content := match o with Some n => TNum n | None => TNone end.
Definition t_meta (o : option MetaValue) : content := match o with Some v => TMeta v | None => TNone end.

(** [a || fallback] *)
Definition t_or (o : option string) (fallback : string) : content :=
  if truthy_str o then t_opt o else TStr fallback.

Definition t_meta_or (o : option MetaValue) (fallback : string) : content :=
  match o with
  | Some (MStr s) => t_or (Some s) fallback
  | Some v => TMeta v
  | None => TStr fallback
  end.

Inductive modifier : Type := MSelf | MStop | MPrevent.

#[export] Instance modifier_eq_dec : EqDecision modifier.
Proof. solve_decision. Defined.

(** A listener. A click may have modifiers only, or look at where its target lies
    in the element (the path from the element to the target); [v-model] hears the text of an
    input, or the number of a number input ([None]: not a number); a component
    emits events of its own. *)
Inductive listener (H : Type) : Type :=
| OnClick (mods : list modifier) (h : option H)
| OnClickIn (inside : list nat -> bool) (h_inside h_outside : H)
| OnText (f : string -> H)
| OnNumber (f : option Z -> H)
| OnBlur (h : H)
| OnEmit (name : string) (h : H).
Arguments OnClick {H}.
Arguments OnClickIn {H}.
Arguments OnText {H}.
Arguments OnNumber {H}.
Arguments OnBlur {H}.
Arguments OnEmit {H}.

#[warnings="-register-all"]
Inductive html (H : Type) : Type :=
| Text (t : content)
| El (tag : string) (attrs : list (string * content)) (on : list (listener H))
     (kids : list (html H)).
Arguments Text {H}.
Arguments El {H}.

Section HtmlInd.
Context {H : Type} (P : html H -> Prop).
Context (HText : forall t, P (Text t)).
Context (HEl : forall tag attrs on kids, Forall P kids -> P (El tag attrs on kids)).

Fixpoint html_tree_ind (t : html H) : P t :=
  match t with
  | Text t => HText t
  | El tag attrs on kids =>
      HEl tag attrs on kids
        ((fix go l : Forall P l :=
            match l with [] => Forall_nil_2 _ | k :: l => Forall_cons_2 _ _ _ (html_tree_ind k) (go l) end)
          kids)
  end.
End HtmlInd.

(** *** The vocabulary of the templates *)

Section Vocabulary.
Context {H : Type}.

Definition cls (c : string) : string * content := ("class", TStr c).
Definition div (c : string) (kids : list (html H)) : html H := El "div" [cls c] [] kids.
Definition node (tag : string) (kids : list (html H)) : html H := El tag [] [] kids.
Definition str (s : string) : html H := Text (TStr s).
Definition p (c s : string) : html H := El "p" [cls c] [] [str s].
Definition button (c : string) (h : H) (kids : list (html H)) : html H :=
  El "button" [cls c] [OnClick [] (Some h)] kids.
(** A component without listeners of its own that is not expanded: an icon. *)
Definition leaf (name : string) : html H := El name [] [] [].
(** [<div class="entry"><div class="title">..</div><div class="value">..</div></div>] *)
Definition entry (title : string) (value : list (html H)) : html H :=
  div "entry" [div "title" [str title]; div "value" value].
(** [v-if] *)
Definition when (b : bool) (l : list (html H)) : list (html H) := if b then l else [].
Lemma Forall_when (P : html H -> Prop) b kids : Forall P kids -> Forall P (when b kids).
Proof. now destruct b. Qed.

Lemma Forall_map_all {A B} (P : B -> Prop) (f : A -> B) l : (forall a, P (f a)) -> Forall P (map f l).
Proof. intros Hf. induction l; constructor; auto. Qed.

(** The errors below a field of a form. *)
Definition field_errors (errors : gmap string string) (field : string) : list (html H) :=
  when (truthy_str (errors !! field))
    [div "errors" [node "p" [Text (t_opt (errors !! field))]]].
End Vocabulary.

(** ** Clicks *)

Section Clicks.
Context {H : Type}.

(** What a listener of an element runs when the target of the click is at [path]. *)
Definition at_target (path : list nat) : bool := match path with [] => true | _ => false end.

Definition hears (path : list nat) (l : listener H) : list H :=
  match l with
  | OnClick mods (Some h) => if bool_decide (MSelf ∈ mods) && negb (at_target path) then [] else [h]
  | OnClickIn inside h_inside h_outside => [if inside path then h_inside else h_outside]
  | _ => []
  end.

(** [event.stopPropagation()], unless [.self] guards it. *)
Definition stops (path : list nat) (l : listener H) : bool :=
  match l with
  | OnClick mods _ =>
      bool_decide (MStop ∈ mods) && negb (bool_decide (MSelf ∈ mods) && negb (at_target path))
  | _ => false
  end.

Definition fire (path : list nat) (on : list (listener H)) : list H * bool :=
  (flat_map (hears path) on, existsb (stops path) on).

(** A disabled button gets no click, and none gets past it. *)
Definition disabled (tag : string) (attrs : list (string * content)) : bool :=
  String.eqb tag "button" && existsb (fun a => String.eqb a.1 "disabled") attrs.

(** The handlers a click on the element at [path] runs, in order, and whether its
    propagation has been stopped; [None]: there is no such element. *)
Fixpoint bubble (t : html H) (path : list nat) : option (list H * bool) :=
  match t with
  | Text _ => None
  | El tag attrs on kids =>
      if disabled tag attrs then Some ([], true)
      else match path with
      | [] => Some (fire [] on)
      | i :: path' =>
          match kids !! i with
          | None => None
          | Some k =>
              match bubble k path' with
              | None => None
              | Some (hs, true) => Some (hs, true)
              | Some (hs, false) =>
                  let (hs', stopped) := fire path on in Some (hs ++ hs', stopped)
              end
          end
      end
  end.

(** A click on a page of several roots. *)
Definition click (page : list (html H)) (path : list nat) : option (list H) :=
  match path with
  | [] => None
  | i :: path => match page !! i with Some t => option_map fst (bubble t path) | None => None end
  end.

(** The listeners of a tree, except those of disabled buttons and inside them. *)
Fixpoint collect {X} (pick : listener H -> list X) (t : html H) : list X :=
  match t with
  | Text _ => []
  | El tag attrs on kids =>
      if disabled tag attrs then []
      else flat_map pick on ++
           (fix go l := match l with [] => [] | k :: l => collect pick k ++ go l end) kids
  end.

Definition page_collect {X} (pick : listener H -> list X) (page : list (html H)) : list X :=
  flat_map (collect pick) page.

Lemma collect_el {X} (pick : listener H -> list X) tag attrs on kids :
  collect pick (El tag attrs on kids) =
  if disabled tag attrs then [] else flat_map pick on ++ page_collect pick kids.
Proof. reflexivity. Qed.

(** The elements of a tree. *)
Fixpoint subtrees (t : html H) : list (html H) :=
  match t with
  | Text _ => []
  | El tag attrs on kids =>
      El tag attrs on kids ::
      (fix go l := match l with [] => [] | k :: l => subtrees k ++ go l end) kids
  end.

Lemma subtrees_el tag attrs on kids :
  subtrees (El tag attrs on kids) = El tag attrs on kids :: flat_map subtrees kids.
Proof. reflexivity. Qed.

(** What [f] finds in the elements of a page. *)
Definition gather {X} (f : html H -> list X) (page : list (html H)) : list X :=
  flat_map f (flat_map subtrees page).

Lemma gather_app {X} (f : html H -> list X) page page' :
  gather f (page ++ page') = gather f page ++ gather f page'.
Proof. unfold gather. now rewrite !flat_map_app. Qed.
Lemma gather_cons {X} (f : html H -> list X) t page : gather f (t :: page) = gather f [t] ++ gather f page.
Proof. exact (gather_app f [t] page). Qed.
Lemma gather_text {X} (f : html H -> list X) c page : gather f (Text c :: page) = gather f page.
Proof. reflexivity. Qed.
Lemma gather_el {X} (f : html H -> list X) tag attrs on kids page :
  gather f (El tag attrs on kids :: page) = f (El tag attrs on kids) ++ gather f kids ++ gather f page.
Proof.
  unfold gather. change (flat_map subtrees (El tag attrs on kids :: page)) with
    (subtrees (El tag attrs on kids) ++ flat_map subtrees page).
  rewrite subtrees_el. cbn [app flat_map]. now rewrite flat_map_app.
Qed.
Lemma gather_map {X A} (f : html H -> list X) (g : A -> html H) l :
  (forall a, gather f [g a] = []) -> gather f (map g l) = [].
Proof. intros Hg. induction l as [|a l IH]; cbn [map]; [done|]. now rewrite gather_cons, Hg, IH. Qed.

(** All handlers of clicks. *)
Definition heard (l : listener H) : list H :=
  match l with
  | OnClick _ (Some h) => [h]
  | OnClickIn _ h_inside h_outside => [h_inside; h_outside]
  | _ => []
  end.

(** The inputs of a tree. *)
Definition typing (l : listener H) : list (listener H) :=
  match l with OnText _ | OnNumber _ => [l] | _ => [] end.

(** What the events of components run. *)
Definition emitted (l : listener H) : list H :=
  match l with OnEmit _ h => [h] | _ => [] end.

End Clicks.

Abbreviation clicks := (collect heard).
Abbreviation page_clicks := (page_collect heard).
Abbreviation page_inputs := (page_collect typing).
Abbreviation page_emits := (page_collect emitted).

Section ClicksSpec.
Context {H : Type}.
Implicit Types (h : H) (t : html H) (kids page : list (html H)) (l : listener H) (on : list (listener H)).

Lemma hears_heard path (l : listener H) h : h ∈ hears path l -> h ∈ heard l.
Proof.
  destruct l as [mods [h'|]|inside h1 h2| | | |]; cbn; try done.
  - now destruct (_ && _); [intros ?%elem_of_nil|].
  - destruct (inside path); intros ->%list_elem_of_singleton; rewrite !elem_of_cons; auto.
Qed.

Lemma flat_map_elem {A B} (f : A -> list B) (l : list A) (y : B) : y ∈ flat_map f l <-> exists x, x ∈ l /\ y ∈ f x.
Proof.
  rewrite list_elem_of_In, in_flat_map. now setoid_rewrite list_elem_of_In.
Qed.

Lemma fire_clicks path on h : h ∈ (fire path on).1 -> h ∈ flat_map heard on.
Proof.
  cbn. rewrite !flat_map_elem. intros (l & Hl & Hh). exists l. eauto using hears_heard.
Qed.

Lemma bubble_text c path : bubble (H:=H) (Text c) path = None.
Proof. now destruct path. Qed.

Lemma bubble_el tag attrs on kids path :
  bubble (El tag attrs on kids) path =
  if disabled tag attrs then Some ([], true)
  else match path with
       | [] => Some (fire [] on)
       | i :: path' =>
           match kids !! i ≫= fun k => bubble k path' with
           | None => None
           | Some (hs, true) => Some (hs, true)
           | Some (hs, false) =>
               let (hs', stopped) := fire path on in Some (hs ++ hs', stopped)
           end
       end.
Proof. destruct path as [|i path]; [reflexivity|]. cbn [bubble]. now destruct (kids !! i). Qed.

Lemma bubble_clicks t path hs b h : bubble t path = Some (hs, b) -> h ∈ hs -> h ∈ clicks t.
Proof.
  revert path hs b. induction t as [t|tag attrs on kids IH] using html_tree_ind;
    [now intros *; rewrite bubble_text|].
  intros path hs b Hb Hh. rewrite collect_el. rewrite bubble_el in Hb.
  destruct (disabled tag attrs). { injection Hb as <- <-. now apply elem_of_nil in Hh. }
  apply elem_of_app. destruct path as [|i path].
  { injection Hb as <- <-. left. exact (fire_clicks [] on h Hh). }
  destruct (kids !! i) as [k|] eqn:Hk; [|done]. cbn [mbind option_bind] in Hb.
  destruct (bubble k path) as [[hs1 b1]|] eqn:E; [|done].
  assert (Hkid : h ∈ hs1 -> h ∈ page_clicks kids).
  { intros Hh1. apply flat_map_elem. exists k. split; [exact (list_elem_of_lookup_2 _ _ _ Hk)|].
    eapply (Forall_lookup_1 _ _ _ _ IH Hk); eauto. }
  destruct b1.
  - injection Hb as <- <-. auto.
  - injection Hb as <- <-. apply elem_of_app in Hh as [Hh|Hh]; [auto|]. left.
    exact (fire_clicks (i :: path) on h Hh).
Qed.

(** A tree in which a click runs nothing and goes on to the parent. *)
Definition silent (t : html H) : Prop :=
  forall path hs b, bubble t path = Some (hs, b) -> hs = [] /\ b = false.

Lemma silent_text c : silent (Text c).
Proof. intros path hs b. now rewrite bubble_text. Qed.

Lemma silent_el tag attrs kids : disabled tag attrs = false -> Forall silent kids -> silent (El tag attrs [] kids).
Proof.
  intros Hd Hk path hs b. rewrite bubble_el, Hd. destruct path as [|i path]; [now intros [= <- <-]|].
  destruct (kids !! i) as [k|] eqn:Hi; [|done]. cbn [mbind option_bind].
  destruct (bubble k path) as [[hs1 b1]|] eqn:E; [|done].
  destruct (Forall_lookup_1 _ _ _ _ Hk Hi _ _ _ E) as [-> ->]. now intros [= <- <-].
Qed.

Lemma silent_div c kids : Forall silent kids -> silent (div c kids).
Proof. now apply silent_el. Qed.
Lemma silent_entry title kids : Forall silent kids -> silent (entry title kids).
Proof.
  intros Hk. apply silent_div. constructor; [|constructor; [now apply silent_div|constructor]].
  apply silent_div. constructor; [apply silent_text|constructor].
Qed.
Lemma silent_str s : silent (str s).
Proof. apply silent_text. Qed.

(** A click inside a silent child of an element. *)
Lemma bubble_silent tag attrs on kids i k path hs b :
  disabled tag attrs = false -> kids !! i = Some k -> silent k ->
  bubble (El tag attrs on kids) (i :: path) = Some (hs, b) -> (hs, b) = fire (i :: path) on.
Proof.
  intros Hd Hi Hk. rewrite bubble_el, Hd, Hi. cbn [mbind option_bind].
  destruct (bubble k path) as [[hs1 b1]|] eqn:E; [|done]. destruct (Hk _ _ _ E) as [-> ->].
  destruct (fire (i :: path) on) as [hs' st]. now intros [= <- <-].
Qed.

(** A tree from which a click always goes on to the parent. *)
Definition calm (t : html H) : Prop :=
  forall path hs b, bubble t path = Some (hs, b) -> b = false.

Lemma calm_text c : calm (Text c).
Proof. intros path hs b. now rewrite bubble_text. Qed.

Lemma calm_el tag attrs on kids :
  disabled tag attrs = false -> (forall path, existsb (stops path) on = false) -> Forall calm kids ->
  calm (El tag attrs on kids).
Proof.
  intros Hd Hs Hk path hs b. rewrite bubble_el, Hd. destruct path as [|i path].
  { unfold fire. rewrite Hs. now intros [= _ <-]. }
  destruct (kids !! i) as [k|] eqn:Hi; [|done]. cbn [mbind option_bind].
  destruct (bubble k path) as [[hs1 b1]|] eqn:E; [|done].
  rewrite (Forall_lookup_1 _ _ _ _ Hk Hi _ _ _ E). unfold fire. rewrite Hs. now intros [= _ <-].
Qed.

(** What a click runs last is what the outermost element hears, if nothing below stops it. *)
Lemma bubble_calm tag attrs on kids path hs b :
  disabled tag attrs = false -> Forall calm kids -> bubble (El tag attrs on kids) path = Some (hs, b) ->
  exists hs', hs = hs' ++ (fire path on).1 /\ forall h, h ∈ hs' -> h ∈ page_clicks kids.
Proof.
  intros Hd Hk. rewrite bubble_el, Hd. destruct path as [|i path].
  { intros [= <- <-]. exists []. split; [done|]. now intros h ?%elem_of_nil. }
  destruct (kids !! i) as [k|] eqn:Hi; [|done]. cbn [mbind option_bind].
  destruct (bubble k path) as [[hs1 b1]|] eqn:E; [|done].
  rewrite (Forall_lookup_1 _ _ _ _ Hk Hi _ _ _ E). destruct (fire (i :: path) on) as [hs2 st].
  intros [= <- <-]. exists hs1. split; [done|]. intros h Hh. apply flat_map_elem. exists k.
  split; [exact (list_elem_of_lookup_2 _ _ _ Hi)|]. eapply bubble_clicks; eauto.
Qed.

Lemma click_root page path hs :
  click page path = Some hs -> exists t path' b, t ∈ page /\ bubble t path' = Some (hs, b).
Proof.
  destruct path as [|i path]; [done|]. cbn. destruct (page !! i) as [t|] eqn:Hi; [|done].
  destruct (bubble t path) as [[hs' b]|] eqn:E; [|done]. intros [= ->].
  exists t, path, b. split; [exact (list_elem_of_lookup_2 _ _ _ Hi)|done].
Qed.

Lemma root_clicks (Q : H -> Prop) roots t path hs b :
  t ∈ roots -> bubble t path = Some (hs, b) -> (forall h, h ∈ page_clicks roots -> Q h) -> Forall Q hs.
Proof.
  intros Hin Hb Hq. apply Forall_forall. intros h Hh. apply Hq. apply flat_map_elem.
  exists t. eauto using bubble_clicks.
Qed.

(** [h] is what typing into some input of the page means. *)
Definition typed (page : list (html H)) (h : H) : Prop :=
  (exists f s, OnText f ∈ page_inputs page /\ h = f s) \/
  (exists f n, OnNumber f ∈ page_inputs page /\ h = f n).

End ClicksSpec.

(** ** Well-formed trees *)

Section WellFormed.
Context {H : Type}.

Definition key_of (t : html H) : option content :=
  match t with
  | Text _ => None
  | El _ attrs _ _ => option_map snd (List.find (fun a => String.eqb a.1 "key") attrs)
  end.

Definition void (tag : string) : bool := includes tag ["input"; "img"].

Fixpoint well_formed (t : html H) : Prop :=
  match t with
  | Text _ => True
  | El tag attrs on kids =>
      NoDup (omap key_of kids) /\ (void tag = true -> kids = []) /\
      (fix go l := match l with [] => True | k :: l => well_formed k /\ go l end) kids
  end.

Lemma well_formed_el tag attrs on kids :
  well_formed (El tag attrs on kids) <->
  NoDup (omap key_of kids) /\ (void tag = true -> kids = []) /\ Forall well_formed kids.
Proof.
  cbn. do 2 apply and_iff_compat_l. induction kids as [|k kids IH]; [split; constructor|].
  now rewrite Forall_cons, IH.
Qed.

(** Siblings without keys. *)
Definition keyless : list (html H) -> Prop := Forall (fun t => key_of t = None).

Lemma keyless_keys kids : keyless kids -> omap key_of kids = [].
Proof. induction 1 as [|t kids Ht _ IH]; [done|]. cbn. now rewrite Ht. Qed.

Lemma keyed_map {A} (f : A -> html H) (key : A -> content) l :
  (forall a, key_of (f a) = Some (key a)) -> omap key_of (map f l) = map key l.
Proof. intros Hf. induction l as [|a l IH]; cbn; [done|]. now rewrite Hf, IH. Qed.

Lemma well_formed_text c : well_formed (Text (H := H) c).
Proof. exact I. Qed.

Lemma well_formed_keyless tag attrs on kids :
  void tag = false -> keyless kids -> Forall well_formed kids -> well_formed (El tag attrs on kids).
Proof.
  intros Hv Hk Hw. apply well_formed_el. rewrite (keyless_keys kids Hk), Hv. split; [constructor|done].
Qed.

Lemma well_formed_void tag attrs on : well_formed (El tag attrs on [] : html H).
Proof. apply well_formed_el. repeat constructor. Qed.

Lemma well_formed_keyed {A} tag attrs on (f : A -> html H) (key : A -> content) l :
  void tag = false -> (forall a, key_of (f a) = Some (key a)) -> NoDup (map key l) ->
  (forall a, a ∈ l -> well_formed (f a)) -> well_formed (El tag attrs on (map f l)).
Proof.
  intros Hv Hk Hn Hw. apply well_formed_el. rewrite (keyed_map f key l Hk), Hv. split; [done|].
  split; [done|]. apply Forall_fmap, Forall_forall. exact Hw.
Qed.


(** A first child without a key, then keyed ones. *)
Lemma well_formed_keyed_after {A} tag attrs on t (f : A -> html H) (key : A -> content) l :
  void tag = false -> key_of t = None -> well_formed t ->
  (forall a, key_of (f a) = Some (key a)) -> NoDup (map key l) ->
  (forall a, a ∈ l -> well_formed (f a)) -> well_formed (El tag attrs on (t :: map f l)).
Proof.
  intros Hv Ht Hwt Hk Hn Hw. apply well_formed_el. cbn [omap list_omap]. rewrite Ht.
  change (list_omap _ _ key_of (map f l)) with (omap key_of (map f l)).
  rewrite (keyed_map f key l Hk), Hv. split; [done|]. split; [done|]. constructor; [done|].
  apply Forall_fmap, Forall_forall. exact Hw.
Qed.

Lemma well_formed_keyed_imap {A} tag attrs on (f : nat -> A -> html H) (key : A -> content) l :
  void tag = false -> (forall i a, key_of (f i a) = Some (key a)) -> NoDup (map key l) ->
  (forall i a, well_formed (f i a)) -> well_formed (El tag attrs on (imap f l)).
Proof.
  intros Hv Hk Hn Hw. apply well_formed_el. rewrite Hv. split; [|split; [done|]].
  - replace (omap key_of (imap f l)) with (map key l); [done|]. clear Hn. revert f Hk Hw.
    induction l as [|a l IH]; intros f Hk Hw; [done|]. rewrite imap_cons. cbn [map omap list_omap].
    rewrite Hk. f_equal. apply (IH (f ∘ S)); intros; [apply Hk|apply Hw].
  - apply Forall_forall. intros t (i & a & -> & _)%elem_of_lookup_imap. apply Hw.
Qed.
End WellFormed.

(** ** Running the handlers *)

Section Dispatch.
Context {S H : Type} (perform : H -> js S unit).

(** The listeners of one event run one after the other; what one of them awaits
    or raises does not keep the next from running. *)
Definition dispatch (hs : list H) : js S unit :=
  foldr (fun h k => detach (perform h) k) (jret tt) hs.

(** The events a user can cause on a rendered page. *)
Definition user_event (page : list (html H)) (q : js S unit) : Prop :=
  (exists path hs, click page path = Some hs /\ q = dispatch hs) \/
  (exists h, typed page h /\ q = perform h).

Lemma keeps_detach (I : S -> Prop) (P : event -> Prop) (q k : js S unit) s :
  keeps I P q s -> (forall s', I s' -> keeps I P k s') -> keeps I P (detach q k) s.
Proof.
  intros Hq Hk. revert q s Hq. unfold keeps in *. fix IH 1.
  intros [a|e|f|s1 q|e f|e h q] s Hq; cbn in *; auto.
  - destruct Hq as (HP & HI & Hq). auto.
  - destruct Hq as (HP & Hh & Hq). auto.
Qed.

Lemma keeps_dispatch (I : S -> Prop) (P : event -> Prop) hs s :
  Forall (fun h => forall s, I s -> keeps I P (perform h) s) hs -> I s -> keeps I P (dispatch hs) s.
Proof.
  intros Hhs. revert s. induction Hhs as [|h hs Hh Hhs IH]; cbn; intros s Hs; [exact Hs|].
  apply keeps_detach; auto.
Qed.
(** A handler that awaits nothing is over when the next one starts. *)
Lemma run_detach_sync srv n (q k : js S unit) s s' q' :
  advance q s = (s', q', [], []) -> run srv (detach q k) n s = run srv k n s'.
Proof.
  revert q s. fix IH 1.
  intros [a|e|f|s1 q|e f|e h q] s Hq; cbn in *; try (injection Hq as -> _; reflexivity).
  - eapply IH; eauto.
  - eapply IH; eauto.
  - discriminate.
  - now destruct (advance q s) as [[[]]].
Qed.
End Dispatch.

(** ** Computing the handlers of a page *)

Section Compute.
Context {H : Type}.
Section Pick.
Context {X : Type} (pick : listener H -> list X).

Lemma page_collect_nil : page_collect pick [] = [].
Proof. reflexivity. Qed.
Lemma page_collect_cons t l : page_collect pick (t :: l) = collect pick t ++ page_collect pick l.
Proof. reflexivity. Qed.
Lemma page_collect_app l l' : page_collect pick (l ++ l') = page_collect pick l ++ page_collect pick l'.
Proof. apply flat_map_app. Qed.
Lemma page_collect_when b l : page_collect pick (when b l) = if b then page_collect pick l else [].
Proof. now destruct b. Qed.
Lemma page_collect_map {A} (f : A -> html H) l :
  page_collect pick (map f l) = flat_map (fun a => collect pick (f a)) l.
Proof. unfold page_collect. now rewrite flat_map_concat_map, map_map, <- flat_map_concat_map. Qed.
Lemma page_collect_flat_map {A} (f : A -> list (html H)) l :
  page_collect pick (flat_map f l) = flat_map (fun a => page_collect pick (f a)) l.
Proof. induction l as [|a l IH]; cbn [flat_map]; [done|]. now rewrite page_collect_app, IH. Qed.
Lemma page_collect_imap {A} (f : nat -> A -> html H) l x :
  x ∈ page_collect pick (imap f l) <-> exists i a, l !! i = Some a /\ x ∈ collect pick (f i a).
Proof.
  unfold page_collect. rewrite flat_map_elem. setoid_rewrite elem_of_lookup_imap. split.
  - intros (t & (i & a & -> & Hl) & Hx). eauto.
  - intros (i & a & Hl & Hx). eauto 10.
Qed.
Lemma collect_text t : collect pick (Text t) = [].
Proof. reflexivity. Qed.
Lemma field_errors_collect errors field : page_collect pick (field_errors errors field) = [].
Proof. unfold field_errors. now destruct (truthy_str _). Qed.
End Pick.

Lemma elem_of_if {X} (b : bool) (l : list X) h : h ∈ (if b then l else []) <-> b = true /\ h ∈ l.
Proof. destruct b; rewrite ?elem_of_nil; intuition congruence. Qed.
End Compute.

Create Rewrite HintDb html.
#[export] Hint Rewrite @collect_el @page_collect_nil @page_collect_cons @page_collect_app
  @page_collect_when @page_collect_map @page_collect_flat_map @collect_text @field_errors_collect
  @app_nil_r : html.

(** The handlers of a tree that is given by its elements. *)
Ltac html_clicks :=
  unfold div, node, button, p, str, leaf, entry;
  autorewrite with html;
  cbn [disabled existsb String.eqb Ascii.eqb Bool.eqb andb orb negb fst cls flat_map heard typing emitted app].

Create Rewrite HintDb elem.
#[export] Hint Rewrite @elem_of_app @elem_of_cons @elem_of_nil @elem_of_if @flat_map_elem : elem.

(** What is found in the elements of a tree that is given by them. *)
Ltac gather_all :=
  unfold div, node, button, p, str, leaf, entry;
  repeat first [rewrite gather_el | rewrite gather_text | rewrite gather_app | progress (cbn [when map app])].

Create HintDb silent.
#[export] Hint Resolve silent_text silent_div silent_entry silent_str Forall_when Forall_map_all Forall_app_2 Forall_cons_2 Forall_nil_2 : silent.
Create HintDb wf.
#[export] Hint Resolve well_formed_text well_formed_void Forall_when Forall_map_all
  Forall_app_2 Forall_cons_2 Forall_nil_2 : wf.
#[export] Hint Extern 1 (well_formed (El _ _ _ (_ :: _))) => apply well_formed_keyless; [reflexivity| |] : wf.
#[export] Hint Extern 1 (well_formed (El _ _ _ (_ ++ _))) => apply well_formed_keyless; [reflexivity| |] : wf.
#[export] Hint Extern 1 (well_formed (El _ _ _ (when _ _))) => apply well_formed_keyless; [reflexivity| |] : wf.
#[export] Hint Extern 1 (keyless _) => unfold keyless : wf.
#[export] Hint Extern 1 (key_of _ = None) => reflexivity : wf.

Create HintDb calm.
#[export] Hint Resolve calm_text Forall_when Forall_map_all Forall_app_2 Forall_cons_2 Forall_nil_2 : calm.
#[export] Hint Extern 1 (calm (El _ _ _ _)) => apply calm_el; [reflexivity|intro; reflexivity|] : calm.
#[export] Hint Extern 1 (silent (El _ _ [] _)) => apply silent_el; [reflexivity|] : silent.

(** Case analysis on a premise that says which handler is among those of a tree. *)
Ltac click_cases :=
  html_clicks; autorewrite with elem;
  repeat match goal with
  | |- (_ \/ _) -> _ => let Hc := fresh "Hc" in intros [Hc|Hc]; revert Hc
  | |- (_ /\ _) -> _ => let Hc := fresh "Hc" in intros [? Hc]; revert Hc
  | |- (exists _, _) -> _ => let Hc := fresh "Hc" in intros [? Hc]; revert Hc
  | |- _ = _ -> _ => intros ->
  | |- False -> _ => intros []
  | |- _ ∈ collect _ (match ?x with (_, _) => _ end) -> _ => destruct x
  | |- _ -> _ => progress (html_clicks; autorewrite with elem)
  end.

(** One step of [bubble] into an element that is given by its contents. *)
Ltac open_element :=
  cbn [disabled String.eqb Ascii.eqb Bool.eqb andb when lookup list_lookup mbind option_bind].
