(* ===== verification/Utils.v ===== *)
(** * [common/utils.ts]: endpoints, access control, requests, notifications *)

From S2P Require Import Prelude Json Http Async App.
From stdpp Require Import base tactics list gmap strings pretty.
From Equations Require Import Equations.
#[local] Open Scope Z_scope.

(** ** Build configuration and endpoints *)

(** [import.meta.env] and [window.location] when the module is loaded. *)
Class BuildEnv : Type := {
  VITE_SERVER_URL : option string;
  VITE_LOGIN_URL : option string;
  VITE_LOGOUT_URL : option string;
  VITE_OAUTH2_CLIENT : option string;
  VITE_RDFM_BACKEND : option string;
  location_protocol : string;
  location_host : string;
}.

(** A template literal prints a missing value as [undefined]. *)
Definition template (s : option string) : string :=
  match s with Some s => s | None => "undefined" end.

(** An identifier behind a non-null assertion ([id!]): a template literal prints
    the missing one as [null]. *)
Definition show_id (id : option Z) : string :=
  match id with Some n => pretty n | None => "null" end.

Section Endpoints.
Context `{BuildEnv}.

Definition SERVER_URL : string :=
  match VITE_SERVER_URL with
  | Some u => if String.eqb u "" then location_protocol +:+ "//" +:+ location_host else u
  | None => location_protocol +:+ "//" +:+ location_host
  end.

Definition FRONTEND_URL : string :=
  location_protocol +:+ "//" +:+ location_host +:+
  (if bool_decide (VITE_RDFM_BACKEND = Some "true") then "/api/static/frontend" else "").

Definition PACKAGES_ENDPOINT : string := SERVER_URL +:+ "/api/v1/packages".
Definition DELETE_PACKAGE_ENDPOINT (id : option Z) : string :=
  PACKAGES_ENDPOINT +:+ "/" +:+ show_id id.
Definition DOWNLOAD_PACKAGE_ENDPOINT (id : option Z) : string :=
  PACKAGES_ENDPOINT +:+ "/" +:+ show_id id +:+ "/download".

Definition DEVICES_ENDPOINT : string := SERVER_URL +:+ "/api/v2/devices".
Definition PENDING_ENDPOINT : string := SERVER_URL +:+ "/api/v1/auth/pending".
Definition PERMISSIONS_ENDPOINT : string := SERVER_URL +:+ "/api/v1/permissions".
Definition REGISTER_DEVICE_ENDPOINT : string := SERVER_URL +:+ "/api/v1/auth/register".
Definition DELETE_DEVICE_ENDPOINT (id : option Z) : string := DEVICES_ENDPOINT +:+ "/" +:+ show_id id.

Definition DEVICE_ACTIONS_ENDPOINT (mac : string) : string :=
  SERVER_URL +:+ "/api/v2/devices/" +:+ mac +:+ "/action/list".
Definition DEVICE_ACTIONS_EXEC_ENDPOINT (mac actionId : string) : string :=
  "/api/v2/devices/" +:+ mac +:+ "/action/exec/" +:+ actionId.
Definition DEVICE_ACTION_LOG_ENDPOINT (mac : string) : string :=
  "/api/v2/devices/" +:+ mac +:+ "/action/log".
Definition DEVICE_PENDING_ACTIONS_ENDPOINT (mac : string) : string :=
  "/api/v2/devices/" +:+ mac +:+ "/action/pending".
Definition DEVICE_REMOVE_ACTIONS_ENDPOINT (mac : string) : string :=
  "/api/v2/devices/" +:+ mac +:+ "/action/remove".
Definition DEVICE_SHELL_ENDPOINT (mac token : string) : string :=
  "/api/v1/devices/" +:+ mac +:+ "/shell?token=" +:+ token.
Definition DEVICE_PROGRESS_ENDPOINT : string := "/api/stream".
Definition DEVICE_DOWNLOAD_FILE_ENDPOINT (id : option Z) : string :=
  "/api/v2/devices/" +:+ show_id id +:+ "/fs/file".

Definition DEVICE_TAGS_ENDPOINT (id : option Z) : string :=
  SERVER_URL +:+ "/api/v2/devices/" +:+ show_id id +:+ "/tags".
Definition DEVICE_ADD_TAG_ENDPOINT (id : option Z) (tag : string) : string :=
  SERVER_URL +:+ "/api/v2/devices/" +:+ show_id id +:+ "/tag/" +:+ tag.
Definition TAGS_ENDPOINT (tag : string) : string := SERVER_URL +:+ "/api/v2/tags/" +:+ tag.

Definition GROUPS_ENDPOINT : string := SERVER_URL +:+ "/api/v2/groups".
Definition DELETE_GROUP_ENDPOINT (id : option Z) : string := GROUPS_ENDPOINT +:+ "/" +:+ show_id id.
Definition UPDATE_GROUP_PRIORITY_ENDPOINT (id : option Z) : string :=
  GROUPS_ENDPOINT +:+ "/" +:+ show_id id +:+ "/priority".
Definition UPDATE_GROUP_POLICY_ENDPOINT (id : option Z) : string :=
  GROUPS_ENDPOINT +:+ "/" +:+ show_id id +:+ "/policy".
Definition PATCH_DEVICES_IN_GROUP_ENDPOINT (id : option Z) : string :=
  GROUPS_ENDPOINT +:+ "/" +:+ show_id id +:+ "/devices".
Definition ASSIGN_PACKAGE_IN_GROUP_ENDPOINT (id : option Z) : string :=
  GROUPS_ENDPOINT +:+ "/" +:+ show_id id +:+ "/package".

Definition LOGIN_PATH : string :=
  template VITE_LOGIN_URL +:+ "?response_type=token&client_id=" +:+
  template VITE_OAUTH2_CLIENT +:+ "&redirect_uri=" +:+ FRONTEND_URL +:+ "/auth_data".
Definition LOGOUT_PATH : string :=
  template VITE_LOGOUT_URL +:+ "?client_id=" +:+ template VITE_OAUTH2_CLIENT +:+
  "&post_logout_redirect_uri=" +:+ FRONTEND_URL +:+ "/logout".
End Endpoints.

Definition POLL_INTERVAL : Z := 2500.

(** ** Access control *)

Inductive AdminRole : Type :=
| RW | RO | UPLOAD_ROOTFS_IMAGE | UPLOAD_SINGLE_FILE | UPLOAD_NONSTANDARD_ARTIFACT
| CREATE_GROUP.

Definition admin_role_value (r : AdminRole) : string :=
  match r with
  | RW => "rdfm_admin_rw"
  | RO => "rdfm_admin_ro"
  | UPLOAD_ROOTFS_IMAGE => "rdfm_upload_rootfs_image"
  | UPLOAD_SINGLE_FILE => "rdfm_upload_single_file"
  | UPLOAD_NONSTANDARD_ARTIFACT => "rdfm_upload_nonstandard_artifact"
  | CREATE_GROUP => "rdfm_create_group"
  end.

Definition hasPermission (acc : access) (permission : PermissionKind) (resource : ResourceKind)
    (resource_id : option Z) : bool :=
  js_some (fun p =>
    bool_decide (perm_resource p = resource) &&
    bool_decide (resource_id = Some (perm_resource_id p)) &&
    bool_decide (permission = perm_permission p)) (permissions acc).

Definition hasAdminRole (acc : access) (r : AdminRole) : bool :=
  includes (admin_role_value r) (adminRoles acc).

Definition hasUploadAccess (acc : access) : bool :=
  js_some (fun r => includes (admin_role_value r) (adminRoles acc))
    [RW; UPLOAD_ROOTFS_IMAGE; UPLOAD_SINGLE_FILE; UPLOAD_NONSTANDARD_ARTIFACT].

(** [allowedTo] calls itself on a group without passing [groups] on. *)
Definition groups_measure (groups : option (list Group)) : nat :=
  match groups with Some _ => 1 | None => 0 end.

Equations allowedTo (acc : access) (permission : PermissionKind) (resource : ResourceKind)
    (id : option Z) (groups : option (list Group)) : bool by wf (groups_measure groups) lt :=
  allowedTo acc permission resource id groups with id, groups := {
  | Some i, Some gs :=
    if hasAdminRole acc RW ||
       (hasAdminRole acc RO && bool_decide (permission = PRead)) then true
    else if hasPermission acc permission resource id then true
    else js_some (fun g => allowedTo acc permission RGroup (Some (grp_id g)) None)
           (js_filter (fun g =>
              (bool_decide (resource = RPackage) && includes i (grp_packages g)) ||
              (bool_decide (resource = RDevice) && includes i (grp_devices g))) gs);
  | _, _ :=
    if hasAdminRole acc RW ||
       (hasAdminRole acc RO && bool_decide (permission = PRead)) then true
    else if hasPermission acc permission resource id then true
    else false }.

(** The body of the source: one equation for all cases. *)
Lemma allowedTo_body acc permission resource id groups :
  allowedTo acc permission resource id groups =
    if hasAdminRole acc RW ||
       (hasAdminRole acc RO && bool_decide (permission = PRead)) then true
    else if hasPermission acc permission resource id then true
    else match id, groups with
         | Some i, Some gs =>
             js_some (fun g => allowedTo acc permission RGroup (Some (grp_id g)) None)
               (js_filter (fun g =>
                  (bool_decide (resource = RPackage) && includes i (grp_packages g)) ||
                  (bool_decide (resource = RDevice) && includes i (grp_devices g))) gs)
         | _, _ => false
         end.
Proof. destruct id, groups; simp allowedTo; reflexivity. Qed.
(** The access policy [allowedTo] decides: a role, a permission on the resource
    itself, or the same permission on a group that contains it. *)
Definition role_allows (acc : access) (permission : PermissionKind) : Prop :=
  admin_role_value RW ∈ adminRoles acc \/
  (admin_role_value RO ∈ adminRoles acc /\ permission = PRead).

Definition granted (acc : access) (permission : PermissionKind) (resource : ResourceKind)
    (id : Z) : Prop :=
  exists p, p ∈ permissions acc /\ perm_resource p = resource /\
    perm_resource_id p = id /\ perm_permission p = permission.

Definition member_of (resource : ResourceKind) (id : Z) (g : Group) : Prop :=
  match resource with
  | RPackage => id ∈ grp_packages g
  | RDevice => id ∈ grp_devices g
  | RGroup => False
  end.

Definition may (acc : access) (permission : PermissionKind) (resource : ResourceKind)
    (id : option Z) (groups : option (list Group)) : Prop :=
  role_allows acc permission \/
  exists i, id = Some i /\
    (granted acc permission resource i \/
     exists gs g, groups = Some gs /\ g ∈ gs /\ member_of resource i g /\
       granted acc permission RGroup (grp_id g)).

Lemma hasPermission_spec acc permission resource id :
  hasPermission acc permission resource id = true <->
  exists i, id = Some i /\ granted acc permission resource i.
Proof.
  unfold hasPermission, granted. rewrite js_some_spec. split.
  - intros (p & Hp & H). reflect_bools. subst. eauto 10.
  - intros (i & -> & p & Hp & <- & <- & <-). exists p. split; auto.
    now rewrite !bool_decide_eq_true_2.
Qed.

Lemma role_test_spec acc permission :
  hasAdminRole acc RW || (hasAdminRole acc RO && bool_decide (permission = PRead)) = true <->
  role_allows acc permission.
Proof.
  unfold hasAdminRole, role_allows.
  rewrite orb_true_iff, andb_true_iff, !includes_spec, bool_decide_eq_true. reflexivity.
Qed.

Lemma member_test_spec resource i g :
  (bool_decide (resource = RPackage) && includes i (grp_packages g)) ||
  (bool_decide (resource = RDevice) && includes i (grp_devices g)) = true <->
  member_of resource i g.
Proof.
  rewrite orb_true_iff, !andb_true_iff, !includes_spec, !bool_decide_eq_true.
  destruct resource; cbn; intuition congruence.
Qed.

(** Without groups the decision is the role or the direct permission. *)
Lemma allowedTo_direct acc permission resource id :
  allowedTo acc permission resource id None = true <->
  role_allows acc permission \/ exists i, id = Some i /\ granted acc permission resource i.
Proof.
  rewrite allowedTo_body, <- role_test_spec, <- hasPermission_spec.
  repeat case_match; intuition congruence.
Qed.

(** C1: [allowedTo] grants access exactly when the declarative policy [may] does. *)
Theorem allowedTo_may acc permission resource id groups :
  allowedTo acc permission resource id groups = true <-> may acc permission resource id groups.
Proof.
  rewrite allowedTo_body. unfold may.
  destruct (hasAdminRole acc RW || _) eqn:Hrole.
  { apply role_test_spec in Hrole. intuition. }
  assert (~ role_allows acc permission) as Hnr by (rewrite <- role_test_spec; congruence).
  destruct (hasPermission acc permission resource id) eqn:Hperm.
  { apply hasPermission_spec in Hperm as (i & -> & Hg). split; eauto 10. }
  assert (Hnp : forall i, id = Some i -> ~ granted acc permission resource i).
  { intros i -> Hg. assert (hasPermission acc permission resource (Some i) = true)
      by (apply hasPermission_spec; eauto). congruence. }
  destruct id as [i|]; [|split; [discriminate|intros [?|(i & [=] & _)]; tauto]].
  destruct groups as [gs|];
    [|split; [discriminate|intros [?|(j & Hj & [?|(? & ? & [=] & _)])]; [tauto|]; exfalso; eapply Hnp; eauto]].
  rewrite js_some_spec. split.
  - intros (g & Hg & H). apply js_filter_spec in Hg as [Hg Hm].
    apply member_test_spec in Hm. apply allowedTo_direct in H as [?|(j & [= <-] & Hj)]; [tauto|].
    right. exists i. eauto 10.
  - intros [?|(j & [= <-] & [?|(gs' & g & [= <-] & Hg & Hm & Hgr)])]; [tauto|exfalso; eapply Hnp; eauto|].
    exists g. rewrite js_filter_spec, member_test_spec, allowedTo_direct. eauto 10.
Qed.
