(* ===== verification/Fetch.v ===== *)
(** * [common/utils.ts]: [fetchWrapper] and [resourcesGetter]

    Every request of the frontend goes through [fetchWrapper], which adds the
    bearer token, catches every failure and reports it as a value. A
    [resourcesGetter] keeps the last document of one endpoint and whether the
    server could be reached. *)

From S2P Require Import Prelude Json Http Async App Utils.
From Stdlib Require Import Ascii.
From stdpp Require Import base tactics list gmap strings pretty.
#[local] Open Scope Z_scope.

(** ** [Headers.set] *)

Definition is_http_space (c : ascii) : bool :=
  existsb (Nat.eqb (nat_of_ascii c)) [9; 10; 13; 32]%nat.
(** A value is a sequence of bytes: a character beyond U+00FF, whose UTF-8 encoding
    begins with C4 or more, raises as the control characters do. *)
Definition forbidden_in_header (c : ascii) : bool :=
  existsb (Nat.eqb (nat_of_ascii c)) [0; 10; 13]%nat || (196 <=? nat_of_ascii c)%nat.

Fixpoint drop_while {A} (f : A -> bool) (l : list A) : list A :=
  match l with
  | x :: l' => if f x then drop_while f l' else l
  | [] => []
  end.

(** The value with leading and trailing white space removed. *)
Definition normalize_value (v : string) : string :=
  String.string_of_list_ascii
    (rev (drop_while is_http_space (rev
      (drop_while is_http_space (String.list_ascii_of_string v))))).

(** [Headers.set]; [None] is the [TypeError] for an invalid value. *)
Definition headers_set (h : Headers) (name value : string) : option Headers :=
  let v := normalize_value value in
  if existsb forbidden_in_header (String.list_ascii_of_string v) then None
  else Some (<[name := v]> h).

(** ** [fetchWrapper] *)

(** A [Headers] argument: an object of its own, or one that lives in the module
    state and is shared by several calls. *)
Inductive headers_obj (S : Type) : Type :=
| HNew (h : Headers)
| HShared (l : lens S Headers).
Arguments HNew {S}.
Arguments HShared {S}.

Record fetched (D : Type) : Type := MkFetched {
  f_success : bool;
  f_code : option Z;
  f_data : option D;
}.
Arguments MkFetched {D}.
Arguments f_success {D}.
Arguments f_code {D}.
Arguments f_data {D}.

Section Fetch.
Context {S : Type} `{HasApp S}.

Definition headers_contents (o : headers_obj S) (s : S) : Headers :=
  match o with HNew h => h | HShared l => view l s end.

(** [headers.set(name, value)] *)
Definition headers_obj_set (o : headers_obj S) (name value : string) : js S (headers_obj S) :=
  let* c := ask (headers_contents o) in
  match headers_set c name value with
  | None => jthrow TypeError
  | Some c' =>
      match o with
      | HNew _ => jret (HNew c')
      | HShared l => assign l c' ;;; jret (HShared l)
      end
  end.

(** The value the [catch] clause returns; [response] may not be set yet. *)
Definition fetch_failed {D} (response : option Z) : fetched D :=
  MkFetched false response None.

Definition fetchWrapper (d : doc) (url method : string) (headers : headers_obj S)
    (body : option body) : js S (fetched (denote d)) :=
  catch
    (let* accessToken := ask (fun s => view (at_app l_storage) s !! "access_token") in
     let* headers :=
       if truthy_str accessToken
       then headers_obj_set headers "Authorization"
              ("Bearer token=" +:+ default "" accessToken)
       else jret headers in
     let* contents := ask (headers_contents headers) in
     let* response := fetch d url method contents body in
     match response with
     | NetworkError => jthrow TypeError
     | Response status json =>
         catch
           (if negb (response_ok status)
            then jthrow (JsError ("Fetch returned status " +:+ pretty status))
            else match json with
                 | None => jthrow SyntaxError
                 | Some data => jret (MkFetched true (Some status) (Some data))
                 end)
           (fun _ => jret (fetch_failed (Some status)))
     end)
    (fun _ => jret (fetch_failed None)).

(** *** What a call does, as one equation *)

(** How an answer is reported. *)
Definition report {D} (o : http_outcome D) : fetched D :=
  match o with
  | NetworkError => fetch_failed None
  | Response status json =>
      match json with
      | Some data => if response_ok status then MkFetched true (Some status) (Some data)
                     else fetch_failed (Some status)
      | None => fetch_failed (Some status)
      end
  end.

(** The header fields that are sent, or [None] when the stored token cannot be
    put in a header. *)
Definition authorized (tok : option string) (h : Headers) : option Headers :=
  if truthy_str tok
  then headers_set h "Authorization" ("Bearer token=" +:+ default "" tok)
  else Some h.

Definition token (s : S) : option string := view (at_app l_storage) s !! "access_token".

(** The state after the request: a shared header object keeps the token. *)
Definition store_headers (o : headers_obj S) (tok : option string) (h : Headers) (s : S) : S :=
  match o with
  | HNew _ => s
  | HShared l => if truthy_str tok then put l h s else s
  end.

Lemma fetchWrapper_run srv n s d url method o body :
  run srv (fetchWrapper d url method o body) n s =
  match authorized (token s) (headers_contents o s) with
  | None => (Done (fetch_failed None), s, n)
  | Some h =>
      let rq := EHttp (Request d url method h body) in
      (Done (report (srv (sent n) rq)), store_headers o (token s) h s,
       Net (sent n ++ [rq]) (pending n))
  end.
Proof.
  unfold fetchWrapper, authorized, token, headers_obj_set, jbind.
  rewrite run_catch, run_bind. cbn. rewrite run_bind.
  destruct (truthy_str (view (at_app l_storage) s !! "access_token")) eqn:Ht; cbn;
    [destruct (headers_set _ _ _) as [h|]; cbn; [|reflexivity]|]; destruct o as [h0|l];
    cbn; rewrite ?view_put, ?Ht; destruct (srv _ _) as [|st [data|]]; cbn; try reflexivity;
    destruct (response_ok st); reflexivity.
Qed.

(** A call whose promise is not awaited: the request is sent, the rest is a
    callback on the report of its answer. *)
Lemma run_detach_fetch {A} srv n s d url method h0 body own (K : fetched (denote d) -> js S unit)
    (k : js S A) :
  authorized (token s) h0 = Some own ->
  let rq := EHttp (Request d url method own body) in
  run srv (detach (jbind (fetchWrapper d url method (HNew h0) body) K) k) n s =
  run srv k (Net (sent n ++ [rq]) (pending n ++ [K (report (srv (sent n) rq))])) s.
Proof.
  unfold fetchWrapper, authorized, token, headers_obj_set, jbind. intros Hown.
  cbn. destruct (truthy_str (view (at_app l_storage) s !! "access_token")) eqn:Ht.
  - rewrite Hown. cbn. destruct (srv _ _) as [|st [data|]]; cbn; try destruct (response_ok st);
      reflexivity.
  - injection Hown as <-. cbn. destruct (srv _ _) as [|st [data|]]; cbn;
      try destruct (response_ok st); reflexivity.
Qed.

(** In the event loop: a call suspends at its request, and its continuation gets
    the report of the answer; with a token that fits in no header it goes on. *)
Lemma advance_fetch {A} d url method h0 body (K : fetched (denote d) -> js S A) s :
  (exists own (k : reply (EHttp (Request d url method own body)) -> js S A),
     authorized (token s) h0 = Some own /\
     advance (jbind (fetchWrapper d url method (HNew h0) body) K) s =
       (s, Await (EHttp (Request d url method own body)) k, [],
        [EHttp (Request d url method own body)]) /\
     forall r, k r = K (report r)) \/
  (authorized (token s) h0 = None /\
   advance (jbind (fetchWrapper d url method (HNew h0) body) K) s =
     advance (K (fetch_failed None)) s).
Proof.
  unfold fetchWrapper, authorized, token, headers_obj_set, jbind. cbn.
  destruct (truthy_str (view (at_app l_storage) s !! "access_token")) eqn:Ht.
  - cbn. destruct (headers_set _ _ _) as [own|]; [left|right; split; reflexivity].
    eexists own, _. split; [reflexivity|]. split; [reflexivity|].
    intros [|st [data|]]; cbn; try destruct (response_ok st); reflexivity.
  - left. eexists h0, _. split; [reflexivity|]. split; [reflexivity|].
    intros [|st [data|]]; cbn; try destruct (response_ok st); reflexivity.
Qed.

(** ** [resourcesGetter] *)

Context `{BuildEnv}.

(** The closure a [resourcesGetter<T>(url)] call returns: its endpoint and the
    refs [resources] and [pollingStatus], in the module state or in the state of
    the component that made the call. *)
Record getter : Type := MkGetter {
  g_doc : doc;
  g_url : string;
  g_value : lens S (resource (denote g_doc));
}.

Definition fetchGET (d : doc) (url : string) : js S (fetched (denote d)) :=
  fetchWrapper d url "GET" (HNew ∅) None.
Definition fetchPOST (d : doc) (url : string) (headers : headers_obj S) (b : body) :
    js S (fetched (denote d)) := fetchWrapper d url "POST" headers (Some b).
Definition fetchDELETE (d : doc) (url : string) : js S (fetched (denote d)) :=
  fetchWrapper d url "DELETE" (HNew ∅) None.
Definition fetchPATCH (d : doc) (url : string) (headers : headers_obj S) (b : body) :
    js S (fetched (denote d)) := fetchWrapper d url "PATCH" headers (Some b).

Definition set_resources {T} (v : option T) (r : resource T) : resource T :=
  MkResource v (pollingStatus r).
Definition set_pollingStatus {T} (p : PollingStatus) (r : resource T) : resource T :=
  MkResource (resources r) p.

Definition fetchResources (g : getter) : js S unit :=
  let* out := fetchGET (g_doc g) (g_url g) in
  if f_success out then
    update (g_value g) (set_resources (f_data out)) ;;;
    update (g_value g) (set_pollingStatus ActivePolling)
  else if bool_decide (f_code out = Some StatusCodes.UNAUTHORIZED) then
    assign (at_app l_href) LOGIN_PATH
  else
    update (g_value g) (set_resources None) ;;;
    update (g_value g) (set_pollingStatus UnreachableURL).

(** The state after an answer to the poll of [g]. *)
Definition polled (g : getter) (out : fetched (denote (g_doc g))) (s : S) : S :=
  if f_success out then put (g_value g) (MkResource (f_data out) ActivePolling) s
  else if bool_decide (f_code out = Some StatusCodes.UNAUTHORIZED)
  then put (at_app l_href) LOGIN_PATH s
  else put (g_value g) (MkResource None UnreachableURL) s.

(** The request of a poll, when the stored token fits in a header. *)
Definition poll_request (g : getter) (h : Headers) : event :=
  EHttp (Request (g_doc g) (g_url g) "GET" h None).

Lemma fetchResources_run srv n s g :
  run srv (fetchResources g) n s =
  match authorized (token s) ∅ with
  | None => (Done tt, put (g_value g) (MkResource None UnreachableURL) s, n)
  | Some h =>
      (Done tt, polled g (report (srv (sent n) (poll_request g h))) s,
       Net (sent n ++ [poll_request g h]) (pending n))
  end.
Proof.
  unfold fetchResources, fetchGET, jbind. rewrite run_bind, fetchWrapper_run. cbn.
  destruct (authorized (token s) ∅) as [h|]; cbn.
  - fold (poll_request g h).
    unfold polled. destruct (report _) as [[] code data]; cbn.
    + unfold over; cbn. now rewrite view_put, put_put.
    + case_bool_decide; cbn; [reflexivity|].
      unfold over; cbn. now rewrite view_put, put_put.
  - rewrite bool_decide_eq_false_2 by done. cbn. unfold over; cbn. now rewrite view_put, put_put.
Qed.

(** *** The same two equations for weakest preconditions *)

Section Interference.
Context (G : event -> S -> Prop) (R : S -> S -> Prop) (I : S -> Prop).

Lemma fetchWrapper_wp d url method o body Q X s :
  wp G R I (fetchWrapper d url method o body) Q X s <->
  match authorized (token s) (headers_contents o s) with
  | None => Q (fetch_failed None) s
  | Some h =>
      let rq := EHttp (Request d url method h body) in
      let s1 := store_headers o (token s) h s in
      G rq s1 /\ I s1 /\ forall r s', R s1 s' -> Q (report r) s'
  end.
Proof.
  unfold fetchWrapper, authorized, token, headers_obj_set, jbind.
  rewrite wp_catch, wp_bind. cbn. rewrite wp_bind.
  destruct (truthy_str (view (at_app l_storage) s !! "access_token")) eqn:Ht; cbn;
    [destruct (headers_set _ _ _) as [h|]; cbn; [|reflexivity]|]; destruct o as [h0|l];
    cbn; rewrite ?view_put, ?Ht; do 2 apply and_iff_compat_l;
    apply forall_proper; intros r; apply forall_proper; intros s';
    destruct r as [|st [data|]]; cbn; try reflexivity;
    destruct (response_ok st); reflexivity.
Qed.

Lemma fetchResources_wp g Q X s :
  wp G R I (fetchResources g) Q X s <->
  match authorized (token s) ∅ with
  | None => Q tt (put (g_value g) (MkResource None UnreachableURL) s)
  | Some h => G (poll_request g h) s /\ I s /\
      forall r s', R s s' -> Q tt (polled g (report r) s')
  end.
Proof.
  unfold fetchResources, fetchGET, jbind. rewrite wp_bind, fetchWrapper_wp. cbn.
  destruct (authorized (token s) ∅) as [h|]; cbn.
  - fold (poll_request g h). do 2 apply and_iff_compat_l.
    apply forall_proper; intros r; apply forall_proper; intros s'. unfold polled.
    destruct (report _) as [[] code data]; cbn.
    + unfold over; cbn. now rewrite view_put, put_put.
    + case_bool_decide; cbn; [reflexivity|].
      unfold over; cbn. now rewrite view_put, put_put.
  - rewrite bool_decide_eq_false_2 by done. cbn. unfold over; cbn.
    now rewrite view_put, put_put.
Qed.
End Interference.
End Fetch.

Arguments getter : clear implicits.
Arguments MkGetter {S}.
Arguments g_doc {S}.
Arguments g_url {S}.
Arguments g_value {S}.

(** ** Properties *)

Lemma report_success {D} (o : http_outcome D) :
  f_success (report o) = true <->
  exists status data, o = Response status (Some data) /\ 200 <= status <= 299.
Proof.
  split.
  - destruct o as [|st [data|]]; cbn; try discriminate.
    destruct (response_ok st) eqn:E; cbn; try discriminate. intros _.
    unfold response_ok in E. reflect_bools. eauto.
  - intros (st & data & -> & Hst). cbn. unfold response_ok.
    replace (200 <=? st) with true by (symmetry; apply Z.leb_le; lia).
    replace (st <=? 299) with true by (symmetry; apply Z.leb_le; lia). reflexivity.
Qed.

Lemma report_data {D} (o : http_outcome D) : f_success (report o) = true <-> is_Some (f_data (report o)).
Proof.
  destruct o as [|st [data|]]; cbn; [|destruct (response_ok st)|]; cbn; split;
    try discriminate; eauto; now intros [? [=]].
Qed.

(** A document is handed over exactly when it came with a 2xx status. *)
Lemma report_answer {D} (o : http_outcome D) data :
  f_success (report o) = true /\ f_data (report o) = Some data <->
  exists status, o = Response status (Some data) /\ 200 <= status <= 299.
Proof.
  split.
  - intros [Hs Hd]. apply report_success in Hs as (st & x & -> & Hst). exists st. cbn in Hd.
    destruct (response_ok st); cbn in Hd; [|done]. now injection Hd as ->.
  - intros (st & -> & Hst). split; [apply report_success; eauto|]. cbn.
    unfold response_ok. replace (200 <=? st) with true by (symmetry; apply Z.leb_le; lia).
    now replace (st <=? 299) with true by (symmetry; apply Z.leb_le; lia).
Qed.

Lemma authorized_token tok h h' :
  authorized (Some tok) h = Some h' -> tok <> "" ->
  h' = <["Authorization" := normalize_value ("Bearer token=" +:+ tok)]> h.
Proof.
  unfold authorized, headers_set. intros Hh Hne. cbn in Hh.
  replace (String.eqb tok "") with false in Hh by (symmetry; now apply String.eqb_neq).
  cbn in Hh. destruct (existsb _ _); [discriminate|]. now injection Hh.
Qed.

(** Whether a token fits in a header does not depend on the other fields. *)
Lemma authorized_indep tok h1 h2 : is_Some (authorized tok h1) -> is_Some (authorized tok h2).
Proof.
  unfold authorized, headers_set. destruct (truthy_str tok); [|eauto].
  destruct (existsb _ _); [now intros [? [=]]|eauto].
Qed.

(** No character of the header value for this token is forbidden; a missing or empty
    token is not sent. *)
Definition token_fits (tok : option string) : Prop :=
  forall t, tok = Some t -> t <> "" ->
    Forall (fun c => forbidden_in_header c = false)
      (String.list_ascii_of_string (normalize_value ("Bearer token=" +:+ t))).

Lemma authorized_fits tok h : is_Some (authorized tok h) <-> token_fits tok.
Proof.
  unfold authorized, headers_set, token_fits. destruct tok as [t|]; cbn [truthy_str];
    [|split; [done|intros _; eauto]].
  destruct (String.eqb_spec t "") as [->|Hne]; cbn [negb default id];
    [split; [now intros _ ? [= <-]|intros _; eauto]|].
  set (l := String.list_ascii_of_string _). split.
  - destruct (existsb forbidden_in_header l) eqn:E; [intros [? [=]]|]. intros _ t' [= <-] _. fold l.
    apply Forall_forall. intros c Hc. apply list_elem_of_In in Hc.
    destruct (forbidden_in_header c) eqn:Ec; [|done].
    assert (existsb forbidden_in_header l = true) by (apply existsb_exists; eauto). congruence.
  - intros Hl. specialize (Hl t eq_refl Hne). fold l in Hl.
    destruct (existsb forbidden_in_header l) eqn:E; [|eauto].
    apply existsb_exists in E as (c & Hc & Hf). apply list_elem_of_In in Hc.
    rewrite Forall_forall in Hl. rewrite (Hl c Hc) in Hf. discriminate.
Qed.

(** The status of an answer, if there was one. *)
Definition status_of {D} (o : http_outcome D) : option Z :=
  match o with NetworkError => None | Response status _ => Some status end.

(** C2: a call of [fetchWrapper] never rejects. If the stored token fits in a header,
    or none is stored, it sends exactly one request: the given method, URL and body,
    with the given header fields and, when a token is stored, the bearer token, which
    a header object of the caller keeps. It reports success exactly when the server
    answered with a 2xx status and a document that parses, and then hands over that
    document; otherwise it reports the status of the answer, if there was one, and no
    document. Only for a token that fits in no header nothing is sent, and a failure
    without a status is reported. *)
Theorem fetchWrapper_contract {S} `{HasApp S} srv n s d url method o body :
  exists out s' n',
    run srv (fetchWrapper d url method o body) n s = (Done out, s', n') /\
    (~ token_fits (token s) /\ n' = n /\ s' = s /\ out = MkFetched false None None \/
     token_fits (token s) /\
     exists h, let rq := EHttp (Request d url method h body) in
       n' = Net (sent n ++ [rq]) (pending n) /\ s' = store_headers o (token s) h s /\
       (forall tok, token s = Some tok -> tok <> "" ->
          h = <["Authorization" := normalize_value ("Bearer token=" +:+ tok)]>
                (headers_contents o s)) /\
       (truthy_str (token s) = false -> h = headers_contents o s) /\
       f_code out = status_of (srv (sent n) rq) /\
       (forall data, f_success out = true /\ f_data out = Some data <->
          exists status, srv (sent n) rq = Response status (Some data) /\ 200 <= status <= 299) /\
       (f_success out = false -> f_data out = None)).
Proof.
  rewrite fetchWrapper_run. pose proof (authorized_fits (token s) (headers_contents o s)) as Hfits.
  destruct (authorized _ _) as [h|] eqn:Ha.
  - do 3 eexists. split; [reflexivity|]. right. split; [apply Hfits; eauto|]. exists h.
    split_and!; try reflexivity.
    + intros tok Htok Hne. rewrite Htok in Ha. now apply authorized_token.
    + intros Ht. unfold authorized in Ha. rewrite Ht in Ha. now injection Ha.
    + now destruct (srv _ _) as [|st [data|]]; cbn; [|destruct (response_ok st)|].
    + intros data. apply report_answer.
    + intros Hs. apply eq_None_not_Some. intros Hd. apply report_data in Hd. exact (diff_true_false (eq_trans (eq_sym Hd) Hs)).
  - do 3 eexists. split; [reflexivity|]. left. split; [|done]. intros Hf. apply Hfits in Hf as [? [=]].
Qed.

(** A getter is consistent: it holds a document exactly when the last poll that
    was not answered with 401 succeeded. *)
Definition polling_ok {T} (r : resource T) : Prop :=
  is_Some (resources r) <-> pollingStatus r = ActivePolling.

Lemma polling_ok_fresh {T} : polling_ok (@fresh_resource T).
Proof. split; [intros [? [=]]|discriminate]. Qed.

Lemma polling_ok_failed {T} : polling_ok (@MkResource T None UnreachableURL).
Proof. split; [intros [? [=]]|discriminate]. Qed.

Lemma polling_ok_fetched {T} (t : T) : polling_ok (MkResource (Some t) ActivePolling).
Proof. split; cbn; eauto. Qed.

#[export] Hint Resolve polling_ok_fresh polling_ok_failed polling_ok_fetched : core.
