(* ===== verification/Polling.v ===== *)
(** * Polling timers of the list pages

    [GroupsList.vue], [PackagesList.vue] and [DevicesList.vue] fetch their
    resources when they are mounted and then start a timer, unless one is known;
    when they are unmounted they clear the timer that is known. The file models
    this once, for a component that keeps the timer's identifier in the part
    [interval] of its state. *)

From S2P Require Import Prelude Json Http Async App Utils Fetch.
From stdpp Require Import base tactics list gmap strings relations.
#[local] Open Scope Z_scope.

Section Polling.
Context {L : Type} (interval : lens L (option Z)).

Abbreviation W := (world L).

Definition intervalID : lens W (option Z) := lens_comp local_state interval.

(** [if (intervalID === undefined) intervalID = setInterval(..)] *)
Definition start_polling : js W unit :=
  let* id := read intervalID in
  match id with
  | None => let* timer := setInterval in assign intervalID (Some timer)
  | Some _ => jret tt
  end.

(** [if (intervalID !== undefined) clearInterval(intervalID)] *)
Definition stop_polling : js W unit :=
  let* id := read intervalID in
  match id with Some timer => clearInterval timer | None => jret tt end.

(** The callback of [onMounted]. *)
Definition mounted (fetch_all : js W unit) : js W unit := fetch_all ;;; start_polling.

(** ** Fetching leaves the timers alone *)

(** The timers that run and the identifier the component keeps. *)
Definition timer_state (s : W) : list Z * Z * option Z :=
  (view (at_app l_timers) s, view intervalID s).

(** A process that always returns and leaves the timers as they were. *)
Definition quiet (p : js W unit) : Prop :=
  forall srv n s, exists s' n', run srv p n s = (Done tt, s', n') /\ timer_state s' = timer_state s.

Lemma quiet_bind (p q : js W unit) : quiet p -> quiet q -> quiet (p ;;; q).
Proof.
  intros Hp Hq srv n s. destruct (Hp srv n s) as (s1 & n1 & E1 & H1).
  destruct (Hq srv n1 s1) as (s2 & n2 & E2 & H2).
  exists s2, n2. rewrite run_jbind, E1, E2, H2. auto.
Qed.

(** Polls touch their own resource and possibly the location. *)
Lemma quiet_fetchResources `{BuildEnv} (g : getter W) :
  (forall r s, timer_state (put (g_value g) r s) = timer_state s) ->
  quiet (fetchResources g).
Proof.
  intros Hg srv n s. rewrite fetchResources_run. destruct (authorized _ _); do 2 eexists.
  - split; [reflexivity|]. unfold polled. destruct (f_success _); [apply Hg|].
    destruct (bool_decide _); [reflexivity|apply Hg].
  - split; [reflexivity|apply Hg].
Qed.

(** Timers have the identifiers below the next one. *)
Definition timers_ok (s : W) : Prop :=
  Forall (fun t => t < snd (view (at_app l_timers) s)) (fst (view (at_app l_timers) s)).

Lemma clear_fresh (running : list Z) next :
  Forall (fun t => t < next) running ->
  List.filter (fun t => negb (t =? next)) (running ++ [next]) = running.
Proof.
  intros Hr. rewrite List.filter_app. cbn. rewrite Z.eqb_refl. cbn. rewrite app_nil_r.
  induction Hr as [|t l Ht Hl IH]; cbn; [done|].
  destruct (Z.eqb_spec t next); [lia|]. cbn. now rewrite IH.
Qed.

Lemma mounted_run srv n s fetch_all :
  quiet fetch_all -> view intervalID s = None ->
  exists s' n', run srv (mounted fetch_all) n s = (Done tt, s', n') /\
    let '(running, next) := view (at_app l_timers) s in
    view (at_app l_timers) s' = (running ++ [next], next + 1) /\
    view intervalID s' = Some next.
Proof.
  intros Hq Hid. destruct (Hq srv n s) as (s1 & n1 & E1 & H1).
  pose proof (f_equal fst H1) as Ht. pose proof (f_equal snd H1) as Hi. cbn [timer_state fst snd] in *.
  unfold mounted. rewrite run_jbind, E1.
  unfold start_polling. js_run. rewrite Hi, Hid. rewrite run_jbind. unfold setInterval. cbn [run].
  rewrite Ht. destruct (view (at_app l_timers) s) as [running next].
  do 2 eexists. split; [reflexivity|]. split; [now destruct s1|apply view_put].
Qed.

(** [mount] starts one timer, and [unmount], when it follows, stops this one. *)
Definition starts_and_stops (mount unmount : js W unit) : Prop :=
  forall srv n s, view intervalID s = None -> timers_ok s ->
  exists s1 n1 s2 n2,
    run srv mount n s = (Done tt, s1, n1) /\
    fst (view (at_app l_timers) s1) = fst (view (at_app l_timers) s) ++ [snd (view (at_app l_timers) s)] /\
    run srv unmount n1 s1 = (Done tt, s2, n2) /\
    fst (view (at_app l_timers) s2) = fst (view (at_app l_timers) s).

Lemma quiet_ret : quiet (jret tt).
Proof. intros srv n s. now exists s, n. Qed.

(** What is quiet may come after mounting and before stopping. *)
Lemma mount_unmount_run fetch_all after before :
  quiet fetch_all -> quiet after -> quiet before ->
  starts_and_stops (mounted fetch_all ;;; after) (before ;;; stop_polling).
Proof.
  intros Hq Ha Hb srv n s Hid Hok. unfold timers_ok in Hok.
  destruct (mounted_run srv n s fetch_all Hq Hid) as (s1 & n1 & E1 & H1).
  destruct (Ha srv n1 s1) as (s2 & n2 & E2 & H2). destruct (Hb srv n2 s2) as (s3 & n3 & E3 & H3).
  apply pair_equal_spec in H2 as [Ht2 Hi2], H3 as [Ht3 Hi3].
  destruct (view (at_app l_timers) s) as [running next] eqn:Et. destruct H1 as [Ht Hi].
  exists s2, n2. eexists _, n3. split; [now rewrite run_jbind, E1|]. split; [now rewrite Ht2, Ht|].
  split.
  - rewrite run_jbind, E3. unfold stop_polling. js_run. rewrite Hi3, Hi2, Hi. reflexivity.
  - unfold over. rewrite view_put, Ht3, Ht2, Ht. cbn in *. now apply clear_fresh.
Qed.

(** Nothing need come after mounting. *)
Lemma starts_alone mount unmount :
  starts_and_stops (mount ;;; jret tt) unmount -> starts_and_stops mount unmount.
Proof.
  intros H srv n s Hid Hok. destruct (H srv n s Hid Hok) as (s1 & n1 & s2 & n2 & E1 & H').
  rewrite run_jbind in E1. exists s1, n1, s2, n2. split; [|exact H'].
  destruct (run srv mount n s) as [[[[]|e] s'] n']; [exact E1|discriminate].
Qed.

(** ** Leaving the page while the first fetch is under way *)

Lemma spawn_free_mounted fetch_all : spawn_free fetch_all -> spawn_free (mounted fetch_all).
Proof.
  intros Hf. apply spawn_free_bind; [done|]. intros _ s. cbn.
  destruct (view _ _); cbn; [done|]. intros s'. destruct (view _ _). now cbn.
Qed.

(** The timer that is started afterwards is never cleared: every handler of the
    page has finished and one more timer runs. *)
Lemma unmount_leaks fetch_all s e k es :
  quiet fetch_all -> spawn_free fetch_all -> view intervalID s = None ->
  advance (mounted fetch_all) s = (s, Await e k, [], es) ->
  exists c, reachable (fun _ p => p = mounted fetch_all \/ p = stop_polling) s c /\
    Forall finished (threads c) /\
    fst (view (at_app l_timers) (store c)) =
      fst (view (at_app l_timers) s) ++ [snd (view (at_app l_timers) s)].
Proof.
  intros Hq Hsf Hid Hadv. set (srv := fun (_ : list event) (e : event) =>
    match e return reply e with EHttp r => NetworkError | ENavigate _ => tt end).
  set (h := fun (_ : W) p => p = mounted fetch_all \/ p = stop_polling).
  destruct (drive srv h _ (spawn_free_mounted _ Hsf) _ _ _ _ _ Hadv) as [_ Hd].
  destruct (Hd [Await e k; Ret tt] (es ++ []) 0%nat idle eq_refl) as (q & tr & Hr & Hfin).
  assert (Hstop : advance stop_polling s = (s, Ret tt, [], [])).
  { unfold stop_polling, read, reads, jbind. cbn [pbind advance]. now rewrite Hid. }
  eexists. split.
  { eapply rtc_l; [|eapply rtc_l; [|exact Hr]].
    - refine (step_start h s [] [] _ _ _ _ _ _ Hadv). now left.
    - refine (step_start h s _ _ stop_polling _ _ _ _ _ Hstop). now right. }
  split; [repeat constructor; exact Hfin|]. cbn [store].
  destruct (mounted_run srv idle s fetch_all Hq Hid) as (s1 & n1 & E1 & H1).
  rewrite E1. cbn [fst snd]. destruct (view (at_app l_timers) s) as [running next].
  destruct H1 as [-> _]. reflexivity.
Qed.
End Polling.
