(* ===== verification/Notifications.v ===== *)
(** * [common/utils.ts]: the notification queue

    At most [N_MAX_NOTIF] toasts are on the page; further ones wait in a queue
    that a 200 ms timer empties. A toast leaves the page when the plugin's
    duration has passed, at a moment the module does not control. *)

From S2P Require Import Prelude Json Http Async App.
From stdpp Require Import base tactics list gmap strings.

Definition N_MAX_NOTIF : nat := 6.

(** [document.querySelectorAll('.v-toast__item').length] *)
Definition countNotifications (t : toasts) : nat := length (on_page t).

(** [$toast.success(html)] or [$toast.error(html)]: the toast appears. *)
Definition show (x : toast) (t : toasts) : toasts :=
  MkToasts (on_page t ++ [x]) (enqueued t) (displayed t ++ [x]).

Definition enqueue (fn : toast) (t : toasts) : toasts :=
  if (length (enqueued t) =? 0)%nat && (countNotifications t <? N_MAX_NOTIF)%nat
  then show fn t
  else MkToasts (on_page t) (enqueued t ++ [fn]) (displayed t).

(** The callback of [setInterval]. *)
Definition tick (t : toasts) : toasts :=
  if (countNotifications t <? N_MAX_NOTIF)%nat then
    match enqueued t with
    | [] => t
    | event :: rest => show event (MkToasts (on_page t) rest (displayed t))
    end
  else t.

(** The plugin removes the [i]-th toast of the page. *)
Definition expire (i : nat) (t : toasts) : toasts :=
  MkToasts (delete i (on_page t)) (enqueued t) (displayed t).

Definition buildHTML (prefix : string) (msg : option string) : string :=
  let html := "<p>" +:+ prefix +:+ "</p>" in
  if truthy_str msg then html +:+ "<p>" +:+ default "" msg +:+ "</p>" else html.

Section Notify.
Context {S : Type} `{HasApp S}.

Definition notifySuccess (headline : string) (msg : option string) : js S unit :=
  update (at_app l_toasts) (enqueue (ToastSuccess (buildHTML headline msg))).
Definition notifyError (headline : string) (msg : option string) : js S unit :=
  update (at_app l_toasts) (enqueue (ToastError (buildHTML headline msg))).
End Notify.

(** ** The queue as a state machine *)

Inductive toast_op : Type :=
| ONotify (x : toast)
| OTick
| OExpire (i : nat).

Definition toast_step (t : toasts) (o : toast_op) : toasts :=
  match o with
  | ONotify x => enqueue x t
  | OTick => tick t
  | OExpire i => expire i t
  end.

Definition toast_run (ops : list toast_op) (t : toasts) : toasts := foldl toast_step t ops.

Definition no_toasts : toasts := MkToasts [] [] [].

(** The notifications a history of operations asks for. *)
Definition asked (ops : list toast_op) : list toast :=
  omap (fun o => match o with ONotify x => Some x | _ => None end) ops.

Lemma asked_app o1 o2 : asked (o1 ++ o2) = asked o1 ++ asked o2.
Proof. apply omap_app. Qed.

(** A page is well formed when it is not overfull and every toast on it has been
    displayed. *)
Definition toasts_ok (t : toasts) : Prop :=
  (length (on_page t) <= N_MAX_NOTIF)%nat /\ on_page t `sublist_of` displayed t.

Lemma toasts_ok_init : toasts_ok no_toasts.
Proof. split; cbn; [lia|constructor]. Qed.

Lemma show_ok x t : (length (on_page t) < N_MAX_NOTIF)%nat -> toasts_ok t -> toasts_ok (show x t).
Proof.
  intros Hlt [_ Hs]. split; cbn.
  - rewrite length_app. cbn. lia.
  - now apply sublist_app.
Qed.

Lemma enqueue_ok x t : toasts_ok t -> toasts_ok (enqueue x t).
Proof.
  intros Ht. unfold enqueue, countNotifications.
  destruct (_ && _) eqn:E; [|exact Ht].
  apply andb_prop in E as [_ E]. apply Nat.ltb_lt in E. now apply show_ok.
Qed.

Lemma tick_ok t : toasts_ok t -> toasts_ok (tick t).
Proof.
  intros Ht. unfold tick, countNotifications. destruct (_ <? _)%nat eqn:E; [|done].
  apply Nat.ltb_lt in E. destruct (enqueued t) as [|x rest]; [done|].
  apply show_ok; [exact E|]. exact Ht.
Qed.

Lemma expire_ok i t : toasts_ok t -> toasts_ok (expire i t).
Proof.
  intros [Hl Hs]. assert (delete i (on_page t) `sublist_of` on_page t) as Hd
    by apply sublist_delete.
  split; cbn.
  - apply sublist_length in Hd. lia.
  - now trans (on_page t).
Qed.

#[export] Hint Resolve toasts_ok_init enqueue_ok tick_ok expire_ok : core.

Lemma toast_step_ok o t : toasts_ok t -> toasts_ok (toast_step t o).
Proof. destruct o; cbn; auto. Qed.

Lemma toast_run_ok ops t : toasts_ok t -> toasts_ok (toast_run ops t).
Proof.
  revert t. induction ops as [|o ops IH]; intros t Ht; [done|].
  apply (IH (toast_step t o)). now apply toast_step_ok.
Qed.

(** What is displayed and what still waits, in order. *)
Definition history (t : toasts) : list toast := displayed t ++ enqueued t.

Lemma toast_step_history o t :
  history (toast_step t o) = history t ++ asked [o].
Proof.
  destruct o as [x| |i]; unfold history; cbn.
  - unfold enqueue. destruct (_ && _) eqn:E; cbn.
    + apply andb_prop in E as [E _]. apply Nat.eqb_eq, nil_length_inv in E.
      rewrite E. now rewrite !app_nil_r.
    + now rewrite app_assoc.
  - unfold tick. destruct (_ <? _)%nat; cbn; [|now rewrite app_nil_r].
    destruct (enqueued t) as [|y rest] eqn:E; cbn; rewrite ?E, !app_nil_r; [done|].
    now rewrite <- app_assoc.
  - now rewrite app_nil_r.
Qed.

Lemma toast_run_history ops t : history (toast_run ops t) = history t ++ asked ops.
Proof.
  revert t. induction ops as [|o ops IH]; intros t; cbn; [now rewrite app_nil_r|].
  fold (toast_run ops (toast_step t o)). rewrite IH, toast_step_history.
  rewrite <- app_assoc. f_equal. unfold asked. cbn. now destruct o.
Qed.

(** C11: whatever the order of notifications, timer ticks and expiries, the page
    never holds more than [N_MAX_NOTIF] toasts, and the toasts displayed so far
    followed by those still queued are exactly the notifications asked for, in
    order: none is lost, duplicated or overtaken. *)
Theorem notifications_bounded_fifo ops :
  let t := toast_run ops no_toasts in
  (length (on_page t) <= N_MAX_NOTIF)%nat /\ displayed t ++ enqueued t = asked ops.
Proof.
  cbn. split; [apply (toast_run_ok ops no_toasts), toasts_ok_init|].
  apply (toast_run_history ops no_toasts).
Qed.

(** One round: the oldest toast of the page expires, then the timer fires. *)
Definition round : list toast_op := [OExpire 0; OTick].

Lemma round_progress t x rest :
  toasts_ok t -> enqueued t = x :: rest ->
  enqueued (toast_run round t) = rest /\ toasts_ok (toast_run round t).
Proof.
  intros [Hl Hs] Hq. split; [|now apply toast_run_ok].
  assert (Hc : (countNotifications (expire 0 t) < N_MAX_NOTIF)%nat).
  { unfold countNotifications, N_MAX_NOTIF in *. cbn. destruct (on_page t); cbn in *; lia. }
  change (toast_run round t) with (tick (expire 0 t)). unfold tick.
  apply Nat.ltb_lt in Hc. rewrite Hc. cbn. now rewrite Hq.
Qed.

Lemma toast_run_app o1 o2 t : toast_run (o1 ++ o2) t = toast_run o2 (toast_run o1 t).
Proof. apply foldl_app. Qed.

Lemma drain_rounds n t :
  toasts_ok t -> length (enqueued t) = n ->
  enqueued (toast_run (mjoin (replicate n round)) t) = [].
Proof.
  revert t. induction n as [|n IH]; intros t Ht Hn.
  - now apply nil_length_inv.
  - destruct (enqueued t) as [|x rest] eqn:Hq; [discriminate|].
    change (mjoin (replicate (S n) round)) with (round ++ mjoin (replicate n round)).
    rewrite toast_run_app.
    destruct (round_progress t x rest Ht Hq) as [Hr Hok]. apply IH; [done|].
    rewrite Hr. cbn in Hn. congruence.
Qed.

(** C12: a queued notification is not starved: from every reachable page, if a
    toast expires before each tick of the timer, after as many ticks as there
    are queued notifications the queue is empty and all of them have been
    displayed. *)
Theorem notifications_drain ops :
  let t := toast_run ops no_toasts in
  let t' := toast_run (mjoin (replicate (length (enqueued t)) round)) t in
  enqueued t' = [] /\ displayed t' = asked ops.
Proof.
  cbn. set (t := toast_run ops no_toasts).
  assert (Ht : toasts_ok t) by apply toast_run_ok, toasts_ok_init.
  assert (Hq : enqueued (toast_run (mjoin (replicate (length (enqueued t)) round)) t) = [])
    by now apply drain_rounds.
  split; [exact Hq|].
  pose proof (toast_run_history (mjoin (replicate (length (enqueued t)) round)) t) as Hh.
  unfold history in Hh at 1. rewrite Hq, app_nil_r in Hh. rewrite Hh.
  assert (asked (mjoin (replicate (length (enqueued t)) round)) = []) as ->.
  { generalize (length (enqueued t)). intros n. induction n as [|n IH]; [done|].
    change (mjoin (replicate (S n) round)) with (round ++ mjoin (replicate n round)).
    now rewrite asked_app, IH. }
  rewrite app_nil_r. apply (toast_run_history ops no_toasts).
Qed.
