(* ===== verification/Jwt.v ===== *)
(** * Access tokens: [parseJWT] and [updatePermissions]

    [HomeView.vue] and [common/utils.ts] read the payload of the access token
    with [JSON.parse(atob(token.split('.')[1]))]. The file models [split] and
    [atob]; the JSON parser is a parameter that returns the claims the frontend
    reads. [atob] gives a character for each byte, so that only ASCII texts are read
    as they were encoded. *)

From S2P Require Import Prelude Json Http Async App Utils Fetch.
From Stdlib Require Import Ascii.
From stdpp Require Import base tactics list gmap strings numbers.
#[local] Open Scope Z_scope.
#[local] Arguments String.append !_ _ /.

(** ** [String.prototype.split] with a one-character separator *)

Fixpoint js_split (sep : ascii) (s : string) : list string :=
  match s with
  | EmptyString => [""]
  | String c s =>
      if Ascii.eqb c sep then "" :: js_split sep s
      else match js_split sep s with
           | w :: ws => String c w :: ws
           | [] => [String c ""]
           end
  end.

Lemma js_split_nonempty sep s : js_split sep s <> [].
Proof.
  induction s as [|c s IH]; cbn; [done|]. destruct (Ascii.eqb c sep); [done|].
  now destruct (js_split sep s).
Qed.

Lemma js_split_free sep s : str_has sep s = false -> js_split sep s = [s].
Proof.
  induction s as [|c s IH]; cbn; [done|]. intros Hs. apply orb_false_elim in Hs as [Hc Hs].
  rewrite Ascii.eqb_sym, Hc. now rewrite IH.
Qed.

Lemma js_split_cons sep s t :
  str_has sep s = false -> js_split sep (s +:+ String sep t) = s :: js_split sep t.
Proof.
  induction s as [|c s IH]; intros Hs.
  - cbn. now rewrite Ascii.eqb_refl.
  - cbn [str_has] in Hs. apply orb_false_elim in Hs as [Hc Hs]. cbn.
    rewrite Ascii.eqb_sym, Hc. now rewrite IH.
Qed.

(** A text is its pieces joined by the separator. *)
Lemma js_split_join sep s : js_join (String sep "") (js_split sep s) = s.
Proof.
  induction s as [|c s IH]; cbn; [done|].
  pose proof (js_split_nonempty sep s) as Hne.
  destruct (Ascii.eqb c sep) eqn:E.
  - apply Ascii.eqb_eq in E as ->. destruct (js_split sep s) as [|w ws]; [done|].
    cbn. now rewrite <- IH.
  - destruct (js_split sep s) as [|w ws]; [done|]. destruct ws; cbn in *; now rewrite <- IH.
Qed.

(** No piece contains the separator. *)
Lemma js_split_pieces sep s : Forall (fun w => str_has sep w = false) (js_split sep s).
Proof.
  induction s as [|c s IH]; cbn; [repeat constructor|].
  destruct (Ascii.eqb c sep) eqn:E; [now constructor|].
  destruct (js_split sep s) as [|w ws]; inversion IH; subst; constructor; auto;
    cbn [str_has]; rewrite Ascii.eqb_sym, E; auto.
Qed.

Lemma js_split_two sep s :
  length (js_split sep s) = 2%nat <->
  exists a b, s = a +:+ String sep b /\ str_has sep a = false /\ str_has sep b = false.
Proof.
  split.
  - intros Hl. pose proof (js_split_join sep s) as Hj. pose proof (js_split_pieces sep s) as Hp.
    destruct (js_split sep s) as [|a [|b [|]]]; try discriminate.
    inversion Hp as [|? ? Ha Hp']; subst. inversion Hp' as [|? ? Hb]; subst.
    exists a, b. auto.
  - intros (a & b & -> & Ha & Hb). rewrite js_split_cons by done. now rewrite js_split_free.
Qed.

(** ** [atob]: forgiving base64 decoding *)

Definition base64_value (c : ascii) : option Z :=
  let n := Z.of_nat (nat_of_ascii c) in
  if (65 <=? n) && (n <=? 90) then Some (n - 65)           (* A-Z *)
  else if (97 <=? n) && (n <=? 122) then Some (n - 71)     (* a-z *)
  else if (48 <=? n) && (n <=? 57) then Some (n + 4)       (* 0-9 *)
  else if n =? 43 then Some 62                             (* + *)
  else if n =? 47 then Some 63                             (* / *)
  else None.

Definition is_base64_space (c : ascii) : bool :=
  existsb (Nat.eqb (nat_of_ascii c)) [9; 10; 12; 13; 32]%nat.

Definition equals_sign : ascii := ascii_of_nat 61.

(** With a length divisible by four, one or two final [=] are padding. *)
Definition strip_padding (l : list ascii) : list ascii :=
  if (length l mod 4 =? 0)%nat then
    match rev l with
    | a :: b :: r =>
        if Ascii.eqb a equals_sign then
          if Ascii.eqb b equals_sign then rev r else rev (b :: r)
        else l
    | _ => l
    end
  else l.

Definition byte_of (z : Z) : ascii := ascii_of_nat (Z.to_nat (z mod 256)).

(** Groups of four sextets give three bytes; the bits left over at the end are
    dropped. A single sextet at the end is an error. *)
Fixpoint decode_sextets (l : list Z) : option (list ascii) :=
  match l with
  | a :: b :: c :: d :: l =>
      let w := Z.lor (Z.shiftl a 18) (Z.lor (Z.shiftl b 12) (Z.lor (Z.shiftl c 6) d)) in
      r ← decode_sextets l;
      Some (byte_of (Z.shiftr w 16) :: byte_of (Z.shiftr w 8) :: byte_of w :: r)
  | [a; b; c] =>
      let w := Z.lor (Z.shiftl a 12) (Z.lor (Z.shiftl b 6) c) in
      Some [byte_of (Z.shiftr w 10); byte_of (Z.shiftr w 2)]
  | [a; b] => Some [byte_of (Z.shiftr (Z.lor (Z.shiftl a 6) b) 4)]
  | [_] => None
  | [] => Some []
  end.

Definition code (c : ascii) : Z := Z.of_nat (nat_of_ascii c).

(** A character of ASCII; texts are UTF-8, where the others take several bytes. *)
Definition is_ascii (c : ascii) : bool := code c <? 128.

(** The character U+0000 to U+00FF whose number is the byte [c]. *)
Definition latin1_char (c : ascii) : list ascii :=
  if is_ascii c then [c]
  else [byte_of (192 + Z.shiftr (code c) 6); byte_of (128 + Z.land (code c) 63)].

(** The text with one character for each byte. *)
Definition binary_string (bytes : list ascii) : string :=
  String.string_of_list_ascii (flat_map latin1_char bytes).

(** The result is a binary string: the bytes are not decoded as UTF-8. *)
Definition atob (s : string) : option string :=
  let l := filter (fun c => is_base64_space c = false) (String.list_ascii_of_string s) in
  sextets ← mapM base64_value (strip_padding l);
  bytes ← decode_sextets sextets;
  Some (binary_string bytes).

(** ** Claims *)

(** What the frontend reads of a token; a field that is missing is [None]. *)
Record Claims : Type := MkClaims {
  claim_sub : option string;
  claim_preferred_username : option string;
  claim_realm_roles : option (list string);   (* [realm_access.roles] *)
}.

Class JsonParser : Type := JSON_parse : string -> option Claims.

#[local] Arguments String.append : simpl never.

Section Token.
Context `{JsonParser}.

(** [InvalidCharacterError] of [atob] and [SyntaxError] of [JSON.parse]. *)
Definition invalid_character : exn := JsError "InvalidCharacterError".

Definition parseJWT (token : string) : outcome Claims :=
  match atob (default "undefined" (js_split "." token !! 1%nat)) with
  | None => Raised invalid_character
  | Some binaryString =>
      match JSON_parse binaryString with
      | None => Raised SyntaxError
      | Some c => Done c
      end
  end.

Context `{BuildEnv} {S : Type} `{HasApp S}.

Definition jlift {A} (o : outcome A) : js S A :=
  match o with Done a => jret a | Raised e => jthrow e end.

(** [accessToken!] is not checked: without a token [split] is read of [null]. *)
Definition stored_claims : js S Claims :=
  let* accessToken := ask token in
  match accessToken with
  | None => jthrow TypeError
  | Some t => jlift (parseJWT t)
  end.

(** The user's own permissions among those of the answer. *)
Definition own_permissions (parsedToken : Claims) (l : list Permission) : list Permission :=
  js_filter (fun p => bool_decide (Some (perm_user_id p) = claim_sub parsedToken)) l.

(** [response.data.filter(..)] raises when the request has failed. *)
Definition store_permissions (parsedToken : Claims) (response : fetched (list Permission)) :
    js S unit :=
  match f_data response with
  | None => jthrow TypeError
  | Some data => assign (at_app l_permissions) (own_permissions parsedToken data)
  end.

(** The promise of the request is not awaited. *)
Definition updatePermissions : js S unit :=
  let* parsedToken := stored_claims in
  detach (let* response := fetchGET DPermissions PERMISSIONS_ENDPOINT in
          store_permissions parsedToken response)
         (jret tt).

Definition claims_of (s : S) : outcome Claims :=
  match token s with None => Raised TypeError | Some t => parseJWT t end.

Definition permissions_event (h : Headers) : event :=
  EHttp (Request DPermissions PERMISSIONS_ENDPOINT "GET" h None).

(** The call raises when the token cannot be read; otherwise it sends the
    request and leaves the handling of the answer pending. *)
Lemma updatePermissions_run (srv : server) n s :
  run srv updatePermissions n s =
  match claims_of s with
  | Raised e => (Raised e, s, n)
  | Done c =>
      match authorized (token s) ∅ with
      | None => (Done tt, s, n)
      | Some h =>
          let rq := permissions_event h in
          (Done tt, s,
           Net (sent n ++ [rq])
               (pending n ++ [store_permissions c
                  (report (D := list Permission) (srv (sent n) rq))]))
      end
  end.
Proof.
  unfold updatePermissions, stored_claims, claims_of, jbind.
  rewrite run_bind, run_bind. cbn.
  destruct (token s) as [t|] eqn:Ht; cbn; [|reflexivity].
  destruct (parseJWT t) as [c|e]; cbn; [|reflexivity].
  unfold authorized, token, headers_obj_set in *. rewrite Ht.
  change (truthy_str (Some t)) with (negb (String.eqb t "")).
  destruct (String.eqb t "") eqn:Et; cbn; rewrite ?Ht; cbn; rewrite ?Et; cbn.
  - destruct (srv _ _) as [|st [data|]]; cbn; try reflexivity;
      destruct (response_ok st); reflexivity.
  - destruct (headers_set _ _ _) as [h|]; cbn; [|reflexivity].
    destruct (srv _ _) as [|st [data|]]; cbn; try reflexivity;
      destruct (response_ok st); reflexivity.
Qed.

(** The same for weakest preconditions: the callback must keep [I]. *)
Lemma updatePermissions_wp G R (I : S -> Prop) Q X s :
  (forall c h, claims_of s = Done c -> authorized (token s) ∅ = Some h ->
     G (permissions_event h) s) ->
  (forall c r s', I s' -> wp G R I (store_permissions c r) (fun _ => I) (fun _ => I) s') ->
  Q tt s -> (forall e, X e s) ->
  wp G R I updatePermissions Q X s.
Proof.
  intros HG Hcb HQ HX.
  unfold updatePermissions, stored_claims, claims_of in *. js_wp.
  destruct (token s) as [t|] eqn:Ht; js_wp; [|apply HX].
  destruct (parseJWT t) as [c|e]; cbn [jlift]; js_wp; [|apply HX].
  specialize (HG c). specialize (Hcb c).
  assert (HG' : forall h, authorized (Some t) ∅ = Some h -> G (permissions_event h) s) by auto.
  clear HG. revert HG'.
  unfold authorized, token, headers_obj_set in *.
  change (truthy_str (Some t)) with (negb (String.eqb t "")).
  destruct (String.eqb t "") eqn:Et; cbn; rewrite ?Ht; cbn; rewrite ?Et; cbn; intros HG'.
  - split; [now apply HG'|]. split; [|done]. intros r s' Hs'.
    destruct r as [|st [data|]]; cbn; try destruct (response_ok st); cbn;
      first [now apply (Hcb (fetch_failed None))
            |now apply (Hcb (MkFetched true None (Some data)))].
  - destruct (headers_set _ _ _) as [h|]; cbn; [|done].
    split; [now apply HG'|]. split; [|done]. intros r s' Hs'.
    destruct r as [|st [data|]]; cbn; try destruct (response_ok st); cbn;
      first [now apply (Hcb (fetch_failed None))
            |now apply (Hcb (MkFetched true None (Some data)))].
Qed.
End Token.

(** ** Decoding inverts encoding *)

(** The base64 alphabet: the character of a sextet. *)
Definition base64_char (z : Z) : ascii :=
  let c n := ascii_of_nat (Z.to_nat n) in
  if z <? 26 then c (z + 65)
  else if z <? 52 then c (z + 71)
  else if z <? 62 then c (z - 4)
  else if z =? 62 then c 43 else c 47.

(** Reference encoder without padding, as tokens are encoded. *)
Fixpoint encode_bytes (l : list ascii) : list Z :=
  match l with
  | a :: b :: c :: l =>
      code a / 4 :: (code a mod 4) * 16 + code b / 16 ::
      (code b mod 16) * 4 + code c / 64 :: code c mod 64 :: encode_bytes l
  | [a; b] => [code a / 4; (code a mod 4) * 16 + code b / 16; (code b mod 16) * 4]
  | [a] => [code a / 4; (code a mod 4) * 16]
  | [] => []
  end.

Definition base64_encode (s : string) : string :=
  String.string_of_list_ascii (map base64_char (encode_bytes (String.list_ascii_of_string s))).

Lemma code_range c : 0 <= code c < 256.
Proof. unfold code. pose proof (nat_ascii_bounded c). lia. Qed.

Lemma byte_of_code c z : z mod 256 = code c -> byte_of z = c.
Proof.
  intros Hz. unfold byte_of. rewrite Hz. unfold code. rewrite Nat2Z.id.
  apply ascii_nat_embedding.
Qed.

Lemma byte_of_mod x y : x mod 256 = y mod 256 -> byte_of x = byte_of y.
Proof. unfold byte_of. now intros ->. Qed.

Lemma cons_eq {A} (x y : A) l m : x = y -> l = m -> x :: l = y :: m.
Proof. congruence. Qed.

(** Three whole bytes. *)
Lemma decode_group a b c d l :
  0 <= a < 64 -> 0 <= b < 64 -> 0 <= c < 64 -> 0 <= d < 64 ->
  decode_sextets (a :: b :: c :: d :: l) =
    r ← decode_sextets l;
    Some (byte_of (a * 4 + b / 16) :: byte_of (b * 16 + c / 4) :: byte_of (c * 64 + d) :: r).
Proof.
  intros Ha Hb Hc Hd. cbn [decode_sextets].
  rewrite (lor_shiftl_add c), (lor_shiftl_add b), (lor_shiftl_add a) by lia.
  rewrite !Z.shiftr_div_pow2 by lia.
  destruct (decode_sextets l); [|reflexivity]. cbn [mbind option_bind].
  f_equal. repeat (apply cons_eq; [apply byte_of_mod; euclid|]).
  reflexivity.
Qed.

Lemma decode_encode l : decode_sextets (encode_bytes l) = Some l.
Proof.
  remember (length l) as n eqn:Hn. revert l Hn.
  induction n as [n IH] using lt_wf_ind. intros l Hn.
  destruct l as [|a [|b [|c l]]]; [done| | |].
  - cbn. pose proof (code_range a). rewrite lor_shiftl_add, Z.shiftr_div_pow2 by euclid.
    f_equal. apply cons_eq; [|done]. apply byte_of_code. euclid.
  - cbn [encode_bytes decode_sextets]. pose proof (code_range a). pose proof (code_range b).
    rewrite (lor_shiftl_add (_ + _)), lor_shiftl_add, !Z.shiftr_div_pow2
      by euclid.
    f_equal. repeat (apply cons_eq; [apply byte_of_code;
      euclid|]). done.
  - pose proof (code_range a). pose proof (code_range b). pose proof (code_range c).
    cbn [encode_bytes]. rewrite decode_group by euclid.
    rewrite (IH (length l)) by (cbn in Hn; lia || done). cbn.
    f_equal. repeat (apply cons_eq; [apply byte_of_code;
      euclid|]). done.
Qed.

(** The sextets, for checks by computation. *)
Definition sextets : list Z := map Z.of_nat (seq 0 64).

Lemma sextets_complete z : 0 <= z < 64 -> In z sextets.
Proof.
  intros Hz. apply in_map_iff. exists (Z.to_nat z). split; [lia|]. apply in_seq. lia.
Qed.

Definition alphabet_ok (z : Z) : bool :=
  bool_decide (base64_value (base64_char z) = Some z) &&
  negb (is_base64_space (base64_char z)) &&
  negb (Ascii.eqb (base64_char z) equals_sign) &&
  negb (Ascii.eqb (base64_char z) ".").

Lemma alphabet_all_ok : forallb alphabet_ok sextets = true.
Proof. vm_compute. reflexivity. Qed.

Lemma base64_char_spec z :
  0 <= z < 64 ->
  base64_value (base64_char z) = Some z /\ is_base64_space (base64_char z) = false /\
  Ascii.eqb (base64_char z) equals_sign = false /\ Ascii.eqb (base64_char z) "." = false.
Proof.
  intros Hz. pose proof alphabet_all_ok as H. rewrite forallb_forall in H.
  specialize (H z (sextets_complete z Hz)). unfold alphabet_ok in H. reflect_bools. auto.
Qed.

Lemma encode_bytes_range l : Forall (fun z => 0 <= z < 64) (encode_bytes l).
Proof.
  remember (length l) as n eqn:Hn. revert l Hn.
  induction n as [n IH] using lt_wf_ind. intros [|a [|b [|c l]]] Hn; cbn [encode_bytes].
  - constructor.
  - pose proof (code_range a). repeat constructor; euclid.
  - pose proof (code_range a). pose proof (code_range b). repeat constructor; euclid.
  - pose proof (code_range a). pose proof (code_range b). pose proof (code_range c).
    do 4 (apply Forall_cons_2; [euclid|]). apply (IH (length l)); cbn in Hn; lia.
Qed.

Lemma strip_padding_free l :
  Forall (fun c => Ascii.eqb c equals_sign = false) l -> strip_padding l = l.
Proof.
  intros Hl. unfold strip_padding. destruct (_ =? _)%nat; [|done].
  apply List.Forall_rev in Hl. destruct (rev l) as [|a [|b r]]; try done.
  inversion Hl as [|? ? Ha]; subst. now rewrite Ha.
Qed.

Section Sextets.
Context (zs : list Z) (Hzs : Forall (fun z => 0 <= z < 64) zs).

Lemma mapM_alphabet : mapM base64_value (map base64_char zs) = Some zs.
Proof.
  induction Hzs as [|z zs' Hz Hzs' IH]; cbn; [done|].
  destruct (base64_char_spec z Hz) as [-> _]. cbn. now rewrite (IH Hzs').
Qed.

Lemma filter_alphabet :
  filter (fun c => is_base64_space c = false) (map base64_char zs) = map base64_char zs.
Proof.
  induction Hzs as [|z zs' Hz Hzs' IH]; cbn [map]; [done|].
  destruct (base64_char_spec z Hz) as (_ & Hs & _).
  rewrite filter_cons_True by done. now rewrite (IH Hzs').
Qed.

Lemma alphabet_no_padding :
  Forall (fun c => Ascii.eqb c equals_sign = false) (map base64_char zs).
Proof.
  induction Hzs as [|z zs' Hz Hzs' IH]; cbn; constructor; auto.
  now destruct (base64_char_spec z Hz) as (_ & _ & ? & _).
Qed.

Lemma alphabet_no_dot : str_has "." (String.string_of_list_ascii (map base64_char zs)) = false.
Proof.
  induction Hzs as [|z zs' Hz Hzs' IH]; cbn [map String.string_of_list_ascii str_has]; [done|].
  destruct (base64_char_spec z Hz) as (_ & _ & _ & Hd).
  rewrite Ascii.eqb_sym, Hd. now apply IH.
Qed.
End Sextets.

Lemma atob_encode s : atob (base64_encode s) = Some (binary_string (String.list_ascii_of_string s)).
Proof.
  unfold atob, base64_encode. rewrite String.list_ascii_of_string_of_list_ascii.
  pose proof (encode_bytes_range (String.list_ascii_of_string s)) as Hr.
  rewrite filter_alphabet, strip_padding_free, mapM_alphabet by auto using alphabet_no_padding.
  cbn [mbind option_bind]. now rewrite decode_encode.
Qed.

(** Reading a text byte by byte makes it longer unless it is ASCII. *)
Lemma latin1_length l :
  (length l <= length (flat_map latin1_char l))%nat /\
  (length (flat_map latin1_char l) = length l -> Forall (fun c => is_ascii c = true) l).
Proof.
  induction l as [|c l [IH IHe]]; [now split; [cbn|constructor]|]. cbn [flat_map]. rewrite length_app.
  assert (Hc : length (latin1_char c) = if is_ascii c then 1%nat else 2%nat)
    by (unfold latin1_char; now destruct (is_ascii c)).
  rewrite Hc. destruct (is_ascii c) eqn:Ec; cbn [length]; (split; [lia|]); [|lia].
  intros Hl. constructor; [done|]. apply IHe. lia.
Qed.

Lemma binary_string_ascii text :
  binary_string (String.list_ascii_of_string text) = text <->
  Forall (fun c => is_ascii c = true) (String.list_ascii_of_string text).
Proof.
  unfold binary_string. split.
  - intros Ht. apply latin1_length. apply (f_equal String.list_ascii_of_string) in Ht.
    rewrite String.list_ascii_of_string_of_list_ascii in Ht. now rewrite Ht.
  - intros Hl. etransitivity; [|apply String.string_of_list_ascii_of_string]. f_equal.
    induction Hl as [|c l Hc Hl IH]; cbn [flat_map]; [done|]. unfold latin1_char at 1. now rewrite Hc, IH.
Qed.

Lemma js_split_second (sep : ascii) h p r :
  str_has sep h = false -> str_has sep p = false ->
  js_split sep (h +:+ String sep (p +:+ String sep r)) !! 1%nat = Some p.
Proof. intros Hh Hp. now rewrite !js_split_cons by done. Qed.

(** A character outside of the alphabet, padding and white space makes [atob]
    raise. *)
Lemma atob_bad_char s c :
  str_has c s = true -> base64_value c = None -> is_base64_space c = false ->
  c <> equals_sign -> atob s = None.
Proof.
  intros Hs Hv Hsp Hne. unfold atob.
  set (l := filter _ _).
  assert (Hin : c ∈ l).
  { apply list_elem_of_filter. split; [done|]. clear -Hs.
    induction s as [|d s IH]; cbn [str_has] in Hs; [done|].
    apply orb_prop in Hs as [Hs|Hs]; cbn.
    - apply Ascii.eqb_eq in Hs as ->. left.
    - right. auto. }
  assert (Hin' : c ∈ strip_padding l).
  { unfold strip_padding. destruct (_ =? _)%nat; [|done].
    assert (Hrev : c ∈ rev l) by (rewrite list_elem_of_In, <- in_rev, <- list_elem_of_In; done).
    destruct (rev l) as [|a [|b r]]; try done.
    destruct (Ascii.eqb a equals_sign) eqn:Ea; [|done]. apply Ascii.eqb_eq in Ea as ->.
    apply elem_of_cons in Hrev as [->|Hrev]; [done|].
    destruct (Ascii.eqb b equals_sign) eqn:Eb;
      rewrite list_elem_of_In, <- in_rev, <- list_elem_of_In; [|done].
    apply Ascii.eqb_eq in Eb as ->. now apply elem_of_cons in Hrev as [->|Hrev]. }
  assert (mapM base64_value (strip_padding l) = None) as ->; [|done].
  clear -Hin' Hv. induction (strip_padding l) as [|d m IH]; [now apply elem_of_nil in Hin'|].
  cbn. apply elem_of_cons in Hin' as [<-|Hin']; [now rewrite Hv|].
  rewrite IH by done. now destruct (base64_value d).
Qed.

#[local] Arguments atob : simpl never.
#[local] Arguments base64_encode : simpl never.

(** C13: [parseJWT] parses the text that was encoded as the second segment of the
    token with each of its bytes taken for a character. This is the text itself
    exactly when the text is ASCII; any other text, as one with a name in it that has
    other letters, is not read back. *)
Theorem parseJWT_roundtrip `{JsonParser} header text signature :
  str_has "." header = false ->
  let read := binary_string (String.list_ascii_of_string text) in
  parseJWT (header +:+ "." +:+ base64_encode text +:+ "." +:+ signature) =
    match JSON_parse read with Some c => Done c | None => Raised SyntaxError end /\
  (read = text <-> Forall (fun c => is_ascii c = true) (String.list_ascii_of_string text)).
Proof.
  intros Hh read. split; [|apply binary_string_ascii]. unfold parseJWT.
  assert (Hp : str_has "." (base64_encode text) = false)
    by apply alphabet_no_dot, encode_bytes_range.
  pose proof (js_split_second "." header (base64_encode text) signature Hh Hp) as Hs.
  change ("." +:+ base64_encode text +:+ "." +:+ signature)
    with (String "." (base64_encode text +:+ String "." signature)).
  rewrite Hs. cbn [default id]. unfold default, id. now rewrite atob_encode.
Qed.

(** C14: a token whose payload uses the URL-safe alphabet of RFC 7515 ([-] or
    [_]) is not read: [atob] raises [InvalidCharacterError]. *)
Theorem parseJWT_url_alphabet `{JsonParser} header payload signature :
  str_has "." header = false -> str_has "." payload = false ->
  str_has "-" payload || str_has "_" payload = true ->
  parseJWT (header +:+ "." +:+ payload +:+ "." +:+ signature) = Raised invalid_character.
Proof.
  intros Hh Hp Hu. unfold parseJWT.
  change ("." +:+ payload +:+ "." +:+ signature)
    with (String "." (payload +:+ String "." signature)).
  rewrite js_split_second by done. cbn.
  enough (atob payload = None) as -> by done.
  apply orb_prop in Hu as [Hu|Hu]; eapply atob_bad_char; eauto; done.
Qed.

(** A parser that takes the text for the subject. *)
Definition subject_parser : JsonParser := fun t => Some (MkClaims (Some t) None None).

(** A token for [abcd], and one for the letter U+00E9, which is read as two. *)
Lemma parseJWT_roundtrip_witness :
  @parseJWT subject_parser ("e30" +:+ "." +:+ base64_encode "abcd" +:+ "." +:+ "c2ln") =
    Done (MkClaims (Some "abcd") None None) /\
  @parseJWT subject_parser ("e30" +:+ "." +:+ base64_encode "é" +:+ "." +:+ "c2ln") =
    Done (MkClaims (Some "Ã©") None None).
Proof.
  split; [exact (proj1 (@parseJWT_roundtrip subject_parser "e30" "abcd" "c2ln" eq_refl))|].
  exact (proj1 (@parseJWT_roundtrip subject_parser "e30" "é" "c2ln" eq_refl)).
Defined.

Lemma parseJWT_url_alphabet_witness :
  @parseJWT subject_parser ("e30" +:+ "." +:+ "eyJhIjoiP_4ifQ" +:+ "." +:+ "c2ln") =
  Raised invalid_character.
Proof.
  exact (@parseJWT_url_alphabet subject_parser "e30" "eyJhIjoiP_4ifQ" "c2ln"
           eq_refl eq_refl eq_refl).
Defined.
