(* ===== verification/Preserves.v ===== *)
(** * Invariants of a page

    A process preserves an invariant [I] of the state when, started where [I]
    holds, it leaves [I] at every await and at its end, and sends only requests
    that [P] admits. The file gives the rules for the operations that all pages
    share, for invariants that do not depend on the browser ([Stable]); the rules
    for the handlers of a page are in the file of the page. *)

From S2P Require Import Prelude Json Http Async App Html Utils Fetch Polling Notifications Jwt.
From stdpp Require Import base tactics list gmap strings.
#[local] Open Scope Z_scope.

Section Preserves.
Context {S : Type} (I : S -> Prop) (P : event -> Prop).

Definition preserves {A} (p : js S A) : Prop := forall s, I s -> keeps I P p s.

Lemma preserves_bind {A B} (p : js S A) (f : A -> js S B) :
  preserves p -> (forall a, preserves (f a)) -> preserves (jbind p f).
Proof.
  intros Hp Hf s Hs. apply wp_jbind. eapply wp_mono; [| |apply Hp, Hs]; [|done].
  intros a s' Hs'. now apply Hf.
Qed.

Lemma preserves_ret {A} (a : A) : preserves (jret a).
Proof. now intros s Hs. Qed.
Lemma preserves_throw {A} e : preserves (jthrow (A := A) e).
Proof. now intros s Hs. Qed.
Lemma preserves_read {T} (l : lens S T) : preserves (read l).
Proof. now intros s Hs. Qed.
Lemma preserves_ask {A} (f : S -> A) : preserves (ask f).
Proof. now intros s Hs. Qed.
Lemma preserves_assign {T} (l : lens S T) t : (forall s, I s -> I (put l t s)) -> preserves (assign l t).
Proof. intros Hl s Hs. now apply Hl. Qed.
Lemma preserves_update {T} (l : lens S T) f :
  (forall s, I s -> I (over l f s)) -> preserves (update l f).
Proof. intros Hl s Hs. now apply Hl. Qed.
Lemma preserves_detach (p k : js S unit) : preserves p -> preserves k -> preserves (detach p k).
Proof. intros Hp Hk s Hs. apply keeps_detach; auto. Qed.
Lemma preserves_finally {A} (p : js S A) f : preserves p -> preserves f -> preserves (finally p f).
Proof.
  intros Hp Hf s Hs. unfold keeps. rewrite wp_finally.
  eapply wp_mono; [| |apply Hp, Hs]; cbn; intros; now apply Hf.
Qed.
Lemma preserves_navigate name : P (ENavigate name) -> preserves (navigate name).
Proof. intros HP s Hs. now split. Qed.
Lemma preserves_dispatch {H} (perform : H -> js S unit) hs :
  Forall (fun h => preserves (perform h)) hs -> preserves (dispatch perform hs).
Proof. intros Hhs s Hs. now apply keeps_dispatch. Qed.
End Preserves.

(** Processes of a page, with a component mounted in it. *)
Lemma preserves_zoom {S T A} (l : lens S T) I P (p : js T A) :
  preserves I P p -> preserves (fun s => I (view l s)) P (zoom l p).
Proof. intros Hp s Hs. apply (keeps_zoom l). now apply Hp. Qed.

(** ** Operations of the modules *)

(** The invariant does not depend on the browser, and of the notifications only on
    what their operations keep. *)
Class Stable {S : Type} `{HasApp S} (I : S -> Prop) : Prop := {
  stable_href u s : I s -> I (put (at_app l_href) u s);
  stable_opened u s : I s -> I (put (at_app l_opened) u s);
  stable_storage t s : I s -> I (put (at_app l_storage) t s);
  stable_timers t s : I s -> I (put (at_app l_timers) t s);
  stable_toasts f s : (forall t, toasts_ok t -> toasts_ok (f t)) -> I s -> I (over (at_app l_toasts) f s);
}.

Section Operations.
Context `{BuildEnv} {S : Type} `{HasApp S} (I : S -> Prop) `{!Stable I} (P : event -> Prop).

Lemma preserves_toasts f :
  (forall t, toasts_ok t -> toasts_ok (f t)) -> preserves I P (update (at_app l_toasts) f).
Proof. intros Hf. apply preserves_update. intros s. now apply stable_toasts. Qed.

Lemma preserves_notifySuccess headline msg : preserves I P (notifySuccess headline msg).
Proof. apply preserves_toasts. intros t. apply enqueue_ok. Qed.
Lemma preserves_notifyError headline msg : preserves I P (notifyError headline msg).
Proof. apply preserves_toasts. intros t. apply enqueue_ok. Qed.

Lemma preserves_storage f : preserves I P (update (at_app l_storage) f).
Proof. apply preserves_update. intros s. apply stable_storage. Qed.

Lemma preserves_window_open u : preserves I P (window_open u).
Proof. apply preserves_update. intros s. apply stable_opened. Qed.

Lemma preserves_setInterval : preserves I P setInterval.
Proof.
  intros s Hs. unfold setInterval, keeps. cbn. destruct (view (at_app l_timers) s) as [ts next]. cbn.
  now apply stable_timers.
Qed.

Lemma preserves_clearInterval id : preserves I P (clearInterval id).
Proof. apply preserves_update. intros s. apply stable_timers. Qed.

(** A request the page may send, with headers whose change does not matter. *)
Lemma preserves_fetchWrapper d url method (o : headers_obj S) b :
  (forall h s, I s -> I (store_headers o (token s) h s)) ->
  (forall h, P (EHttp (Request d url method h b))) ->
  preserves I P (fetchWrapper d url method o b).
Proof.
  intros Ho HP s Hs. apply fetchWrapper_wp. destruct (authorized _ _) as [h|]; [|done]. cbn zeta.
  split; [auto|]. split; [now apply Ho|auto].
Qed.

(** The same with headers of the call's own. *)
Lemma preserves_fetch_new d url method h0 b :
  (forall h, P (EHttp (Request d url method h b))) ->
  preserves I P (fetchWrapper d url method (HNew h0) b).
Proof. apply preserves_fetchWrapper. now intros h s Hs. Qed.

Lemma preserves_fetchResources (g : getter S) :
  (forall h, P (poll_request g h)) ->
  (forall r s, polling_ok r -> I s -> I (put (g_value g) r s)) ->
  preserves I P (fetchResources g).
Proof.
  intros HP Hput s Hs. apply fetchResources_wp.
  destruct (authorized _ _) as [h|]; [|now apply Hput].
  split; [auto|]. split; [done|]. intros r s' Hs'. unfold polled.
  destruct (f_success (report r)) eqn:E.
  - apply Hput; [|done]. apply report_data in E as [data ->]. apply polling_ok_fetched.
  - destruct (bool_decide _); [now apply stable_href|now apply Hput].
Qed.

Lemma preserves_updatePermissions `{JsonParser} :
  (forall h, P (permissions_event h)) ->
  (forall l s, I s -> I (put (at_app l_permissions) l s)) ->
  preserves I P updatePermissions.
Proof.
  intros HP Hput s Hs. apply updatePermissions_wp; auto.
  intros c r s' Hs'. unfold store_permissions. destruct (f_data r); js_wp; auto.
Qed.
End Operations.

(** ** The polling timer of a page *)

Section Timer.
Context {L : Type} (interval : lens L (option Z)) (I : world L -> Prop) `{!Stable I} (P : event -> Prop).
Hypothesis interval_free : forall v s, I s -> I (put (intervalID interval) v s).

Lemma preserves_mounted fetch_all : preserves I P fetch_all -> preserves I P (mounted interval fetch_all).
Proof using All.
  intros Hf. apply preserves_bind; [done|intros _].
  apply preserves_bind; [apply preserves_read|intros [id|]]; [apply preserves_ret|].
  apply preserves_bind; [now apply preserves_setInterval|intros t].
  apply preserves_assign. auto.
Qed.

Lemma preserves_stop_polling : preserves I P (stop_polling interval).
Proof using All.
  apply preserves_bind; [apply preserves_read|intros [id|]]; [now apply preserves_clearInterval|].
  apply preserves_ret.
Qed.
End Timer.

(** ** Invariants with a part for the page and one for the module state *)

Section Parts.
Context {L : Type} (Lok : L -> Prop) (Aok : App -> Prop).

Definition parts_ok (s : world L) : Prop := Lok (snd s) /\ Aok (fst s).

Lemma parts_app {T} (l : lens App T) t s :
  Aok (put l t (fst s)) -> parts_ok s -> parts_ok (put (at_app l) t s).
Proof. destruct s. intros Ha [Hl _]. now split. Qed.

#[export] Instance parts_stable : Stable Aok -> Stable parts_ok.
Proof.
  intros HA. split.
  - intros u s Hs. apply parts_app; [exact (stable_href (I := Aok) u _ (proj2 Hs))|done].
  - intros u s Hs. apply parts_app; [exact (stable_opened (I := Aok) u _ (proj2 Hs))|done].
  - intros t s Hs. apply parts_app; [exact (stable_storage (I := Aok) t _ (proj2 Hs))|done].
  - intros t s Hs. apply parts_app; [exact (stable_timers (I := Aok) t _ (proj2 Hs))|done].
  - intros f s Hf Hs. apply parts_app; [exact (stable_toasts (I := Aok) f _ Hf (proj2 Hs))|done].
Qed.

(** A component inside the page sees the module state. *)
Definition inner_ok {C} (s : world C) : Prop := Aok (fst s).

#[export] Instance inner_stable {C} : Stable Aok -> Stable (inner_ok (C := C)).
Proof.
  intros HA. split.
  - intros u [a c]. exact (stable_href (I := Aok) u a).
  - intros u [a c]. exact (stable_opened (I := Aok) u a).
  - intros t [a c]. exact (stable_storage (I := Aok) t a).
  - intros t [a c]. exact (stable_timers (I := Aok) t a).
  - intros f [a c]. exact (stable_toasts (I := Aok) f a).
Qed.

(** The invariant of a page with a component inside. *)
Definition with_component {C} (s : world (L * C)) : Prop := parts_ok (view l_page s).

Lemma preserves_on_page {C A} P (p : js (world L) A) :
  preserves parts_ok P p -> preserves (with_component (C := C)) P (zoom l_page p).
Proof. apply (preserves_zoom l_page). Qed.

Lemma preserves_in_component {C A} P (p : js (world C) A) :
  preserves inner_ok P p -> preserves (with_component (C := C)) P (zoom l_component p).
Proof.
  intros Hp s [Hl Ha]. apply (keeps_zoom_frame l_component (fun s => Lok (fst (snd s))) inner_ok);
    [done|done|]. now apply Hp.
Qed.
End Parts.

Create HintDb page.
#[export] Hint Resolve preserves_bind preserves_ret preserves_throw preserves_read preserves_ask
  preserves_detach preserves_notifySuccess preserves_notifyError preserves_window_open
  preserves_fetch_new : page.
#[export] Hint Extern 0 (Stable _) => typeclasses eauto : page.
