(* ===== verification/SharedState.v ===== *)
(** * What the pages share

    The pages work on one module state: the polled resources of the modules, the
    notifications, and the roles and permissions of the session. The file gives the
    invariant of this state, which every page keeps, whatever other pages do: the
    resources in [R] are consistent, the notifications are bounded, and the roles and
    permissions are [rights]. *)

From S2P Require Import Prelude Json Http Async App Html Utils Fetch Polling Notifications Jwt Preserves.
From stdpp Require Import base tactics list gmap strings.
#[local] Open Scope Z_scope.

(** ** The invariant *)

(** The polled resources of [groups.ts], [packages.ts] and [devices.ts]. *)
Inductive shared_resource : Set :=
| GroupsGroups | GroupsPackages | GroupsDevices
| PackagesPackages | PackagesGroups
| DevicesPending | DevicesRegistered | DevicesGroups.

Definition resource_ok (a : App) (r : shared_resource) : Prop :=
  match r with
  | GroupsGroups => polling_ok (view l_gm_groups a)
  | GroupsPackages => polling_ok (view l_gm_packages a)
  | GroupsDevices => polling_ok (view l_gm_devices a)
  | PackagesPackages => polling_ok (view l_pm_packages a)
  | PackagesGroups => polling_ok (view l_pm_groups a)
  | DevicesPending => polling_ok (view l_dm_pending a)
  | DevicesRegistered => polling_ok (view l_dm_registered a)
  | DevicesGroups => polling_ok (view l_dm_groups a)
  end.

Section Shared.
Context (R : shared_resource -> Prop) (rights : access -> Prop).

Record app_ok (a : App) : Prop := {
  ok_toasts : toasts_ok (view l_toasts a);
  ok_resources : forall r, R r -> resource_ok a r;
  ok_rights : rights (app_access a);
}.

#[export] Instance app_ok_stable : Stable app_ok.
Proof.
  split; [intros u s []|intros u s []|intros t s []|intros t s []|intros f s Hf []];
    unfold over, at_app; split; cbn in *; auto;
    (intros r Hr; match goal with H : forall r, R r -> _ |- _ => specialize (H r Hr) end; now destruct r).
Qed.
End Shared.
Arguments ok_toasts {R rights}.
Arguments ok_resources {R rights}.
Arguments ok_rights {R rights}.

(** Writes to the module state of a page, of values that are good. *)
Ltac data_writes :=
  intros; unfold over; (apply parts_app; [|done]);
  match goal with H : _ ?s |- _ (put _ _ (fst ?s)) => destruct H as [_ []] end;
  split; cbn in *; auto;
  try (let r := fresh "r" in let Hr := fresh "Hr" in intros r Hr;
       match goal with H : forall r, _ -> resource_ok _ r |- _ => specialize (H r Hr) end;
       destruct r; cbn in *; now auto).

(** No resource, and all of them. *)
Definition no_resource (r : shared_resource) : Prop := False.
Definition all_resources (r : shared_resource) : Prop := True.

Lemma app_ok_rights rights a : toasts_ok (view l_toasts a) -> rights (app_access a) -> app_ok no_resource rights a.
Proof. now split. Qed.

(** ** The rights of a session *)

(** The roles are those of [acc] and, unless these permit everything, so are the
    permissions. *)
Definition granted_by (acc a : access) : Prop :=
  adminRoles a = adminRoles acc /\ (hasAdminRole acc RW = true \/ permissions a = permissions acc).

Lemma granted_refl acc : granted_by acc acc.
Proof. split; [done|now right]. Qed.

Lemma granted_role acc a r : granted_by acc a -> hasAdminRole a r = hasAdminRole acc r.
Proof. intros [Ha _]. unfold hasAdminRole. now rewrite Ha. Qed.

Lemma granted_allowed acc a k r id gs :
  granted_by acc a -> allowedTo a k r id gs = true -> allowedTo acc k r id gs = true.
Proof.
  intros Hg. rewrite !allowedTo_body, !(granted_role acc a) by done.
  destruct Hg as [Ha [Hrw|Hp]]; [now rewrite Hrw|]. destruct a, acc; cbn in *. now subst.
Qed.

(** Permissions that are fetched again do not matter to whoever may do everything. *)
Lemma granted_refresh acc a l :
  granted_by acc a -> hasAdminRole acc RW = true -> granted_by acc (MkAccess (adminRoles a) l).
Proof. intros [Ha _] Hrw. split; auto. Qed.
