(* ===== verification/Settles.v ===== *)
(** * Coming to rest

    [within n p]: the process [p] sends at most [n] requests before it and all
    promises it leaves behind have ended, whatever the answers are and whatever
    happens to the state meanwhile. If every handler of an event loop is within a
    bound, then a suspended thread can be resumed only so often ([runs_bounded]),
    and the loop is at rest when none can ([runs_progress]). *)

From S2P Require Import Prelude Json Http Async App Html Utils Fetch Polling Notifications Jwt.
From stdpp Require Import base tactics list gmap strings relations.
#[local] Open Scope Z_scope.

(** ** Processes within a number of requests *)

Section Within.
Context {event : Type} {reply : event -> Type} {state : Type}.

Abbreviation proc := (proc (event := event) reply state).

Fixpoint within {A : Type} (n : nat) (p : proc A) {struct p} : Prop :=
  match p with
  | Ret _ | Throw _ => True
  | Get k => forall s, within n (k s)
  | Put _ k => within n k
  | Await e k => exists m, (S m <= n)%nat /\ forall r, within m (k r)
  | Spawn e h k => exists m m', (S (m + m') <= n)%nat /\ (forall r, within m (h r)) /\ within m' k
  end.

Lemma within_mono {A} n n' (p : proc A) : (n <= n')%nat -> within n p -> within n' p.
Proof.
  revert n n'. induction p; cbn; intros n n' Hn; eauto.
  - intros (m & Hm & Hk). exists m. split; [lia|done].
  - intros (m & m' & Hm & Hh & Hk). exists m, m'. split; [lia|done].
Qed.

Lemma within_bind {A B} n m (p : proc A) (f : A -> proc B) :
  within n p -> (forall a, within m (f a)) -> within (n + m) (pbind p f).
Proof.
  intros Hp Hf. revert n Hp. induction p as [A a|A e|A k IH|A s k IH|A e k IH|A e h _ k IH]; cbn; intros n; auto.
  - intros _. apply within_mono with m; [lia|auto].
  - intros (j & Hj & Hk). exists (j + m)%nat. split; [lia|]. eauto.
  - intros (j & j' & Hj & Hh & Hk). exists j, (j' + m)%nat. split; [lia|]. eauto.
Qed.

Lemma within_catch {A} n (p : proc A) h : within n p -> (forall e, within 0 (h e)) -> within n (catch p h).
Proof.
  intros Hp Hh. revert n Hp. induction p as [A a|A e|A k IH|A s k IH|A e k IH|A e cb _ k IH]; cbn; intros n; auto.
  - intros _. apply within_mono with 0%nat; [lia|auto].
  - intros (j & Hj & Hk). exists j. eauto.
  - intros (j & j' & Hj & Hcb & Hk). exists j, j'. eauto.
Qed.

Lemma within_detach {A} n m (p : proc unit) (k : proc A) :
  within n p -> within m k -> within (n + m) (detach p k).
Proof.
  intros Hp Hk. revert n Hp. revert p. fix IH 1. intros [a|e|f|s p|e h|e h p] n; cbn.
  - intros _. apply within_mono with m; [lia|done].
  - intros _. apply within_mono with m; [lia|done].
  - intros Hf s. auto.
  - auto.
  - intros (j & Hj & Hh). exists j, m. split; [lia|auto].
  - intros (j & j' & Hj & Hh & Hp). exists j, (j' + m)%nat. split; [lia|auto].
Qed.

(** ** The event loop *)

(** A thread of the loop has finished or waits for an answer. *)
Definition waits (p : proc unit) : nat := match p with Await _ _ => 1 | _ => 0 end.
Definition at_await (p : proc unit) : Prop := finished p \/ waits p = 1%nat.

(** What is left of a process that has run up to its next await; all its requests
    are waited for. *)
Lemma within_advance n (p : proc unit) s s' p' cbs es :
  within n p -> advance p s = (s', p', cbs, es) ->
  exists ms, Forall2 within ms (p' :: cbs) /\ (sum_list ms <= n)%nat /\
    Forall at_await (p' :: cbs) /\ length es = sum_list (map waits (p' :: cbs)).
Proof.
  revert n s s' p' cbs es. revert p. fix IH 1. intros [a|e|f|s1 p|e h|e h p] n s s' p' cbs es; cbn [within advance].
  - intros Hp [= <- <- <- <-]. exists [0%nat]. split_and!; [now repeat constructor|cbn; lia| |done].
    constructor; [now left|constructor].
  - intros Hp [= <- <- <- <-]. exists [0%nat]. split_and!; [now repeat constructor|cbn; lia| |done].
    constructor; [now left|constructor].
  - intros Hp. now apply (IH (f s)).
  - intros Hp. now apply (IH p).
  - intros (m & Hm & Hh) [= <- <- <- <-]. exists [S m]. split_and!.
    + constructor; [|constructor]. exists m. split; [lia|done].
    + cbn. lia.
    + constructor; [|constructor]. now right.
    + done.
  - intros (m & m' & Hm & Hh & Hp).
    destruct (advance p s) as [[[s2 p2] cbs2] es2] eqn:E. intros [= <- <- <- <-].
    destruct (IH p m' s _ _ _ _ Hp E) as (ms & Hms & Hsum & Haw & Hlen).
    inversion Hms as [|m0 ? ms0 ? H0 Hms0]; subst. exists (m0 :: S m :: ms0). split_and!.
    + constructor; [done|]. constructor; [|done]. exists m. split; [lia|done].
    + cbn in *. lia.
    + inversion Haw; subst. constructor; [done|]. constructor; [now right|done].
    + cbn in *. lia.
Qed.

(** Executions with [k] handlers started and [m] threads resumed. *)
Inductive runs (handlers : state -> proc unit -> Prop) (s0 : state) :
    nat -> nat -> config (event := event) (reply := reply) -> Prop :=
| runs_init : runs handlers s0 0 0 (Config s0 [] [])
| runs_start k m s ts tr p s' p' cbs es :
    runs handlers s0 k m (Config s ts tr) -> handlers s p -> advance p s = (s', p', cbs, es) ->
    runs handlers s0 (S k) m (Config s' (ts ++ p' :: cbs) (tr ++ es))
| runs_resume k m s ts tr i e g r s' p' cbs es :
    runs handlers s0 k m (Config s ts tr) -> ts !! i = Some (Await e g) ->
    advance (g r) s = (s', p', cbs, es) ->
    runs handlers s0 k (S m) (Config s' (<[i := p']> ts ++ cbs) (tr ++ es)).

(** These are the executions of [reachable], counted. *)
Lemma reachable_runs handlers s0 c : reachable handlers s0 c <-> exists k m, runs handlers s0 k m c.
Proof.
  split.
  - intros Hr. unfold reachable in Hr. remember (Config s0 [] []) as c0 eqn:E0.
    assert (Hc : exists k m, runs handlers s0 k m c0) by (subst; exists 0%nat, 0%nat; constructor).
    clear E0. revert Hc. induction Hr as [c|c c1 c2 Hs Hr IH]; [done|]. intros (k & m & Hc). apply IH.
    destruct Hs; do 2 eexists; [eapply runs_start|eapply runs_resume]; eauto.
  - intros (k & m & Hr). induction Hr as [|k m s ts tr p s' p' cbs es Hr IH Hp Ha
      |k m s ts tr i e g r s' p' cbs es Hr IH Hi Ha]; [constructor| |];
      (eapply rtc_r; [exact IH|]); econstructor; eauto.
Qed.

Context (handlers : state -> proc unit -> Prop) (N : nat).
Hypothesis handlers_within : forall s p, handlers s p -> within N p.

Lemma sum_list_insert (l : list nat) i x y :
  l !! i = Some x -> (sum_list (<[i := y]> l) + x = sum_list l + y)%nat.
Proof.
  intros Hi. rewrite (insert_take_drop l i y) by (eapply lookup_lt_Some; eauto).
  rewrite <- (take_drop_middle l i x Hi) at 3.
  rewrite !sum_list_with_app. cbn. lia.
Qed.

Lemma sum_waits_insert (ts : list (proc unit)) i p q :
  ts !! i = Some p -> (sum_list (map waits (<[i := q]> ts)) + waits p = sum_list (map waits ts) + waits q)%nat.
Proof.
  intros Hi. change (map waits (<[i := q]> ts)) with (waits <$> <[i := q]> ts). rewrite list_fmap_insert.
  apply sum_list_insert. change (map waits ts) with (waits <$> ts). now rewrite list_lookup_fmap, Hi.
Qed.

(** Each thread has a bound of its own; with the resumptions so far the bounds stay
    below that of the handlers that have been started. *)
Lemma runs_budget s0 k m c :
  runs handlers s0 k m c ->
  exists ms, Forall2 within ms (threads c) /\ (m + sum_list ms <= N * k)%nat /\
    Forall at_await (threads c) /\ length (trace c) = (m + sum_list (map waits (threads c)))%nat.
Proof.
  induction 1 as [|k m s ts tr p s' p' cbs es Hr (ms & Hms & Hsum & Haw & Hlen) Hp Hadv
    |k m s ts tr i e g r s' p' cbs es Hr (ms & Hms & Hsum & Haw & Hlen) Hi Hadv]; cbn [threads trace] in *.
  - exists []. repeat split; try constructor; cbn; lia.
  - destruct (within_advance N p s _ _ _ _ (handlers_within s p Hp) Hadv) as (ns & Hns & Hnsum & Hnaw & Hnlen).
    exists (ms ++ ns). split_and!.
    + now apply Forall2_app.
    + rewrite sum_list_with_app. lia.
    + now apply Forall_app.
    + rewrite length_app, map_app, sum_list_with_app. lia.
  - destruct (Forall2_lookup_r _ _ _ _ _ Hms Hi) as (n & Hn & Hw). cbn in Hw. destruct Hw as (j & Hj & Hg).
    destruct (within_advance j (g r) s _ _ _ _ (Hg r) Hadv) as (ns & Hns & Hnsum & Hnaw & Hnlen).
    inversion Hns as [|n0 ? ns0 ? Hw0 Hns0]; subst. inversion Hnaw; subst.
    exists (<[i := n0]> ms ++ ns0). pose proof (sum_list_insert ms i n n0 Hn).
    pose proof (sum_waits_insert ts i _ p' Hi) as Hwaits. cbn in Hnsum, Hnlen, Hwaits. split_and!.
    + apply Forall2_app; [|done]. now apply Forall2_insert.
    + rewrite sum_list_with_app. lia.
    + apply Forall_app. split; [|done]. now apply Forall_insert.
    + rewrite length_app, map_app, sum_list_with_app. lia.
Qed.

Lemma runs_bounded s0 k m c :
  runs handlers s0 k m c -> (m <= N * k)%nat /\ (length (trace c) <= N * k)%nat.
Proof.
  intros Hr. destruct (runs_budget s0 k m c Hr) as (ms & Hms & Hsum & Haw & Hlen). split; [lia|].
  enough (sum_list (map waits (threads c)) <= sum_list ms)%nat by lia. clear - Hms.
  induction Hms as [|n p ms ts Hw Hms IH]; cbn; [lia|].
  enough (waits p <= n)%nat by lia. destruct p; cbn; try lia. destruct Hw as (j & Hj & _). lia.
Qed.

(** A loop that cannot resume anything is at rest. *)
Lemma runs_progress (answer : forall e, reply e) s0 k m c :
  runs handlers s0 k m c -> Forall finished (threads c) \/ exists c', runs handlers s0 k (S m) c'.
Proof.
  intros Hr. destruct (runs_budget s0 k m c Hr) as (ms & _ & _ & Haw & _).
  destruct c as [s ts tr]. cbn [threads] in *.
  assert (Hdec : forall p : proc unit, {finished p} + {~ finished p})
    by (intros [| | | | |]; cbn; auto).
  destruct (Forall_Exists_dec _ _ Hdec ts) as [Hf|Hex]; [now left|right].
  apply Exists_exists in Hex as (p & Hin & Hp). apply list_elem_of_lookup_1 in Hin as [i Hi].
  destruct (Forall_lookup_1 _ _ _ _ Haw Hi) as [?|Hw]; [done|].
  destruct p as [| | | |e g|]; try discriminate.
  destruct (advance (g (answer e)) s) as [[[s' p'] cbs] es] eqn:Hadv.
  eexists. eapply runs_resume; eauto.
Qed.

(** [k] handlers cause at most [N * k] requests, suspended handlers are resumed at
    most [N * k] times in all, and as long as a handler has not ended some handler
    can be resumed. *)
Definition comes_to_rest (s0 : state) : Prop :=
  forall k m c, runs handlers s0 k m c ->
    (m <= N * k)%nat /\ (length (trace c) <= N * k)%nat /\
    (Forall finished (threads c) \/ exists c', runs handlers s0 k (S m) c').

Lemma rests (answer : forall e, reply e) s0 : comes_to_rest s0.
Proof using handlers_within.
  intros k m c Hr. destruct (runs_bounded s0 k m c Hr) as [Hm Ht]. split_and!; [done|done|].
  exact (runs_progress answer s0 k m c Hr).
Qed.
End Within.

(** The network can always answer. *)
Definition some_reply (e : event) : reply e :=
  match e with EHttp _ => NetworkError | ENavigate _ => tt end.

Lemma within_finally {event reply state A} n m (p : proc (event := event) reply state A) f :
  within n p -> within m f -> within (n + m) (finally p f).
Proof.
  intros Hp Hf. revert n Hp. induction p as [A a|A e|A k IH|A s k IH|A e k IH|A e h _ k IH]; cbn; intros n; auto.
  - intros _. apply within_mono with (m + 0)%nat; [lia|]. now apply within_bind.
  - intros _. apply within_mono with (m + 0)%nat; [lia|]. now apply within_bind.
  - intros (j & Hj & Hk). exists (j + m)%nat. split; [lia|]. eauto.
  - intros (j & j' & Hj & Hh & Hk). exists j, (j' + m)%nat. split; [lia|]. eauto.
Qed.

Lemma within_zoom {event reply S T A} (l : lens S T) n (p : proc (event := event) reply T A) :
  within n p -> within n (zoom l p).
Proof.
  revert n. induction p as [A a|A e|A k IH|A s k IH|A e k IH|A e h IHh k IH]; cbn; intros n; auto.
  - intros (j & Hj & Hk). exists j. eauto.
  - intros (j & j' & Hj & Hh & Hk). exists j, j'. eauto 6.
Qed.

Lemma within_dispatch {S H} (perform : H -> js S unit) (cost : H -> nat) hs :
  (forall h, within (cost h) (perform h)) -> within (sum_list (map cost hs)) (dispatch perform hs).
Proof. intros Hc. induction hs as [|h hs IH]; cbn; [done|]. now apply within_detach. Qed.

(** ** The operations of the modules *)

Section Operations.
Context `{BuildEnv} {S : Type} `{HasApp S}.

Lemma within_fetchWrapper d url method (o : headers_obj S) b : within 1 (fetchWrapper d url method o b).
Proof.
  unfold fetchWrapper. apply within_catch; [|done]. cbn. intros s.
  apply (within_bind 0 1).
  - destruct (truthy_str _); [|exact I]. cbn. intros s'. destruct (headers_set _ _ _), o; cbn; auto.
  - intros o'. cbn. intros s'. exists 0%nat. split; [lia|]. intros [|status [data|]]; cbn; auto;
      destruct (negb _); exact I.
Qed.

Lemma within_detach_ret n (p : js S unit) : within n p -> within n (detach p (jret tt)).
Proof. intros Hp. apply within_mono with (n + 0)%nat; [lia|]. now apply within_detach. Qed.

(** A bind whose first part is within [n] leaves the rest of the budget. *)
Lemma within_seq {A B} n N (p : js S A) (f : A -> js S B) :
  within n p -> (n <= N)%nat -> (forall a, within (N - n) (f a)) -> within N (jbind p f).
Proof.
  intros Hp Hn Hf. apply within_mono with (n + (N - n))%nat; [lia|]. now apply within_bind.
Qed.
End Operations.

Create HintDb rest.

Ltac no_request :=
  repeat match goal with
  | |- True => exact I
  | |- forall _, _ => intro
  | |- within _ (if ?b then _ else _) => destruct b
  | |- within _ (match ?x with _ => _ end) => destruct x
  | |- match ?x with _ => _ end => destruct x
  | |- _ => progress cbn
  | |- context [match ?x with _ => _ end] => destruct x
  end.

(** Follow a process: what sends nothing is unfolded, the bounds of the operations
    are found among the hints. *)
Ltac at_rest :=
  repeat match goal with
  | |- forall _, _ => intro
  | |- within _ (if ?b then _ else _) => destruct b
  | |- within _ (match ?x with _ => _ end) => destruct x
  | |- within _ (jbind _ _) =>
      first
        [ apply (within_seq 0); [solve [no_request]|lia|rewrite Nat.sub_0_r]
        | eapply within_seq; [solve [eauto with rest]|lia|cbn [Nat.sub]] ]
  | |- within _ (detach _ _) => apply within_detach_ret
  | |- within _ _ => first [solve [cbn; intros; exact I] | solve [eauto with rest]]
  end.

Section Modules.
Context `{BuildEnv} {S : Type} `{HasApp S}.

#[local] Hint Resolve within_fetchWrapper : rest.

Lemma within_fetchResources (g : getter S) : within 1 (fetchResources g).
Proof. unfold fetchResources, fetchGET. at_rest. Qed.

Lemma within_stored_claims `{JsonParser} : within 0 stored_claims.
Proof. unfold stored_claims, jlift. at_rest. Qed.

Lemma within_store_permissions c r : within 0 (store_permissions c r).
Proof. unfold store_permissions. at_rest. Qed.

#[local] Hint Resolve within_stored_claims within_store_permissions : rest.

Lemma within_updatePermissions `{JsonParser} : within 1 updatePermissions.
Proof. unfold updatePermissions, fetchGET. at_rest. Qed.
End Modules.

Lemma within_navigate {S} name : within (state := S) 1 (navigate name).
Proof. cbn. exists 0%nat. split; [lia|done]. Qed.

#[export] Hint Resolve within_fetchWrapper within_fetchResources within_updatePermissions within_navigate : rest.

(** Mounting a page costs its first fetches, unmounting it nothing. *)
Lemma within_mounted {L} (interval : lens L (option Z)) n fetch_all :
  within n fetch_all -> within n (mounted interval fetch_all).
Proof.
  intros Hf. apply within_mono with (n + 0)%nat; [lia|]. apply within_bind; [done|intros _].
  unfold start_polling. at_rest.
Qed.

Lemma within_stop_polling {L} (interval : lens L (option Z)) n : within n (stop_polling interval).
Proof. apply within_mono with 0%nat; [lia|]. unfold stop_polling. at_rest. Qed.

(** ** The cost of a click *)

Section Cost.
Context {H : Type} (cost : H -> nat).

Definition total (hs : list H) : nat := sum_list (map cost hs).

(** A click in [t] runs handlers of a total cost of at most [n]. *)
Definition cheap (n : nat) (t : html H) : Prop :=
  forall path hs b, bubble t path = Some (hs, b) -> (total hs <= n)%nat.

Lemma total_app hs hs' : total (hs ++ hs') = (total hs + total hs')%nat.
Proof. unfold total. now rewrite map_app, sum_list_with_app. Qed.

Lemma fire_total path on : (total (fire path on).1 <= total (flat_map heard on))%nat.
Proof.
  unfold fire. cbn [fst]. induction on as [|l on IH]; cbn [flat_map]; [done|]. rewrite !total_app.
  enough (total (hears path l) <= total (heard l))%nat by lia.
  destruct l as [mods [h|]|inside h1 h2| | | |]; cbn; try done.
  - destruct (_ && _); cbn; lia.
  - destruct (inside path); cbn; lia.
Qed.

(** At an element whose listeners cost at most [m], and below it. *)
Lemma cheap_above m n tag attrs on kids :
  (total (flat_map heard on) <= m)%nat -> Forall (cheap n) kids -> cheap (m + n) (El tag attrs on kids).
Proof.
  intros Ho Hk path hs b. rewrite bubble_el.
  assert (Hf : forall path, (total (fire path on).1 <= m)%nat) by (intros q; pose proof (fire_total q on); lia).
  specialize (Hf path) as Hp.
  destruct (disabled tag attrs); [intros [= <- _]; cbn; lia|].
  destruct path as [|i path]; [intros [= <- _]; exact (Nat.le_trans _ _ _ Hp (Nat.le_add_r m n))|].
  destruct (kids !! i) as [k|] eqn:Hi; [|done]. cbn [mbind option_bind].
  destruct (bubble k path) as [[hs1 [|]]|] eqn:E; [| |done];
    pose proof (Forall_lookup_1 _ _ _ _ Hk Hi _ _ _ E) as Hle; [intros [= <- <-]; lia|].
  destruct (fire (i :: path) on) as [hs2 st]. intros [= <- <-]. rewrite total_app. cbn [fst] in Hp. lia.
Qed.

Lemma cheap_el n tag attrs on kids :
  total (flat_map heard on) = 0%nat -> Forall (cheap n) kids -> cheap n (El tag attrs on kids).
Proof. intros Ho. apply (cheap_above 0). lia. Qed.

Lemma cheap_mono n n' t : (n <= n')%nat -> cheap n t -> cheap n' t.
Proof. intros Hn Ht path hs b E. specialize (Ht path hs b E). lia. Qed.

(** At an element that listens, with nothing costly below. *)
Lemma cheap_listening n tag attrs on kids :
  (total (flat_map heard on) <= n)%nat -> Forall (cheap 0) kids -> cheap n (El tag attrs on kids).
Proof. intros Ho Hk. apply cheap_mono with (n + 0)%nat; [lia|]. now apply cheap_above. Qed.

Lemma total_free hs : (forall h, h ∈ hs -> cost h = 0%nat) -> total hs = 0%nat.
Proof.
  intros Hh. unfold total. induction hs as [|h hs IH]; cbn; [done|].
  rewrite (Hh h) by now left. rewrite IH; [done|]. intros h' Hh'. apply Hh. now right.
Qed.

Lemma cheap_free n t : (forall h, h ∈ clicks t -> cost h = 0%nat) -> cheap n t.
Proof.
  intros Ht path hs b E. rewrite (total_free hs); [lia|]. intros h Hh. apply Ht.
  eapply bubble_clicks; eauto.
Qed.

Lemma cheap_button n c h kids :
  (cost h <= n)%nat -> page_clicks kids = [] -> cheap n (button c h kids).
Proof.
  intros Hc Hk path hs b. unfold button. rewrite bubble_el. cbn [disabled existsb String.eqb Ascii.eqb Bool.eqb andb fst cls orb].
  destruct path as [|i path]; [intros [= <- _]; cbn; lia|].
  destruct (kids !! i) as [k|] eqn:Hi; [|done]. cbn [mbind option_bind].
  destruct (bubble k path) as [[hs1 b1]|] eqn:E; [|done].
  assert (hs1 = []) as ->.
  { apply elem_of_nil_inv. intros h' Hh'. assert (Hin : h' ∈ page_clicks kids).
    { apply flat_map_elem. exists k. split; [exact (list_elem_of_lookup_2 _ _ _ Hi)|]. eapply bubble_clicks; eauto. }
    rewrite Hk in Hin. now apply elem_of_nil in Hin. }
  destruct b1; intros [= <- _]; cbn; lia.
Qed.

Lemma cheap_text n c : cheap n (Text c).
Proof. intros path hs b. now rewrite bubble_text. Qed.

Lemma cheap_click n page path hs :
  Forall (cheap n) page -> click page path = Some hs -> (total hs <= n)%nat.
Proof.
  intros Hp Hc. apply click_root in Hc as (t & path' & b & Ht & Hb).
  exact (proj1 (List.Forall_forall _ _) Hp t (proj1 (list_elem_of_In _ _) Ht) _ _ _ Hb).
Qed.
End Cost.

(** What the user does to a rendered page is within its cost. *)
Lemma within_user_event {H S} (perform : H -> js S unit) (cost : H -> nat) n page q :
  (forall h, within (cost h) (perform h)) -> Forall (cheap cost n) page -> (forall h, cost h <= n)%nat ->
  user_event perform page q -> within n q.
Proof.
  intros Hp Hc Hn [(path & hs & Hk & ->)|(h & _ & ->)].
  - apply within_mono with (total cost hs); [|now apply within_dispatch].
    now apply (cheap_click cost n page path).
  - now apply within_mono with (cost h).
Qed.

Create HintDb cheap.
#[export] Hint Resolve cheap_text Forall_when Forall_map_all Forall_app_2 Forall_cons_2 Forall_nil_2 : cheap.
#[export] Hint Extern 1 (cheap _ _ (button _ _ _)) => apply cheap_button; [cbn; lia|reflexivity] : cheap.
#[export] Hint Extern 2 (cheap _ _ (El _ _ _ _)) => apply cheap_el; [reflexivity|] : cheap.
#[export] Hint Extern 4 (cheap _ _ (El _ _ _ _)) => apply cheap_listening; [cbn; lia|] : cheap.
#[export] Hint Extern 3 (cheap _ _ (div _ _)) => apply cheap_el; [reflexivity|] : cheap.
#[export] Hint Extern 3 (cheap _ _ (node _ _)) => apply cheap_el; [reflexivity|] : cheap.
#[export] Hint Extern 3 (cheap _ _ (entry _ _)) => apply cheap_el; [reflexivity|] : cheap.
#[export] Hint Extern 3 (cheap _ _ (p _ _)) => apply cheap_el; [reflexivity|] : cheap.
#[export] Hint Extern 3 (cheap _ _ (leaf _)) => apply cheap_el; [reflexivity|] : cheap.
#[export] Hint Extern 3 (cheap _ _ (str _)) => apply cheap_text : cheap.
