(* ===== verification/Uri.v ===== *)
(** * Percent-encoding

    [decodeURIComponent], which [Device.vue] applies to the device in the route,
    and the [URLSearchParams] of [LoginHandler.vue]. Strings are sequences of
    UTF-8 bytes. *)

From S2P Require Import Prelude Json Jwt.
From Stdlib Require Import Ascii.
From stdpp Require Import base tactics list strings.
#[local] Open Scope Z_scope.

Definition hex_value (c : ascii) : option Z :=
  let n := code c in
  if (48 <=? n) && (n <=? 57) then Some (n - 48)
  else if (65 <=? n) && (n <=? 70) then Some (n - 55)
  else if (97 <=? n) && (n <=? 102) then Some (n - 87)
  else None.

Definition percent : ascii := ascii_of_nat 37.
Definition plus_sign : ascii := ascii_of_nat 43.
Definition space : ascii := ascii_of_nat 32.
Definition ampersand : ascii := ascii_of_nat 38.
Definition equals : ascii := ascii_of_nat 61.
Definition hash : ascii := ascii_of_nat 35.

(** One escape [%XX] at the head of the text. *)
Definition take_escape (l : list ascii) : option (Z * list ascii) :=
  match l with
  | p :: a :: b :: r =>
      if Ascii.eqb p percent then
        x ← hex_value a; y ← hex_value b; Some (x * 16 + y, r)
      else None
  | _ => None
  end.

(** ** [decodeURIComponent] *)

(** The number of bytes of the UTF-8 sequence a lead byte begins. *)
Definition utf8_length (b : Z) : option nat :=
  if b <? 128 then Some 1%nat
  else if (192 <=? b) && (b <? 224) then Some 2%nat
  else if (224 <=? b) && (b <? 240) then Some 3%nat
  else if (240 <=? b) && (b <? 248) then Some 4%nat
  else None.

Fixpoint take_continuations (n : nat) (l : list ascii) : option (list Z * list ascii) :=
  match n with
  | O => Some ([], l)
  | S n =>
      '(b, r) ← take_escape l;
      if (128 <=? b) && (b <? 192) then
        '(bs, r') ← take_continuations n r; Some (b :: bs, r')
      else None
  end.

(** The code point of a sequence is the shortest encoding of a scalar value. *)
Definition utf8_valid (lead : Z) (rest : list Z) : bool :=
  let v := fold_left (fun acc b => acc * 64 + b mod 64) rest in
  match rest with
  | [] => true
  | [_] => 128 <=? v (lead - 192)
  | [_; _] => (2048 <=? v (lead - 224)) &&
              negb ((55296 <=? v (lead - 224)) && (v (lead - 224) <=? 57343))
  | _ => (65536 <=? v (lead - 240)) && (v (lead - 240) <=? 1114111)
  end.

(** [None] is the [URIError]. The fuel is the length of the text: every step
    consumes at least one character. *)
Fixpoint decode_component (fuel : nat) (l : list ascii) : option (list ascii) :=
  match fuel, l with
  | _, [] => Some []
  | O, _ => None
  | S fuel, c :: r =>
      if Ascii.eqb c percent then
        '(lead, r1) ← take_escape l;
        n ← utf8_length lead;
        '(rest, r2) ← take_continuations (n - 1) r1;
        if utf8_valid lead rest then
          d ← decode_component fuel r2;
          Some (map byte_of (lead :: rest) ++ d)
        else None
      else d ← decode_component fuel r; Some (c :: d)
  end.

Definition decodeURIComponent (s : string) : option string :=
  let l := String.list_ascii_of_string s in
  d ← decode_component (length l) l; Some (String.string_of_list_ascii d).

(** ** [URLSearchParams] *)

(** Percent-decoding of a query: malformed escapes are kept as they are. (Byte
    sequences that are not UTF-8 are not replaced by U+FFFD.) *)
Fixpoint query_decode (fuel : nat) (l : list ascii) : list ascii :=
  match fuel, l with
  | S fuel, c :: r =>
      if Ascii.eqb c plus_sign then space :: query_decode fuel r
      else match take_escape l with
           | Some (b, r') => byte_of b :: query_decode fuel r'
           | None => c :: query_decode fuel r
           end
  | _, _ => []
  end.

Definition decode_param (s : string) : string :=
  let l := String.list_ascii_of_string s in
  String.string_of_list_ascii (query_decode (length l) l).

(** The name and the value of one parameter, split at the first [=]. *)
Definition parse_pair (s : string) : string * string :=
  match js_split equals s with
  | name :: rest => (decode_param name, decode_param (js_join "=" rest))
  | [] => ("", "")
  end.

Definition query_params (s : string) : list (string * string) :=
  map parse_pair (js_filter (fun w => negb (String.eqb w "")) (js_split ampersand s)).

(** A leading [?] is dropped; a leading [#] is not. *)
Definition search_params (s : string) : list (string * string) :=
  query_params (match Json.strip_prefix "?" s with Some r => r | None => s end).

(** [params.get(name)] *)
Definition params_get (name : string) (params : list (string * string)) : option string :=
  option_map snd (js_find (fun p => String.eqb (fst p) name) params).

(** ** Lemmas *)

(** Text without escapes is left alone by both decoders. *)
Lemma decode_component_plain fuel l :
  (length l <= fuel)%nat -> forallb (fun c => negb (Ascii.eqb c percent)) l = true ->
  decode_component fuel l = Some l.
Proof.
  revert fuel. induction l as [|c l IH]; intros fuel Hf Hl; [now destruct fuel|].
  destruct fuel as [|fuel]; [cbn in Hf; lia|]. cbn in *. apply andb_prop in Hl as [Hc Hl].
  apply negb_true_iff in Hc. rewrite Hc. now rewrite IH by (lia || done).
Qed.

Definition plain (c : ascii) : bool := negb (Ascii.eqb c percent) && negb (Ascii.eqb c plus_sign).

Lemma take_escape_plain c l : Ascii.eqb c percent = false -> take_escape (c :: l) = None.
Proof. intros Hc. destruct l as [|a [|b l]]; cbn; now rewrite ?Hc. Qed.

Lemma query_decode_plain fuel l :
  (length l <= fuel)%nat -> forallb plain l = true -> query_decode fuel l = l.
Proof.
  revert fuel. induction l as [|c l IH]; intros fuel Hf Hl; [now destruct fuel|].
  destruct fuel as [|fuel]; [cbn in Hf; lia|].
  cbn [forallb] in Hl. apply andb_prop in Hl as [Hc Hl].
  unfold plain in Hc. apply andb_prop in Hc as [Hp Hq].
  apply negb_true_iff in Hp. apply negb_true_iff in Hq.
  cbn [query_decode]. rewrite Hq, take_escape_plain by done. f_equal. apply IH; [cbn in Hf; lia|done].
Qed.

Definition plain_text (s : string) : bool := forallb plain (String.list_ascii_of_string s).

Lemma decode_param_plain s : plain_text s = true -> decode_param s = s.
Proof.
  intros Hs. unfold decode_param. rewrite query_decode_plain by (done || lia).
  apply String.string_of_list_ascii_of_string.
Qed.

(** The first parameter of a query. *)
Lemma query_params_cons w rest :
  str_has ampersand w = false -> w <> "" ->
  query_params (w +:+ String ampersand rest) = parse_pair w :: query_params rest.
Proof.
  intros Hw Hne. unfold query_params. rewrite js_split_cons by done. cbn.
  apply String.eqb_neq in Hne. now rewrite Hne.
Qed.

Lemma query_params_one w :
  str_has ampersand w = false -> w <> "" -> query_params w = [parse_pair w].
Proof.
  intros Hw Hne. unfold query_params. rewrite js_split_free by done. cbn.
  apply String.eqb_neq in Hne. now rewrite Hne.
Qed.

(** A parameter [name=value], whatever the value contains. *)
Lemma parse_pair_value name value :
  str_has equals name = false ->
  parse_pair (name +:+ String equals value) = (decode_param name, decode_param value).
Proof.
  intros Hn. unfold parse_pair. rewrite js_split_cons by done.
  change "=" with (String equals ""). now rewrite js_split_join.
Qed.

Lemma params_get_cons name p l :
  params_get name (p :: l) = if String.eqb (fst p) name then Some (snd p) else params_get name l.
Proof. unfold params_get, js_find. cbn. now destruct (String.eqb (fst p) name). Qed.
