(* ===== verification/Samples.v ===== *)
(** * Concrete inputs

    A build configuration, a token, an initial module state and two servers, at
    which the theorems with hypotheses are instantiated. *)

From S2P Require Import Prelude Json Http Async App Utils Fetch Notifications Jwt.
From stdpp Require Import base tactics list gmap strings pretty.
#[local] Open Scope Z_scope.

(** A frontend that is served by the management server itself. *)
#[local] Instance sample_env : BuildEnv := {
  VITE_SERVER_URL := None;
  VITE_LOGIN_URL := Some "https://id.example/login";
  VITE_LOGOUT_URL := Some "https://id.example/logout";
  VITE_OAUTH2_CLIENT := Some "rdfm";
  VITE_RDFM_BACKEND := Some "true";
  location_protocol := "https:";
  location_host := "rdfm.example";
}.

#[local] Existing Instance subject_parser.

(** The token of the user [abcd]. *)
Definition sample_token : string := "e30.YWJjZA.c2ln".

Definition fresh_access : access := MkAccess [] [].

Definition app_with (storage : gmap string string) (headers : Headers) : App :=
  MkApp (MkBrowser storage "https://rdfm.example/" [] [] 1) no_toasts fresh_access
    (MkGroupsModule headers fresh_resource fresh_resource fresh_resource)
    (MkPackagesModule fresh_resource fresh_resource)
    (MkDevicesModule fresh_resource fresh_resource fresh_resource ∅ ∅ ∅ ∅).

(** A user who has just logged in. *)
Definition sample_app (headers : Headers) : App :=
  app_with {["access_token" := sample_token]} headers.

Definition sample_group : Group := MkGroup 1 "" [4] [7; 8] ∅ "no_update," 5.
Definition sample_package : Package :=
  MkPackage 4 "" "" "local" (<["rdfm.hardware.devtype" := "am62x"]> {["rdfm.software.version" := "v1"]}).
Definition sample_device (id : Z) : RegisteredDevice :=
  MkRegisteredDevice id "" "board" "00:00:00:00:00:01" None
    {["rdfm.hardware.devtype" := MStr "am62x"]} ∅ "" true None.

(** The documents of a server with one group, one package and two devices. *)
Definition sample_document (d : doc) : denote d :=
  match d with
  | DPermissions => []
  | DPackages => [sample_package]
  | DPending => []
  | DDevices => [sample_device 7; sample_device 8]
  | DGroups => [sample_group]
  | DTags => []
  | DActions => []
  | DActionLog => []
  | DExec => Some 0
  | DDownloadUrl => "https://rdfm.example/p"
  | DFile => (0, "https://rdfm.example/f")
  | DIgnored => tt
  end.

(** A server that accepts everything, and one that answers [status] to all
    requests that change something. *)
Definition reply_with (answer : forall r : request, http_outcome (denote (rq_doc r))) : server :=
  fun _ e => match e with EHttp r => answer r | ENavigate _ => tt end.

Definition accepting : server :=
  reply_with (fun r => Response 200 (Some (sample_document (rq_doc r)))).

Definition refusing (status : Z) : server :=
  reply_with (fun r => if String.eqb (rq_method r) "GET"
                       then Response 200 (Some (sample_document (rq_doc r)))
                       else Response status None).
