(* ===== verification/Groups.v ===== *)
(** * [components/groups/groups.ts]: requests on groups

    All requests with a body share one [Headers] object, which [fetchWrapper]
    mutates; it is part of the module state ([gm_headers]). *)

From S2P Require Import Prelude Json Http Async App Utils Fetch Notifications Jwt Samples.
From Stdlib Require Import Ascii.
From stdpp Require Import base tactics list gmap strings pretty.
#[local] Open Scope Z_scope.

(** [interface RequestOutput] of [common/utils.ts]. *)
Record RequestOutput : Type := MkOutput {
  ro_success : bool;
  ro_message : option string;
  ro_errors : option (list (string * string));
}.

Definition out_ok : RequestOutput := MkOutput true None None.
Definition out_error (message : string) : RequestOutput := MkOutput false (Some message) None.

(** A response code in a message: [undefined] when there was no answer. *)
Definition show_code (code : option Z) : string :=
  match code with Some c => pretty c | None => "undefined" end.

(** [switch (out.code)] over the codes a request distinguishes. *)
Definition switch_code (cases : list (Z * string)) (fallback : string) (code : option Z) : string :=
  match list_find (fun c => code = Some c.1) cases with
  | Some (_, (_, m)) => m
  | None => fallback +:+ show_code code
  end.

Record NewGroupData : Type := MkNewGroup {
  ng_name : option string;
  ng_description : option string;
  ng_priority : option Z;
}.

(** The value of an input: [v-model] on a text input stores a string over the
    number that was loaded. *)
Inductive field_value : Type :=
| VNum (n : Z)
| VText (s : string)
| VNull.

#[export] Instance field_value_eq_dec : EqDecision field_value.
Proof. solve_decision. Defined.

Definition json_field (v : field_value) : json :=
  match v with VNum n => JNum n | VText s => JStr s | VNull => JNull end.

Definition msg_unauthorized : string :=
  "User did not provide authorization data, or the authorization has expired".

(** The field names of the shared headers when the module is loaded. *)
Definition initial_headers : Headers :=
  <["Accept" := "application/json, text/javascript"]>
    {["Content-type" := "application/json"]}.

Section Groups.
Context `{BuildEnv} `{JsonParser} {S : Type} `{HasApp S}.

Definition groupResources : getter S :=
  MkGetter DGroups GROUPS_ENDPOINT (at_app l_gm_groups).
Definition packagesResources : getter S :=
  MkGetter DPackages PACKAGES_ENDPOINT (at_app l_gm_packages).
Definition devicesResources : getter S :=
  MkGetter DDevices DEVICES_ENDPOINT (at_app l_gm_devices).

Definition headers : headers_obj S := HShared (at_app l_gm_headers).

Definition findPackage (packageId : Z) (s : S) : option Package :=
  resources (view (at_app l_gm_packages) s) ≫= js_find (fun pckg => pkg_id pckg =? packageId).
Definition findDevice (deviceId : Z) (s : S) : option RegisteredDevice :=
  resources (view (at_app l_gm_devices) s) ≫= js_find (fun device => dev_id device =? deviceId).

(** ** Changing the devices of a group *)

Definition patchDevices_message : option Z -> string :=
  switch_code
    [(StatusCodes.UNAUTHORIZED, msg_unauthorized);
     (StatusCodes.FORBIDDEN,
       "User was authorized, but did not have permission to update groups");
     (StatusCodes.NOT_FOUND, "Group does not exist");
     (StatusCodes.CONFLICT,
       "<p>One of the conflict described below has occurred</p><ul>" +:+
       "<li> Any device identifier which does not match a registered device</li>" +:+
       "<li> Any device identifier in additions which already has an assigned group which has the same priority as the group specified by identifier (even if the group is the same as specified by identifier</li>" +:+
       "<li> Any device identifier in removals which is not currently assigned to the specified group</li></ul>")]
    "Failed to update group devices. Got a response code of ".

Definition patchDevicesRequest (groupId : option Z) (addedDevices removedDevices : list Z) :
    js S RequestOutput :=
  let body := JObj [("add", json_nums addedDevices); ("remove", json_nums removedDevices)] in
  let* out := fetchPATCH DIgnored (PATCH_DEVICES_IN_GROUP_ENDPOINT groupId) headers (BJson body) in
  if negb (f_success out) then jret (out_error (patchDevices_message (f_code out)))
  else (fetchResources groupResources ;;; jret out_ok).

(** ** Assigning packages *)

Definition updatePackages_message : option Z -> string :=
  switch_code
    [(StatusCodes.BAD_REQUEST, "Invalid request schema");
     (StatusCodes.UNAUTHORIZED, msg_unauthorized);
     (StatusCodes.FORBIDDEN,
       "User was authorized, but did not have permission to assign packages");
     (StatusCodes.CONFLICT,
       "The package/group was modified or deleted during the operation");
     (StatusCodes.NOT_FOUND, "The specified package or group does not exist")]
    "Failed to update group packages. Got a response code of ".

Definition updatePackagesRequest (groupId : option Z) (packages : list Z) : js S RequestOutput :=
  let body := JObj [("packages", json_nums packages)] in
  let* out := fetchPOST DIgnored (ASSIGN_PACKAGE_IN_GROUP_ENDPOINT groupId) headers (BJson body) in
  if negb (f_success out) then jret (out_error (updatePackages_message (f_code out)))
  else (fetchResources groupResources ;;; jret out_ok).

(** ** Changing the update policy *)

Definition updatePolicy_message : option Z -> string :=
  switch_code
    [(StatusCodes.BAD_REQUEST,
       "Invalid request schema, or an invalid policy schema was requested");
     (StatusCodes.UNAUTHORIZED, msg_unauthorized);
     (StatusCodes.FORBIDDEN,
       "User was authorized, but did not have permission to modify groups");
     (StatusCodes.NOT_FOUND, "The specified group does not exist")]
    "Failed to update group policy. Got a response code of ".

Definition updatePolicyRequest (groupId : option Z) (policy : string) : js S RequestOutput :=
  if negb (str_has comma policy) || negb (length (js_split comma policy) =? 2)%nat
  then jret (out_error ("Invalid policy format: " +:+ policy))
  else
    let* out := fetchPOST DIgnored (UPDATE_GROUP_POLICY_ENDPOINT groupId) headers
                  (BJson (JObj [("policy", JStr policy)])) in
    if negb (f_success out) then jret (out_error (updatePolicy_message (f_code out)))
    else (fetchResources groupResources ;;; jret out_ok).

(** ** Changing the priority *)

Definition updatePriority_message : option Z -> string :=
  switch_code
    [(StatusCodes.UNAUTHORIZED, msg_unauthorized);
     (StatusCodes.FORBIDDEN,
       "User was authorized, but did not have permission to modify groups");
     (StatusCodes.CONFLICT,
       "At least one device which is assigned to this group is also assigned to another group with the requested priority");
     (StatusCodes.NOT_FOUND, "The specified group does not exist")]
    "Failed to update group priority. Got a response code of ".

Definition updatePriorityRequest (groupId : option Z) (priority : field_value) : js S RequestOutput :=
  let body := JObj [("priority", json_field priority)] in
  let* out := fetchPOST DIgnored (UPDATE_GROUP_PRIORITY_ENDPOINT groupId) headers (BJson body) in
  if negb (f_success out) then jret (out_error (updatePriority_message (f_code out)))
  else (fetchResources groupResources ;;; jret out_ok).

(** ** Creating and removing groups *)

Definition addGroup_errors (newGroup : NewGroupData) : list (string * string) :=
  (if negb (truthy_str (ng_name newGroup))
   then [("name", "No group name provided")] else []) ++
  (if negb (truthy_str (ng_description newGroup))
   then [("description", "No group description provided")] else []) ++
  (if negb (truthy_num (ng_priority newGroup))
   then [("priority", "No group priority provided")] else []).

Definition addGroup_failure (code : option Z) (errors : list (string * string)) : RequestOutput :=
  let fail message errors := MkOutput false (Some message) errors in
  if bool_decide (code = Some StatusCodes.UNAUTHORIZED) then fail msg_unauthorized (Some errors)
  else if bool_decide (code = Some StatusCodes.FORBIDDEN)
  then fail "User was authorized, but did not have permission to create groups" (Some errors)
  else if bool_decide (code = Some StatusCodes.NOT_FOUND)
  then fail "The specified group does not exist" None
  else fail ("Failed to create a group. Got a response code of " +:+ show_code code) (Some errors).

Definition addGroupRequest (newGroup : NewGroupData) :
    js S RequestOutput :=
  let errors := addGroup_errors newGroup in
  if (0 <? length errors)%nat then jret (MkOutput false None (Some errors))
  else
    let body := JObj [("priority", JNum (default 0 (ng_priority newGroup)));
                      ("metadata", JObj
                        [("rdfm.group.name", JStr (default "" (ng_name newGroup)));
                         ("rdfm.group.description",
                           JStr (default "" (ng_description newGroup)))])] in
    let* out := fetchPOST DIgnored GROUPS_ENDPOINT headers (BJson body) in
    if negb (f_success out) then jret (addGroup_failure (f_code out) errors)
    else (fetchResources groupResources ;;;
          updatePermissions ;;;
          jret (MkOutput true None (Some errors))).

Definition removeGroup_message : option Z -> string :=
  switch_code
    [(StatusCodes.UNAUTHORIZED, msg_unauthorized);
     (StatusCodes.FORBIDDEN,
       "User was authorized, but did not have permission to delete groups");
     (StatusCodes.CONFLICT, "At least one device or package is still assigned to the group");
     (StatusCodes.NOT_FOUND, "The specified group does not exist")]
    "Failed to remove a group. Got a response code of ".

Definition removeGroupRequest (groupId : option Z) : js S RequestOutput :=
  let* out := fetchDELETE DIgnored (DELETE_GROUP_ENDPOINT groupId) in
  if negb (f_success out) then jret (out_error (removeGroup_message (f_code out)))
  else (fetchResources groupResources ;;; jret out_ok).
End Groups.

(** ** The commands that change a group *)

(** One command per request function; they all submit a change and, when the
    server accepts it, poll the groups again. *)
Inductive group_command : Type :=
| CPatchDevices (groupId : option Z) (added removed : list Z)
| CUpdatePackages (groupId : option Z) (packages : list Z)
| CUpdatePolicy (groupId : option Z) (policy : string)
| CUpdatePriority (groupId : option Z) (priority : field_value)
| CRemoveGroup (groupId : option Z).

Section Commands.
Context `{BuildEnv} `{JsonParser} {S : Type} `{HasApp S}.

Definition perform (c : group_command) : js S RequestOutput :=
  match c with
  | CPatchDevices g a r => patchDevicesRequest g a r
  | CUpdatePackages g p => updatePackagesRequest g p
  | CUpdatePolicy g p => updatePolicyRequest g p
  | CUpdatePriority g p => updatePriorityRequest g p
  | CRemoveGroup g => removeGroupRequest g
  end.

(** The request a command stands for, with the header fields [shared] of the
    module's object or, for a DELETE, the fields [own] of a new one. *)
Record submission : Type := Submit {
  sub_url : string;
  sub_method : string;
  sub_headers : Headers;
  sub_body : option body;
}.

Definition submission_of (c : group_command) (shared own : Headers) : submission :=
  let json fields := Some (BJson (JObj fields)) in
  match c with
  | CPatchDevices g a r => Submit (PATCH_DEVICES_IN_GROUP_ENDPOINT g) "PATCH" shared
      (json [("add", json_nums a); ("remove", json_nums r)])
  | CUpdatePackages g p => Submit (ASSIGN_PACKAGE_IN_GROUP_ENDPOINT g) "POST" shared
      (json [("packages", json_nums p)])
  | CUpdatePolicy g p => Submit (UPDATE_GROUP_POLICY_ENDPOINT g) "POST" shared
      (json [("policy", JStr p)])
  | CUpdatePriority g p => Submit (UPDATE_GROUP_PRIORITY_ENDPOINT g) "POST" shared
      (json [("priority", json_field p)])
  | CRemoveGroup g => Submit (DELETE_GROUP_ENDPOINT g) "DELETE" own None
  end.

Definition command_event (c : group_command) (shared own : Headers) : event :=
  let x := submission_of c shared own in
  EHttp (Request DIgnored (sub_url x) (sub_method x) (sub_headers x) (sub_body x)).

Definition command_message (c : group_command) : option Z -> string :=
  match c with
  | CPatchDevices _ _ _ => patchDevices_message
  | CUpdatePackages _ _ => updatePackages_message
  | CUpdatePolicy _ _ => updatePolicy_message
  | CUpdatePriority _ _ => updatePriority_message
  | CRemoveGroup _ => removeGroup_message
  end.

(** A policy is two parts separated by one comma. *)
Definition policy_format (policy : string) : bool :=
  str_has comma policy && (length (js_split comma policy) =? 2)%nat.

Definition well_formed_command (c : group_command) : Prop :=
  match c with CUpdatePolicy _ p => policy_format p = true | _ => True end.

(** The shared headers after a command that sends them. *)
Definition after_command (c : group_command) (shared : Headers) (s : S) : S :=
  match c with
  | CRemoveGroup _ => s
  | _ => store_headers headers (token s) shared s
  end.

Lemma token_after_command c shared s : token (after_command c shared s) = token s.
Proof.
  unfold token, after_command, store_headers, headers.
  destruct c; auto; (destruct (truthy_str _); [frame|done]).
Qed.

(** The common tail: report the error, or poll the groups and succeed. *)
Lemma finish_run srv n s (out : fetched unit) (msg : option Z -> string) own :
  authorized (token s) ∅ = Some own ->
  run srv (if negb (f_success out) then jret (out_error (msg (f_code out)))
           else (fetchResources groupResources ;;; jret out_ok)) n s =
  if f_success out
  then (Done out_ok,
        polled groupResources (report (srv (sent n) (poll_request groupResources own))) s,
        Net (sent n ++ [poll_request groupResources own]) (pending n))
  else (Done (out_error (msg (f_code out))), s, n).
Proof.
  intros Hown. destruct (f_success out); cbn [negb]; [|reflexivity].
  unfold jbind. rewrite run_bind, fetchResources_run, Hown. reflexivity.
Qed.

(** A command, step by step: submit, then report or poll. *)
Lemma perform_run c (srv : server) n s shared own :
  well_formed_command c ->
  authorized (token s) (view (at_app l_gm_headers) s) = Some shared ->
  authorized (token s) ∅ = Some own ->
  run srv (perform c) n s =
  run srv (let out := report (D := unit) (srv (sent n) (command_event c shared own)) in
           if negb (f_success out)
           then jret (out_error (command_message c (f_code out)))
           else (fetchResources groupResources ;;; jret out_ok))
    (Net (sent n ++ [command_event c shared own]) (pending n)) (after_command c shared s).
Proof.
  intros Hwf Hshared Hown.
  destruct c; cbn [perform after_command well_formed_command] in *;
    unfold patchDevicesRequest, updatePackagesRequest, updatePolicyRequest,
      updatePriorityRequest, removeGroupRequest, fetchPATCH, fetchPOST, fetchDELETE;
    [| |unfold policy_format in Hwf; apply andb_prop in Hwf as [-> ->]; cbn [negb orb]| |];
    unfold jbind at 1; rewrite run_bind, fetchWrapper_run; unfold headers in *;
    cbn [headers_contents]; rewrite ?Hshared, ?Hown; reflexivity.
Qed.

(** *** The messages of a command against the documentation of the API *)

(** The error statuses of each endpoint, as the management server documents them
    ([server/src/api/v2/groups.py]). *)
Definition api_statuses (c : group_command) : list (Z * string) :=
  let unauthorized :=
    (401, "user did not provide authorization data, or the authorization has expired") in
  let forbidden what :=
    (403, "user was authorized, but did not have permission to " +:+ what) in
  match c with
  | CPatchDevices _ _ _ =>
      [unauthorized; forbidden "delete groups"; (404, "group does not exist");
       (409, "one of the conflict situations described above has occurred")]
  | CUpdatePackages _ _ =>
      [(400, "invalid request schema"); unauthorized; forbidden "assign packages";
       (404, "the specified package or group does not exist");
       (409, "the package/group was modified or deleted during the operation")]
  | CUpdatePolicy _ _ =>
      [(400, "invalid request schema, or an invalid policy schema was requested");
       unauthorized; forbidden "modify groups"; (404, "the specified group does not exist")]
  | CUpdatePriority _ _ =>
      [unauthorized; forbidden "modify groups"; (404, "the specified group does not exist");
       (409, "at least one device which is assigned to this group is also assigned to another group with the requested priority")]
  | CRemoveGroup _ =>
      [unauthorized; forbidden "delete groups"; (404, "group does not exist");
       (409, "at least one device is still assigned to the group")]
  end.

(** The statuses that the frontend words in another way. *)
Definition reworded (c : group_command) : list Z :=
  match c with CPatchDevices _ _ _ => [403; 409] | CRemoveGroup _ => [404; 409] | _ => [] end.

(** The text with its first letter in upper case. *)
Definition capitalized (s : string) : string :=
  match s with
  | String c s =>
      let n := nat_of_ascii c in
      String (if ((97 <=? n) && (n <=? 122))%nat then ascii_of_nat (n - 32) else c) s
  | EmptyString => EmptyString
  end.

(** A documented status is reported by its description, any other by its number; so
    no two statuses are reported alike. *)
Record describes (statuses : list (Z * string)) (other_words : list Z) (message : option Z -> string) : Prop := {
  describes_status code text :
    (code, text) ∈ statuses -> code ∉ other_words -> message (Some code) = capitalized text;
  describes_other : exists failed, forall code,
    (forall n, code = Some n -> n ∉ map fst statuses) -> message code = failed +:+ show_code code;
  describes_apart code code' : message (Some code) = message (Some code') -> code = code';
}.

Lemma switch_code_other cases fallback code :
  (forall n, code = Some n -> n ∉ map fst cases) -> switch_code cases fallback code = fallback +:+ show_code code.
Proof.
  intros Hc. unfold switch_code. destruct (list_find _ _) as [[i [n m]]|] eqn:E; [|done].
  apply list_find_Some in E as (Hi & Hn & _). cbn in Hn. exfalso. apply (Hc n Hn).
  change (map fst cases) with (fst <$> cases). apply list_elem_of_fmap. exists (n, m). split; [done|].
  now apply list_elem_of_lookup_2 in Hi.
Qed.

Lemma prefix_app_self (a b : string) : String.prefix a (a +:+ b) = true.
Proof.
  induction a as [|c a IH]; [now destruct b|].
  change (String c a +:+ b) with (String c (a +:+ b)). cbn [String.prefix].
  now destruct (ascii_dec c c).
Qed.

(** Cases with different texts, none of which looks like the fallback. *)
Lemma switch_code_apart cases fallback code code' :
  NoDup (map snd cases) -> Forall (fun x => String.prefix fallback x.2 = false) cases ->
  switch_code cases fallback (Some code) = switch_code cases fallback (Some code') -> code = code'.
Proof.
  intros Hn Hf. unfold switch_code.
  assert (Hp : forall i n m rest, cases !! i = Some (n, m) -> m = fallback +:+ rest -> False).
  { intros i n m rest Hi ->. apply (Forall_lookup_1 _ _ _ _ Hf) in Hi. cbn in Hi.
    now rewrite prefix_app_self in Hi. }
  destruct (list_find _ _) as [[i [n m]]|] eqn:E, (list_find (fun c => Some code' = Some c.1) cases)
    as [[i' [n' m']]|] eqn:E'; try apply list_find_Some in E as (Hi & [= ->] & _);
    try apply list_find_Some in E' as (Hi' & [= ->] & _).
  - intros ->. assert (i = i') as ->.
    { apply (NoDup_lookup _ _ _ m' Hn); change (map snd cases) with (snd <$> cases);
        [now rewrite list_lookup_fmap, Hi|now rewrite list_lookup_fmap, Hi']. }
    rewrite Hi in Hi'. now injection Hi'.
  - intros ->. now destruct (Hp _ _ _ _ Hi eq_refl).
  - intros Hm. now destruct (Hp _ _ _ _ Hi' (eq_sym Hm)).
  - intros Hm. apply string_app_inv_l in Hm. cbn [show_code] in Hm. now apply (inj pretty) in Hm.
Qed.

Lemma command_message_describes c : describes (api_statuses c) (reworded c) (command_message c).
Proof.
  split.
  - intros code text Hin Ho. destruct c; cbn [api_statuses] in Hin;
      repeat (apply elem_of_cons in Hin as [[= -> ->]|Hin]); try (now apply elem_of_nil in Hin);
      try reflexivity; exfalso; apply Ho; cbn [reworded];
      repeat first [now left|right].
  - destruct c; eexists; intros code Hc; cbn [command_message];
      apply switch_code_other; intros n Hn Hin; apply (Hc n Hn); revert Hin; cbn [map fst];
      rewrite !elem_of_cons; cbn [api_statuses map fst]; rewrite !elem_of_cons;
      unfold StatusCodes.BAD_REQUEST, StatusCodes.UNAUTHORIZED, StatusCodes.FORBIDDEN,
        StatusCodes.NOT_FOUND, StatusCodes.CONFLICT; tauto.
  - intros code code'. destruct c; apply switch_code_apart; try (apply (bool_decide_unpack _); vm_compute; exact I);
      repeat constructor.
Qed.

(** C15: every command on a group sends one request with the method, the endpoint and
    the fields of [submission_of]; a priority that the user has edited goes as the text
    of its input, although the API documents a number. If the server accepts the
    request the groups are polled again and the command reports success; otherwise the
    command reports the description that the API gives of the response code (apart from
    four that are worded differently), or the code itself if the API documents none, and
    nothing more is sent; different codes are never reported alike. *)
Theorem group_command_contract c (srv : server) n s shared own :
  well_formed_command c ->
  authorized (token s) (view (at_app l_gm_headers) s) = Some shared ->
  authorized (token s) ∅ = Some own ->
  let rq := command_event c shared own in
  let out := report (D := unit) (srv (sent n) rq) in
  let s1 := after_command c shared s in
  let n1 := Net (sent n ++ [rq]) (pending n) in
  exists message,
    run srv (perform c) n s =
      (if f_success out
       then (Done out_ok,
             polled groupResources
               (report (srv (sent n1) (poll_request groupResources own))) s1,
             Net (sent n1 ++ [poll_request groupResources own]) (pending n))
       else (Done (out_error (message (f_code out))), s1, n1)) /\
    describes (api_statuses c) (reworded c) message.
Proof.
  intros Hwf Hshared Hown. exists (command_message c). split; [|apply command_message_describes].
  erewrite perform_run by eassumption. cbn zeta.
  now rewrite (finish_run srv _ _ _ (command_message c) own) by now rewrite token_after_command.
Qed.

(** C16: a policy is submitted only when it consists of two parts around a
    single comma; any other text is refused at once, without a request and
    without touching the state. *)
Theorem updatePolicy_format groupId policy :
  (policy_format policy = true <->
     exists name arg, policy = name +:+ "," +:+ arg /\
       str_has comma name = false /\ str_has comma arg = false) /\
  (policy_format policy = false -> forall (srv : server) n s,
     run srv (updatePolicyRequest groupId policy) n s =
     (Done (out_error ("Invalid policy format: " +:+ policy)), s, n)).
Proof.
  split.
  - unfold policy_format. rewrite andb_true_iff, Nat.eqb_eq, js_split_two. split.
    + intros [_ (a & b & H2)]. exists a, b. exact H2.
    + intros (a & b & Hp & Ha & Hb). split; [|exists a, b; auto].
      rewrite Hp, str_has_app. cbn [str_has]. now rewrite orb_true_r.
  - intros Hf srv n s. unfold policy_format in Hf. unfold updatePolicyRequest.
    rewrite <- negb_andb, Hf. reflexivity.
Qed.

(** ** Creating a group *)

Definition create_event (g : NewGroupData) (h : Headers) : event :=
  EHttp (Request DIgnored GROUPS_ENDPOINT "POST" h (Some (BJson
    (JObj [("priority", JNum (default 0 (ng_priority g)));
           ("metadata", JObj
             [("rdfm.group.name", JStr (default "" (ng_name g)));
              ("rdfm.group.description", JStr (default "" (ng_description g)))])])))).

Definition complete_group (g : NewGroupData) : bool :=
  truthy_str (ng_name g) && truthy_str (ng_description g) && truthy_num (ng_priority g).

Lemma addGroup_errors_nil g : addGroup_errors g = [] <-> complete_group g = true.
Proof.
  unfold addGroup_errors, complete_group.
  destruct (truthy_str _), (truthy_str _), (truthy_num _); cbn; split; congruence.
Qed.

(** A field that has not been filled in, with the text that says so. *)
Definition missing_field (g : NewGroupData) (field text : string) : Prop :=
  (field = "name" /\ text = "No group name provided" /\ (ng_name g = None \/ ng_name g = Some "")) \/
  (field = "description" /\ text = "No group description provided" /\
   (ng_description g = None \/ ng_description g = Some "")) \/
  (field = "priority" /\ text = "No group priority provided" /\ (ng_priority g = None \/ ng_priority g = Some 0)).

Lemma addGroup_errors_missing g field text : (field, text) ∈ addGroup_errors g <-> missing_field g field text.
Proof.
  unfold addGroup_errors, missing_field.
  rewrite !elem_of_app, <- !truthy_str_false, <- truthy_num_false.
  destruct (truthy_str (ng_name g)), (truthy_str (ng_description g)), (truthy_num (ng_priority g)); cbn [negb];
    rewrite ?list_elem_of_singleton, ?elem_of_nil, ?pair_equal_spec; intuition congruence.
Qed.

Lemma addGroup_errors_NoDup g : NoDup (map fst (addGroup_errors g)).
Proof.
  unfold addGroup_errors.
  destruct (truthy_str (ng_name g)), (truthy_str (ng_description g)), (truthy_num (ng_priority g));
    apply (bool_decide_unpack _); vm_compute; exact I.
Qed.

Lemma complete_group_missing g : complete_group g = true <-> forall field text, ~ missing_field g field text.
Proof.
  rewrite <- addGroup_errors_nil. split.
  - intros He field text Hm. apply addGroup_errors_missing in Hm. rewrite He in Hm. now apply elem_of_nil in Hm.
  - intros Hm. apply elem_of_nil_inv. intros [field text] Hin. apply addGroup_errors_missing in Hin.
    exact (Hm _ _ Hin).
Qed.

(** C17: a group is created only from complete data: unless a name, a description and
    a priority other than zero are given, the call returns an error for each field
    that is missing, with its text, and for no other, and sends nothing. Otherwise the
    group is sent; the groups and then the permissions are refreshed once the server
    has accepted it, and when the stored token cannot be read at that point the call
    raises although the group exists. *)
Theorem addGroup_contract g (srv : server) n s shared own :
  authorized (token s) (view (at_app l_gm_headers) s) = Some shared ->
  authorized (token s) ∅ = Some own ->
  let rq := create_event g shared in
  let out := report (D := unit) (srv (sent n) rq) in
  let s1 := store_headers headers (token s) shared s in
  let poll := poll_request groupResources own in
  let s2 := polled groupResources (report (srv (sent n ++ [rq]) poll)) s1 in
  exists errors,
  (forall field text, (field, text) ∈ errors <-> missing_field g field text) /\
  NoDup (map fst errors) /\ (complete_group g = true <-> forall field text, ~ missing_field g field text) /\
  run srv (addGroupRequest g) n s =
    if negb (complete_group g)
    then (Done (MkOutput false None (Some errors)), s, n)
    else if negb (f_success out)
    then (Done (addGroup_failure (f_code out) []), s1, Net (sent n ++ [rq]) (pending n))
    else match claims_of s with
         | Raised e => (Raised e, s2, Net ((sent n ++ [rq]) ++ [poll]) (pending n))
         | Done c =>
             let ask := permissions_event own in
             (Done (MkOutput true None (Some [])), s2,
              Net (((sent n ++ [rq]) ++ [poll]) ++ [ask])
                (pending n ++ [store_permissions c (report (D := list Permission)
                   (srv ((sent n ++ [rq]) ++ [poll]) ask))]))
         end.
Proof.
  intros Hshared Hown. cbn zeta. exists (addGroup_errors g).
  split; [apply addGroup_errors_missing|]. split; [apply addGroup_errors_NoDup|].
  split; [apply complete_group_missing|]. unfold addGroupRequest.
  destruct (complete_group g) eqn:Hc; cbn [negb].
  - apply addGroup_errors_nil in Hc. rewrite Hc. cbn [length Nat.ltb Nat.leb].
    unfold fetchPOST, jbind at 1. rewrite run_bind, fetchWrapper_run.
    change (headers_contents headers s) with (view (at_app l_gm_headers) s).
    rewrite Hshared. cbn zeta. fold (create_event g shared).
    destruct (report _) as [[] code data]; cbn [f_success negb f_code]; [|reflexivity].
    assert (Ht : forall out s1, token (polled groupResources out (store_headers headers (token s) shared s1)) = token s1).
    { intros out s1. unfold token, polled, store_headers, headers, groupResources; cbn [g_value g_doc].
      destruct (f_success _); [|destruct (bool_decide _)];
        (destruct (truthy_str _); frame). }
    unfold jbind at 1. rewrite run_bind, fetchResources_run.
    rewrite (token_after_command (CUpdatePriority None VNull) shared s : token (store_headers headers (token s) shared s) = token s).
    rewrite Hown. cbn [sent pending]. unfold jbind. rewrite run_bind, updatePermissions_run.
    unfold claims_of. rewrite Ht. destruct (token s) as [t|] eqn:Et; [|reflexivity].
    destruct (parseJWT t); [|reflexivity]. rewrite Hown. reflexivity.
  - destruct (addGroup_errors g) eqn:E; [|reflexivity].
    apply addGroup_errors_nil in E. congruence.
Qed.

(** *** The shared header object *)

Definition shares_headers (c : group_command) : bool :=
  match c with CRemoveGroup _ => false | _ => true end.

Lemma perform_shared_headers c (srv : server) n s shared own :
  well_formed_command c -> shares_headers c = true -> truthy_str (token s) = true ->
  authorized (token s) (view (at_app l_gm_headers) s) = Some shared ->
  authorized (token s) ∅ = Some own ->
  view (at_app l_gm_headers) (snd (fst (run srv (perform c) n s))) = shared.
Proof.
  intros Hwf Hsh Ht Hshared Hown. erewrite perform_run by eassumption. cbn zeta.
  rewrite (finish_run srv _ _ _ (command_message c) own) by now rewrite token_after_command.
  assert (Hs1 : view (at_app l_gm_headers) (after_command c shared s) = shared).
  { destruct c; try discriminate; unfold after_command, store_headers, headers;
      rewrite Ht; apply view_put. }
  destruct (f_success _); cbn [fst snd]; [|exact Hs1].
  etransitivity; [|exact Hs1]. unfold polled, groupResources; cbn [g_value g_doc].
  destruct (f_success _); [|destruct (bool_decide _)]; frame.
Qed.

Lemma perform_sends c (srv : server) n s shared own :
  well_formed_command c ->
  authorized (token s) (view (at_app l_gm_headers) s) = Some shared ->
  authorized (token s) ∅ = Some own ->
  exists rest, sent (snd (run srv (perform c) n s)) =
    sent n ++ command_event c shared own :: rest.
Proof.
  intros Hwf Hshared Hown. erewrite perform_run by eassumption. cbn zeta.
  match goal with |- context [run srv ?p ?m ?s1] =>
    destruct (run_trace_extends srv p m s1) as [rest Hrest] end.
  exists rest. rewrite Hrest. cbn. now rewrite <- app_assoc.
Qed.

(** [localStorage.removeItem('access_token')] *)
Definition forget_token (s : S) : S := over (at_app l_storage) (delete "access_token") s.

(** C18: the module's header object keeps the token of its last request: when the
    stored token is gone and the module is still loaded, as after a logout in another
    tab, the next command of [groups.ts] that shares the object is still sent with the
    bearer token of the previous session. *)
Theorem shared_headers_keep_token c c' (srv : server) n n' s tok shared :
  well_formed_command c -> shares_headers c = true ->
  well_formed_command c' ->
  token s = Some tok -> tok <> "" ->
  authorized (token s) (view (at_app l_gm_headers) s) = Some shared ->
  let s1 := forget_token (snd (fst (run srv (perform c) n s))) in
  token s1 = None /\
  exists h rest,
    sent (snd (run srv (perform c') n' s1)) = sent n' ++ command_event c' h ∅ :: rest /\
    h !! "Authorization" = Some (normalize_value ("Bearer token=" +:+ tok)).
Proof.
  intros Hwf Hsh Hwf' Htok Hne Hshared. cbn zeta.
  assert (Ht : truthy_str (token s) = true).
  { rewrite Htok. cbn. now apply negb_true_iff, String.eqb_neq. }
  destruct (authorized_indep _ _ ∅ (mk_is_Some _ _ Hshared)) as [own Hown].
  pose proof (perform_shared_headers c srv n s shared own Hwf Hsh Ht Hshared Hown) as Hh.
  set (s1 := snd (fst (run srv (perform c) n s))) in *.
  assert (Hgone : token (forget_token s1) = None).
  { unfold token, forget_token, over. rewrite view_put. apply lookup_delete_eq. }
  split; [done|].
  assert (Hkept : view (at_app l_gm_headers) (forget_token s1) = shared).
  { rewrite <- Hh. unfold forget_token, over. frame. }
  destruct (perform_sends c' srv n' (forget_token s1) shared ∅) as [rest Hrest];
    [done|now rewrite Hgone, Hkept|now rewrite Hgone|].
  exists shared, rest. split; [done|]. rewrite Htok in Hshared.
  apply authorized_token in Hshared; [|done]. rewrite Hshared. apply lookup_insert_eq.
Qed.
End Commands.

(** ** The theorems at concrete inputs *)

#[local] Existing Instance sample_env.
#[local] Existing Instance subject_parser.

Definition bearer : string := "Bearer token=" +:+ sample_token.
Definition sample_state : App := sample_app initial_headers.

(** The header fields with the token of the sample session. *)
Definition sample_shared : Headers := <["Authorization" := bearer]> initial_headers.
Definition sample_own : Headers := {["Authorization" := bearer]}.

Lemma sample_shared_authorized :
  authorized (token sample_state) (view (at_app l_gm_headers) sample_state) = Some sample_shared.
Proof. vm_compute. reflexivity. Qed.
Lemma sample_own_authorized : authorized (token sample_state) ∅ = Some sample_own.
Proof. vm_compute. reflexivity. Qed.

Lemma group_command_contract_witness :
  let c := CUpdatePackages (Some 1) [4] in
  fst (fst (run (refusing 409) (perform c) idle sample_state)) =
    Done (out_error "The package/group was modified or deleted during the operation") /\
  fst (fst (run accepting (perform c) idle sample_state)) = Done out_ok.
Proof.
  cbv zeta.
  pose proof (fun srv => group_command_contract (CUpdatePackages (Some 1) [4]) srv idle sample_state
    sample_shared sample_own I sample_shared_authorized sample_own_authorized) as Hg. cbv zeta in Hg.
  split.
  - destruct (Hg (refusing 409)) as (message & -> & Hm).
    change (Done (out_error (message (Some 409))) = Done (out_error
      (capitalized "the package/group was modified or deleted during the operation"))).
    do 2 f_equal. apply (describes_status _ _ _ Hm); [|intros Hin; now apply elem_of_nil in Hin].
    right. right. right. right. left.
  - destruct (Hg accepting) as (message & -> & _). vm_compute. reflexivity.
Defined.

Lemma updatePolicy_format_witness :
  run accepting (updatePolicyRequest (Some 1) "exact_match") idle sample_state =
  (Done (out_error "Invalid policy format: exact_match"), sample_state, idle).
Proof. exact (proj2 (updatePolicy_format (Some 1) "exact_match") eq_refl accepting idle sample_state). Defined.

Lemma addGroup_contract_witness :
  let g := MkNewGroup (Some "lab") (Some "test boards") (Some 10) in
  fst (fst (run accepting (addGroupRequest g) idle sample_state)) =
    Done (MkOutput true None (Some [])) /\
  fst (fst (run (refusing 403) (addGroupRequest g) idle sample_state)) =
    Done (addGroup_failure (Some 403) []).
Proof.
  cbv zeta.
  pose proof (fun srv => addGroup_contract (MkNewGroup (Some "lab") (Some "test boards") (Some 10)) srv idle
    sample_state sample_shared sample_own sample_shared_authorized sample_own_authorized) as Hg. cbv zeta in Hg.
  split.
  - destruct (Hg accepting) as (errors & _ & _ & _ & ->). vm_compute. reflexivity.
  - destruct (Hg (refusing 403)) as (errors & _ & _ & _ & ->). vm_compute. reflexivity.
Defined.

Lemma shared_headers_keep_token_witness :
  let s1 := forget_token (snd (fst (run accepting (perform (CUpdatePriority (Some 1) (VNum 7)))
                                      idle sample_state))) in
  exists h rest,
    sent (snd (run accepting (perform (CUpdatePackages (Some 1) [4])) idle s1)) =
      command_event (CUpdatePackages (Some 1) [4]) h ∅ :: rest /\
    h !! "Authorization" = Some bearer.
Proof.
  assert (Ht : token sample_state = Some sample_token) by (vm_compute; reflexivity).
  assert (Ha : authorized (token sample_state) (view (at_app l_gm_headers) sample_state) =
    Some (<["Authorization" := bearer]> initial_headers)) by (vm_compute; reflexivity).
  exact (proj2 (shared_headers_keep_token (CUpdatePriority (Some 1) (VNum 7))
    (CUpdatePackages (Some 1) [4]) accepting idle idle sample_state sample_token _
    I eq_refl I Ht ltac:(discriminate) Ha)).
Defined.
