(* ===== verification/GroupsList.v ===== *)
(** * [components/groups/GroupsList.vue]: browsing and configuring groups *)

From S2P Require Import Prelude Json Http Async App Utils Fetch Polling Notifications Jwt Groups.
From stdpp Require Import base tactics list gmap strings pretty.
#[local] Open Scope Z_scope.

(** ** State of the component *)

Inductive GroupPopupOpen : Type := PopupAddGroup | PopupRemoveGroup | PopupConfigureGroup | PopupNone.
Inductive DropDownOpen : Type := DropPackages | DropDevices | DropNone.

#[export] Instance GroupPopupOpen_eq_dec : EqDecision GroupPopupOpen.
Proof. solve_decision. Defined.
#[export] Instance DropDownOpen_eq_dec : EqDecision DropDownOpen.
Proof. solve_decision. Defined.

(** [type InitialGroupConfiguration] of [groups.ts]. *)
Record InitialGroupConfiguration : Type := MkInitial {
  ic_id : Z;
  ic_priority : Z;
  ic_devices : list Z;
  ic_policy : option string;
  ic_packages : list Z;
}.

#[export] Instance InitialGroupConfiguration_eq_dec : EqDecision InitialGroupConfiguration.
Proof. solve_decision. Defined.

(** [type GroupConfiguration] of [groups.ts]; the priority is bound to a text
    input. *)
Record GroupConfiguration : Type := MkConfiguration {
  gc_id : option Z;
  gc_priority : field_value;
  gc_policy : option string;
  gc_devices : option (list Z);
  gc_packages : option (list Z);
}.

(** [interface DataEntry] of [Dropdown.vue]: a row of a dropdown. *)
Record DataEntry : Type := MkEntry {
  de_id : Z;
  de_selected : bool;
  de_fields : list (string * option string);
}.

Record GroupsList : Type := MkGroupsList {
  popupOpen : GroupPopupOpen;
  newGroupData : NewGroupData;
  validationErrors : gmap string string;
  groupToRemove : option Z;
  groupConfiguration : GroupConfiguration;
  initialGroupConfiguration : option InitialGroupConfiguration;
  intervalID : option Z;
  openDropdown : DropDownOpen;
  packageList : list DataEntry;
  deviceList : list DataEntry;
}.

Definition l_popupOpen : lens (world GroupsList) (GroupPopupOpen).
Proof.
  refine (lens_comp local_state (Lens popupOpen
    (fun x s => MkGroupsList x (newGroupData s) (validationErrors s) (groupToRemove s)
      (groupConfiguration s) (initialGroupConfiguration s) (intervalID s) (openDropdown s)
      (packageList s) (deviceList s)) _ _ _)); lens_laws.
Defined.
Definition l_newGroupData : lens (world GroupsList) (NewGroupData).
Proof.
  refine (lens_comp local_state (Lens newGroupData
    (fun x s => MkGroupsList (popupOpen s) x (validationErrors s) (groupToRemove s)
      (groupConfiguration s) (initialGroupConfiguration s) (intervalID s) (openDropdown s)
      (packageList s) (deviceList s)) _ _ _)); lens_laws.
Defined.
Definition l_validationErrors : lens (world GroupsList) (gmap string string).
Proof.
  refine (lens_comp local_state (Lens validationErrors
    (fun x s => MkGroupsList (popupOpen s) (newGroupData s) x (groupToRemove s)
      (groupConfiguration s) (initialGroupConfiguration s) (intervalID s) (openDropdown s)
      (packageList s) (deviceList s)) _ _ _)); lens_laws.
Defined.
Definition l_groupToRemove : lens (world GroupsList) (option Z).
Proof.
  refine (lens_comp local_state (Lens groupToRemove
    (fun x s => MkGroupsList (popupOpen s) (newGroupData s) (validationErrors s) x
      (groupConfiguration s) (initialGroupConfiguration s) (intervalID s) (openDropdown s)
      (packageList s) (deviceList s)) _ _ _)); lens_laws.
Defined.
Definition l_groupConfiguration : lens (world GroupsList) (GroupConfiguration).
Proof.
  refine (lens_comp local_state (Lens groupConfiguration
    (fun x s => MkGroupsList (popupOpen s) (newGroupData s) (validationErrors s)
      (groupToRemove s) x (initialGroupConfiguration s) (intervalID s) (openDropdown s)
      (packageList s) (deviceList s)) _ _ _)); lens_laws.
Defined.
Definition l_initialGroupConfiguration : lens (world GroupsList) (option InitialGroupConfiguration).
Proof.
  refine (lens_comp local_state (Lens initialGroupConfiguration
    (fun x s => MkGroupsList (popupOpen s) (newGroupData s) (validationErrors s)
      (groupToRemove s) (groupConfiguration s) x (intervalID s) (openDropdown s)
      (packageList s) (deviceList s)) _ _ _)); lens_laws.
Defined.
Definition groups_interval : lens GroupsList (option Z).
Proof.
  refine (Lens intervalID
    (fun x s => MkGroupsList (popupOpen s) (newGroupData s) (validationErrors s) (groupToRemove s)
      (groupConfiguration s) (initialGroupConfiguration s) x
      (openDropdown s) (packageList s) (deviceList s)) _ _ _); lens_laws.
Defined.
Definition l_openDropdown : lens (world GroupsList) (DropDownOpen).
Proof.
  refine (lens_comp local_state (Lens openDropdown
    (fun x s => MkGroupsList (popupOpen s) (newGroupData s) (validationErrors s)
      (groupToRemove s) (groupConfiguration s) (initialGroupConfiguration s) (intervalID
      s) x (packageList s) (deviceList s)) _ _ _)); lens_laws.
Defined.
Definition l_packageList : lens (world GroupsList) (list DataEntry).
Proof.
  refine (lens_comp local_state (Lens packageList
    (fun x s => MkGroupsList (popupOpen s) (newGroupData s) (validationErrors s)
      (groupToRemove s) (groupConfiguration s) (initialGroupConfiguration s) (intervalID
      s) (openDropdown s) x (deviceList s)) _ _ _)); lens_laws.
Defined.
Definition l_deviceList : lens (world GroupsList) (list DataEntry).
Proof.
  refine (lens_comp local_state (Lens deviceList
    (fun x s => MkGroupsList (popupOpen s) (newGroupData s) (validationErrors s)
      (groupToRemove s) (groupConfiguration s) (initialGroupConfiguration s) (intervalID
      s) (openDropdown s) (packageList s) x) _ _ _)); lens_laws.
Defined.

Definition empty_group : NewGroupData := MkNewGroup None None None.

(** The component's state when [setup] has run. *)
Definition initial_groups_list : GroupsList :=
  MkGroupsList PopupNone empty_group ∅ None
    (MkConfiguration None VNull None None None) None None DropNone [] [].

(** [String.prototype.localeCompare] in the user's locale. *)
Class Collation : Type := localeCompare : string -> string -> Z.

(** [a == b] for a string and a string or an array of strings, which is joined
    by commas; a missing value only equals a missing value. *)
Definition loose_eq (a : option string) (b : option MetaValue) : bool :=
  match a, b with
  | None, None => true
  | Some x, Some (MStr y) => String.eqb x y
  | Some x, Some (MList l) => String.eqb x (js_join "," l)
  | _, _ => false
  end.

(** An option of the policy dropdown. *)
Record PolicyOption : Type := MkPolicyOption {
  po_id : string;
  po_display : string;
}.

Section Component.
Context `{BuildEnv} `{JsonParser}.

Abbreviation W := (world GroupsList).

(** ** Adding a group *)

Definition openAddGroupPopup : js W unit :=
  assign l_popupOpen PopupAddGroup ;;;
  assign l_validationErrors ∅.

Definition closeAddGroupPopup : js W unit :=
  assign l_newGroupData empty_group ;;;
  assign l_popupOpen PopupNone.

(** [for (let [field, error] of errors) validationErrors.set(field, error)] *)
Definition set_errors (errors : list (string * string)) (m : gmap string string) :
    gmap string string := foldl (fun m e => <[e.1 := e.2]> m) m errors.

(** [message || fallback] *)
Definition or_message (message : option string) (fallback : string) : string :=
  if truthy_str message then default "" message else fallback.

Definition addGroup : js W unit :=
  assign l_validationErrors ∅ ;;;
  let* newGroup := read l_newGroupData in
  let* out := addGroupRequest newGroup in
  match ro_errors out with
  | Some errors => update l_validationErrors (set_errors errors)
  | None => jret tt
  end ;;;
  if negb (ro_success out) then
    notifyError "Error when adding group:"
      (Some (or_message (ro_message out) "Adding group failed"))
  else
    (let* data := read l_newGroupData in
     notifySuccess ("Group " +:+ match ng_name data with Some n => n | None => "null" end
                    +:+ " was added") None ;;;
     closeAddGroupPopup).

(** ** Removing a group *)

Definition openRemoveGroupPopup (groupId : Z) : js W unit :=
  assign l_groupToRemove (Some groupId) ;;;
  assign l_popupOpen PopupRemoveGroup.

Definition closeRemoveGroupPopup : js W unit :=
  assign l_groupToRemove None ;;;
  assign l_popupOpen PopupNone.

Definition removeGroup : js W unit :=
  let* id := read l_groupToRemove in
  let* out := removeGroupRequest id in
  (if negb (ro_success out) then
     notifyError "Error when removing group:"
       (Some (or_message (ro_message out) "Removing group failed"))
   else notifySuccess "Group was removed" None) ;;;
  closeRemoveGroupPopup.

(** ** Dropdowns *)

Definition closeDropdowns : js W unit := assign l_openDropdown DropNone.

Definition toggleDropdown (dropdown : DropDownOpen) : js W unit :=
  update l_openDropdown (fun o => if bool_decide (o = dropdown) then DropNone else dropdown).

(** [list.value[i].selected = !list.value[i].selected]; a missing row raises. *)
Definition toggle_entry (l : lens W (list DataEntry)) (i : nat) : js W unit :=
  let* rows := read l in
  match rows !! i with
  | None => jthrow TypeError
  | Some e => assign l (<[i := MkEntry (de_id e) (negb (de_selected e)) (de_fields e)]> rows)
  end.

Definition selectPackage : nat -> js W unit := toggle_entry l_packageList.
Definition selectDevice : nat -> js W unit := toggle_entry l_deviceList.

(** The identifiers of the selected rows. *)
Definition selected_ids (rows : list DataEntry) : list Z :=
  map de_id (js_filter de_selected rows).

(** ** Configuring a group *)

Definition package_rows (group : Group) (packages : list Package) : list DataEntry :=
  map (fun v => MkEntry (pkg_id v) (includes (pkg_id v) (grp_packages group))
    [("version", pkg_metadata v !! "rdfm.software.version");
     ("type", pkg_metadata v !! "rdfm.hardware.devtype")]) packages.

Definition device_rows (group : Group) (devices : list RegisteredDevice) : list DataEntry :=
  map (fun v => MkEntry (dev_id v) (includes (dev_id v) (grp_devices group))
    [("mac_address", Some (dev_mac_address v)); ("name", Some (dev_name v))]) devices.

Definition openConfigureGroupPopup (group : Group) : js W unit :=
  assign l_groupConfiguration
    (MkConfiguration (Some (grp_id group)) (VNum (grp_priority group)) (Some (grp_policy group))
      (Some (grp_devices group)) (Some (grp_packages group))) ;;;
  let* packages := read (at_app l_gm_packages) in
  assign l_packageList (package_rows group (default [] (resources packages))) ;;;
  let* devices := read (at_app l_gm_devices) in
  assign l_deviceList (device_rows group (default [] (resources devices))) ;;;
  assign l_initialGroupConfiguration
    (Some (MkInitial (grp_id group) (grp_priority group) (grp_devices group)
      (Some (grp_policy group)) (grp_packages group))) ;;;
  assign l_popupOpen PopupConfigureGroup.

Definition closeConfigureGroupPopup : js W unit :=
  update l_groupConfiguration (fun c =>
    MkConfiguration None VNull (gc_policy c) (gc_devices c) (gc_packages c)) ;;;
  assign l_initialGroupConfiguration None ;;;
  assign l_popupOpen PopupNone ;;;
  closeDropdowns.

Definition wasGroupModified (original : Group) (initial : InitialGroupConfiguration) : bool :=
  negb (
    bool_decide (grp_id original = ic_id initial) &&
    bool_decide (grp_priority original = ic_priority initial) &&
    bool_decide (Some (grp_policy original) = ic_policy initial) &&
    String.eqb (stringify (json_nums (grp_packages original)))
               (stringify (json_nums (ic_packages initial))) &&
    String.eqb (stringify (json_nums (grp_devices original)))
               (stringify (json_nums (ic_devices initial)))).

(** Properties of [null] and [undefined] raise. *)
Definition deref {A} (o : option A) : js W A :=
  match o with Some a => jret a | None => jthrow TypeError end.

(** A step that reports its failure and ends the configuration. *)
Definition report_failure (out : RequestOutput) (headline fallback : string) : js W unit :=
  notifyError headline (Some (or_message (ro_message out) fallback)).

(** The last step, and the end of a configuration that went through. *)
Definition configure_policy (requestWasMade : bool) : js W unit :=
  let finish :=
    (if requestWasMade : bool
     then notifySuccess "Group configuration was updated" None else jret tt) ;;;
    closeConfigureGroupPopup in
  let* conf := read l_groupConfiguration in
  let* initial := (let* i := read l_initialGroupConfiguration in deref i) in
  if negb (String.eqb (stringify (json_nullable (gc_policy conf)))
                      (stringify (json_nullable (ic_policy initial)))) then
    if negb (truthy_str (gc_policy conf)) then
      notifyError "Error when updating group policy:" (Some "Policy is a required field")
    else
      let* out := updatePolicyRequest (gc_id conf) (default "" (gc_policy conf)) in
      if negb (ro_success out) then
        report_failure out "Error when updating group update policy"
          "Updating group update policy failed"
      else finish
  else finish.

Definition configure_packages (requestWasMade : bool) : js W unit :=
  let* initialPackages := (let* i := read l_initialGroupConfiguration in
                           let* i := deref i in jret (ic_packages i)) in
  let* rows := read l_packageList in
  let newPackages := selected_ids rows in
  if negb (String.eqb (stringify (json_nums initialPackages))
                      (stringify (json_nums newPackages))) then
    let* conf := read l_groupConfiguration in
    let* out := updatePackagesRequest (gc_id conf) newPackages in
    if negb (ro_success out) then
      report_failure out "Error when updating group packages:" "Updating group packages failed"
    else configure_policy true
  else configure_policy requestWasMade.

Definition removed_devices (initial new : list Z) : list Z :=
  js_filter (fun device => negb (includes device new)) initial.
Definition added_devices (initial new : list Z) : list Z :=
  js_filter (fun device => negb (includes device initial)) new.

Definition configure_devices (requestWasMade : bool) : js W unit :=
  let* initialDevices := (let* i := read l_initialGroupConfiguration in
                          let* i := deref i in jret (ic_devices i)) in
  let* rows := read l_deviceList in
  let newDevices := selected_ids rows in
  let removedDevices := removed_devices initialDevices newDevices in
  let addedDevices := added_devices initialDevices newDevices in
  if (0 <? length removedDevices)%nat || (0 <? length addedDevices)%nat then
    let* conf := read l_groupConfiguration in
    let* out := patchDevicesRequest (gc_id conf) addedDevices removedDevices in
    if negb (ro_success out) then
      report_failure out "Error when updating group devices:" "Updating group devices failed"
    else configure_packages true
  else configure_packages requestWasMade.

Definition configure_priority : js W unit :=
  let* conf := read l_groupConfiguration in
  let* initial := (let* i := read l_initialGroupConfiguration in deref i) in
  if negb (bool_decide (gc_priority conf = VNum (ic_priority initial))) then
    let* out := updatePriorityRequest (gc_id conf) (gc_priority conf) in
    if negb (ro_success out) then
      report_failure out "Error when updating group priority:" "Updating group priority failed"
    else configure_devices true
  else configure_devices false.

Definition configureGroup : js W unit :=
  let* groups := (let* r := read (at_app l_gm_groups) in deref (resources r)) in
  let* conf := read l_groupConfiguration in
  let* groupToModify :=
    deref (js_find (fun group => bool_decide (Some (grp_id group) = gc_id conf)) groups) in
  let* initial := (let* i := read l_initialGroupConfiguration in deref i) in
  if wasGroupModified groupToModify initial then
    notifyError "Modification detected during configuration! Configuration is aborted." None
  else configure_priority.

(** ** What the popup shows *)

(** The packages selected in the popup, as far as they are (still) loaded. *)
Definition selectedPackages (s : W) : list Package :=
  let loaded := default [] (resources (view (at_app l_gm_packages) s)) in
  omap (fun id => js_find (fun p => pkg_id p =? id) loaded)
    (selected_ids (view l_packageList s)).

Definition selectedDevices (s : W) : list RegisteredDevice :=
  let loaded := default [] (resources (view (at_app l_gm_devices) s)) in
  omap (fun id => js_find (fun d => dev_id d =? id) loaded)
    (selected_ids (view l_deviceList s)).

(** [groupConfiguration.policy?.split(',')[1]] *)
Definition policy_arg (policy : option string) : option string :=
  p ← policy; js_split comma p !! 1%nat.

Definition version_of (p : Package) : option string := pkg_metadata p !! "rdfm.software.version".
Definition devtype_of (p : Package) : option string := pkg_metadata p !! "rdfm.hardware.devtype".

Definition unapplicablePolicyWarning (s : W) : bool :=
  let policyArg := policy_arg (gc_policy (view l_groupConfiguration s)) in
  if (length (selectedDevices s) =? 0)%nat then false
  else if negb (truthy_str policyArg) then false
  else
    let matchingPackages :=
      js_filter (fun p => bool_decide (version_of p = policyArg)) (selectedPackages s) in
    js_every (fun d =>
      js_every (fun p =>
        negb (loose_eq (devtype_of p) (dev_metadata d !! "rdfm.hardware.devtype")))
        matchingPackages) (selectedDevices s).

Definition policy_option (version : option string) : PolicyOption :=
  MkPolicyOption ("exact_match," +:+ template version) ("Match version " +:+ template version).

Definition availablePolicies `{Collation} (s : W) : list PolicyOption :=
  let availableVersions := js_sort localeCompare (map version_of (selectedPackages s)) in
  MkPolicyOption "no_update," "No Update" :: map policy_option (js_set availableVersions).

(** ** Polling *)

Definition fetchGroupsListResources : js W unit :=
  fetchResources packagesResources ;;;
  fetchResources devicesResources ;;;
  fetchResources groupResources.

Definition startPolling : js W unit := start_polling groups_interval.
Definition stopPolling : js W unit := stop_polling groups_interval.

Definition onMounted : js W unit := mounted groups_interval fetchGroupsListResources.
Definition onUnmounted : js W unit := stopPolling.

Definition groupsCount (s : W) : nat :=
  length (default [] (resources (view (at_app l_gm_groups) s))).
End Component.
