(* ===== verification/GroupsListSpec.v ===== *)
(** * Configuring a group: what [GroupsList.vue] guarantees

    The configuration of a group is a plan: the commands that lead from the
    configuration the popup was opened with to the one the user selected.
    [configureGroup] interleaves computing the plan with executing it, reading
    the state anew after every request; the file proves that, with nobody
    interfering, it executes exactly the plan computed at the start, in order,
    up to the first command that fails. *)

From S2P Require Import Prelude Json Http Async App Utils Fetch Notifications Jwt Samples Groups GroupsList.
From stdpp Require Import base tactics list gmap strings pretty.
#[local] Open Scope Z_scope.

(** ** Detecting a concurrent modification *)

Lemma json_nums_eqb l m :
  String.eqb (stringify (json_nums l)) (stringify (json_nums m)) = bool_decide (l = m).
Proof.
  destruct (decide (l = m)) as [->|Hne].
  - rewrite String.eqb_refl. symmetry. now apply bool_decide_eq_true_2.
  - rewrite bool_decide_eq_false_2 by done. apply String.eqb_neq. intros H.
    now apply stringify_nums_inj in H.
Qed.

Lemma json_nullable_eqb a b :
  String.eqb (stringify (json_nullable a)) (stringify (json_nullable b)) = bool_decide (a = b).
Proof.
  destruct (decide (a = b)) as [->|Hne].
  - rewrite String.eqb_refl. symmetry. now apply bool_decide_eq_true_2.
  - rewrite bool_decide_eq_false_2 by done. apply String.eqb_neq. intros H.
    now apply stringify_nullable_inj in H.
Qed.

(** What a popup remembers of a group. *)
Definition snapshot (g : Group) : InitialGroupConfiguration :=
  MkInitial (grp_id g) (grp_priority g) (grp_devices g) (Some (grp_policy g)) (grp_packages g).

(** C19: comparing serialisations detects every change: a group counts as
    unmodified exactly when it still has the identifier, priority, policy,
    packages and devices the popup was opened with, lists compared in order. *)
Theorem wasGroupModified_spec original initial :
  wasGroupModified original initial = false <-> snapshot original = initial.
Proof.
  unfold wasGroupModified. rewrite !json_nums_eqb, negb_false_iff, !andb_true_iff,
    !bool_decide_eq_true.
  destruct initial as [i p d po pk]. unfold snapshot. cbn. split.
  - intros [[[[-> ->] ->] ->] ->]. reflexivity.
  - intros [= <- <- <- <- <-]. auto.
Qed.

(** ** The difference between two device lists *)

(** C20: the patch that is sent turns the devices the group had into the selected
    ones: it adds only devices that were not assigned, removes only devices
    that were, and leads to exactly the selection. It is empty, and then not
    sent, precisely when both lists have the same members. *)
Theorem device_patch_correct initial selected :
  let added := added_devices initial selected in
  let removed := removed_devices initial selected in
  (forall d, d ∈ selected <-> (d ∈ initial /\ d ∉ removed) \/ d ∈ added) /\
  (forall d, d ∈ added -> d ∉ initial) /\
  (forall d, d ∈ removed -> d ∈ initial) /\
  ((0 <? length removed)%nat || (0 <? length added)%nat = false <->
     forall d, d ∈ initial <-> d ∈ selected).
Proof.
  cbn zeta. unfold added_devices, removed_devices.
  assert (Hnil : forall l : list Z, (0 <? length l)%nat = false <-> forall d, d ∉ l).
  { intros [|x l]; split; try done.
    - intros _ d Hd. now apply elem_of_nil in Hd.
    - intros Hl. exfalso. apply (Hl x). left. }
  assert (Hin : forall (l m : list Z) d, d ∈ js_filter (fun x => negb (includes x m)) l <->
    d ∈ l /\ d ∉ m).
  { intros l m d. now rewrite js_filter_spec, negb_true_iff, includes_false. }
  split; [|split; [|split]].
  - intros d. rewrite !Hin. destruct (decide (d ∈ initial)), (decide (d ∈ selected)); tauto.
  - intros d. rewrite Hin. tauto.
  - intros d. rewrite Hin. tauto.
  - rewrite orb_false_iff, !Hnil. setoid_rewrite Hin. split.
    + intros [Hr Ha] d. specialize (Hr d). specialize (Ha d).
      destruct (decide (d ∈ initial)), (decide (d ∈ selected)); tauto.
    + intros Heq. split; intros d; rewrite Heq; tauto.
Qed.

(** ** The plan of a configuration *)

Inductive plan_step : Type :=
| SCommand (c : group_command) (headline fallback : string) (counts : bool)
| SPolicyRequired.

Section Plan.
Context `{BuildEnv} `{JsonParser}.

Abbreviation W := (world GroupsList).

(** The steps, computed from the component's state [l] and the configuration
    [i] the popup was opened with. Only the steps that [counts] make the
    success notification appear. *)
Definition priority_steps (l : GroupsList) (i : InitialGroupConfiguration) : list plan_step :=
  let conf := groupConfiguration l in
  if bool_decide (gc_priority conf = VNum (ic_priority i)) then []
  else [SCommand (CUpdatePriority (gc_id conf) (gc_priority conf))
          "Error when updating group priority:" "Updating group priority failed" true].

Definition device_steps (l : GroupsList) (i : InitialGroupConfiguration) : list plan_step :=
  let selected := selected_ids (deviceList l) in
  let added := added_devices (ic_devices i) selected in
  let removed := removed_devices (ic_devices i) selected in
  match removed, added with
  | [], [] => []
  | _, _ => [SCommand (CPatchDevices (gc_id (groupConfiguration l)) added removed)
               "Error when updating group devices:" "Updating group devices failed" true]
  end.

Definition package_steps (l : GroupsList) (i : InitialGroupConfiguration) : list plan_step :=
  let selected := selected_ids (packageList l) in
  if bool_decide (ic_packages i = selected) then []
  else [SCommand (CUpdatePackages (gc_id (groupConfiguration l)) selected)
          "Error when updating group packages:" "Updating group packages failed" true].

Definition policy_steps (l : GroupsList) (i : InitialGroupConfiguration) : list plan_step :=
  let conf := groupConfiguration l in
  if bool_decide (gc_policy conf = ic_policy i) then []
  else match gc_policy conf with
       | Some p =>
           if String.eqb p "" then [SPolicyRequired]
           else [SCommand (CUpdatePolicy (gc_id conf) p)
                   "Error when updating group update policy"
                   "Updating group update policy failed" false]
       | None => [SPolicyRequired]
       end.

Definition plan (l : GroupsList) (i : InitialGroupConfiguration) : list plan_step :=
  priority_steps l i ++ device_steps l i ++ package_steps l i ++ policy_steps l i.

(** Executing a plan: each command waits for the previous one to succeed; the
    first failure is reported and ends the execution, leaving the popup open. *)
Fixpoint exec_plan (steps : list plan_step) (made : bool) : js W unit :=
  match steps with
  | [] =>
      (if made then notifySuccess "Group configuration was updated" None else jret tt) ;;;
      closeConfigureGroupPopup
  | SPolicyRequired :: _ =>
      notifyError "Error when updating group policy:" (Some "Policy is a required field")
  | SCommand c headline fallback counts :: rest =>
      let* out := perform c in
      if negb (ro_success out) then report_failure out headline fallback
      else exec_plan rest (made || counts)
  end.

(** The specification of the button "Configure". *)
Definition configure_spec (groups : list Group) (l : GroupsList) : js W unit :=
  match js_find (fun g => bool_decide (Some (grp_id g) = gc_id (groupConfiguration l))) groups,
        initialGroupConfiguration l with
  | Some g, Some i =>
      if bool_decide (snapshot g = i) then exec_plan (plan l i) false
      else notifyError
             "Modification detected during configuration! Configuration is aborted." None
  | _, _ => jthrow TypeError
  end.

(** *** Commands settle and leave the component's own state alone *)

Lemma fetchWrapper_local srv n (s : W) d url method (h : headers_obj W) b :
  (forall l, h = HShared l -> l = at_app l_gm_headers) ->
  exists out s' n', run srv (fetchWrapper d url method h b) n s = (Done out, s', n') /\
    snd s' = snd s.
Proof.
  intros Hh. rewrite fetchWrapper_run.
  destruct (authorized _ _); cbn zeta; do 3 eexists; (split; [reflexivity|]); [|done].
  unfold store_headers. destruct h as [|l]; [done|]. rewrite (Hh l eq_refl).
  now destruct (truthy_str _).
Qed.

Lemma groupResources_local srv n (s : W) :
  exists s' n', run srv (fetchResources groupResources) n s = (Done tt, s', n') /\
    snd s' = snd s.
Proof.
  rewrite fetchResources_run. destruct (authorized _ _); cbn zeta;
    do 2 eexists; (split; [reflexivity|]); [|done].
  unfold polled. destruct (f_success _); [done|]. now destruct (bool_decide _).
Qed.

Lemma perform_local srv n (s : W) c :
  exists out s' n', run srv (perform c) n s = (Done out, s', n') /\ snd s' = snd s.
Proof.
  assert (Htail : forall d url method h b msg,
    (forall l, h = HShared l -> l = at_app l_gm_headers) ->
    exists out s' n', run srv
      (let* out := fetchWrapper d url method h b in
       if negb (f_success out) then jret (out_error (msg (f_code out)))
       else (fetchResources groupResources ;;; jret out_ok)) n s = (Done out, s', n') /\
      snd s' = snd s).
  { intros d url method h b msg Hh. unfold jbind. rewrite run_bind.
    destruct (fetchWrapper_local srv n s d url method h b Hh) as (out & s1 & n1 & -> & Hs1).
    destruct (f_success out); cbn [negb]; [|do 3 eexists; split; [reflexivity|done]].
    rewrite run_bind. destruct (groupResources_local srv n1 s1) as (s2 & n2 & -> & Hs2).
    do 3 eexists; split; [reflexivity|congruence]. }
  destruct c; cbn [perform]; try (apply Htail; unfold headers; congruence).
  unfold updatePolicyRequest. destruct (_ || _); [|apply Htail; unfold headers; congruence].
  do 3 eexists; split; [reflexivity|done].
Qed.

(** *** The stages of [configureGroup] *)

Section Stages.
Context (srv : server) (l : GroupsList) (i : InitialGroupConfiguration).
Context (Hi : initialGroupConfiguration l = Some i).

Ltac stage :=
  cbn [view l_groupConfiguration l_initialGroupConfiguration l_packageList l_deviceList
    lens_comp local_state lens_snd snd]; rewrite Hi; cbn [deref]; js_run;
  cbn [view l_groupConfiguration l_packageList l_deviceList lens_comp local_state lens_snd snd].

Lemma configure_policy_run made n (s : W) :
  snd s = l ->
  run srv (configure_policy made) n s = run srv (exec_plan (policy_steps l i) made) n s.
Proof.
  destruct s as [a l']. cbn [snd]. intros ->.
  unfold configure_policy, policy_steps. js_run. stage.
  rewrite json_nullable_eqb. case_bool_decide; cbn [negb]; [reflexivity|].
  destruct (gc_policy _) as [p|]; [|reflexivity]. cbn [truthy_str default].
  destruct (String.eqb p "") eqn:Ep; cbn [negb]; [reflexivity|].
  cbn [exec_plan perform]. rewrite !run_jbind.
  destruct (run srv (updatePolicyRequest _ _) _ _) as [[[out|e] s1] n1]; [|reflexivity].
  rewrite orb_false_r. destruct (ro_success out); reflexivity.
Qed.

(** A stage that submits [c] and, when it succeeds, goes on with [next],
    executes [c] and then the steps [next] stands for. *)
Lemma submit_stage c headline fallback counts made next steps n (s : W) :
  snd s = l ->
  (forall n s, snd s = l -> run srv next n s = run srv (exec_plan steps (made || counts)) n s) ->
  run srv (let* out := perform c in
           if negb (ro_success out) then report_failure out headline fallback else next) n s =
  run srv (exec_plan (SCommand c headline fallback counts :: steps) made) n s.
Proof.
  intros Hs Hnext. cbn [exec_plan]. unfold jbind. rewrite !run_bind.
  destruct (perform_local srv n s c) as (out & s1 & n1 & -> & Hs1).
  destruct (ro_success out); cbn [negb]; [|reflexivity]. apply Hnext. congruence.
Qed.

Lemma configure_packages_run made n (s : W) :
  snd s = l ->
  run srv (configure_packages made) n s =
  run srv (exec_plan (package_steps l i ++ policy_steps l i) made) n s.
Proof.
  intros Hs. unfold configure_packages, package_steps.
  destruct s as [a l']. cbn [snd] in Hs. subst l'. js_run. stage.
  rewrite json_nums_eqb. case_bool_decide; cbn [negb app].
  - now apply configure_policy_run.
  - apply (submit_stage (CUpdatePackages _ _)); [done|].
    intros n1 s1 Hs1. rewrite orb_true_r. now apply configure_policy_run.
Qed.

Lemma configure_devices_run made n (s : W) :
  snd s = l ->
  run srv (configure_devices made) n s =
  run srv (exec_plan (device_steps l i ++ package_steps l i ++ policy_steps l i) made) n s.
Proof.
  intros Hs. unfold configure_devices, device_steps.
  destruct s as [a l']. cbn [snd] in Hs. subst l'. js_run. stage.
  set (removed := removed_devices _ _). set (added := added_devices _ _).
  destruct removed as [|r rs] eqn:Er; [destruct added as [|d ds] eqn:Ed|]; cbn [length Nat.ltb Nat.leb orb app];
    [now apply configure_packages_run| |];
    apply (submit_stage (CPatchDevices _ _ _)); try done;
    intros n1 s1 Hs1; rewrite orb_true_r; now apply configure_packages_run.
Qed.

Lemma configure_priority_run n (s : W) :
  snd s = l -> run srv configure_priority n s = run srv (exec_plan (plan l i) false) n s.
Proof.
  intros Hs. unfold configure_priority, plan, priority_steps.
  destruct s as [a l']. cbn [snd] in Hs. subst l'. js_run. stage.
  case_bool_decide; cbn [negb app].
  - now apply configure_devices_run.
  - apply (submit_stage (CUpdatePriority _ _)); [done|].
    intros n1 s1 Hs1. cbn [orb]. now apply configure_devices_run.
Qed.
End Stages.

Lemma modified_test (g : Group) i : wasGroupModified g i = negb (bool_decide (snapshot g = i)).
Proof.
  unfold wasGroupModified. rewrite !json_nums_eqb. f_equal.
  destruct i as [id p d po pk]. unfold snapshot. cbn. apply eq_bool_prop_intro.
  rewrite !andb_True, !bool_decide_spec. split.
  - now intros [[[[-> ->] ->] ->] ->].
  - intros [= <- <- <- <- <-]. auto.
Qed.

(** C3: with nobody interfering, [configureGroup] refines its specification:
    once the loaded groups are known, it aborts if the group has changed since
    the popup was opened, and otherwise executes the plan computed from the
    state at the click, in order, up to the first failure. *)
Theorem configureGroup_refines srv n (s : W) groups :
  resources (view (at_app l_gm_groups) s) = Some groups ->
  run srv configureGroup n s = run srv (configure_spec groups (snd s)) n s.
Proof.
  intros Hg. unfold configureGroup, configure_spec. js_run. rewrite Hg. cbn [deref]. js_run.
  destruct s as [a l]. cbn [snd view l_groupConfiguration l_initialGroupConfiguration lens_comp
    local_state lens_snd].
  destruct (js_find _ _) as [g|]; cbn [deref]; js_run; [|reflexivity].
  cbn [snd view l_groupConfiguration l_initialGroupConfiguration lens_comp
    local_state lens_snd].
  destruct (initialGroupConfiguration l) as [i|] eqn:Hi; cbn [deref]; js_run; [|reflexivity].
  rewrite modified_test. case_bool_decide; cbn [negb]; [|reflexivity].
  now apply configure_priority_run.
Qed.

(** As soon as the loaded group differs from the snapshot, the button only
    reports a modification: no request is sent, and the popup stays as it is.
    The snapshot is not renewed by the user's own requests, so that this is also
    what a retry after a partial failure meets. *)
Theorem configureGroup_modified (srv : server) n (s : W) groups g i :
  resources (view (at_app l_gm_groups) s) = Some groups ->
  js_find (fun g => bool_decide (Some (grp_id g) = gc_id (groupConfiguration (snd s)))) groups =
    Some g ->
  initialGroupConfiguration (snd s) = Some i -> snapshot g <> i ->
  run srv configureGroup n s =
    (Done tt, over (at_app l_toasts) (enqueue (ToastError (buildHTML
       "Modification detected during configuration! Configuration is aborted." None))) s, n).
Proof.
  intros Hg Hf Hi Hne. unfold configureGroup. js_run. rewrite Hg. cbn [deref]. js_run.
  destruct s as [a l]. cbn [snd view l_groupConfiguration l_initialGroupConfiguration lens_comp
    local_state lens_snd] in *.
  rewrite Hf. cbn [deref]. js_run.
  cbn [snd view l_initialGroupConfiguration lens_comp local_state lens_snd]. rewrite Hi.
  cbn [deref]. js_run. rewrite modified_test, bool_decide_eq_false_2 by done. reflexivity.
Qed.
End Plan.

(** *** A concrete configuration *)

#[local] Existing Instance sample_env.
#[local] Existing Instance subject_parser.

(** The page after the first poll, the popup of the sample group open, and the
    second device deselected. *)
Definition sample_page : world GroupsList :=
  snd (fst (run accepting (onMounted ;;; openConfigureGroupPopup sample_group ;;; selectDevice 1)
    idle (sample_state, initial_groups_list))).

Lemma configureGroup_refines_witness :
  run accepting configureGroup idle sample_page =
    run accepting (configure_spec [sample_group] (snd sample_page)) idle sample_page /\
  popupOpen (snd (snd (fst (run accepting configureGroup idle sample_page)))) = PopupNone /\
  length (sent (snd (run accepting configureGroup idle sample_page))) = 2%nat.
Proof.
  assert (Hg : resources (view (at_app l_gm_groups) sample_page) = Some [sample_group])
    by (vm_compute; reflexivity).
  rewrite (configureGroup_refines accepting idle sample_page [sample_group] Hg).
  split; [reflexivity|]. vm_compute. auto.
Defined.

(** *** A retry after a partial failure *)

Definition with_priority (p : Z) (g : Group) : Group :=
  MkGroup (grp_id g) (grp_created g) (grp_packages g) (grp_devices g) (grp_metadata g)
    (grp_policy g) p.

(** A server that accepts the new priority 9 and then refuses the devices. *)
Definition half_accepting : server :=
  reply_with (fun r => match rq_doc r as d return http_outcome (denote d) with
    | DGroups => Response 200 (Some [with_priority 9 sample_group])
    | d => if String.eqb (rq_method r) "PATCH" then Response 409 None
           else Response 200 (Some (sample_document d))
    end).

Definition first_click : world GroupsList :=
  snd (fst (run half_accepting
    (update l_groupConfiguration (fun c =>
       MkConfiguration (gc_id c) (VText "9") (gc_policy c) (gc_devices c) (gc_packages c)) ;;;
     configureGroup) idle sample_page)).

Lemma configureGroup_modified_witness :
  popupOpen (snd first_click) = PopupConfigureGroup /\
  snd (run half_accepting configureGroup idle first_click) = idle /\
  run half_accepting configureGroup idle first_click =
    (Done tt, over (at_app l_toasts) (enqueue (ToastError (buildHTML
       "Modification detected during configuration! Configuration is aborted." None))) first_click, idle).
Proof.
  assert (Hg : resources (view (at_app l_gm_groups) first_click) = Some [with_priority 9 sample_group])
    by (vm_compute; reflexivity).
  assert (Hi : initialGroupConfiguration (snd first_click) = Some (snapshot sample_group))
    by (vm_compute; reflexivity).
  assert (Hf : js_find (fun g => bool_decide (Some (grp_id g) =
      gc_id (groupConfiguration (snd first_click)))) [with_priority 9 sample_group] =
    Some (with_priority 9 sample_group)) by (vm_compute; reflexivity).
  rewrite (configureGroup_modified half_accepting idle first_click _ _ _ Hg Hf Hi ltac:(discriminate)).
  split; [vm_compute; reflexivity|]. split; reflexivity.
Defined.
