(* ===== verification/GroupsPolicies.v ===== *)
(** * The policy dropdown of [GroupsList.vue]

    What [availablePolicies] offers, and when the popup warns that the chosen
    policy has no effect. *)

From S2P Require Import Prelude Json Http Async App Utils Fetch Notifications Jwt Groups GroupsList.
From Stdlib Require Import Sorting.Sorted.
From stdpp Require Import base tactics list gmap strings pretty.
#[local] Open Scope Z_scope.

(** The choice of a policy: [no_update] or a version to match. *)
Lemma split_exact_match v :
  str_has comma v = false -> js_split comma ("exact_match," +:+ v) = ["exact_match"; v].
Proof.
  intros Hv. change ("exact_match," +:+ v) with ("exact_match" +:+ String comma v).
  rewrite js_split_cons by reflexivity. now rewrite js_split_free.
Qed.

Lemma exact_match_format v :
  policy_format ("exact_match," +:+ v) = negb (str_has comma v).
Proof.
  unfold policy_format. destruct (str_has comma v) eqn:Hv; cbn [negb].
  - apply andb_false_intro2, Nat.eqb_neq. rewrite js_split_two.
    intros (a & b & Heq & Ha & Hb).
    assert (H2 : js_split comma ("exact_match" +:+ String comma v) = [a; b]).
    { change ("exact_match" +:+ String comma v) with ("exact_match," +:+ v).
      rewrite Heq, js_split_cons by done. now rewrite js_split_free. }
    rewrite js_split_cons in H2 by reflexivity. injection H2 as _ H2.
    pose proof (js_split_join comma v) as Hj. rewrite H2 in Hj. cbn in Hj. congruence.
  - now rewrite split_exact_match.
Qed.

Section Policies.
Context `{BuildEnv} `{JsonParser} `{Collation}.

Implicit Types (s : world GroupsList) (o : PolicyOption).

(** The versions the dropdown offers, in the order it offers them. *)
Definition offered_versions s : list (option string) :=
  js_set (js_sort localeCompare (map version_of (selectedPackages s))).

Lemma offered_elem s v : v ∈ offered_versions s <-> exists p, p ∈ selectedPackages s /\ version_of p = v.
Proof.
  unfold offered_versions. rewrite js_set_elem, js_sort_elem, list_elem_of_In, in_map_iff.
  setoid_rewrite <- list_elem_of_In. split; intros (p & ? & ?); eauto.
Qed.

(** C21: the policy dropdown offers [no_update] first and then, without
    repetition, exactly the versions of the selected packages; an option can be
    submitted precisely when its version has no comma, and the argument of its
    policy is then that version. *)
Theorem availablePolicies_spec s :
  exists versions,
    availablePolicies s = MkPolicyOption "no_update," "No Update" :: map policy_option versions /\
    NoDup versions /\
    (forall v, v ∈ versions <-> exists p, p ∈ selectedPackages s /\ version_of p = v) /\
    policy_format "no_update," = true /\
    (forall v, policy_format (po_id (policy_option (Some v))) = negb (str_has comma v)) /\
    (forall v, str_has comma v = false ->
       policy_arg (Some (po_id (policy_option (Some v)))) = Some v).
Proof.
  exists (offered_versions s). split; [reflexivity|]. split; [apply js_set_NoDup|].
  split; [apply offered_elem|]. split; [reflexivity|]. split; [apply exact_match_format|].
  intros v Hv. unfold policy_arg, policy_option. cbn [po_id template mbind option_bind].
  now rewrite split_exact_match.
Qed.

(** When the policy [s] would have no effect: no selected device runs on a device
    type some selected package of the version provides. *)
Definition applicable s (arg : string) : Prop :=
  exists d p, d ∈ selectedDevices s /\ p ∈ selectedPackages s /\ version_of p = Some arg /\
    loose_eq (devtype_of p) (dev_metadata d !! "rdfm.hardware.devtype") = true.

Lemma no_devices s : (length (selectedDevices s) =? 0)%nat = true <-> selectedDevices s = [].
Proof. rewrite Nat.eqb_eq. split; [apply nil_length_inv|now intros ->]. Qed.

(** C22: the warning is shown exactly when devices are selected, the policy names
    a version, and no selected package of this version is for the type of a
    selected device. *)
Theorem unapplicablePolicyWarning_spec s :
  unapplicablePolicyWarning s = true <->
  selectedDevices s <> [] /\
  exists arg, policy_arg (gc_policy (view l_groupConfiguration s)) = Some arg /\ arg <> "" /\
    ~ applicable s arg.
Proof.
  unfold unapplicablePolicyWarning, applicable.
  destruct (_ =? _)%nat eqn:Hd; [apply no_devices in Hd; intuition congruence|].
  assert (Hne : selectedDevices s <> []) by (rewrite <- no_devices; congruence).
  destruct (policy_arg _) as [arg|]; cbn [truthy_str negb];
    [|split; [done|intros (_ & ? & [=] & _)]].
  destruct (String.eqb arg "") eqn:Ha; cbn [negb].
  { apply String.eqb_eq in Ha as ->. split; [done|intros (_ & ? & [= <-] & ? & _); done]. }
  apply String.eqb_neq in Ha. rewrite js_every_spec. setoid_rewrite js_every_spec.
  setoid_rewrite js_filter_spec. setoid_rewrite bool_decide_eq_true.
  setoid_rewrite negb_true_iff. split.
  - intros Hall. split; [done|]. exists arg. split; [done|]. split; [done|].
    intros (d & p & Hd' & Hp & Hv & Heq). rewrite Hall in Heq; eauto; discriminate.
  - intros (_ & a & [= <-] & _ & Hno) d Hd' p [Hp Hv]. apply not_true_is_false. eauto 10.
Qed.
End Policies.
