(* ===== verification/Widgets.v ===== *)
(** * The presentational components

    [TitleBar.vue], [BlurPanel.vue], [RemovePopup.vue], [Status.vue],
    [UpdateProgress.vue], [Dropdown.vue], [SimpleDropdown.vue] and the template of
    [DownloadButton.vue]. The properties of a component are its arguments; a
    property that is a function is the name of what it runs. Listeners that a
    parent puts on a component fall through to the component's root element. *)

From S2P Require Import Prelude Json Http Async App Html Utils Fetch Polling Notifications Jwt Groups GroupsList.
From stdpp Require Import base tactics list gmap strings pretty.
#[local] Open Scope Z_scope.

Section Widgets.
Context {H : Type}.

Definition id_ (s : string) : string * content := ("id", TStr s).
Definition section (s : string) (kids : list (html H)) : html H := El "div" [id_ s] [] kids.

(** ** [Status.vue] *)

Definition status_text (connected : bool) : string :=
  if connected then "Connected" else "Disconnected".

Definition dot (kind : string) (connected : bool) : string :=
  "dot " +:+ kind +:+ " " +:+ (if connected then "connected" else "disconnected").

Definition Status (connected detailed : bool) : html H :=
  if detailed then
    section "status-indicator"
      [div (dot "detailed" connected) []; div "tooltip" [str (status_text connected)]]
  else div (dot "basic" connected) [].

(** ** [UpdateProgress.vue] *)

Definition UpdateProgress (progress : Z) (version : string) : html H :=
  section "progress-bar-wrapper"
    [section "header"
       [El "p" [id_ "version"] [] [str ("Updating to " +:+ version +:+ "...")];
        El "p" [id_ "percentage"] [] [str (pretty progress +:+ "%")]];
     section "container"
       [El "div" [id_ "progress-bar"; ("style", TStr ("width: " +:+ pretty progress +:+ "%"))] [] []]].

(** ** [BlurPanel.vue] *)

Definition BlurPanel (on : list (listener H)) (slot : list (html H)) : html H :=
  El "div" [cls "blur-panel"] on slot.

(** ** [RemovePopup.vue] *)

Definition RemovePopup (on : list (listener H)) (title : string) (enabled : bool)
    (description : string) (cancelCallback removeCallback : H) : list (html H) :=
  when enabled
    [BlurPanel on
       [div "popup"
          [div "header" [p "title" title; p "description" description];
           div "body"
             [div "buttons"
                [button "action-button gray" cancelCallback [str "Cancel"];
                 button "action-button red-fill" removeCallback [str "Remove"]]]]]].

(** ** [TitleBar.vue] *)

Record TitleBarProps : Type := MkTitleBar {
  tb_title : string;
  tb_subtitle : content;
  tb_actionButtonName : option string;
  tb_buttonCallback : option H;
  tb_device : option string;
  tb_connected : bool;
  tb_smallButtonName : option string;
}.

(** The button of the bar, when it has a name and something to do. *)
Definition displayButton (props : TitleBarProps) : bool :=
  truthy_str (tb_actionButtonName props) && bool_decide (is_Some (tb_buttonCallback props)).

(** [<button :id="id" @click="buttonCallback">] *)
Definition bar_button (id : string) (callback : option H) (name : option string) : html H :=
  El "button" [id_ id] (match callback with Some h => [OnClick [] (Some h)] | None => [] end)
    [Text (t_opt name)].

(** The update of a device that the event stream has announced. *)
Definition device_update (a : App) (device : option string) : option (Z * string) :=
  mac ← device; progress ← view l_deviceUpdates a !! mac;
  version ← view l_deviceVersions a !! mac; Some (progress, version).

Definition TitleBar (a : App) (props : TitleBarProps) : html H :=
  section "wrapper"
    (when (truthy_str (tb_device props)) [section "status" [Status (tb_connected props) true]] ++
     [section "content-wrapper"
        ([section "titlebar"
            [if truthy_str (tb_smallButtonName props) then
               section "title-container"
                 [section "title" [str (tb_title props)];
                  bar_button "small-button" (tb_buttonCallback props) (tb_smallButtonName props)]
             else section "title" [str (tb_title props)];
             section "subtitle" [Text (tb_subtitle props)]]] ++
         when (displayButton props)
           [section "actionbar"
              [bar_button "action-button" (tb_buttonCallback props) (tb_actionButtonName props)]] ++
         match truthy_str (tb_device props), device_update a (tb_device props) with
         | true, Some (progress, version) => [section "update" [UpdateProgress progress version]]
         | true, None => [section "no-update" [node "p" [str "No updates available"]]]
         | false, _ => []
         end)]).

(** ** [Dropdown.vue] *)

Record Column : Type := MkColumn { col_id : string; col_name : string }.

(** [row[col.id]] *)
Definition cell (row : DataEntry) (c : Column) : content :=
  if String.eqb (col_id c) "id" then TNum (de_id row)
  else match list_find (fun f => f.1 = col_id c) (de_fields row) with
       | Some (_, (_, v)) => t_opt v
       | None => TNone
       end.

(** The selected rows: the identifier that is shown and the position. *)
Definition tags (data : list DataEntry) : list (Z * nat) :=
  omap id (imap (fun i row => if de_selected row then Some (de_id row, i) else None) data).

Definition dropdown_tag (select : nat -> H) (t : Z * nat) : html H :=
  El "div" [("key", TNum (Z.of_nat t.2)); cls "t"] []
    [node "p" [str ("#" +:+ pretty t.1)];
     El "button" [] [OnClick [] (Some (select t.2))] [leaf "Cross"]].

Definition dropdown_head (columns : list Column) : html H :=
  node "thead"
    [node "tr" (node "th" [] ::
       map (fun c => El "th" [("key", TStr (col_name c))] [] [str (col_name c)]) columns)].

Definition dropdown_row (columns : list Column) (select : nat -> H) (i : nat) (row : DataEntry) : html H :=
  El "tr" [("key", TNum (de_id row))] [OnClick [] (Some (select i))]
    (node "td" [div "checkbox" [div (if de_selected row then "selected" else "") []]] ::
     map (fun c => El "td" [("key", TStr (col_name c))] [] [Text (cell row c)]) columns).

(** The height of the table depends on its position on the screen and is left out. *)
Definition Dropdown (on : list (listener H)) (placeholder : string) (columns : list Column)
    (data : list DataEntry) (select : nat -> H) (toggleDropdown : H) (dropdownOpen : bool) : html H :=
  El "div" [cls "dropdown-holder"] on
    ([div "dropdown"
        ([div "tags" (map (dropdown_tag select) (tags data))] ++
         when (length (tags data) =? 0)%nat [button "hint" toggleDropdown [str placeholder]] ++
         [button "dropdown-opener" toggleDropdown
            [leaf (if dropdownOpen then "CaretUp" else "CaretDown")]])] ++
     when dropdownOpen
       [div "table-holder"
          [node "table"
             [dropdown_head columns; node "tbody" (imap (dropdown_row columns select) data)]]]).

(** ** [DownloadButton.vue] *)

Definition download_icon : html H := El "svg" [] [] [node "path" []].

Definition DownloadButton_template (smallButton : bool) (download copyDownloadLink : H) : html H :=
  div "drdn-wrapper"
    [El "button" [id_ "main-button"; cls (if smallButton then "small" else "action-button gray")] []
       (if smallButton then [leaf "Dots"]
        else [str "Download"; El "span" [cls "caret-down"] [] [leaf "CaretDown"];
              El "span" [cls "caret-up"] [] [leaf "CaretUp"]]);
     div (if smallButton then "drdn inside-list" else "drdn")
       [button "action-button gray" download [download_icon; str "Direct download"];
        button "action-button gray" copyDownloadLink [download_icon; str "Copy link"]]].
End Widgets.

Arguments TitleBarProps : clear implicits.

(** ** What the components run *)

Section Collect.
Context {H X : Type} (pick : listener H -> list X).

Definition picks (callback : option H) : list X :=
  match callback with Some h => pick (OnClick [] (Some h)) | None => [] end.

Lemma UpdateProgress_collect progress version : collect pick (UpdateProgress progress version) = [].
Proof. reflexivity. Qed.

Lemma Status_collect connected detailed : collect pick (Status connected detailed) = [].
Proof. now destruct detailed. Qed.

Lemma BlurPanel_collect on (slot : list (html H)) :
  collect pick (BlurPanel on slot) = flat_map pick on ++ page_collect pick slot.
Proof. reflexivity. Qed.

Lemma bar_button_collect id callback name :
  collect pick (bar_button id callback name) = picks callback.
Proof. destruct callback; unfold bar_button, id_; html_clicks; rewrite ?app_nil_r; reflexivity. Qed.

(** The buttons of a title bar run the callback it is given. *)
Lemma TitleBar_collect a (props : TitleBarProps H) :
  collect pick (TitleBar a props) =
  (if truthy_str (tb_smallButtonName props) then picks (tb_buttonCallback props) else []) ++
  (if displayButton props then picks (tb_buttonCallback props) else []).
Proof.
  unfold TitleBar, section, id_. html_clicks. rewrite ?bar_button_collect, ?Status_collect.
  destruct (truthy_str (tb_smallButtonName props)); html_clicks; rewrite ?bar_button_collect;
    destruct (truthy_str (tb_device props)), (displayButton props); cbn [app];
    try destruct (device_update _ _) as [[]|]; html_clicks;
    rewrite ?UpdateProgress_collect, ?app_nil_r; reflexivity.
Qed.

Lemma Dropdown_collect on placeholder columns data (select : nat -> H) toggleDropdown dropdownOpen x :
  x ∈ collect pick (Dropdown on placeholder columns data select toggleDropdown dropdownOpen) ->
  x ∈ flat_map pick on \/ x ∈ picks (Some toggleDropdown) \/ exists i, x ∈ picks (Some (select i)).
Proof.
  unfold Dropdown, dropdown_tag, dropdown_head. rewrite collect_el. cbn [disabled String.eqb Ascii.eqb Bool.eqb andb].
  rewrite elem_of_app. intros [Hh|Hh]; [now left|right]. revert Hh. cbn [picks]. click_cases; eauto.
  rewrite page_collect_imap. unfold dropdown_row. click_cases; eauto.
Qed.

Lemma DownloadButton_collect smallButton (download copyDownloadLink : H) :
  collect pick (DownloadButton_template smallButton download copyDownloadLink) =
  picks (Some download) ++ picks (Some copyDownloadLink).
Proof.
  unfold DownloadButton_template, download_icon, id_. destruct smallButton; html_clicks; rewrite ?app_nil_r;
    reflexivity.
Qed.

Lemma RemovePopup_collect on title enabled description (cancel remove : H) :
  page_collect pick (RemovePopup on title enabled description cancel remove) =
  if enabled then flat_map pick on ++ picks (Some cancel) ++ picks (Some remove) else [].
Proof.
  unfold RemovePopup. html_clicks. destruct enabled; [|done]. rewrite BlurPanel_collect.
  html_clicks. now rewrite ?app_nil_r.
Qed.
End Collect.

#[export] Hint Rewrite @UpdateProgress_collect @Status_collect @BlurPanel_collect
  @bar_button_collect @TitleBar_collect @DownloadButton_collect @RemovePopup_collect : html.

(** A click on the popup runs one of the callbacks or nothing; it is only there
    when it is enabled. *)
Lemma RemovePopup_click {H : Type} (c : H) title enabled description cancel remove t path hs b :
  t ∈ RemovePopup [OnClick [MSelf] (Some c)] title enabled description cancel remove ->
  bubble t path = Some (hs, b) ->
  enabled = true /\ (hs = [] \/ hs = [c] \/ hs = [cancel] \/ hs = [remove]).
Proof.
  unfold RemovePopup. destruct enabled; cbn [when]; [|now intros ?%elem_of_nil].
  intros ->%list_elem_of_singleton. unfold BlurPanel, div, p, button, str.
  repeat (rewrite ?bubble_el, ?bubble_text; open_element;
          match goal with
          | |- context [match ?path with [] => _ | _ :: _ => _ end] => destruct path as [|[|[|?]] ?]
          end; open_element; try discriminate);
    rewrite ?bubble_text; intros Hb; vm_compute in Hb; simplify_eq; auto.
Qed.

(** Case analysis through the components: a handler comes from a callback. *)
Ltac widget_cases :=
  click_cases;
  try match goal with
  | |- _ ∈ collect _ (Dropdown _ _ _ _ _ _ _) -> _ =>
      let Hd := fresh in intros Hd%Dropdown_collect; revert Hd;
      cbn [picks heard typing emitted flat_map app]; widget_cases
  | |- _ ∈ picks _ _ -> _ => cbn [picks heard typing emitted flat_map app]; widget_cases
  end.
