(* ===== verification/SimpleDropdown.v ===== *)
(** * [components/SimpleDropdown.vue]: the choice of one option

    The component keeps whether it is expanded and what is selected; a choice is
    handed to the parent. It is mounted inside a page: [S] is the state of both. *)

From S2P Require Import Prelude Json Http Async App Html Utils Fetch Polling Notifications Jwt Groups GroupsList.
From stdpp Require Import base tactics list gmap strings pretty.
#[local] Open Scope Z_scope.

Record SimpleDropdown : Type := MkSimpleDropdown {
  expanded : bool;
  selected : option PolicyOption;
}.

(** [setup]: the property [initial] is looked up once. *)
Definition simple_dropdown_setup (options : list PolicyOption) (initial : option string) :
    SimpleDropdown :=
  MkSimpleDropdown false
    (js_find (fun o => bool_decide (initial = Some (po_id o))) options).

(** What the listeners of the template run. *)
Inductive dropdown_handler : Type :=
| DropdownBlur
| DropdownToggle
| DropdownCollapse
| DropdownChoose (opt : PolicyOption).

Section View.
Context {H : Type} (own : dropdown_handler -> H).

Definition dropdown_option (opt : PolicyOption) : html H :=
  El "div" [("key", TStr (po_id opt)); cls "option"] [OnClick [] (Some (own (DropdownChoose opt)))]
    [str (po_display opt)].

Definition SimpleDropdown_template (options : list PolicyOption) (st : SimpleDropdown) : html H :=
  El "div"
    [("tabindex", TNum 1); cls "simple-dropdown";
     ("style", TStr (if expanded st then "border: 1px solid var(--gray-800)" else ""))]
    [OnBlur (own DropdownBlur); OnClick [] (Some (own DropdownToggle))]
    (El "div" [("style", TStr "width: 100%")] [OnClick [] (Some (own DropdownCollapse))]
       [Text (t_or (option_map po_display (selected st)) "No value");
        leaf (if expanded st then "CaretUp" else "CaretDown")] ::
     when (expanded st) [div "dropdown-options" (map dropdown_option options)]).

Lemma SimpleDropdown_collect {X} (pick : listener H -> list X) options st x :
  x ∈ collect pick (SimpleDropdown_template options st) ->
  x ∈ pick (OnBlur (own DropdownBlur)) \/ exists h, x ∈ pick (OnClick [] (Some (own h))).
Proof.
  unfold SimpleDropdown_template. click_cases; eauto. unfold dropdown_option. click_cases; eauto.
Qed.
End View.

Section Handlers.
Context {S : Type} (l : lens S SimpleDropdown) (select : string -> js S unit).

Definition set_expanded (b : bool) (st : SimpleDropdown) : SimpleDropdown :=
  MkSimpleDropdown b (selected st).

Definition dropdown_perform (h : dropdown_handler) : js S unit :=
  match h with
  | DropdownBlur => update l (set_expanded false)
  | DropdownToggle => update l (fun st => set_expanded (negb (expanded st)) st)
  | DropdownCollapse => update l (set_expanded false)
  | DropdownChoose opt =>
      select (po_id opt) ;;;
      update l (fun st => MkSimpleDropdown (expanded st) (Some opt))
  end.

(** ** Clicks *)

(** The label is the first child of the component, the options are below the second. *)
Definition label_path : list nat := [0; 0]%nat.
Definition option_path (i : nat) : list nat := [0; 1; i]%nat.

Definition dropdown_click (options : list PolicyOption) (path : list nat) (s : S) : js S unit :=
  match click [SimpleDropdown_template id options (view l s)] path with
  | Some hs => dispatch dropdown_perform hs
  | None => jret tt
  end.

Lemma label_click options s :
  click [SimpleDropdown_template id options (view l s)] label_path =
  Some [DropdownCollapse; DropdownToggle].
Proof. reflexivity. Qed.

Lemma option_click options s i opt :
  expanded (view l s) = true -> options !! i = Some opt ->
  click [SimpleDropdown_template id options (view l s)] (option_path i) =
  Some [DropdownChoose opt; DropdownToggle].
Proof.
  intros He Hi. unfold SimpleDropdown_template. rewrite He.
  unfold click, option_path. cbn [lookup list_lookup]. rewrite bubble_el. open_element.
  unfold div. rewrite bubble_el. open_element. rewrite list_lookup_fmap, Hi. reflexivity.
Qed.

(** What the parent does with a choice: it writes to its own state. *)
Context (choose : string -> S -> S).
Hypothesis select_sync : forall v s, advance (select v) s = (choose v s, Ret tt, [], []).
Hypothesis select_keeps : forall v s, view l (choose v s) = view l s.

(** C30: the label of the dropdown only ever opens it, because its listener
    collapses the dropdown and the click then bubbles to the listener of the root,
    which toggles it: an expanded dropdown stays expanded. A click on an option
    hands the option to the parent, shows it and collapses the dropdown. *)
Theorem simple_dropdown_clicks (srv : server) n (s : S) options :
  run srv (dropdown_click options label_path s) n s = (Done tt, over l (set_expanded true) s, n) /\
  forall i opt, expanded (view l s) = true -> options !! i = Some opt ->
    run srv (dropdown_click options (option_path i) s) n s =
    (Done tt, put l (MkSimpleDropdown false (Some opt)) (choose (po_id opt) s), n).
Proof.
  split.
  - unfold dropdown_click. rewrite label_click. cbn [dispatch foldr dropdown_perform].
    erewrite !run_detach_sync by reflexivity. cbn. unfold over.
    now rewrite view_put, put_put.
  - intros i opt He Hi. unfold dropdown_click. rewrite (option_click options s i opt He Hi).
    cbn [dispatch foldr dropdown_perform]. erewrite run_detach_sync.
    2:{ unfold jbind. rewrite advance_bind_sync with (1 := select_sync _ _). reflexivity. }
    erewrite run_detach_sync by reflexivity. cbn. unfold over.
    rewrite !view_put, select_keeps, !put_put, He. reflexivity.
Qed.
End Handlers.

(** ** The dropdown in a page that keeps the choice *)

Definition chosen_option : list PolicyOption :=
  [MkPolicyOption "a" "First"; MkPolicyOption "b" "Second"].

Definition unreachable_server : server :=
  fun _ e => match e with EHttp _ => NetworkError | ENavigate _ => tt end.

Definition l_chosen : lens (string * SimpleDropdown) string := lens_fst _ _.

Lemma simple_dropdown_clicks_witness :
  run unreachable_server
    (dropdown_click (lens_snd string SimpleDropdown) (assign l_chosen) chosen_option (option_path 1)
       ("", MkSimpleDropdown true None)) idle ("", MkSimpleDropdown true None) =
  (Done tt, ("b", MkSimpleDropdown false (Some (MkPolicyOption "b" "Second"))), idle).
Proof.
  exact (proj2 (simple_dropdown_clicks (lens_snd string SimpleDropdown) (assign l_chosen) (put l_chosen)
    (fun _ _ => eq_refl) (fun _ _ => eq_refl) unreachable_server idle
    ("", MkSimpleDropdown true None) chosen_option)
    1%nat (MkPolicyOption "b" "Second") eq_refl eq_refl).
Defined.
