(* ===== verification/GroupsView.v ===== *)
(** * The template of [components/groups/GroupsList.vue]

    What the page renders, and what its buttons, rows and inputs run. *)

From S2P Require Import Prelude Json Http Async App Html Utils Fetch Polling Notifications Jwt Groups GroupsList Widgets SimpleDropdown.
From stdpp Require Import base tactics list gmap strings pretty.
#[local] Open Scope Z_scope.

(** The expressions the template binds to events. *)
Inductive groups_handler : Type :=
| GOpenAdd | GCloseAdd | GAdd
| GTypeName (s : string) | GTypeDescription (s : string) | GTypePriority (n : option Z)
| GOpenRemove (groupId : Z) | GCloseRemove | GRemove
| GOpenConfigure (group : Group) | GCloseConfigure | GConfigure
| GTypeConfigPriority (s : string)
| GSelectPackage (i : nat) | GSelectDevice (i : nat) | GToggle (d : DropDownOpen) | GCloseDropdowns
| GPolicy (h : dropdown_handler)
| GDetach (groupId device : Z).

Definition packageDropdownColumns : list Column :=
  [MkColumn "id" "ID"; MkColumn "version" "Version"; MkColumn "type" "Device type"].

Definition deviceDropdownColumns : list Column :=
  [MkColumn "id" "ID"; MkColumn "name" "Name"; MkColumn "mac_address" "MAC address"].

Section View.
Context `{BuildEnv} `{JsonParser} `{Collation}.

Abbreviation W := (world GroupsList).
Abbreviation tree := (html groups_handler).

Definition packageDropdownOpen (s : W) : bool := bool_decide (view l_openDropdown s = DropPackages).
Definition deviceDropdownOpen (s : W) : bool := bool_decide (view l_openDropdown s = DropDevices).

(** ** The popups *)

(** A field of a form: its name, its input and its error. *)
Definition form_field (errors : gmap string string) (label field : string) (input : tree) : tree :=
  div "entry" ([node "p" [str label]; input] ++ field_errors errors field).

(** An input with [v-model]: it shows [value] and hears what is typed. *)
Definition input (type placeholder : string) (value : content) (on : listener groups_handler) : tree :=
  El "input" [("type", TStr type); ("placeholder", TStr placeholder); ("value", value)] [on] [].

Definition t_field (v : field_value) : content :=
  match v with VNum n => TNum n | VText s => TStr s | VNull => TNone end.

Definition add_group_popup (s : W) : list tree :=
  let errors := view l_validationErrors s in
  let data := view l_newGroupData s in
  when (bool_decide (view l_popupOpen s = PopupAddGroup))
    [BlurPanel [OnClick [MSelf] (Some GCloseAdd)]
       [div "popup"
          [div "header"
             [p "title" "Create a new group";
              p "description" "Configure new devices group and add packages to it"];
           div "body"
             [form_field errors "Name" "name" 
                (input "text" "New group" (t_opt (ng_name data)) (OnText GTypeName));
              form_field errors "Description" "description"
                (input "text" "Group description" (t_opt (ng_description data)) (OnText GTypeDescription));
              form_field errors "Priority" "priority" 
                (input "number" "10" (t_num (ng_priority data)) (OnNumber GTypePriority));
              div "buttons"
                [button "action-button gray" GCloseAdd [str "Cancel"];
                 button "action-button blue white" GAdd [str "Create"]]]]]].

Definition remove_group_popup (s : W) : list tree :=
  RemovePopup [OnClick [MSelf] (Some GCloseRemove)] "Are you absolutely sure?"
    (bool_decide (view l_popupOpen s = PopupRemoveGroup))
    ("This action cannot be undone. It will permanently delete #" +:+
     show_id (view l_groupToRemove s) +:+ " group.")
    GCloseRemove GRemove.

(** The update policy, when the group has one. *)
Definition policy_entry (s : W) (dropdown : SimpleDropdown) : list tree :=
  when (truthy_str (gc_policy (view l_groupConfiguration s)))
    [div "entry policy-entry"
       (node "p" [str "Update policy"] ::
        when (1 <=? length (availablePolicies s))%nat
          [div "policy-type"
             (SimpleDropdown_template GPolicy (availablePolicies s) dropdown ::
              when (unapplicablePolicyWarning s)
                [p "warning" "The selected update policy will not affect any device in this group"])])].

Definition configure_group_popup (s : W) (dropdown : SimpleDropdown) : list tree :=
  when (bool_decide (view l_popupOpen s = PopupConfigureGroup))
    [BlurPanel [OnClick [MSelf] (Some GCloseConfigure)]
       [El "div" [cls "popup"] [OnClick [] (Some GCloseDropdowns)]
          [div "header"
             [p "title" ("Configure the #" +:+ show_id (gc_id (view l_groupConfiguration s)) +:+ " group");
              p "description" "Configure group packages, devices and priority"];
           div "body"
             ([div "entry"
                 [node "p" [str "Priority"];
                  input "text" "Priority" (t_field (gc_priority (view l_groupConfiguration s)))
                    (OnText GTypeConfigPriority)];
               div "entry"
                 [node "p" [str "Packages"];
                  Dropdown [OnClick [MStop] None] "Choose packages" packageDropdownColumns
                    (view l_packageList s) GSelectPackage (GToggle DropPackages)
                    (packageDropdownOpen s)]] ++
              policy_entry s dropdown ++
              [div "entry"
                 [node "p" [str "Devices"];
                  Dropdown [OnClick [MStop] None] "Choose devices" deviceDropdownColumns
                    (view l_deviceList s) GSelectDevice (GToggle DropDevices)
                    (deviceDropdownOpen s)];
               div "buttons"
                 [button "action-button gray" GCloseConfigure [str "Cancel"];
                  button "action-button blue white" GConfigure [str "Configure"]]])]]].

(** ** The list of groups *)

Definition groups_title_bar (a : App) : tree :=
  TitleBar a (MkTitleBar "Groups" (TStr "manage your groups") (Some "Create new group")
    (if hasAdminRole (app_access a) RW || hasAdminRole (app_access a) CREATE_GROUP
     then Some GOpenAdd else None)
    None false None).

Definition groups_overview (s : W) : list tree :=
  [node "p" [str "Overview"];
   div "resources-table-wrapper checked"
     [El "table" [cls "resources-table"] []
        [node "tbody"
           [El "tr" [cls "resources-table-row"] []
              [El "td" [cls "entry"] [] [div "value" [str "Total groups"]];
               El "td" [cls "entry"] [] [div "value" [Text (TNum (Z.of_nat (groupsCount s)))]]]]]]].

Definition group_row (a : App) (group : Group) : tree :=
  div "group-row"
    [entry "ID" [str ("#" +:+ pretty (grp_id group))];
     entry "Created" [str (grp_created group)];
     entry "Name" [Text (t_opt (grp_metadata group !! "rdfm.group.name"))];
     entry "Description" [Text (t_opt (grp_metadata group !! "rdfm.group.description"))];
     entry "Policy" [str (grp_policy group)];
     entry "Priority" [Text (TNum (grp_priority group))];
     div "entry right"
       [div "button-wrapper"
          (when (allowedTo (app_access a) PUpdate RGroup (Some (grp_id group)) None)
             [button "action-button gray" (GOpenConfigure group) [str "Configure"]] ++
           when (allowedTo (app_access a) PDelete RGroup (Some (grp_id group)) None)
             [button "action-button red" (GOpenRemove (grp_id group)) [str "Remove"]])]].

(** [Package] or [Packages n] *)
Definition counted (one many : string) {A} (l : list A) : tree :=
  if (length l =? 1)%nat then div "title" [str one]
  else div "title" [str many; El "span" [cls "count"] [] [Text (TNum (Z.of_nat (length l)))]].

Definition titled (title : string) (c : content) : tree :=
  El "p" [("title", TStr title)] [] [Text c].

Definition group_packages (s : W) (group : Group) : tree :=
  div "group-row single-item"
    [div "entry"
       [counted "Package" "Packages" (grp_packages group);
        div "values"
          (map (fun pckg =>
             El "div" [("key", TNum pckg); cls "item"] []
               [div "item-layout"
                  [titled "Package version" (t_or (findPackage pckg s ≫= version_of) " - ");
                   titled "Device type" (t_or (findPackage pckg s ≫= devtype_of) " - ")]])
             (grp_packages group))]].

(** [device.metadata?.['rdfm.hardware.devtype'] || ' - '] *)
Definition device_type (d : option RegisteredDevice) : content :=
  t_meta_or (d ≫= fun d => dev_metadata d !! "rdfm.hardware.devtype") " - ".

Definition group_device (s : W) (group : Group) (d : Z) : tree :=
  let device := findDevice d s in
  let update := allowedTo (app_access s.1) PUpdate RGroup (Some (grp_id group)) None in
  El "div" [("key", TNum d); cls "item"] []
    [div (if update then "item-layout grid" else "item-layout")
       [node "div"
          [titled "MAC address" (t_or (option_map dev_mac_address device) " - ");
           titled "Device type" (device_type device)];
        node "div"
          (when update
             [button "action-button red small-padding" (GDetach (grp_id group) d) [leaf "Cross"]])]].

Definition group_devices (s : W) (group : Group) : tree :=
  div "group-row single-item"
    [div "entry"
       [counted "Device" "Devices" (grp_devices group);
        div "values" (map (group_device s group) (grp_devices group))]].

Definition group_view (s : W) (group : Group) : tree :=
  El "div" [("key", TNum (grp_id group)); cls "group"] []
    [group_row s.1 group; group_packages s group; group_devices s group].

Definition groups_container (s : W) : tree :=
  let groups := default [] (resources (view (at_app l_gm_groups) s)) in
  div "container"
    (groups_overview s ++
     when (negb (length groups =? 0)%nat)
       [node "p" [str "Groups"];
        div "resources-table-wrapper" (map (group_view s) groups)]).

(** The page; [dropdown] is the state of the policy dropdown when it is shown. *)
Definition GroupsList_template (s : W) (dropdown : SimpleDropdown) : list tree :=
  add_group_popup s ++ remove_group_popup s ++ configure_group_popup s dropdown ++
  [groups_title_bar s.1; groups_container s].

(** ** What the events do *)

Abbreviation G := (world (GroupsList * SimpleDropdown)).

(** The callback of the policy dropdown. *)
Definition choosePolicy (val : string) : js G unit :=
  zoom l_page (update l_groupConfiguration (fun c =>
    MkConfiguration (gc_id c) (gc_priority c) (Some val) (gc_devices c) (gc_packages c))).

(** [v-model] of the form for a new group, and of the priority of the edited one. *)
Definition type_new_group (f : NewGroupData -> NewGroupData) : js G unit :=
  zoom l_page (update l_newGroupData f).

Definition type_priority (s : string) : js G unit :=
  zoom l_page (update l_groupConfiguration (fun c =>
    MkConfiguration (gc_id c) (VText s) (gc_policy c) (gc_devices c) (gc_packages c))).

(** The result of the request is not looked at. *)
Definition detachDevice (groupId device : Z) : js W unit :=
  let* _ := patchDevicesRequest (Some groupId) [] [device] in jret tt.

Definition groups_perform (h : groups_handler) : js G unit :=
  match h with
  | GOpenAdd => zoom l_page openAddGroupPopup
  | GCloseAdd => zoom l_page closeAddGroupPopup
  | GAdd => zoom l_page addGroup
  | GTypeName s => type_new_group (fun g => MkNewGroup (Some s) (ng_description g) (ng_priority g))
  | GTypeDescription s => type_new_group (fun g => MkNewGroup (ng_name g) (Some s) (ng_priority g))
  | GTypePriority n => type_new_group (fun g => MkNewGroup (ng_name g) (ng_description g) n)
  | GOpenRemove groupId => zoom l_page (openRemoveGroupPopup groupId)
  | GCloseRemove => zoom l_page closeRemoveGroupPopup
  | GRemove => zoom l_page removeGroup
  | GOpenConfigure group => zoom l_page (openConfigureGroupPopup group)
  | GCloseConfigure => zoom l_page closeConfigureGroupPopup
  | GConfigure => zoom l_page configureGroup
  | GTypeConfigPriority s => type_priority s
  | GSelectPackage i => zoom l_page (selectPackage i)
  | GSelectDevice i => zoom l_page (selectDevice i)
  | GToggle d => zoom l_page (toggleDropdown d)
  | GCloseDropdowns => zoom l_page closeDropdowns
  | GPolicy h => dropdown_perform l_child choosePolicy h
  | GDetach groupId device => zoom l_page (detachDevice groupId device)
  end.

(** The policy dropdown is set up whenever it appears. *)
Definition mount_dropdown : js G unit :=
  let* s := read l_page in
  assign l_child
    (simple_dropdown_setup (availablePolicies s) (gc_policy (view l_groupConfiguration s))).
End View.
