(* ===== verification/GroupsPage.v ===== *)
(** * The groups page as a concurrent program

    Handlers of the page interleave at every await: popups are closed and opened
    while requests are under way, polls answer at any time. What the user can
    start is what the rendered page offers in the current state. The file states
    the invariant of the page, relative to a policy that says who may create,
    update and delete groups, proves that every event keeps it and only sends
    permitted, well-formed requests, and concludes with the event loop of [Async]:
    once for the policy that permits everything, once for the access the user has. *)

From S2P Require Import Prelude Json Http Async App Html Utils Fetch Polling Notifications Jwt Preserves SharedState Samples Groups GroupsList Widgets SimpleDropdown GroupsView.
From stdpp Require Import base tactics list gmap strings pretty relations.
#[local] Open Scope Z_scope.

(** ** Policies *)

(** Who may do what. [rights] says which roles and permissions the page may see. *)
Record policy : Type := Policy {
  rights : access -> Prop;
  may_create : Prop;
  may_update : Z -> Prop;
  may_delete : Z -> Prop;
}.

(** The checks of the template are at least as strict, and the permissions may only
    be fetched again by those who may create groups. *)
Record policy_ok (pi : policy) : Prop := {
  create_checked a :
    rights pi a -> hasAdminRole a RW || hasAdminRole a CREATE_GROUP = true -> may_create pi;
  update_checked a g :
    rights pi a -> allowedTo a PUpdate RGroup (Some g) None = true -> may_update pi g;
  delete_checked a g :
    rights pi a -> allowedTo a PDelete RGroup (Some g) None = true -> may_delete pi g;
  refresh_rights a l :
    rights pi a -> may_create pi -> rights pi (MkAccess (adminRoles a) l);
}.

Section Policy.
Context (R : shared_resource -> Prop) (pi : policy) (Hpi : policy_ok pi).

(** ** The invariant *)

(** The snapshot and the edited configuration belong to the same group, the popups
    that act on a group know which one, and the user may act on it. *)
Record popups_ok (l : GroupsList) : Prop := {
  ok_snapshot : option_map ic_id (initialGroupConfiguration l) = gc_id (groupConfiguration l);
  ok_configure : popupOpen l = PopupConfigureGroup -> is_Some (initialGroupConfiguration l);
  ok_remove : popupOpen l = PopupRemoveGroup -> is_Some (groupToRemove l);
  ok_create : popupOpen l = PopupAddGroup -> may_create pi;
  ok_update : forall g, gc_id (groupConfiguration l) = Some g -> may_update pi g;
  ok_delete : forall g, groupToRemove l = Some g -> may_delete pi g;
}.

Definition page_ok : world GroupsList -> Prop := parts_ok popups_ok (app_ok R (rights pi)).

#[local] Instance page_ok_stable : Stable page_ok.
Proof. apply parts_stable, _. Qed.

Lemma page_ok_local (l : GroupsList) s : popups_ok l -> page_ok s -> page_ok (fst s, l).
Proof. intros Hl [_ Ha]. now split. Qed.

(** ** The requests of the page *)

Section Page.
Context `{BuildEnv} `{JsonParser}.

Abbreviation W := (world GroupsList).

Definition command_group (c : group_command) : option Z :=
  match c with
  | CPatchDevices g _ _ | CUpdatePackages g _ | CUpdatePolicy g _ | CUpdatePriority g _
  | CRemoveGroup g => g
  end.

(** The group of a command is known, and the user may do this to it. *)
Definition permitted (c : group_command) : Prop :=
  match c with
  | CRemoveGroup g => exists i, g = Some i /\ may_delete pi i
  | _ => exists i, command_group c = Some i /\ may_update pi i
  end.

(** Polls, the creation of a group from complete data, and permitted commands. *)
Inductive page_request : event -> Prop :=
| req_poll (g : getter W) h :
    g = groupResources \/ g = packagesResources \/ g = devicesResources ->
    page_request (poll_request g h)
| req_permissions h : may_create pi -> page_request (permissions_event h)
| req_create g h : may_create pi -> complete_group g = true -> page_request (create_event g h)
| req_command c h h' :
    permitted c -> well_formed_command c -> page_request (command_event c h h').

Abbreviation safe := (preserves page_ok page_request).

(** Requests whose headers are the shared ones or the call's own. *)
Lemma safe_fetchWrapper d url method (h : headers_obj W) b :
  (h = headers \/ exists h0, h = HNew h0) ->
  (forall h', page_request (EHttp (Request d url method h' b))) ->
  safe (fetchWrapper d url method h b).
Proof.
  intros Hh. apply preserves_fetchWrapper. intros h' s Hs. unfold store_headers.
  destruct Hh as [->|(h0 & ->)]; [|done]. unfold headers. destruct (truthy_str _); [|done].
  data_writes.
Qed.

Lemma groups_safe_fetchResources (g : getter W) :
  g = groupResources \/ g = packagesResources \/ g = devicesResources ->
  safe (fetchResources g).
Proof.
  intros Hg. apply preserves_fetchResources; [apply _|now constructor|]. intros r s Hr Hs.
  destruct Hg as [-> | [-> | ->]]; data_writes.
Qed.

Lemma safe_command_tail (out : fetched unit) (msg : option Z -> string) :
  safe (if negb (f_success out) then jret (out_error (msg (f_code out)))
        else (fetchResources groupResources ;;; jret out_ok)).
Proof.
  destruct (negb _); [apply preserves_ret|]. apply preserves_bind; [|intros; apply preserves_ret].
  apply groups_safe_fetchResources. auto.
Qed.

Lemma safe_perform c : permitted c -> safe (perform c).
Proof.
  intros Hc.
  assert (Hrq : well_formed_command c ->
    forall h h', page_request (command_event c h h')) by (intros; now constructor).
  destruct c; cbn [perform well_formed_command] in *.
  1,2,4: apply preserves_bind; [|intros; apply safe_command_tail];
    apply safe_fetchWrapper; [now left|]; intros h'; exact (Hrq Logic.I h' ∅).
  - unfold updatePolicyRequest. destruct (_ || _) eqn:E; [apply preserves_ret|].
    apply preserves_bind; [|intros; apply safe_command_tail]. apply safe_fetchWrapper; [now left|].
    intros h'. refine (Hrq _ h' ∅). apply orb_false_elim in E as [E1 E2]. reflect_bools.
    unfold policy_format. now rewrite E1, E2.
  - apply preserves_bind; [|intros; apply safe_command_tail]. apply safe_fetchWrapper; [eauto|].
    intros h'. exact (Hrq Logic.I ∅ h').
Qed.

Lemma groups_safe_updatePermissions : may_create pi -> safe updatePermissions.
Proof using Hpi.
  intros Hc. apply preserves_updatePermissions; [now constructor|].
  data_writes. now apply refresh_rights.
Qed.

Lemma safe_addGroupRequest g : may_create pi -> safe (addGroupRequest g).
Proof using Hpi.
  intros Hmay. unfold addGroupRequest. destruct (_ <? _)%nat eqn:E; [apply preserves_ret|].
  assert (Hc : complete_group g = true).
  { apply addGroup_errors_nil. destruct (addGroup_errors g); [done|discriminate]. }
  apply preserves_bind.
  - apply safe_fetchWrapper; [now left|]. intros h'. now apply req_create.
  - intros out. destruct (negb _); [apply preserves_ret|].
    apply preserves_bind; [apply groups_safe_fetchResources; auto|intros _].
    apply preserves_bind; [now apply groups_safe_updatePermissions|intros _; apply preserves_ret].
Qed.

#[local] Hint Resolve preserves_bind preserves_ret preserves_throw preserves_read preserves_notifySuccess
  preserves_notifyError groups_safe_fetchResources safe_perform safe_addGroupRequest : page.

(** ** The handlers keep the invariant *)

(** Writes to the component's own state that end in a good one. *)
Ltac local_writes :=
  intros s Hs; js_wp; destruct s as [a l]; destruct Hs as [[Hsnap Hconf Hrem Hadd Hupd Hdel] Ha];
  split; [|exact Ha]; split; cbn in *; try done; try (intros; congruence); eauto.

Lemma safe_openAddGroupPopup : may_create pi -> safe openAddGroupPopup.
Proof. intros Hmay. unfold openAddGroupPopup. local_writes. Qed.
Lemma safe_closeAddGroupPopup : safe closeAddGroupPopup.
Proof. unfold closeAddGroupPopup. local_writes. Qed.
Lemma safe_openRemoveGroupPopup g : may_delete pi g -> safe (openRemoveGroupPopup g).
Proof. intros Hmay. unfold openRemoveGroupPopup. local_writes. Qed.
Lemma safe_closeRemoveGroupPopup : safe closeRemoveGroupPopup.
Proof. unfold closeRemoveGroupPopup. local_writes. Qed.
Lemma safe_openConfigureGroupPopup g :
  may_update pi (grp_id g) -> safe (openConfigureGroupPopup g).
Proof. intros Hmay. unfold openConfigureGroupPopup. local_writes. Qed.
Lemma safe_closeConfigureGroupPopup : safe closeConfigureGroupPopup.
Proof. unfold closeConfigureGroupPopup, closeDropdowns. local_writes. Qed.
Lemma safe_closeDropdowns : safe closeDropdowns.
Proof. unfold closeDropdowns. local_writes. Qed.
Lemma safe_toggleDropdown d : safe (toggleDropdown d).
Proof. unfold toggleDropdown. local_writes. Qed.
Lemma safe_selectPackage i : safe (selectPackage i).
Proof.
  unfold selectPackage, toggle_entry. intros s Hs. js_wp.
  destruct (_ !! i); revert s Hs; local_writes.
Qed.
Lemma safe_selectDevice i : safe (selectDevice i).
Proof.
  unfold selectDevice, toggle_entry. intros s Hs. js_wp.
  destruct (_ !! i); revert s Hs; local_writes.
Qed.
Lemma safe_set_errors errors : safe (update l_validationErrors (set_errors errors)).
Proof. local_writes. Qed.
Lemma safe_clear_errors : safe (assign l_validationErrors ∅).
Proof. local_writes. Qed.

#[local] Hint Resolve safe_closeAddGroupPopup safe_closeRemoveGroupPopup
  safe_closeConfigureGroupPopup safe_set_errors safe_clear_errors : page.

Lemma safe_addGroup : may_create pi -> safe addGroup.
Proof using Hpi.
  intros Hmay. unfold addGroup. apply preserves_bind; [apply safe_clear_errors|intros _].
  apply preserves_bind; [apply preserves_read|intros g]. apply preserves_bind; [now apply safe_addGroupRequest|intros out].
  apply preserves_bind; [destruct (ro_errors out); auto with page|intros _].
  destruct (negb _); auto with page.
Qed.

(** The button of the popup is only there while the popup is open. *)
Lemma keeps_removeGroup s :
  page_ok s -> popupOpen (snd s) = PopupRemoveGroup -> keeps page_ok page_request removeGroup s.
Proof.
  intros Hs Hp. unfold keeps, removeGroup. js_wp. destruct (ok_remove _ (proj1 Hs) Hp) as [g Hg].
  pose proof (ok_delete _ (proj1 Hs) g Hg) as Hmay.
  change (view l_groupToRemove s) with (groupToRemove (snd s)). rewrite Hg.
  revert s Hs Hp Hg. cut (safe (let* out := removeGroupRequest (Some g) in
    (if negb (ro_success out) then notifyError "Error when removing group:"
       (Some (or_message (ro_message out) "Removing group failed"))
     else notifySuccess "Group was removed" None) ;;; closeRemoveGroupPopup)).
  { intros Hsafe s Hs _ _. now apply Hsafe. }
  apply preserves_bind; [apply (safe_perform (CRemoveGroup (Some g))); cbn; eauto|intros out].
  apply preserves_bind; [destruct (negb _)|intros _]; auto with page.
Qed.

(** The stages of a configuration find the group they began with, or none. *)
Lemma snapshot_group (s : W) i :
  page_ok s -> view l_initialGroupConfiguration s = Some i ->
  exists g, gc_id (view l_groupConfiguration s) = Some g /\ may_update pi g.
Proof.
  intros [Hl _] Hi. change (initialGroupConfiguration (snd s) = Some i) in Hi.
  change (exists g, gc_id (groupConfiguration (snd s)) = Some g /\ may_update pi g).
  pose proof (ok_snapshot _ Hl) as Hid. rewrite Hi in Hid. exists (ic_id i).
  split; [easy|]. now apply (ok_update _ Hl).
Qed.

(** A stage reads the snapshot before it goes on. *)
Ltac with_snapshot s Hs i Hid :=
  js_wp; destruct (view l_initialGroupConfiguration s) as [i|] eqn:Hi; cbn [deref]; js_wp;
  [pose proof (snapshot_group s i Hs Hi) as Hid|exact Hs].

Lemma safe_submit c headline fallback (next : js W unit) :
  permitted c -> safe next ->
  safe (let* out := perform c in
        if negb (ro_success out) then report_failure out headline fallback else next).
Proof.
  intros Hc Hn. apply preserves_bind; [now apply safe_perform|intros out].
  unfold report_failure. destruct (negb _); auto with page.
Qed.

Lemma safe_configure_policy made : safe (configure_policy made).
Proof.
  assert (Hfin : safe ((if made : bool
      then notifySuccess "Group configuration was updated" None else jret tt) ;;;
      closeConfigureGroupPopup)) by (apply preserves_bind; [destruct made|]; auto with page).
  intros s Hs. unfold configure_policy. with_snapshot s Hs i Hid.
  destruct (negb _); [|now apply Hfin].
  destruct (negb _); [exact (preserves_notifyError page_ok page_request _ _ s Hs)|].
  now apply (safe_submit (CUpdatePolicy _ _)); [exact Hid| |].
Qed.

Lemma safe_configure_packages made : safe (configure_packages made).
Proof.
  intros s Hs. unfold configure_packages. with_snapshot s Hs i Hid.
  destruct (negb _); [|now apply safe_configure_policy]. js_wp.
  apply (safe_submit (CUpdatePackages _ _)); [exact Hid|apply safe_configure_policy|done].
Qed.

Lemma safe_configure_devices made : safe (configure_devices made).
Proof.
  intros s Hs. unfold configure_devices. with_snapshot s Hs i Hid.
  destruct (_ || _); [|now apply safe_configure_packages]. js_wp.
  apply (safe_submit (CPatchDevices _ _ _)); [exact Hid|apply safe_configure_packages|done].
Qed.

Lemma safe_configureGroup : safe configureGroup.
Proof.
  intros s Hs. unfold configureGroup. js_wp.
  destruct (resources _) as [groups|]; cbn [deref]; js_wp; [|done].
  destruct (js_find _ _) as [g|]; cbn [deref]; js_wp; [|done].
  with_snapshot s Hs i Hid. destruct (wasGroupModified _ _);
    [exact (preserves_notifyError page_ok page_request _ _ s Hs)|].
  unfold configure_priority. js_wp. rewrite Hi. cbn [deref]. js_wp.
  destruct (negb _); [|now apply safe_configure_devices].
  apply (safe_submit (CUpdatePriority _ _)); [exact Hid|apply safe_configure_devices|done].
Qed.

Lemma safe_fetchGroupsListResources : safe fetchGroupsListResources.
Proof. unfold fetchGroupsListResources. repeat (apply preserves_bind; [|intros _]); auto with page. Qed.

Lemma groups_interval_free v s : page_ok s -> page_ok (put (Polling.intervalID groups_interval) v s).
Proof. destruct s. now intros [[] ?]. Qed.

Lemma safe_onMounted : safe onMounted.
Proof. apply preserves_mounted; [apply _|exact groups_interval_free|apply safe_fetchGroupsListResources]. Qed.

Lemma safe_onUnmounted : safe onUnmounted.
Proof. apply preserves_stop_polling; [apply _|exact groups_interval_free]. Qed.

(** The button of a row next to a device of a group. *)
Lemma safe_detachDevice g d : may_update pi g -> safe (detachDevice g d).
Proof.
  intros Hmay. apply preserves_bind; [|intros; apply preserves_ret].
  apply (safe_perform (CPatchDevices (Some g) [] [d])). cbn. eauto.
Qed.

(** ** The events of the rendered page *)

Context `{Collation}.

Abbreviation G := (world (GroupsList * SimpleDropdown)).

Definition state_ok (s : G) : Prop := page_ok (view l_page s).

Definition gsafe (p : js G unit) : Prop :=
  forall s, state_ok s -> keeps state_ok page_request p s.

Lemma gsafe_zoom (p : js W unit) : safe p -> gsafe (zoom l_page p).
Proof. intros Hp s Hs. apply (keeps_zoom l_page). now apply Hp. Qed.

(** The policy dropdown keeps its state to itself. *)
Lemma gsafe_child f : gsafe (update l_child f).
Proof. intros s Hs. exact Hs. Qed.

Lemma safe_type_new f : safe (update l_newGroupData f).
Proof. local_writes. Qed.
Lemma safe_type_configuration f :
  (forall c, gc_id (f c) = gc_id c) -> safe (update l_groupConfiguration f).
Proof.
  intros Hf s Hs. js_wp. destruct s as [a l]. destruct Hs as [[Hsnap Hconf Hrem Hadd Hupd Hdel] Ha].
  split; [|exact Ha]. split; cbn in *; try done; rewrite Hf; eauto.
Qed.

(** What a handler may assume of the user besides the invariant. *)
Definition ready (h : groups_handler) : Prop :=
  match h with
  | GOpenAdd | GAdd => may_create pi
  | GOpenConfigure group => may_update pi (grp_id group)
  | GDetach groupId _ => may_update pi groupId
  | GOpenRemove groupId => may_delete pi groupId
  | GRemove => False
  | _ => True
  end.

Lemma groups_ready_gsafe h : ready h -> gsafe (groups_perform h).
Proof using Hpi.
  intros Hr. destruct h; cbn [ready] in Hr; try apply gsafe_zoom;
    auto using safe_openAddGroupPopup, safe_closeAddGroupPopup, safe_addGroup, safe_type_new,
    safe_openRemoveGroupPopup, safe_closeRemoveGroupPopup, safe_openConfigureGroupPopup,
    safe_closeConfigureGroupPopup, safe_configureGroup, safe_type_configuration, safe_toggleDropdown,
    safe_selectPackage, safe_selectDevice, safe_closeDropdowns, safe_detachDevice.
  - destruct Hr.
  - destruct h; cbn [groups_perform dropdown_perform]; try apply gsafe_child.
    intros s Hs. apply wp_jbind. eapply wp_mono; [| |apply gsafe_zoom; [|exact Hs]]; [|done|].
    + intros [] s' Hs'. now apply gsafe_child.
    + now apply safe_type_configuration.
Qed.

(** *** What the template offers *)

Lemma add_group_popup_ready s h :
  page_ok s -> h ∈ page_clicks (add_group_popup s) -> ready h.
Proof.
  intros Hs. unfold add_group_popup, form_field, input. click_cases; try done.
  reflect_bools. now apply (ok_create _ (proj1 Hs)).
Qed.

Lemma configure_group_popup_ready s dropdown h :
  h ∈ page_clicks (configure_group_popup s dropdown) -> ready h.
Proof.
  unfold configure_group_popup, policy_entry, input. widget_cases; try done.
  intros [Hh|[h' Hh]]%SimpleDropdown_collect; revert Hh; click_cases; done.
Qed.

Lemma groups_title_bar_ready a h :
  rights pi a.(app_access) -> h ∈ clicks (groups_title_bar a) -> ready h.
Proof using Hpi.
  intros Ha. unfold groups_title_bar.
  destruct (_ || _) eqn:E; click_cases; cbn [tb_buttonCallback]; widget_cases.
  all: exact (create_checked _ Hpi _ Ha E).
Qed.

Lemma groups_container_ready s h :
  rights pi (app_access s.1) -> h ∈ clicks (groups_container s) -> ready h.
Proof using Hpi.
  intros Ha. unfold groups_container, groups_overview, group_view, group_row, counted, titled.
  click_cases; cbn [ready]; eauto using update_checked, delete_checked.
  - unfold group_packages, counted, titled. destruct (_ =? 1)%nat; click_cases.
  - unfold group_devices, group_device, counted, titled. destruct (_ =? 1)%nat; click_cases;
      cbn [ready]; eauto using update_checked.
Qed.
(** A click runs handlers that are ready, or the removal of the popup alone. *)
Lemma groups_template_click s dropdown path hs :
  page_ok s -> click (GroupsList_template s dropdown) path = Some hs ->
  Forall ready hs \/ hs = [GRemove] /\ popupOpen (snd s) = PopupRemoveGroup.
Proof using Hpi.
  intros Hs Hc. apply click_root in Hc as (t & path' & b & Ht & Hb).
  assert (Hready : forall roots, t ∈ roots -> (forall h, h ∈ page_clicks roots -> ready h) ->
    Forall ready hs) by (intros roots Hin Hr; eapply root_clicks; eauto).
  unfold GroupsList_template in Ht. rewrite !elem_of_app in Ht.
  destruct Ht as [Ht|[Ht|[Ht|Ht]]].
  - left. apply (Hready _ Ht). intros h. now apply add_group_popup_ready.
  - destruct (RemovePopup_click _ _ _ _ _ _ _ _ _ _ Ht Hb) as (Hen & [->|[->|[->| ->]]]).
    1-3: left; repeat constructor.
    right. now apply bool_decide_eq_true in Hen.
  - left. apply (Hready _ Ht). apply configure_group_popup_ready.
  - left. apply (Hready _ Ht). intros h. rewrite page_collect_cons, elem_of_app.
    pose proof (ok_rights _ (proj2 Hs)) as Hr.
    intros [Hh|Hh]; [exact (groups_title_bar_ready _ _ Hr Hh)|].
    apply (groups_container_ready s _ Hr). revert Hh. now html_clicks.
Qed.

(** Typing is always harmless. *)
Definition input_ready (l : listener groups_handler) : Prop :=
  match l with
  | OnText f => forall x, ready (f x)
  | OnNumber f => forall x, ready (f x)
  | _ => True
  end.

Lemma add_group_popup_typing s l : l ∈ page_inputs (add_group_popup s) -> input_ready l.
Proof. unfold add_group_popup, form_field, input. click_cases; done. Qed.

Lemma configure_group_popup_typing s dropdown l :
  l ∈ page_inputs (configure_group_popup s dropdown) -> input_ready l.
Proof.
  unfold configure_group_popup, policy_entry, input. widget_cases; try done.
  intros [Hh|[h' Hh]]%SimpleDropdown_collect; revert Hh; click_cases.
Qed.

Lemma groups_container_typing s : collect typing (groups_container s) = [].
Proof.
  apply elem_of_nil_inv. intros l. change (l ∈ collect typing (groups_container s) -> False).
  unfold groups_container, groups_overview, group_view, group_row.
  click_cases.
  - unfold group_packages, counted, titled. destruct (_ =? 1)%nat; click_cases.
  - unfold group_devices, group_device, counted, titled. destruct (_ =? 1)%nat; click_cases.
Qed.

Lemma groups_template_typed s dropdown h : typed (GroupsList_template s dropdown) h -> ready h.
Proof.
  intros Ht. assert (Hl : forall l, l ∈ page_inputs (GroupsList_template s dropdown) -> input_ready l).
  { intros l. unfold GroupsList_template. rewrite !page_collect_app, !elem_of_app.
    intros [Hl|[Hl|[Hl|Hl]]]; revert Hl.
    - apply add_group_popup_typing.
    - unfold remove_group_popup. widget_cases.
    - apply configure_group_popup_typing.
    - unfold groups_title_bar. rewrite !page_collect_cons, groups_container_typing.
      destruct (_ || _); widget_cases. }
  destruct Ht as [(f & x & Hin & ->)|(f & x & Hin & ->)]; apply (Hl _ Hin).
Qed.

(** Clicks and typing keep the invariant. *)
Lemma groups_user_event_keeps (s : G) q :
  state_ok s -> user_event groups_perform (GroupsList_template (view l_page s) (view l_child s)) q ->
  keeps state_ok page_request q s.
Proof using Hpi.
  intros Hs [(path & hs & Hc & ->)|(h & Ht & ->)].
  - destruct (groups_template_click _ _ _ _ Hs Hc) as [Hr|[-> Hp]].
    + apply keeps_dispatch; [|done]. eapply Forall_impl; [exact Hr|]. exact groups_ready_gsafe.
    + apply keeps_detach; [|now intros s' Hs'].
      apply (keeps_zoom l_page page_ok). now apply keeps_removeGroup.
  - apply groups_ready_gsafe; [|done]. eapply groups_template_typed; eauto.
Qed.

(** Everything that can happen while the page is shown: what the user does to it,
    the timer of the page and that of the notifications, the disappearance of a
    notification, and changes of the browser's storage, which holds the token. *)
Inductive page_handler : G -> js G unit -> Prop :=
| h_mounted s : page_handler s (zoom l_page onMounted)
| h_unmounted s : page_handler s (zoom l_page onUnmounted)
| h_poll s : page_handler s (zoom l_page fetchGroupsListResources)
| h_user s q :
    user_event groups_perform (GroupsList_template (view l_page s) (view l_child s)) q ->
    page_handler s q
| h_dropdown s : page_handler s mount_dropdown
| h_toast_tick s : page_handler s (zoom l_page (update (at_app l_toasts) tick))
| h_toast_expire s i : page_handler s (zoom l_page (update (at_app l_toasts) (expire i)))
| h_storage s f : page_handler s (zoom l_page (update (at_app l_storage) f)).

Lemma groups_handlers_keep p s : page_handler s p -> state_ok s -> keeps state_ok page_request p s.
Proof using Hpi.
  destruct 1; intros Hs.
  4: now apply groups_user_event_keeps.
  4: { unfold mount_dropdown. js_wp. exact Hs. }
  all: apply gsafe_zoom; auto using safe_onMounted, safe_onUnmounted, safe_fetchGroupsListResources,
    tick_ok, expire_ok, preserves_toasts, preserves_storage with page.
Qed.

Definition initial_page (a : App) : G :=
  (a, (initial_groups_list, MkSimpleDropdown false None)).

Lemma groups_page_reachable a c :
  app_ok R (rights pi) a -> reachable page_handler (initial_page a) c ->
  state_ok (store c) /\ Forall page_request (trace c).
Proof using Hpi.
  intros Ha Hr. destruct (reachable_ok state_ok page_request page_handler) with
    (s0 := initial_page a) (c := c) as (Hs & _ & Ht); auto.
  - exact groups_handlers_keep.
  - split; [now split|done].
Qed.
End Page.
End Policy.

(** ** The theorems *)

(** The policy that permits everything. *)
Definition open_policy : policy := Policy (fun _ => True) True (fun _ => True) (fun _ => True).

Lemma open_policy_ok : policy_ok open_policy.
Proof. now split. Qed.

(** What the roles and permissions [acc] allow. Whoever may do everything keeps
    the roles, whatever permissions are fetched. *)
Definition access_policy (acc : access) : policy :=
  Policy (granted_by acc) (hasAdminRole acc RW = true)
    (fun g => allowedTo acc PUpdate RGroup (Some g) None = true)
    (fun g => allowedTo acc PDelete RGroup (Some g) None = true).

Lemma groups_access_policy_ok acc :
  hasAdminRole acc CREATE_GROUP = false -> policy_ok (access_policy acc).
Proof.
  intros Hc. split; cbn [rights may_create may_update may_delete access_policy];
    eauto using granted_allowed, granted_refresh.
  intros a Ha. now rewrite !(granted_role acc a), Hc, orb_false_r.
Qed.

(** The resources of [groups.ts]. *)
Definition groups_resource (r : shared_resource) : Prop :=
  r = GroupsGroups \/ r = GroupsPackages \/ r = GroupsDevices.

Section Theorems.
Context `{BuildEnv} `{JsonParser} `{Collation}.

(** C4: whatever the order in which the user clicks and types on the rendered page,
    timers fire and suspended handlers resume, and whatever the server answers,
    the page holds at most the allowed number of toasts, its polled resources are
    consistent, the open popup knows its group, and every request it has sent is
    well formed: a poll, the creation of a group from complete data, a command on an
    identified group, or the request for the permissions after the creation. *)
Theorem groups_page_safe a c :
  app_ok groups_resource (rights open_policy) a -> reachable page_handler (initial_page a) c ->
  page_ok groups_resource open_policy (view l_page (store c)) /\ Forall (page_request open_policy) (trace c).
Proof. apply (groups_page_reachable _ _ open_policy_ok). Qed.

(** C5: what the rendered page lets a user do is what the roles and permissions
    allow. For a user who is not given permissions meanwhile, that is, who may not
    create groups or has the role for everything, every request the page ever
    sends is a poll or permitted: it creates a group with that role, or updates or
    deletes a group which [allowedTo] permits to update or delete. A user without
    any of these rights causes nothing but polls. *)
Theorem groups_page_authorized a c :
  let acc := app_access a in
  hasAdminRole acc CREATE_GROUP = false ->
  toasts_ok (view l_toasts a) -> reachable page_handler (initial_page a) c ->
  Forall (page_request (access_policy acc)) (trace c) /\
  (hasAdminRole acc RW = false ->
   (forall g, allowedTo acc PUpdate RGroup (Some g) None = false /\
              allowedTo acc PDelete RGroup (Some g) None = false) ->
   Forall (fun e => exists (g : getter (world GroupsList)) h,
     (g = groupResources \/ g = packagesResources \/ g = devicesResources) /\
     e = poll_request g h) (trace c)).
Proof.
  intros acc Hc Ha Hr.
  assert (Ht : Forall (page_request (access_policy acc)) (trace c)).
  { apply (groups_page_reachable no_resource _ (groups_access_policy_ok acc Hc) a c); [|done].
    apply app_ok_rights, granted_refl. done. }
  split; [done|]. intros Hrw Hno. eapply Forall_impl; [exact Ht|].
  intros e [g h Hg|h Hm|g h Hm|cmd h h' Hp]; [eauto|cbn in Hm; congruence|cbn in Hm; congruence|].
  exfalso. destruct cmd; destruct Hp as (i & _ & Hi); cbn in Hi; destruct (Hno i); congruence.
Qed.
End Theorems.

(** ** The page at a concrete input *)

#[local] Existing Instance sample_env.
#[local] Existing Instance subject_parser.
#[local] Instance sample_collation : Collation := fun a b =>
  match String.compare a b with Lt => -1 | Eq => 0 | Gt => 1 end.


(** A user who may delete the one group there is. *)
Definition deleter : access := MkAccess [] [MkPermission PDelete RGroup 1 "abcd"].

Definition loaded_state : App :=
  put l_access deleter (put l_gm_groups (MkResource (Some [sample_group]) ActivePolling) sample_state).

Definition remove_path : list nat := [1; 3; 0; 0; 6; 0; 0]%nat.
Definition confirm_path : list nat := [0; 0; 1; 0; 1]%nat.

Example remove_clicks :
  click (GroupsList_template (loaded_state, initial_groups_list) (MkSimpleDropdown false None))
    remove_path = Some [GOpenRemove 1].
Proof. vm_compute. reflexivity. Qed.

Lemma groups_page_safe_witness :
  let '(s1, p1, cbs, es) := advance (zoom l_page onMounted) (initial_page sample_state) in
  length es = 1%nat /\ page_ok groups_resource open_policy (view l_page s1) /\ Forall (page_request open_policy) es.
Proof.
  destruct (advance (zoom l_page onMounted) (initial_page sample_state)) as [[[s1 p1] cbs] es] eqn:E.
  split.
  { apply (f_equal (fun x => length (snd x))) in E. cbn [snd] in E.
    rewrite <- E. vm_compute. reflexivity. }
  refine (groups_page_safe sample_state (Config s1 (p1 :: cbs) es) _ _).
  - split; [apply toasts_ok_init|intros r Hr; destruct r; apply polling_ok_fresh|exact Logic.I].
  - apply rtc_once. exact (step_start _ _ [] [] _ _ _ _ _ (h_mounted _) E).
Defined.

(** The user asks to remove the group and confirms: one request is sent, and it is
    permitted. *)
Lemma groups_page_authorized_witness :
  let s0 := initial_page loaded_state in
  let '(s1, p1, cbs1, es1) := advance (dispatch groups_perform [GOpenRemove 1]) s0 in
  let '(s2, p2, cbs2, es2) := advance (dispatch groups_perform [GRemove]) s1 in
  length es2 = 1%nat /\ Forall (page_request (access_policy deleter)) (es1 ++ es2).
Proof.
  cbv zeta. set (s0 := initial_page loaded_state).
  destruct (advance (dispatch groups_perform [GOpenRemove 1]) s0) as [[[s1 p1] cbs1] es1] eqn:E1.
  destruct (advance (dispatch groups_perform [GRemove]) s1) as [[[s2 p2] cbs2] es2] eqn:E2.
  split.
  - apply (f_equal (fun x => length (snd x))) in E2. cbn [snd] in E2. rewrite <- E2.
    apply (f_equal (fun x => fst (fst (fst x)))) in E1. cbn [fst] in E1. rewrite <- E1.
    vm_compute. reflexivity.
  - refine (proj1 (groups_page_authorized loaded_state
      (Config s2 ((p1 :: cbs1) ++ p2 :: cbs2) (es1 ++ es2)) eq_refl toasts_ok_init _)).
    eapply rtc_l; [|apply rtc_once].
    + refine (step_start page_handler s0 [] [] _ _ _ _ _ (h_user _ _ (or_introl _)) E1).
      exists remove_path. eexists. split; [vm_compute; reflexivity|reflexivity].
    + refine (step_start page_handler s1 _ _ _ _ _ _ _ (h_user _ _ (or_introl _)) E2).
      exists confirm_path. eexists. split; [|reflexivity].
      apply (f_equal (fun x => fst (fst (fst x)))) in E1. cbn [fst] in E1. rewrite <- E1.
      vm_compute. reflexivity.
Defined.
