(* ===== verification/GroupsSettle.v ===== *)
(** * The groups page comes to rest

    Each handler of the groups page sends a bounded number of requests, so that
    the page, left alone, is at rest after a bounded number of answers. *)

From S2P Require Import Prelude Json Http Async App Html Utils Fetch Polling Notifications Jwt Preserves Settles Samples Groups GroupsList Widgets SimpleDropdown GroupsView GroupsPage.
From stdpp Require Import base tactics list gmap strings pretty relations.
#[local] Open Scope Z_scope.

Section Requests.
Context `{BuildEnv} {S : Type} `{HasApp S}.

(** A change and the poll that follows it. *)
Lemma within_perform c : within 2 (perform c).
Proof.
  destruct c; cbn [perform]; unfold patchDevicesRequest, updatePackagesRequest, updatePolicyRequest,
    updatePriorityRequest, removeGroupRequest, fetchPATCH, fetchPOST, fetchDELETE; at_rest.
Qed.

Lemma within_addGroupRequest `{JsonParser} g : within 3 (addGroupRequest g).
Proof. unfold addGroupRequest, fetchPOST. at_rest. Qed.
End Requests.

Section Page.
Context `{BuildEnv} `{JsonParser} `{Collation}.

Abbreviation W := (world GroupsList).

#[local] Hint Resolve within_addGroupRequest : rest.

Lemma within_patchDevices g a r : within (state := W) 2 (patchDevicesRequest g a r).
Proof. exact (within_perform (CPatchDevices g a r)). Qed.
Lemma within_updatePackages g p : within (state := W) 2 (updatePackagesRequest g p).
Proof. exact (within_perform (CUpdatePackages g p)). Qed.
Lemma within_updatePolicy g p : within (state := W) 2 (updatePolicyRequest g p).
Proof. exact (within_perform (CUpdatePolicy g p)). Qed.
Lemma within_updatePriority g p : within (state := W) 2 (updatePriorityRequest g p).
Proof. exact (within_perform (CUpdatePriority g p)). Qed.
Lemma within_removeGroupRequest g : within (state := W) 2 (removeGroupRequest g).
Proof. exact (within_perform (CRemoveGroup g)). Qed.

#[local] Hint Resolve within_patchDevices within_updatePackages within_updatePolicy
  within_updatePriority within_removeGroupRequest : rest.

Lemma within_addGroup : within 3 addGroup.
Proof. unfold addGroup. at_rest. Qed.
Lemma within_removeGroup : within 2 removeGroup.
Proof. unfold removeGroup. at_rest. Qed.
Lemma within_detachDevice g d : within 2 (detachDevice g d).
Proof. unfold detachDevice. at_rest. Qed.

(** The four changes of a configuration, each with its poll. *)
Lemma within_configure_policy b : within 2 (configure_policy b).
Proof. unfold configure_policy, deref, report_failure. destruct b; at_rest. Qed.
#[local] Hint Resolve within_configure_policy : rest.
Lemma within_configure_packages b : within 4 (configure_packages b).
Proof.
  unfold configure_packages, deref, report_failure. at_rest.
  apply within_mono with 2%nat; [lia|auto with rest].
Qed.
#[local] Hint Resolve within_configure_packages : rest.
Lemma within_configure_devices b : within 6 (configure_devices b).
Proof.
  unfold configure_devices, deref, report_failure. at_rest.
  apply within_mono with 4%nat; [lia|auto with rest].
Qed.
#[local] Hint Resolve within_configure_devices : rest.
Lemma within_configureGroup : within 8 configureGroup.
Proof.
  unfold configureGroup, configure_priority, deref, report_failure. at_rest.
  apply within_mono with 6%nat; [lia|auto with rest].
Qed.

Lemma within_fetch_all : within 3 fetchGroupsListResources.
Proof. unfold fetchGroupsListResources. at_rest. Qed.
#[local] Hint Resolve within_fetch_all : rest.

(** *** Events *)

(** The requests a handler may cause. *)
Definition requests (h : groups_handler) : nat :=
  match h with GAdd => 3 | GRemove | GDetach _ _ => 2 | GConfigure => 8 | _ => 0 end.

Lemma within_groups_perform h : within (requests h) (groups_perform h).
Proof.
  destruct h; cbn [requests groups_perform]; try (apply within_zoom);
    auto using within_addGroup, within_removeGroup, within_configureGroup, within_detachDevice;
    try (cbn; intros; exact I).
  - unfold selectPackage, toggle_entry. at_rest.
  - unfold selectDevice, toggle_entry. at_rest.
  - unfold dropdown_perform, choosePolicy. at_rest.
Qed.

Abbreviation small := (cheap requests 8).

Lemma policy_dropdown_small options st : small (SimpleDropdown_template GPolicy options st).
Proof.
  apply cheap_free. intros h Hh. apply SimpleDropdown_collect in Hh as [Hh|[h' Hh]].
  - now apply elem_of_nil in Hh.
  - now apply list_elem_of_singleton in Hh as ->.
Qed.

Lemma groups_dropdown_small placeholder columns data select t opened :
  (forall i, requests (select i) = 0%nat) ->
  small (Dropdown [OnClick [MStop] None] placeholder columns data select (GToggle t) opened).
Proof.
  intros Hs. apply cheap_free. intros h Hh.
  apply Dropdown_collect in Hh as [Hh|[Hh|[i Hh]]]; cbn in Hh.
  - now apply elem_of_nil in Hh.
  - now apply list_elem_of_singleton in Hh as ->.
  - apply list_elem_of_singleton in Hh as ->. apply Hs.
Qed.

Lemma title_bar_small a : small (groups_title_bar a).
Proof.
  apply cheap_free. intros h. unfold groups_title_bar. rewrite TitleBar_collect.
  cbn [tb_buttonCallback tb_smallButtonName]. destruct (_ || _); cbn [picks heard];
    autorewrite with elem; intuition (subst; reflexivity).
Qed.

#[local] Hint Resolve policy_dropdown_small title_bar_small : cheap.
#[local] Hint Extern 1 (cheap _ _ (Dropdown _ _ _ _ _ _ _)) =>
  apply groups_dropdown_small; intro; reflexivity : cheap.

Lemma add_popup_small s : Forall small (add_group_popup s).
Proof.
  unfold add_group_popup, BlurPanel, form_field, input, field_errors. auto 60 with cheap.
Qed.
Lemma remove_popup_small s : Forall small (remove_group_popup s).
Proof. unfold remove_group_popup, RemovePopup, BlurPanel. auto 60 with cheap. Qed.
Lemma configure_popup_small s st : Forall small (configure_group_popup s st).
Proof. unfold configure_group_popup, policy_entry, BlurPanel, input. auto 60 with cheap. Qed.
Lemma group_view_small s g : small (group_view s g).
Proof.
  unfold group_view, group_row, group_packages, group_devices, group_device, counted, titled.
  destruct (length (grp_packages g) =? 1)%nat, (length (grp_devices g) =? 1)%nat; auto 60 with cheap.
Qed.

Lemma groups_template_small s st : Forall small (GroupsList_template s st).
Proof.
  assert (Hg : forall l, Forall small (map (group_view s) l)) by (intros l; apply Forall_map_all, group_view_small).
  unfold GroupsList_template, groups_container, groups_overview. rewrite !Forall_app, !Forall_cons, Forall_nil.
  split_and!; auto using add_popup_small, remove_popup_small, configure_popup_small, title_bar_small.
  auto 60 with cheap.
Qed.

Lemma groups_handler_within s p : page_handler s p -> within 8 p.
Proof.
  destruct 1 as [s|s|s|s q Hu|s|s|s i|s f].
  - apply within_zoom, within_mounted, within_mono with 3%nat; [lia|apply within_fetch_all].
  - apply within_zoom, within_stop_polling.
  - apply within_zoom, within_mono with 3%nat; [lia|apply within_fetch_all].
  - eapply within_user_event; [exact within_groups_perform|apply groups_template_small| |exact Hu].
    intros []; cbn; lia.
  - unfold mount_dropdown. at_rest.
  - apply within_zoom. at_rest.
  - apply within_zoom. at_rest.
  - apply within_zoom. at_rest.
Qed.

Theorem groups_page_settles a : comes_to_rest page_handler 8 (initial_page a).
Proof. exact (rests page_handler 8 groups_handler_within some_reply (initial_page a)). Qed.
End Page.
