(* ===== verification/GroupsWellFormed.v ===== *)
(** * The rendered groups page is well formed

    Siblings have different keys, so that the page can be updated by them, and void
    elements have no children. *)

From S2P Require Import Prelude Json Http Async App Html Utils Fetch Polling Notifications Jwt Samples Groups GroupsList GroupsPolicies Widgets SimpleDropdown GroupsView GroupsPage.
From stdpp Require Import base tactics list gmap strings pretty.
#[local] Open Scope Z_scope.

(** ** The components *)

Section Components.
Context {H : Type}.

Lemma Status_well_formed connected detailed : well_formed (H := H) (Status connected detailed).
Proof. unfold Status, section, id_, div, str. destruct detailed; auto 20 with wf. Qed.

Lemma UpdateProgress_well_formed progress version : well_formed (H := H) (UpdateProgress progress version).
Proof. unfold UpdateProgress, section, id_, str. auto 20 with wf. Qed.

#[local] Hint Resolve Status_well_formed UpdateProgress_well_formed : wf.

Lemma TitleBar_well_formed a (props : TitleBarProps H) : well_formed (TitleBar a props).
Proof.
  unfold TitleBar, section, id_, bar_button, node, str.
  destruct (truthy_str (tb_smallButtonName props)), (truthy_str (tb_device props)),
    (device_update a (tb_device props)) as [[]|]; auto 30 with wf.
Qed.

Lemma field_errors_well_formed errors field : Forall well_formed (field_errors (H := H) errors field).
Proof. unfold field_errors, div, node. auto 20 with wf. Qed.

Lemma field_errors_keyless errors field : keyless (field_errors (H := H) errors field).
Proof. unfold field_errors, keyless. auto 20 with wf. Qed.

Lemma RemovePopup_well_formed on title enabled description (cancel remove : H) :
  Forall well_formed (RemovePopup on title enabled description cancel remove).
Proof. unfold RemovePopup, BlurPanel, div, p, button, str. auto 30 with wf. Qed.

Lemma entry_well_formed title (kids : list (html H)) :
  Forall well_formed kids -> keyless kids -> well_formed (entry title kids).
Proof.
  intros Hw Hk. unfold entry. pose proof (well_formed_keyless "div" [cls "value"] [] kids eq_refl Hk Hw).
  unfold div, str. auto 20 with wf.
Qed.

(** Tags are keyed by the positions of their rows. *)
Definition tags_at (f : nat -> nat) (l : list DataEntry) : list (Z * nat) :=
  omap id (imap (fun i row => if de_selected row then Some (de_id row, f i) else None) l).

Lemma tags_at_cons f row l :
  tags_at f (row :: l) =
  (if de_selected row then [(de_id row, f 0%nat)] else []) ++ tags_at (fun i => f (S i)) l.
Proof. unfold tags_at. rewrite imap_cons. now destruct (de_selected row). Qed.

Lemma tags_at_positions f l :
  (forall i j, f i = f j -> i = j) ->
  NoDup (map snd (tags_at f l)) /\ forall x, x ∈ map snd (tags_at f l) -> exists i, x = f i.
Proof.
  revert f. induction l as [|row l IH]; intros f Hf; [split; [constructor|now intros ? ?%elem_of_nil]|].
  destruct (IH (fun i => f (S i))) as [Hnd Hin]; [intros i j Hij; apply Hf in Hij; congruence|].
  rewrite tags_at_cons, map_app. destruct (de_selected row); cbn [map app snd].
  - split.
    + constructor; [|done]. intros Hx. destruct (Hin _ Hx) as [i Hi]. now apply Hf in Hi.
    + intros x [->|Hx]%elem_of_cons; [now exists 0%nat|]. destruct (Hin x Hx) as [i ->]. now exists (S i).
  - split; [done|]. intros x Hx. destruct (Hin x Hx) as [i ->]. now exists (S i).
Qed.

Lemma tags_positions data : NoDup (map snd (tags data)).
Proof. exact (proj1 (tags_at_positions (fun i => i) data (fun _ _ e => e))). Qed.

Definition distinct {A} (key : A -> content) (l : list A) : Prop := NoDup (map key l).

Lemma distinct_str {A} (key : A -> string) l : NoDup (map key l) -> distinct (fun a => TStr (key a)) l.
Proof.
  intros Hn. unfold distinct. rewrite <- (map_map key TStr). apply NoDup_fmap; [|done].
  intros x y [= ->]. done.
Qed.

Lemma distinct_num {A} (key : A -> Z) l : NoDup (map key l) -> distinct (fun a => TNum (key a)) l.
Proof.
  intros Hn. unfold distinct. rewrite <- (map_map key TNum). apply NoDup_fmap; [|done].
  intros x y [= ->]. done.
Qed.

Lemma dropdown_tags_well_formed (select : nat -> H) data :
  well_formed (div "tags" (map (dropdown_tag select) (tags data))).
Proof.
  apply (well_formed_keyed _ _ _ _ (fun t => TNum (Z.of_nat t.2))); [done|done| |].
  - rewrite <- (map_map snd (fun i => TNum (Z.of_nat i))).
    apply NoDup_fmap; [|apply tags_positions]. intros i j [= Hij]. lia.
  - intros t _. unfold dropdown_tag, node, str, leaf. auto 20 with wf.
Qed.

Lemma dropdown_head_well_formed columns :
  NoDup (map col_name columns) -> well_formed (H := H) (dropdown_head columns).
Proof.
  intros Hc. apply distinct_str in Hc. apply well_formed_keyless; [done|now repeat constructor|].
  constructor; [|constructor].
  apply (well_formed_keyed_after _ _ _ _ _ (fun c => TStr (col_name c))); auto.
  - apply well_formed_void.
  - intros c _. unfold str. auto with wf.
Qed.

Lemma dropdown_row_well_formed columns (select : nat -> H) i row :
  NoDup (map col_name columns) -> well_formed (dropdown_row columns select i row).
Proof.
  intros Hc. apply distinct_str in Hc.
  apply (well_formed_keyed_after _ _ _ _ _ (fun c => TStr (col_name c))); auto.
  - unfold node, div. auto 20 with wf.
  - intros c _. auto with wf.
Qed.

Lemma Dropdown_well_formed on placeholder columns data select toggle (opened : bool) :
  NoDup (map col_name columns) -> NoDup (map de_id data) ->
  well_formed (H := H) (Dropdown on placeholder columns data select toggle opened).
Proof.
  intros Hc Hd. apply distinct_num in Hd.
  pose proof (dropdown_tags_well_formed select data) as Htags.
  pose proof (dropdown_head_well_formed columns Hc) as Hhead.
  assert (Hbody : well_formed (node "tbody" (imap (dropdown_row columns select) data)))
    by (apply (well_formed_keyed_imap _ _ _ _ (fun row => TNum (de_id row)));
        auto using dropdown_row_well_formed).
  unfold Dropdown. set (tbody := node "tbody" _) in *. set (tags := div "tags" _) in *.
  unfold button, leaf, str. unfold div, node. auto 30 with wf.
Qed.

Lemma SimpleDropdown_well_formed own options st :
  NoDup (map po_id options) -> well_formed (H := H) (SimpleDropdown_template own options st).
Proof.
  intros Ho. apply distinct_str in Ho.
  assert (Hopts : well_formed (div "dropdown-options" (map (dropdown_option own) options))).
  { apply (well_formed_keyed _ _ _ _ (fun o => TStr (po_id o))); auto.
    intros o _. unfold dropdown_option, str. auto with wf. }
  unfold SimpleDropdown_template. set (opts := div "dropdown-options" _) in *. unfold leaf. auto 20 with wf.
Qed.
End Components.

#[export] Hint Resolve Status_well_formed UpdateProgress_well_formed TitleBar_well_formed
  field_errors_well_formed field_errors_keyless RemovePopup_well_formed : wf.

(** ** The groups page *)

Section Page.
Context `{BuildEnv} `{JsonParser} `{Collation}.

Abbreviation W := (world GroupsList).

(** The data that is shown has distinct identifiers; no version is the text that
    stands for a missing one. *)
Record keys_ok (s : W) : Prop := {
  keys_groups : NoDup (map grp_id (default [] (resources (view (at_app l_gm_groups) s))));
  keys_members g : g ∈ default [] (resources (view (at_app l_gm_groups) s)) ->
    NoDup (grp_packages g) /\ NoDup (grp_devices g);
  keys_packages : NoDup (map de_id (view l_packageList s));
  keys_devices : NoDup (map de_id (view l_deviceList s));
  keys_versions p : p ∈ selectedPackages s -> version_of p <> Some "undefined";
}.

Lemma policies_distinct s : keys_ok s -> NoDup (map po_id (availablePolicies s)).
Proof.
  intros Hs. change (availablePolicies s) with
    (MkPolicyOption "no_update," "No Update" :: map policy_option (offered_versions s)).
  cbn [map po_id]. rewrite map_map. constructor.
  - intros (v & Hv & _)%list_elem_of_fmap. cbn in Hv. discriminate.
  - assert (Hin : forall v, v ∈ offered_versions s -> v <> Some "undefined").
    { intros v (p & Hp & <-)%offered_elem. exact (keys_versions s Hs p Hp). }
    assert (Hnd : NoDup (offered_versions s)) by apply js_set_NoDup.
    induction Hnd as [|v l Hv Hnd IH]; cbn [map]; constructor.
    + intros (w & Hw & Hwl)%list_elem_of_fmap. cbn [policy_option po_id] in Hw.
      apply string_app_inv_l in Hw. assert (v = w) as ->; [|done].
      pose proof (Hin v ltac:(now left)). pose proof (Hin w ltac:(now right)).
      destruct v, w; cbn in Hw; congruence.
    + apply IH. intros w Hw. apply Hin. now right.
Qed.

Lemma counted_well_formed {A} one many (l : list A) : well_formed (counted one many l).
Proof. unfold counted, div, str. destruct (_ =? 1)%nat; auto 20 with wf. Qed.

Lemma counted_keyless {A} one many (l : list A) : key_of (counted one many l) = None.
Proof. unfold counted. now destruct (_ =? 1)%nat. Qed.

#[local] Hint Resolve counted_well_formed counted_keyless : wf.

(** A list of items of a group, keyed by numbers. *)
Lemma values_well_formed (item : Z -> html groups_handler) ids :
  (forall i, key_of (item i) = Some (TNum i)) -> (forall i, well_formed (item i)) -> NoDup ids ->
  well_formed (div "values" (map item ids)).
Proof.
  intros Hk Hw Hn. apply (well_formed_keyed _ _ _ _ TNum); auto.
  apply NoDup_fmap; [|done]. now intros x y [= ->].
Qed.

Lemma group_row_well_formed a g : well_formed (group_row a g).
Proof. unfold group_row, entry, button, div, str. auto 30 with wf. Qed.

Lemma group_packages_well_formed s g : NoDup (grp_packages g) -> well_formed (group_packages s g).
Proof.
  intros Hp. unfold group_packages. set (item := fun pckg : Z => El "div" _ _ _).
  pose proof (values_well_formed item (grp_packages g) (fun i => eq_refl)) as Hv. set (values := div "values" _) in *.
  assert (well_formed values).
  { apply Hv; [|done]. intros i. unfold item, titled, div. auto 20 with wf. }
  unfold div. auto 20 with wf.
Qed.

Lemma group_devices_well_formed s g : NoDup (grp_devices g) -> well_formed (group_devices s g).
Proof.
  intros Hd. unfold group_devices.
  pose proof (values_well_formed (group_device s g) (grp_devices g) (fun i => eq_refl)) as Hv.
  set (values := div "values" _) in *.
  assert (well_formed values).
  { apply Hv; [|done]. intros i. unfold group_device, titled, button, leaf, div, node. auto 30 with wf. }
  unfold div. auto 20 with wf.
Qed.

Lemma group_view_well_formed s g :
  NoDup (grp_packages g) -> NoDup (grp_devices g) -> well_formed (group_view s g).
Proof.
  intros Hp Hd. pose proof (group_row_well_formed s.1 g). pose proof (group_packages_well_formed s g Hp).
  pose proof (group_devices_well_formed s g Hd). unfold group_view. auto 20 with wf.
Qed.

Lemma groups_container_well_formed s : keys_ok s -> well_formed (groups_container s).
Proof.
  intros Hs. unfold groups_container, groups_overview.
  pose proof (distinct_num grp_id _ (keys_groups s Hs)) as Hg.
  set (groups := default [] _) in *. set (list := div "resources-table-wrapper" (map _ groups)).
  assert (well_formed list).
  { apply (well_formed_keyed _ _ _ _ (fun g => TNum (grp_id g))); auto. intros g Hin.
    destruct (keys_members s Hs g Hin). now apply group_view_well_formed. }
  unfold div, node, str. auto 30 with wf.
Qed.

(** *** The popups *)

Lemma form_field_well_formed errors label field i :
  well_formed i -> key_of i = None -> well_formed (form_field errors label field i).
Proof.
  intros Hi Hk. unfold form_field, node, str, div. apply well_formed_keyless; [done| |].
  - apply Forall_app_2; [|apply field_errors_keyless]. auto with wf.
  - auto 20 with wf.
Qed.

Lemma add_popup_well_formed s : Forall well_formed (add_group_popup s).
Proof.
  unfold add_group_popup, BlurPanel.
  set (name := form_field _ "Name" _ _). set (description := form_field _ "Description" _ _).
  set (priority := form_field _ "Priority" _ _).
  assert (well_formed name) by (unfold name; apply form_field_well_formed; [apply well_formed_void|done]).
  assert (well_formed description) by (unfold description; apply form_field_well_formed; [apply well_formed_void|done]).
  assert (well_formed priority) by (unfold priority; apply form_field_well_formed; [apply well_formed_void|done]).
  unfold div, p, button, str. auto 30 with wf.
Qed.

Lemma remove_popup_well_formed s : Forall well_formed (remove_group_popup s).
Proof. apply RemovePopup_well_formed. Qed.

Lemma configure_popup_well_formed s st : keys_ok s -> Forall well_formed (configure_group_popup s st).
Proof.
  intros Hs. unfold configure_group_popup, BlurPanel, policy_entry, input.
  set (packages := Dropdown _ _ _ _ GSelectPackage _ _). set (devices := Dropdown _ _ _ _ GSelectDevice _ _).
  set (policies := SimpleDropdown_template _ _ _).
  assert (well_formed packages) by (unfold packages; apply Dropdown_well_formed; [now apply (bool_decide_unpack _)|apply Hs]).
  assert (well_formed devices) by (unfold devices; apply Dropdown_well_formed; [now apply (bool_decide_unpack _)|apply Hs]).
  assert (well_formed policies) by (unfold policies; now apply SimpleDropdown_well_formed, policies_distinct).
  unfold div, p, button, node, str. auto 40 with wf.
Qed.

(** The page, whatever is open on it. The identifiers of the policies are distinct
    because their versions are, unless a version is the text [undefined], which
    stands for a missing one. *)
Theorem groups_page_well_formed s st : keys_ok s -> Forall well_formed (GroupsList_template s st).
Proof.
  intros Hs. unfold GroupsList_template. rewrite !Forall_app, !Forall_cons, Forall_nil.
  split_and!; auto using add_popup_well_formed, remove_popup_well_formed, configure_popup_well_formed,
    groups_container_well_formed.
  apply TitleBar_well_formed.
Qed.
End Page.

(** The rows of the popup have the identifiers of what is loaded when it is opened. *)
Lemma package_rows_ids group packages : map de_id (package_rows group packages) = map pkg_id packages.
Proof. unfold package_rows. now rewrite map_map. Qed.
Lemma device_rows_ids group devices : map de_id (device_rows group devices) = map dev_id devices.
Proof. unfold device_rows. now rewrite map_map. Qed.

(** ** The page at a concrete input *)

#[local] Existing Instance sample_env.
#[local] Existing Instance subject_parser.
#[local] Existing Instance sample_collation.

(** The popup of the sample group, with its package and two devices to choose from. *)
Definition configured_page : world GroupsList :=
  (advance (openConfigureGroupPopup sample_group)
     (put l_gm_packages (MkResource (Some [sample_package]) ActivePolling)
        (put l_gm_devices (MkResource (Some [sample_device 7; sample_device 8]) ActivePolling) loaded_state),
      initial_groups_list)).1.1.1.

Lemma configured_page_policies :
  map po_id (availablePolicies configured_page) = ["no_update,"; "exact_match,v1"].
Proof. vm_compute. reflexivity. Qed.

Lemma configured_page_ok : keys_ok configured_page.
Proof.
  split.
  - apply (bool_decide_unpack _). vm_compute. exact I.
  - intros g Hg. change (g ∈ [sample_group]) in Hg. apply list_elem_of_singleton in Hg as ->.
    split; apply (bool_decide_unpack _); vm_compute; exact I.
  - apply (bool_decide_unpack _). vm_compute. exact I.
  - apply (bool_decide_unpack _). vm_compute. exact I.
  - intros p Hp. assert (He : selectedPackages configured_page = [sample_package]) by (vm_compute; reflexivity).
    rewrite He in Hp. apply list_elem_of_singleton in Hp as ->. vm_compute. discriminate.
Qed.
