(* ===== verification/Packages.v ===== *)
(** * Packages: [components/packages/packages.ts], [PackagesList.vue] and
    [DownloadButton.vue] *)

From S2P Require Import Prelude Json Http Async App Utils Fetch Polling Notifications Jwt Samples Groups GroupsList.
From stdpp Require Import base tactics list gmap strings pretty.
#[local] Open Scope Z_scope.

(** ** [packages.ts] *)

Record NewPackageData : Type := MkNewPackage {
  np_version : option string;
  np_deviceType : option string;
}.

Section Requests.
Context `{BuildEnv} `{JsonParser} {S : Type} `{HasApp S}.

Definition packageResources : getter S := MkGetter DPackages PACKAGES_ENDPOINT (at_app l_pm_packages).
Definition groupsResources : getter S := MkGetter DGroups GROUPS_ENDPOINT (at_app l_pm_groups).

(** The files of the input element; [None]: the element is not there. *)
Definition uploadPackage_errors (files : option (list string)) (data : NewPackageData) :
    list (string * string) :=
  (if (length (default [] files) <=? 0)%nat then [("file", "No file provided")] else []) ++
  (if negb (truthy_str (np_version data))
   then [("version", "No package version provided")] else []) ++
  (if negb (truthy_str (np_deviceType data))
   then [("deviceType", "No device type provided")] else []).

Definition uploadPackage_message : option Z -> string :=
  switch_code
    [(StatusCodes.BAD_REQUEST,
       "Provided metadata contains keys reserved by RDFM or a file was not provided.");
     (StatusCodes.UNAUTHORIZED, msg_unauthorized);
     (StatusCodes.FORBIDDEN,
       "User was authorized, but did not have permission to upload packages")]
    "Failed to upload a package. Got a response code of ".

Definition uploadPackageRequest (files : option (list string)) (data : NewPackageData) :
    js S RequestOutput :=
  let errors := uploadPackage_errors files data in
  if (0 <? length errors)%nat then jret (MkOutput false None (Some errors))
  else
    let file := default "" (default [] files !! 0%nat) in
    let formData := [("file", file);
                     ("rdfm.software.version", default "" (np_version data));
                     ("rdfm.hardware.devtype", default "" (np_deviceType data))] in
    let* out := fetchPOST DIgnored PACKAGES_ENDPOINT (HNew ∅) (BForm formData) in
    if negb (f_success out) then jret (out_error (uploadPackage_message (f_code out)))
    else (fetchResources packageResources ;;;
          updatePermissions ;;;
          jret out_ok).

Definition removePackage_message : option Z -> string :=
  switch_code
    [(StatusCodes.UNAUTHORIZED, msg_unauthorized);
     (StatusCodes.FORBIDDEN,
       "User was authorized, but did not have permission to delete packages");
     (StatusCodes.NOT_FOUND, "Specified package does not exist");
     (StatusCodes.CONFLICT, "Package is assigned to a group and cannot be deleted")]
    "Failed to delete package. Got a response code of ".

Definition removePackageRequest (packageId : option Z) : js S RequestOutput :=
  let* out := fetchDELETE DIgnored (DELETE_PACKAGE_ENDPOINT packageId) in
  if negb (f_success out) then jret (out_error (removePackage_message (f_code out)))
  else (fetchResources packageResources ;;; jret out_ok).

Definition downloadPackage_message : option Z -> string :=
  switch_code
    [(StatusCodes.UNAUTHORIZED, msg_unauthorized);
     (StatusCodes.FORBIDDEN,
       "User was authorized, but did not have permission to download packages");
     (StatusCodes.NOT_FOUND, "Specified package does not exist")]
    "Failed to download package. Got a response code of ".

(** The request for a given endpoint. On success the link is the [message]. *)
Definition download_at (endpoint : string) : js S RequestOutput :=
  let* out := fetchGET DDownloadUrl endpoint in
  if negb (f_success out) then jret (out_error (downloadPackage_message (f_code out)))
  else jret (MkOutput true (f_data out) None).

Definition downloadPackageRequest (packageId : option Z) : js S RequestOutput :=
  download_at (DOWNLOAD_PACKAGE_ENDPOINT packageId).
End Requests.

(** ** [PackagesList.vue] *)

Inductive PackagePopupOpen : Type := PopupAddPackage | PopupRemovePackage | PackagePopupNone.

#[export] Instance PackagePopupOpen_eq_dec : EqDecision PackagePopupOpen.
Proof. solve_decision. Defined.

Record PackagesList : Type := MkPackagesList {
  pl_intervalID : option Z;
  pl_popupOpen : PackagePopupOpen;
  uploadInProgress : bool;
  uploadedPackageFile : option (list string);
  packageUploadData : NewPackageData;
  pl_validationErrors : gmap string string;
  packageToRemove : option Z;
}.

Definition pl_interval : lens PackagesList (option Z).
Proof.
  refine (Lens pl_intervalID (fun x s => MkPackagesList x (pl_popupOpen s) (uploadInProgress s)
    (uploadedPackageFile s) (packageUploadData s) (pl_validationErrors s) (packageToRemove s))
    _ _ _); lens_laws.
Defined.
Definition l_pl_popupOpen : lens (world PackagesList) PackagePopupOpen.
Proof.
  refine (lens_comp local_state (Lens pl_popupOpen (fun x s => MkPackagesList (pl_intervalID s) x
    (uploadInProgress s) (uploadedPackageFile s) (packageUploadData s) (pl_validationErrors s)
    (packageToRemove s)) _ _ _)); lens_laws.
Defined.
Definition l_uploadInProgress : lens (world PackagesList) bool.
Proof.
  refine (lens_comp local_state (Lens uploadInProgress (fun x s => MkPackagesList (pl_intervalID s)
    (pl_popupOpen s) x (uploadedPackageFile s) (packageUploadData s) (pl_validationErrors s)
    (packageToRemove s)) _ _ _)); lens_laws.
Defined.
Definition l_uploadedPackageFile : lens (world PackagesList) (option (list string)).
Proof.
  refine (lens_comp local_state (Lens uploadedPackageFile (fun x s => MkPackagesList
    (pl_intervalID s) (pl_popupOpen s) (uploadInProgress s) x (packageUploadData s)
    (pl_validationErrors s) (packageToRemove s)) _ _ _)); lens_laws.
Defined.
Definition l_packageUploadData : lens (world PackagesList) NewPackageData.
Proof.
  refine (lens_comp local_state (Lens packageUploadData (fun x s => MkPackagesList
    (pl_intervalID s) (pl_popupOpen s) (uploadInProgress s) (uploadedPackageFile s) x
    (pl_validationErrors s) (packageToRemove s)) _ _ _)); lens_laws.
Defined.
Definition l_pl_validationErrors : lens (world PackagesList) (gmap string string).
Proof.
  refine (lens_comp local_state (Lens pl_validationErrors (fun x s => MkPackagesList
    (pl_intervalID s) (pl_popupOpen s) (uploadInProgress s) (uploadedPackageFile s)
    (packageUploadData s) x (packageToRemove s)) _ _ _)); lens_laws.
Defined.
Definition l_packageToRemove : lens (world PackagesList) (option Z).
Proof.
  refine (lens_comp local_state (Lens packageToRemove (fun x s => MkPackagesList
    (pl_intervalID s) (pl_popupOpen s) (uploadInProgress s) (uploadedPackageFile s)
    (packageUploadData s) (pl_validationErrors s) x) _ _ _)); lens_laws.
Defined.

Definition no_upload : NewPackageData := MkNewPackage None None.

Definition initial_packages_list : PackagesList :=
  MkPackagesList None PackagePopupNone false None no_upload ∅ None.

Section Component.
Context `{BuildEnv} `{JsonParser}.

Abbreviation W := (world PackagesList).

Definition openAddPackagePopup : js W unit := assign l_pl_popupOpen PopupAddPackage.

Definition closeAddPackagePopup : js W unit :=
  assign l_packageUploadData no_upload ;;;
  assign l_pl_popupOpen PackagePopupNone ;;;
  assign l_uploadInProgress false ;;;
  assign l_pl_validationErrors ∅.

(** The statements of the [try] block. *)
Definition upload_body : js W unit :=
  assign l_pl_validationErrors ∅ ;;;
  let* files := read l_uploadedPackageFile in
  let* data := read l_packageUploadData in
  let* out := uploadPackageRequest files data in
  match ro_errors out with
  | Some errors => update l_pl_validationErrors (set_errors errors)
  | None => jret tt
  end ;;;
  if negb (ro_success out) then
    notifyError "Error when uploading package"
      (Some (or_message (ro_message out) "Uploading package failed"))
  else (notifySuccess "Package was uploaded" None ;;; closeAddPackagePopup).

Definition uploadPackage : js W unit :=
  assign l_uploadInProgress true ;;;
  finally upload_body (assign l_uploadInProgress false).

Definition openRemovePackagePopup (packageId : Z) : js W unit :=
  assign l_packageToRemove (Some packageId) ;;;
  assign l_pl_popupOpen PopupRemovePackage.

Definition closeRemovePackagePopup : js W unit :=
  assign l_packageToRemove None ;;;
  assign l_pl_popupOpen PackagePopupNone.

Definition removePackage : js W unit :=
  let* id := read l_packageToRemove in
  let* out := removePackageRequest id in
  (if negb (ro_success out) then
     notifyError "Error when removing package:"
       (Some (or_message (ro_message out) "Removing package failed"))
   else notifySuccess "Package was removed" None) ;;;
  closeRemovePackagePopup.

Definition fetchPackagesListResources : js W unit :=
  fetchResources packageResources ;;; fetchResources groupsResources.

Definition onMounted : js W unit := mounted pl_interval fetchPackagesListResources.

Definition onUnmounted : js W unit :=
  assign l_uploadInProgress false ;;;
  stop_polling pl_interval.

Definition packagesCount (s : W) : nat :=
  length (default [] (resources (view (at_app l_pm_packages) s))).
End Component.

(** ** [DownloadButton.vue] *)

(** The button's state: the text last copied to the clipboard. *)
Record DownloadButton : Type := MkDownloadButton { clipboard : option string }.

Definition l_clipboard : lens (world DownloadButton) (option string).
Proof. refine (lens_comp local_state (Lens clipboard (fun x _ => MkDownloadButton x) _ _ _)); lens_laws. Defined.

Section DownloadButton.
Context `{BuildEnv}.

Abbreviation W := (world DownloadButton).

(** [resource]: the package's identifier, or [undefined]. *)
Definition getPackageDownloadUrl (resource : option Z) : js W string :=
  let* out := match resource with
              | Some id => downloadPackageRequest (Some id)
              | None => download_at (PACKAGES_ENDPOINT +:+ "/undefined/download")
              end in
  if negb (ro_success out) || negb (truthy_str (ro_message out)) then
    (notifyError "Error when downloading the package:"
       (Some (or_message (ro_message out) "Could not get the download link")) ;;;
     jthrow (JsError "Error when downloading the package"))
  else jret (default "" (ro_message out)).

Definition download (resource : option Z) (url : option string) : js W unit :=
  if truthy_num resource then
    detach (let* url := getPackageDownloadUrl resource in window_open url) (jret tt)
  else if truthy_str url then window_open (default "" url)
  else jret tt.

Definition copyDownloadLink (resource : option Z) (url : option string) : js W unit :=
  let* link := if truthy_str url then jret (default "" url) else getPackageDownloadUrl resource in
  assign l_clipboard (Some link) ;;;
  notifySuccess "Download link copied!" None.
End DownloadButton.
