(* ===== verification/PackagesSpec.v ===== *)
(** * Packages: what uploading and downloading guarantee *)

From S2P Require Import Prelude Json Http Async App Utils Fetch Polling Notifications Jwt Samples Groups GroupsList Packages.
From stdpp Require Import base tactics list gmap strings pretty.
#[local] Open Scope Z_scope.

(** ** Uploading *)

Section Upload.
Context `{BuildEnv} `{JsonParser} {S : Type} `{HasApp S}.

Definition complete_package (files : option (list string)) (data : NewPackageData) : bool :=
  (0 <? length (default [] files))%nat &&
  truthy_str (np_version data) && truthy_str (np_deviceType data).

Lemma uploadPackage_errors_nil files data :
  uploadPackage_errors files data = [] <-> complete_package files data = true.
Proof.
  unfold uploadPackage_errors, complete_package.
  destruct (default [] files), (truthy_str (np_version data)), (truthy_str (np_deviceType data));
    cbn; split; congruence.
Qed.

Definition upload_event (files : option (list string)) (data : NewPackageData) (h : Headers) : event :=
  EHttp (Request DIgnored PACKAGES_ENDPOINT "POST" h (Some (BForm
    [("file", default "" (default [] files !! 0%nat));
     ("rdfm.software.version", default "" (np_version data));
     ("rdfm.hardware.devtype", default "" (np_deviceType data))]))).

Lemma token_polled_packages out (s : S) : token (polled packageResources out s) = token s.
Proof.
  unfold token, polled, packageResources; cbn [g_value g_doc].
  destruct (f_success _); [|destruct (bool_decide _)]; frame.
Qed.

(** What has not been given, with the text that says so. *)
Definition missing_input (files : option (list string)) (data : NewPackageData) (field text : string) : Prop :=
  (field = "file" /\ text = "No file provided" /\ (files = None \/ files = Some [])) \/
  (field = "version" /\ text = "No package version provided" /\
   (np_version data = None \/ np_version data = Some "")) \/
  (field = "deviceType" /\ text = "No device type provided" /\
   (np_deviceType data = None \/ np_deviceType data = Some "")).

Lemma uploadPackage_errors_missing files data field text :
  (field, text) ∈ uploadPackage_errors files data <-> missing_input files data field text.
Proof.
  assert (Hf : (length (default [] files) <=? 0)%nat = true <-> files = None \/ files = Some []).
  { destruct files as [[|f l]|]; cbn; intuition congruence. }
  unfold uploadPackage_errors, missing_input.
  rewrite !elem_of_app, <- !truthy_str_false, <- Hf.
  destruct (length _ <=? 0)%nat, (truthy_str (np_version data)), (truthy_str (np_deviceType data)); cbn [negb];
    rewrite ?list_elem_of_singleton, ?elem_of_nil, ?pair_equal_spec; intuition congruence.
Qed.

Lemma uploadPackage_errors_NoDup files data : NoDup (map fst (uploadPackage_errors files data)).
Proof.
  unfold uploadPackage_errors.
  destruct (length _ <=? 0)%nat, (truthy_str (np_version data)), (truthy_str (np_deviceType data));
    apply (bool_decide_unpack _); vm_compute; exact I.
Qed.

Lemma complete_package_missing files data :
  complete_package files data = true <-> forall field text, ~ missing_input files data field text.
Proof.
  rewrite <- uploadPackage_errors_nil. split.
  - intros He field text Hm. apply uploadPackage_errors_missing in Hm. rewrite He in Hm.
    now apply elem_of_nil in Hm.
  - intros Hm. apply elem_of_nil_inv. intros [field text] Hin. apply uploadPackage_errors_missing in Hin.
    exact (Hm _ _ Hin).
Qed.

(** C23: a package is uploaded only when a file, a version and a device type are
    given: otherwise the call returns an error for each of the three that is missing,
    with its text, and for no other, and nothing is sent. After the server has accepted the package the list is polled
    and the permissions are refreshed; if the token cannot be read at that point
    the call raises although the package has been stored. *)
Theorem uploadPackage_contract files data (srv : server) n (s : S) own :
  authorized (token s) ∅ = Some own ->
  let rq := upload_event files data own in
  let out := report (D := unit) (srv (sent n) rq) in
  let poll := poll_request packageResources own in
  let s1 := polled packageResources (report (srv (sent n ++ [rq]) poll)) s in
  exists errors,
  (forall field text, (field, text) ∈ errors <-> missing_input files data field text) /\
  NoDup (map fst errors) /\
  (complete_package files data = true <-> forall field text, ~ missing_input files data field text) /\
  run srv (uploadPackageRequest files data) n s =
    if negb (complete_package files data)
    then (Done (MkOutput false None (Some errors)), s, n)
    else if negb (f_success out)
    then (Done (out_error (uploadPackage_message (f_code out))), s, Net (sent n ++ [rq]) (pending n))
    else match claims_of s with
         | Raised e => (Raised e, s1, Net ((sent n ++ [rq]) ++ [poll]) (pending n))
         | Done c =>
             let ask := permissions_event own in
             (Done out_ok, s1,
              Net (((sent n ++ [rq]) ++ [poll]) ++ [ask])
                (pending n ++ [store_permissions c (report (D := list Permission)
                   (srv ((sent n ++ [rq]) ++ [poll]) ask))]))
         end.
Proof.
  intros Hown. cbn zeta. exists (uploadPackage_errors files data).
  split; [apply uploadPackage_errors_missing|]. split; [apply uploadPackage_errors_NoDup|].
  split; [apply complete_package_missing|]. unfold uploadPackageRequest.
  destruct (complete_package files data) eqn:Hc; cbn [negb].
  - apply uploadPackage_errors_nil in Hc. rewrite Hc. cbn [length Nat.ltb Nat.leb].
    unfold fetchPOST, jbind at 1. rewrite run_bind, fetchWrapper_run. cbn [headers_contents].
    rewrite Hown. cbn zeta. fold (upload_event files data own).
    destruct (report _) as [[] code dt]; cbn [f_success negb f_code store_headers]; [|reflexivity].
    unfold jbind at 1. rewrite run_bind, fetchResources_run, Hown. cbn [sent pending].
    unfold jbind. rewrite run_bind, updatePermissions_run.
    unfold claims_of. rewrite token_polled_packages.
    destruct (token s) as [t|] eqn:Et; [|reflexivity].
    destruct (parseJWT t); [|reflexivity]. rewrite Hown. reflexivity.
  - destruct (uploadPackage_errors files data) eqn:E; [|reflexivity].
    apply uploadPackage_errors_nil in E. congruence.
Qed.
End Upload.

Section Page.
Context `{BuildEnv} `{JsonParser}.

Abbreviation W := (world PackagesList).

(** However an upload ends, with a response, a failed request or an
    exception, the page is not left in the uploading state. *)
Theorem uploadPackage_flag (srv : server) n (s : W) :
  view l_uploadInProgress (snd (fst (run srv uploadPackage n s))) = false.
Proof.
  unfold uploadPackage. js_run. rewrite run_finally.
  destruct (run srv upload_body _ _) as [[o s1] n1]. cbn. reflexivity.
Qed.
End Page.

(** ** Downloading *)

Section Download.
Context `{BuildEnv}.

Abbreviation W := (world DownloadButton).

Definition download_event (id : Z) (h : Headers) : event :=
  EHttp (Request DDownloadUrl (DOWNLOAD_PACKAGE_ENDPOINT (Some id)) "GET" h None).

(** What the button makes of the answer: the link, or the text of the error. *)
Definition download_link (o : http_outcome string) : string + string :=
  let out := report o in
  match f_data out with
  | Some link => if String.eqb link "" then inr "Could not get the download link" else inl link
  | None => inr (downloadPackage_message (f_code out))
  end.

Definition link_error (msg : string) (s : W) : W :=
  over (at_app l_toasts) (enqueue (ToastError
    (buildHTML "Error when downloading the package:" (Some msg)))) s.

Lemma switch_code_nonempty cases fallback code :
  Forall (fun c => c.2 <> "") cases -> fallback <> "" -> switch_code cases fallback code <> "".
Proof.
  intros Hc Hf. unfold switch_code. destruct (list_find _ _) as [[i [c m]]|] eqn:E.
  - apply list_find_Some in E as (Hi & _ & _). apply Forall_lookup_1 with (1 := Hc) in Hi. done.
  - destruct fallback; [done|]. discriminate.
Qed.

Lemma download_answer (srv : server) n (s : W) (o : http_outcome string) :
  run srv
    (let* out := if negb (f_success (report o))
                 then jret (out_error (downloadPackage_message (f_code (report o))))
                 else jret (MkOutput true (f_data (report o)) None) in
     if negb (ro_success out) || negb (truthy_str (ro_message out)) then
       (notifyError "Error when downloading the package:"
          (Some (or_message (ro_message out) "Could not get the download link")) ;;;
        jthrow (JsError "Error when downloading the package"))
     else jret (default "" (ro_message out))) n s =
  match download_link o with
  | inl link => (Done link, s, n)
  | inr msg => (Raised (JsError "Error when downloading the package"), link_error msg s, n)
  end.
Proof.
  unfold download_link. pose proof (report_data o) as Hd.
  destruct (f_success (report o)) eqn:Es; cbn [negb].
  - destruct Hd as [Hd _]. destruct (Hd eq_refl) as [link ->]. js_run. cbn [ro_success ro_message truthy_str negb orb].
    destruct (String.eqb link "") eqn:El; cbn [negb]; [|reflexivity].
    apply String.eqb_eq in El as ->. reflexivity.
  - destruct (f_data (report o)) as [x|]; [exfalso; enough (false = true) by done; apply Hd; eauto|].
    js_run. cbn [ro_success out_error negb orb ro_message]. unfold or_message. cbn [truthy_str].
    assert (Hne : downloadPackage_message (f_code (report o)) <> "").
    { apply switch_code_nonempty; [repeat constructor|]; discriminate. }
    apply String.eqb_neq in Hne. rewrite Hne. reflexivity.
Qed.

Lemma getPackageDownloadUrl_run (srv : server) n (s : W) id own :
  authorized (token s) ∅ = Some own ->
  let rq := download_event id own in
  let n1 := Net (sent n ++ [rq]) (pending n) in
  run srv (getPackageDownloadUrl (Some id)) n s =
  match download_link (srv (sent n) rq) with
  | inl link => (Done link, s, n1)
  | inr msg => (Raised (JsError "Error when downloading the package"), link_error msg s, n1)
  end.
Proof.
  intros Hown. cbn zeta. unfold getPackageDownloadUrl, downloadPackageRequest, download_at, fetchGET.
  js_run. rewrite run_jbind, fetchWrapper_run. cbn [headers_contents]. rewrite Hown. cbn zeta.
  fold (download_event id own). cbn [store_headers]. apply download_answer.
Qed.

(** Copying the link of a package asks the server for it; the clipboard
    receives exactly the link of the answer, with a success message. If there is
    none the clipboard is left alone and the error is shown. *)
Theorem copyDownloadLink_contract (srv : server) n (s : W) id own :
  authorized (token s) ∅ = Some own ->
  let rq := download_event id own in
  let n1 := Net (sent n ++ [rq]) (pending n) in
  run srv (copyDownloadLink (Some id) None) n s =
  match download_link (srv (sent n) rq) with
  | inl link =>
      (Done tt, over (at_app l_toasts) (enqueue (ToastSuccess (buildHTML "Download link copied!" None)))
                  (put l_clipboard (Some link) s), n1)
  | inr msg => (Raised (JsError "Error when downloading the package"), link_error msg s, n1)
  end.
Proof.
  intros Hown. cbn zeta. unfold copyDownloadLink. cbn [truthy_str].
  rewrite run_jbind, (getPackageDownloadUrl_run srv n s id own Hown).
  destruct (download_link _); reflexivity.
Qed.

(** The callback of [download], as a function of the answer. *)
Definition download_done (o : http_outcome string) (s : W) : outcome unit * W :=
  match download_link o with
  | inl link => (Done tt, over (at_app l_opened) (fun l => l ++ [link]) s)
  | inr msg => (Raised (JsError "Error when downloading the package"), link_error msg s)
  end.

(** A direct download sends the request and returns at once; when the answer
    arrives its link, and nothing else, is opened, or the error is shown. *)
Theorem download_contract (srv : server) n (s : W) id own :
  id <> 0 -> authorized (token s) ∅ = Some own ->
  let rq := download_event id own in
  exists callback,
    run srv (download (Some id) None) n s =
      (Done tt, s, Net (sent n ++ [rq]) (pending n ++ [callback])) /\
    forall n' s', run srv callback n' s' =
      (fst (download_done (srv (sent n) rq) s'), snd (download_done (srv (sent n) rq) s'), n').
Proof.
  intros Hid Hown. cbn zeta. unfold download. cbn [truthy_num].
  apply Z.eqb_neq in Hid. rewrite Hid. cbn [negb].
  unfold getPackageDownloadUrl, downloadPackageRequest, download_at, fetchGET.
  unfold jbind at 1 2 3. rewrite !pbind_assoc.
  eexists. split; [exact (run_detach_fetch _ _ _ _ _ _ _ _ _ _ _ Hown)|]. cbv beta.
  intros n' s'. fold (download_event id own). unfold download_done.
  rewrite <- pbind_assoc, run_bind, (download_answer srv n' s').
  now destruct (download_link _).
Qed.
End Download.

(** ** The theorems at concrete inputs *)

#[local] Existing Instance sample_env.
#[local] Existing Instance subject_parser.

Definition bearer_only : Headers := {["Authorization" := bearer]}.

Lemma sample_authorized {L} (l : L) : authorized (token (sample_state, l)) ∅ = Some bearer_only.
Proof. vm_compute. reflexivity. Qed.

Lemma uploadPackage_contract_witness :
  let files := Some ["image.rdfm"] in
  let data := MkNewPackage (Some "v2") (Some "am62x") in
  let s := (sample_state, initial_packages_list) in
  fst (fst (run accepting (uploadPackageRequest files data) idle s)) = Done out_ok /\
  fst (fst (run (refusing 403) (uploadPackageRequest files data) idle s)) =
    Done (out_error (uploadPackage_message (Some 403))).
Proof.
  cbv zeta. pose proof (fun srv => uploadPackage_contract (Some ["image.rdfm"]) (MkNewPackage (Some "v2") (Some "am62x"))
    srv idle (sample_state, initial_packages_list) bearer_only (sample_authorized _)) as Hu. cbv zeta in Hu.
  split; [destruct (Hu accepting) as (errors & _ & _ & _ & ->)|
          destruct (Hu (refusing 403)) as (errors & _ & _ & _ & ->)]; vm_compute; reflexivity.
Defined.

Definition sample_button : world DownloadButton := (sample_state, MkDownloadButton None).

Lemma copyDownloadLink_contract_witness :
  view l_clipboard (snd (fst (run accepting (copyDownloadLink (Some 4) None) idle sample_button))) =
    Some "https://rdfm.example/p".
Proof.
  rewrite (copyDownloadLink_contract accepting idle sample_button 4 bearer_only (sample_authorized _)).
  vm_compute. reflexivity.
Defined.

Lemma download_contract_witness :
  exists callback,
    pending (snd (run accepting (download (Some 4) None) idle sample_button)) = [callback] /\
    view (at_app l_opened) (snd (fst (run accepting callback idle sample_button))) =
      ["https://rdfm.example/p"].
Proof.
  destruct (download_contract accepting idle sample_button 4 bearer_only) as (callback & E & Hcb);
    [discriminate|apply sample_authorized|].
  exists callback. rewrite E, Hcb. split; [reflexivity|]. vm_compute. reflexivity.
Defined.
