(* ===== verification/PackagesView.v ===== *)
(** * The template of [components/packages/PackagesList.vue] *)

From S2P Require Import Prelude Json Http Async App Html Utils Fetch Polling Notifications Jwt Groups GroupsList Widgets Packages.
From stdpp Require Import base tactics list gmap strings pretty.
#[local] Open Scope Z_scope.

(** The expressions the template binds to events. *)
Inductive packages_handler : Type :=
| POpenAdd | PCloseAdd | PUpload
| PTypeVersion (s : string) | PTypeDeviceType (s : string)
| POpenRemove (packageId : Z) | PCloseRemove | PRemove
| PDownload (packageId : Z) | PCopyLink (packageId : Z).

Section View.
Context `{BuildEnv} `{JsonParser}.

Abbreviation W := (world PackagesList).
Abbreviation tree := (html packages_handler).

Definition remove_package_popup (s : W) : list tree :=
  RemovePopup [OnClick [MSelf] (Some PCloseRemove)] "Are you absolutely sure?"
    (bool_decide (view l_pl_popupOpen s = PopupRemovePackage))
    ("This action cannot be undone. It will permanently delete #" +:+
     show_id (view l_packageToRemove s) +:+ " package.")
    PCloseRemove PRemove.

(** [:disabled="b"] *)
Definition disabled_if (b : bool) : list (string * content) :=
  if b then [("disabled", TStr "")] else [].

Definition package_field (errors : gmap string string) (label field : string) (input : tree) : tree :=
  div "entry" ([node "p" [str label]; input] ++ field_errors errors field).

Definition package_input (placeholder : string) (value : content) (f : string -> packages_handler) : tree :=
  El "input" [("type", TStr "text"); ("placeholder", TStr placeholder); ("value", value)] [OnText f] [].

Definition add_package_popup (s : W) : list tree :=
  let errors := view l_pl_validationErrors s in
  let data := view l_packageUploadData s in
  let busy := view l_uploadInProgress s in
  when (bool_decide (view l_pl_popupOpen s = PopupAddPackage))
    [BlurPanel [OnClick [MSelf] (Some PCloseAdd)]
       [div "popup"
          [div "header"
             [p "title" "Upload a new package";
              p "description"
                "Configure the package by choosing an appropriate file and filling in the required fields"];
           div "body"
             ([package_field errors "Version" "version"
                 (package_input "1.0" (t_opt (np_version data)) PTypeVersion);
               package_field errors "Device type" "deviceType"
                 (package_input "Robot" (t_opt (np_deviceType data)) PTypeDeviceType);
               package_field errors "File" "file" (El "input" [("type", TStr "file")] [] []);
               div "buttons"
                 [El "button" (disabled_if busy ++ [cls "action-button gray"])
                    [OnClick [] (Some PCloseAdd)] [str "Cancel"];
                  El "button" (disabled_if busy ++ [cls "action-button blue white"])
                    [OnClick [] (Some PUpload)] [str "Upload"]]] ++
              when busy [div "progress-bar" [node "span" []]])]]].

Definition packages_title_bar (a : App) : tree :=
  TitleBar a (MkTitleBar "Packages" (TStr "manage your packages") (Some "Create new package")
    (if hasUploadAccess (app_access a) then Some POpenAdd else None) None false None).

Definition packages_overview (s : W) : list tree :=
  [node "p" [str "Overview"];
   div "resources-table-wrapper checked"
     [El "table" [cls "resources-table"] []
        [node "tbody"
           [El "tr" [cls "resources-table-row"] []
              [El "td" [cls "entry"] [] [div "value" [str "Total packages"]];
               El "td" [cls "entry"] [] [div "value" [Text (TNum (Z.of_nat (packagesCount s)))]]]]]]].

Definition package_row (s : W) (pckg : Package) : tree :=
  let groups := resources (view (at_app l_pm_groups) s) in
  El "div" [("key", TNum (pkg_id pckg)); cls "row"] []
    [entry "ID" [str ("#" +:+ pretty (pkg_id pckg))];
     entry "Version" [Text (t_opt (version_of pckg))];
     entry "Device type" [Text (t_opt (devtype_of pckg))];
     entry "Uploaded on" [str (pkg_created pckg)];
     entry "SHA256" [str (pkg_sha256 pckg)];
     entry "Storage Driver" [str (pkg_driver pckg)];
     div "entry"
       [div "button-wrapper"
          (when (allowedTo (app_access s.1) PRead RPackage (Some (pkg_id pckg)) groups)
             [El "div" [cls "drdn-wrapper"; ("style", TStr "position: relative")] []
                [DownloadButton_template false (PDownload (pkg_id pckg)) (PCopyLink (pkg_id pckg))]] ++
           when (allowedTo (app_access s.1) PDelete RPackage (Some (pkg_id pckg)) groups)
             [button "action-button red" (POpenRemove (pkg_id pckg)) [str "Remove"]])]].

Definition packages_container (s : W) : tree :=
  let packages := default [] (resources (view (at_app l_pm_packages) s)) in
  div "container"
    [div "resources-list"
       (packages_overview s ++
        when (0 <? length packages)%nat
          [El "div" [id_ "packages-list"] []
             [node "p" [str "Packages"]; div "device-list" (map (package_row s) packages)]])].

Definition PackagesList_template (s : W) : list tree :=
  remove_package_popup s ++ add_package_popup s ++ [packages_title_bar s.1; packages_container s].

(** ** What the events do *)

(** The page with the clipboard its download buttons write to. *)
Abbreviation G := (world (PackagesList * DownloadButton)).

Definition type_package (f : NewPackageData -> NewPackageData) : js G unit :=
  zoom l_page (update l_packageUploadData f).

Definition packages_perform (h : packages_handler) : js G unit :=
  match h with
  | POpenAdd => zoom l_page openAddPackagePopup
  | PCloseAdd => zoom l_page closeAddPackagePopup
  | PUpload => zoom l_page uploadPackage
  | PTypeVersion s => type_package (fun d => MkNewPackage (Some s) (np_deviceType d))
  | PTypeDeviceType s => type_package (fun d => MkNewPackage (np_version d) (Some s))
  | POpenRemove packageId => zoom l_page (openRemovePackagePopup packageId)
  | PCloseRemove => zoom l_page closeRemovePackagePopup
  | PRemove => zoom l_page removePackage
  | PDownload packageId => zoom l_component (download (Some packageId) None)
  | PCopyLink packageId => zoom l_component (copyDownloadLink (Some packageId) None)
  end.
End View.
