(* ===== verification/PackagesPage.v ===== *)
(** * The packages page as a concurrent program

    As for the groups page: whatever the user does to the rendered page and in
    whatever order handlers are resumed, its requests are those that the roles and
    permissions of the user allow. *)

From S2P Require Import Prelude Json Http Async App Html Utils Fetch Polling Notifications Jwt Preserves SharedState Samples Groups GroupsList Widgets Packages PackagesSpec PackagesView.
From stdpp Require Import base tactics list gmap strings pretty relations.
#[local] Open Scope Z_scope.

(** [listed]: the lists of groups, or their absence, that decisions may be based on. *)
Record policy : Type := Policy {
  listed : option (list Group) -> Prop;
  rights : access -> Prop;
  may_upload : Prop;
  may_delete : Z -> Prop;
  may_read : Z -> Prop;
}.

Record policy_ok (pi : policy) : Prop := {
  upload_checked a : rights pi a -> hasUploadAccess a = true -> may_upload pi;
  delete_checked a id gs :
    rights pi a -> listed pi gs -> allowedTo a PDelete RPackage (Some id) gs = true -> may_delete pi id;
  read_checked a id gs :
    rights pi a -> listed pi gs -> allowedTo a PRead RPackage (Some id) gs = true -> may_read pi id;
  refresh_rights a l :
    rights pi a -> may_upload pi -> rights pi (MkAccess (adminRoles a) l);
}.

(** What [acc] allows; packages may also be deleted and read through groups that
    contain them, according to a list in [L]. *)
Definition access_policy (acc : access) (L : option (list Group) -> Prop) : policy :=
  Policy L (granted_by acc) (hasAdminRole acc RW = true)
    (fun id => exists gs, L gs /\ allowedTo acc PDelete RPackage (Some id) gs = true)
    (fun id => exists gs, L gs /\ allowedTo acc PRead RPackage (Some id) gs = true).

Lemma packages_access_policy_ok acc L :
  hasUploadAccess acc = hasAdminRole acc RW -> policy_ok (access_policy acc L).
Proof.
  intros Hu. split; cbn [listed rights may_upload may_delete may_read access_policy];
    eauto using granted_allowed, granted_refresh.
  intros a [Ha _]. rewrite <- Hu. unfold hasUploadAccess. now rewrite Ha.
Qed.

(** The groups that are loaded. *)
Definition loaded_groups (a : App) : option (list Group) := resources (view l_pm_groups a).

Section Policy.
Context (R : shared_resource -> Prop) (pi : policy) (Hpi : policy_ok pi).

(** ** The invariant *)

Record popups_ok (l : PackagesList) : Prop := {
  ok_upload : pl_popupOpen l = PopupAddPackage -> may_upload pi;
  ok_remove : pl_popupOpen l = PopupRemovePackage -> is_Some (packageToRemove l);
  ok_delete : forall id, packageToRemove l = Some id -> may_delete pi id;
}.

Abbreviation data_ok := (app_ok R (rights pi)).
Abbreviation page_ok := (parts_ok popups_ok data_ok).

Section Page.
Context `{BuildEnv} `{JsonParser}.

Abbreviation W := (world PackagesList).

(** The requests of the page. *)
Inductive page_request : event -> Prop :=
| req_poll (g : getter W) h :
    g = packageResources \/ g = groupsResources -> page_request (poll_request g h)
| req_permissions h : may_upload pi -> page_request (permissions_event h)
| req_upload files data h :
    may_upload pi -> complete_package files data = true -> page_request (upload_event files data h)
| req_delete id h :
    may_delete pi id ->
    page_request (EHttp (Request DIgnored (DELETE_PACKAGE_ENDPOINT (Some id)) "DELETE" h None))
| req_download id h : may_read pi id -> page_request (download_event id h).

Abbreviation safe := (preserves page_ok page_request).

Lemma packages_safe_fetchResources (g : getter W) :
  g = packageResources \/ g = groupsResources -> safe (fetchResources g).
Proof.
  intros Hg. apply preserves_fetchResources; [apply _|now constructor|].
  destruct Hg as [-> | ->]; data_writes.
Qed.

Lemma packages_safe_updatePermissions : may_upload pi -> safe updatePermissions.
Proof using Hpi.
  intros Hm. apply preserves_updatePermissions; [now constructor|].
  data_writes. now apply refresh_rights.
Qed.

#[local] Hint Resolve packages_safe_fetchResources packages_safe_updatePermissions : page.

(** Writes to the component's own state that end in a good one. *)
Ltac local_writes :=
  intros s Hs; js_wp; destruct s as [a l]; destruct Hs as [[Hup Hrem Hdel] Ha];
  split; [|exact Ha]; split; cbn in *; try done; try (intros; congruence); eauto.

Lemma safe_openAdd : may_upload pi -> safe openAddPackagePopup.
Proof. intros Hm. unfold openAddPackagePopup. local_writes. Qed.
Lemma safe_closeAdd : safe closeAddPackagePopup.
Proof. unfold closeAddPackagePopup. local_writes. Qed.
Lemma packages_safe_openRemove id : may_delete pi id -> safe (openRemovePackagePopup id).
Proof. intros Hm. unfold openRemovePackagePopup. local_writes. Qed.
Lemma safe_closeRemove : safe closeRemovePackagePopup.
Proof. unfold closeRemovePackagePopup. local_writes. Qed.
Lemma safe_errors f : safe (update l_pl_validationErrors f).
Proof. local_writes. Qed.
Lemma safe_no_errors : safe (assign l_pl_validationErrors ∅).
Proof. local_writes. Qed.
Lemma safe_progress b : safe (assign l_uploadInProgress b).
Proof. local_writes. Qed.
Lemma safe_type f : safe (update l_packageUploadData f).
Proof. local_writes. Qed.
Lemma safe_files f : safe (assign l_uploadedPackageFile f).
Proof. local_writes. Qed.

#[local] Hint Resolve safe_closeAdd safe_closeRemove safe_errors safe_no_errors safe_progress : page.

Lemma safe_uploadPackageRequest files data : may_upload pi -> safe (uploadPackageRequest files data).
Proof using Hpi.
  intros Hm. unfold uploadPackageRequest. destruct (0 <? _)%nat eqn:E; [auto with page|].
  assert (Hc : complete_package files data = true).
  { apply uploadPackage_errors_nil. destruct (uploadPackage_errors files data); [done|discriminate]. }
  apply preserves_bind; [|intros out; destruct (negb _); auto 10 with page].
  apply preserves_fetch_new. intros h. now apply req_upload.
Qed.

Lemma safe_uploadPackage : may_upload pi -> safe uploadPackage.
Proof using Hpi.
  intros Hm. apply preserves_bind; [apply safe_progress|intros _].
  apply preserves_finally; [|apply safe_progress].
  unfold upload_body. apply preserves_bind; [apply safe_no_errors|intros _].
  apply preserves_bind; [apply preserves_read|intros files].
  apply preserves_bind; [apply preserves_read|intros data].
  apply preserves_bind; [now apply safe_uploadPackageRequest|intros out].
  apply preserves_bind; [destruct (ro_errors out); auto with page|intros _].
  destruct (negb _); auto with page.
Qed.

(** The button of the popup is only there while the popup is open. *)
Lemma keeps_removePackage s :
  page_ok s -> pl_popupOpen (snd s) = PopupRemovePackage -> keeps page_ok page_request removePackage s.
Proof.
  intros Hs Hp. unfold removePackage. js_wp. destruct (ok_remove _ (proj1 Hs) Hp) as [id Hid].
  pose proof (ok_delete _ (proj1 Hs) id Hid) as Hm.
  change (view l_packageToRemove s) with (packageToRemove (snd s)). rewrite Hid.
  revert s Hs Hp Hid. cut (safe (let* out := removePackageRequest (Some id) in
    (if negb (ro_success out) then notifyError "Error when removing package:"
       (Some (or_message (ro_message out) "Removing package failed"))
     else notifySuccess "Package was removed" None) ;;; closeRemovePackagePopup)).
  { intros Hsafe s Hs _ _. now apply Hsafe. }
  apply preserves_bind; [|intros out; destruct (negb _); auto with page].
  apply preserves_bind; [|intros out; destruct (negb _); auto with page].
  apply preserves_fetch_new. intros h. now apply req_delete.
Qed.
(** ** The download buttons *)

Abbreviation button_ok := (inner_ok (C := DownloadButton) data_ok).

Lemma safe_downloadUrl id :
  may_read pi id -> preserves button_ok page_request (getPackageDownloadUrl (Some id)).
Proof.
  intros Hm. unfold getPackageDownloadUrl, downloadPackageRequest, download_at, fetchGET.
  apply preserves_bind; [|intros out; destruct (_ || _); auto with page].
  apply preserves_bind; [|intros out; destruct (negb _); auto with page].
  apply preserves_fetch_new. intros h. now apply req_download.
Qed.

Lemma safe_download id : may_read pi id -> preserves button_ok page_request (download (Some id) None).
Proof.
  intros Hm. unfold download. destruct (truthy_num _); [|cbn [truthy_str]; auto with page].
  apply preserves_detach; [|auto with page].
  apply preserves_bind; [now apply safe_downloadUrl|auto with page].
Qed.

Lemma safe_copy id :
  may_read pi id -> preserves button_ok page_request (copyDownloadLink (Some id) None).
Proof.
  intros Hm. unfold copyDownloadLink. cbn [truthy_str].
  apply preserves_bind; [now apply safe_downloadUrl|intros link].
  apply preserves_bind; [|auto with page]. apply preserves_assign. now intros [].
Qed.

(** ** The events of the rendered page *)

Abbreviation G := (world (PackagesList * DownloadButton)).

Abbreviation state_ok := (with_component (C := DownloadButton) popups_ok data_ok).

Definition ready (h : packages_handler) : Prop :=
  match h with
  | POpenAdd | PUpload => may_upload pi
  | POpenRemove id => may_delete pi id
  | PDownload id | PCopyLink id => may_read pi id
  | PRemove => False
  | _ => True
  end.

Lemma packages_ready_gsafe h : ready h -> preserves state_ok page_request (packages_perform h).
Proof using Hpi.
  intros Hr. destruct h; cbn [ready] in Hr; try (apply preserves_on_page; auto using safe_openAdd,
    safe_closeAdd, safe_uploadPackage, safe_type, packages_safe_openRemove, safe_closeRemove); try done;
    apply preserves_in_component; auto using safe_download, safe_copy.
Qed.

Lemma add_package_popup_ready s h :
  page_ok s -> h ∈ page_clicks (add_package_popup s) -> ready h.
Proof.
  intros [Hs _]. unfold add_package_popup, package_field, package_input, disabled_if.
  destruct (view l_uploadInProgress s); widget_cases; try done;
    reflect_bools; now apply (ok_upload _ Hs).
Qed.

Lemma packages_title_bar_ready a h :
  rights pi (app_access a) -> h ∈ clicks (packages_title_bar a) -> ready h.
Proof using Hpi.
  intros Ha. unfold packages_title_bar. destruct (hasUploadAccess _) eqn:E; click_cases;
    cbn [tb_buttonCallback]; widget_cases; exact (upload_checked _ Hpi _ Ha E).
Qed.

Lemma packages_container_ready s h :
  rights pi (app_access s.1) -> listed pi (loaded_groups s.1) -> h ∈ clicks (packages_container s) -> ready h.
Proof using Hpi.
  intros Ha Hl. unfold packages_container, packages_overview, package_row, id_.
  widget_cases; cbn [ready]; eauto using read_checked, delete_checked.
Qed.

Lemma packages_template_click s path hs :
  page_ok s -> listed pi (loaded_groups s.1) -> click (PackagesList_template s) path = Some hs ->
  Forall ready hs \/ hs = [PRemove] /\ pl_popupOpen (snd s) = PopupRemovePackage.
Proof using Hpi.
  intros Hs Hl Hc. apply click_root in Hc as (t & path' & b & Ht & Hb).
  assert (Hready : forall roots, t ∈ roots -> (forall h, h ∈ page_clicks roots -> ready h) ->
    Forall ready hs) by (intros roots Hin Hr; eapply root_clicks; eauto).
  unfold PackagesList_template in Ht. rewrite !elem_of_app in Ht. destruct Ht as [Ht|[Ht|Ht]].
  - destruct (RemovePopup_click _ _ _ _ _ _ _ _ _ _ Ht Hb) as (Hen & [->|[->|[->| ->]]]).
    1-3: left; repeat constructor.
    right. now apply bool_decide_eq_true in Hen.
  - left. apply (Hready _ Ht). intros h. now apply add_package_popup_ready.
  - left. apply (Hready _ Ht). intros h. rewrite page_collect_cons, elem_of_app.
    pose proof (ok_rights _ (proj2 Hs)) as Hr.
    intros [Hh|Hh]; [exact (packages_title_bar_ready _ _ Hr Hh)|].
    apply (packages_container_ready s _ Hr Hl). revert Hh. now html_clicks.
Qed.

Definition input_ready (l : listener packages_handler) : Prop :=
  match l with OnText f => forall x, ready (f x) | OnNumber f => forall x, ready (f x) | _ => True end.

Lemma packages_container_typing s : collect typing (packages_container s) = [].
Proof.
  apply elem_of_nil_inv. intros l. change (l ∈ collect typing (packages_container s) -> False).
  unfold packages_container, packages_overview, package_row, id_. widget_cases.
Qed.

Lemma packages_template_typed s h : typed (PackagesList_template s) h -> ready h.
Proof.
  intros Ht. assert (Hl : forall l, l ∈ page_inputs (PackagesList_template s) -> input_ready l).
  { intros l. unfold PackagesList_template. rewrite !page_collect_app, !elem_of_app.
    intros [Hl|[Hl|Hl]]; revert Hl.
    - unfold remove_package_popup. widget_cases.
    - unfold add_package_popup, package_field, package_input, disabled_if.
      destruct (view l_uploadInProgress s); widget_cases; done.
    - unfold packages_title_bar. rewrite !page_collect_cons, packages_container_typing.
      destruct (hasUploadAccess _); widget_cases. }
  destruct Ht as [(f & x & Hin & ->)|(f & x & Hin & ->)]; apply (Hl _ Hin).
Qed.

Lemma packages_user_event_keeps (s : G) q :
  state_ok s -> listed pi (loaded_groups s.1) -> user_event packages_perform (PackagesList_template (view l_page s)) q ->
  keeps state_ok page_request q s.
Proof using Hpi.
  intros Hs Hl [(path & hs & Hc & ->)|(h & Ht & ->)].
  - destruct (packages_template_click _ _ _ Hs Hl Hc) as [Hr|[-> Hp]].
    + apply preserves_dispatch; [|done]. eapply Forall_impl; [exact Hr|]. exact packages_ready_gsafe.
    + apply keeps_detach; [|now intros s' Hs'].
      apply (keeps_zoom l_page page_ok). now apply keeps_removePackage.
  - apply packages_ready_gsafe; [|done]. eapply packages_template_typed; eauto.
Qed.

(** Everything that can happen while the page is shown; the browser lets the user
    choose a file. *)
Inductive page_handler : G -> js G unit -> Prop :=
| h_mounted s : page_handler s (zoom l_page onMounted)
| h_unmounted s : page_handler s (zoom l_page onUnmounted)
| h_poll s : page_handler s (zoom l_page (fetchResources packageResources))
| h_user s q :
    user_event packages_perform (PackagesList_template (view l_page s)) q -> page_handler s q
| h_files s f : page_handler s (zoom l_page (assign l_uploadedPackageFile f))
| h_toast_tick s : page_handler s (zoom l_page (update (at_app l_toasts) tick))
| h_toast_expire s i : page_handler s (zoom l_page (update (at_app l_toasts) (expire i)))
| h_storage s f : page_handler s (zoom l_page (update (at_app l_storage) f)).

Lemma packages_interval_free v s : page_ok s -> page_ok (put (Polling.intervalID pl_interval) v s).
Proof. destruct s. now intros [[] ?]. Qed.

Lemma packages_safe_mounted : safe onMounted.
Proof.
  apply preserves_mounted; [apply _|exact packages_interval_free|].
  apply preserves_bind; intros; apply packages_safe_fetchResources; auto.
Qed.

Lemma packages_safe_unmounted : safe onUnmounted.
Proof.
  apply preserves_bind; [apply safe_progress|intros _].
  apply preserves_stop_polling; [apply _|exact packages_interval_free].
Qed.

Lemma packages_handlers_keep p s :
  listed pi (loaded_groups s.1) -> page_handler s p -> state_ok s -> keeps state_ok page_request p s.
Proof using Hpi.
  intros Hl. destruct 1; intros Hs.
  4: now apply packages_user_event_keeps.
  all: apply preserves_on_page; auto using packages_safe_mounted, packages_safe_unmounted, packages_safe_fetchResources, safe_files,
    tick_ok, expire_ok, preserves_toasts, preserves_storage with page.
Qed.

Definition initial_page (a : App) : G := (a, (initial_packages_list, MkDownloadButton None)).

Lemma packages_page_reachable a past c :
  data_ok a -> passes page_handler (initial_page a) past c ->
  (forall s, s ∈ past -> listed pi (loaded_groups s.1)) -> Forall page_request (trace c).
Proof using Hpi.
  intros Ha Hp Hl. apply passes_reachable in Hp as [_ Hr].
  destruct (reachable_ok state_ok page_request (fun s p => s ∈ past /\ page_handler s p)) with
    (s0 := initial_page a) (c := c) as (_ & _ & Ht); auto.
  - intros p s [Hin Hh] Hs. now apply packages_handlers_keep; [apply Hl| |].
  - split; [|done]. now split.
Qed.
End Page.
End Policy.

(** ** The theorem *)

Section Theorems.
Context `{BuildEnv} `{JsonParser}.

(** C6: the packages page sends only what the user may do. For a user who has no
    upload role besides the one for everything, so that the permissions are not
    fetched again, every request the page ever sends is a poll, the upload of a
    complete package with that role, the removal of a package that [allowedTo]
    permits to delete, or the request for the link of one it permits to read, given
    a list of groups that the page has had loaded before the request: a right on a
    group counts only for the packages that such a list has in that group. *)
Theorem packages_page_authorized a past c :
  let acc := app_access a in
  let loaded gs := exists s, s ∈ past /\ loaded_groups s.1 = gs in
  hasUploadAccess acc = hasAdminRole acc RW ->
  toasts_ok (view l_toasts a) -> passes page_handler (initial_page a) past c ->
  Forall (page_request (access_policy acc loaded)) (trace c).
Proof.
  intros acc loaded Hc Ht Hp.
  apply (packages_page_reachable no_resource _ (packages_access_policy_ok acc loaded Hc) a past c); [|done|].
  - now apply app_ok_rights, granted_refl.
  - intros s Hs. now exists s.
Qed.
End Theorems.

(** ** The page at a concrete input *)

#[local] Existing Instance sample_env.
#[local] Existing Instance subject_parser.

(** A user who may delete the packages of the one group there is. *)
Definition group_deleter : access := MkAccess [] [MkPermission PDelete RGroup 1 "abcd"].

Definition loaded_packages : App :=
  put l_access group_deleter
    (put l_pm_groups (MkResource (Some [sample_group]) ActivePolling)
      (put l_pm_packages (MkResource (Some [sample_package]) ActivePolling) sample_state)).

Definition remove_path : list nat := [1; 0; 2; 1; 0; 6; 0; 0]%nat.
Definition confirm_path : list nat := [0; 0; 1; 0; 1]%nat.

(** The user asks to remove the package of the group and confirms; the right to delete
    it comes from the group in which the loaded list has it. *)
Lemma packages_page_authorized_witness :
  let s0 := initial_page loaded_packages in
  let '(s1, p1, cbs1, es1) := advance (dispatch packages_perform [POpenRemove 4]) s0 in
  let '(s2, p2, cbs2, es2) := advance (dispatch packages_perform [PRemove]) s1 in
  let loaded gs := exists s, s ∈ [s0; s1; s2] /\ loaded_groups s.1 = gs in
  length es2 = 1%nat /\ Forall (page_request (access_policy group_deleter loaded)) (es1 ++ es2).
Proof.
  cbv zeta. set (s0 := initial_page loaded_packages).
  destruct (advance (dispatch packages_perform [POpenRemove 4]) s0) as [[[s1 p1] cbs1] es1] eqn:E1.
  destruct (advance (dispatch packages_perform [PRemove]) s1) as [[[s2 p2] cbs2] es2] eqn:E2.
  split.
  - apply (f_equal (fun x => length (snd x))) in E2. cbn [snd] in E2. rewrite <- E2.
    apply (f_equal (fun x => fst (fst (fst x)))) in E1. cbn [fst] in E1. rewrite <- E1.
    vm_compute. reflexivity.
  - refine (packages_page_authorized loaded_packages [s0; s1; s2]
      (Config s2 ((p1 :: cbs1) ++ p2 :: cbs2) (es1 ++ es2)) eq_refl toasts_ok_init _).
    pose proof (passes_init page_handler s0) as P0.
    assert (P1 : passes page_handler s0 [s0; s1] (Config s1 (p1 :: cbs1) es1)).
    { refine (passes_step page_handler s0 [s0] _ (Config s1 (p1 :: cbs1) es1) P0 _).
      refine (step_start page_handler s0 [] [] _ _ _ _ _ (h_user _ _ (or_introl _)) E1).
      exists remove_path. eexists. split; [vm_compute; reflexivity|reflexivity]. }
    refine (passes_step page_handler s0 [s0; s1] _ (Config s2 _ _) P1 _).
    refine (step_start page_handler s1 _ _ _ _ _ _ _ (h_user _ _ (or_introl _)) E2).
    exists confirm_path. eexists. split; [|reflexivity].
    apply (f_equal (fun x => fst (fst (fst x)))) in E1. cbn [fst] in E1. rewrite <- E1.
    vm_compute. reflexivity.
Defined.
