(* ===== verification/Devices.v ===== *)
(** * [components/devices/devices.ts]: requests on devices *)

From S2P Require Import Prelude Json Http Async App Utils Fetch Notifications Jwt Samples Groups.
From stdpp Require Import base tactics list gmap strings pretty.
#[local] Open Scope Z_scope.

(** The result of a request that may carry data. *)
Record DeviceOutput (D : Type) : Type := MkDeviceOutput {
  do_success : bool;
  do_message : option string;
  do_data : option D;
}.
Arguments MkDeviceOutput {D}.
Arguments do_success {D}.
Arguments do_message {D}.
Arguments do_data {D}.

Definition device_failed {D} (message : string) (code : option Z) : DeviceOutput D :=
  MkDeviceOutput false (Some (message +:+ show_code code)) None.

Section Devices.
Context `{BuildEnv} {S : Type} `{HasApp S}.

Definition pendingDevicesResources : getter S :=
  MkGetter DPending PENDING_ENDPOINT (at_app l_dm_pending).
Definition registeredDevicesResources : getter S :=
  MkGetter DDevices DEVICES_ENDPOINT (at_app l_dm_registered).
Definition groupResources : getter S :=
  MkGetter DGroups GROUPS_ENDPOINT (at_app l_dm_groups).

(** A getter of its own, whose refs are where the caller keeps them. *)
Definition filteredDevicesResources (tag : string) (ref : lens S (resource (list RegisteredDevice))) :
    getter S := MkGetter DDevices (TAGS_ENDPOINT tag) ref.

(** [headers.set('Content-type', ..); headers.set('Accept', ..)] *)
Definition json_headers : headers_obj S := HNew initial_headers.

(** ** Registration *)

Definition refresh_devices : js S unit :=
  fetchResources pendingDevicesResources ;;;
  fetchResources registeredDevicesResources.

Definition device_key (mac_address public_key : string) : body :=
  BJson (JObj [("mac_address", JStr mac_address); ("public_key", JStr public_key)]).

Definition registerDevice_message : option Z -> string :=
  switch_code
    [(StatusCodes.UNAUTHORIZED,
       "User did not provide authorization data, or the authorization has expired.");
     (StatusCodes.FORBIDDEN,
       "User was authorized, but did not have permission to change device registration status");
     (StatusCodes.NOT_FOUND, "The specified registration request does not exist")]
    "Failed to register device. Got a response code of ".

Definition registerDeviceRequest (mac_address public_key : string) : js S RequestOutput :=
  let* out := fetchPOST DIgnored REGISTER_DEVICE_ENDPOINT json_headers
                (device_key mac_address public_key) in
  if negb (f_success out) then jret (out_error (registerDevice_message (f_code out)))
  else (refresh_devices ;;; jret out_ok).

Definition removal_message (code : option Z) : string :=
  "Failed to execute action. Got a response code of " +:+ show_code code.

Definition removePendingDeviceRequest (mac_address public_key : string) : js S RequestOutput :=
  let* out := fetchWrapper DIgnored PENDING_ENDPOINT "DELETE" json_headers
                (Some (device_key mac_address public_key)) in
  if negb (f_success out) then jret (out_error (removal_message (f_code out)))
  else (refresh_devices ;;; jret out_ok).

Definition removeDeviceRequest (identifier : option Z) : js S RequestOutput :=
  let* out := fetchWrapper DIgnored (DELETE_DEVICE_ENDPOINT identifier) "DELETE" json_headers
                (Some (BJson (JObj []))) in
  if negb (f_success out) then jret (out_error (removal_message (f_code out)))
  else (refresh_devices ;;; jret out_ok).

(** ** Actions *)

(** The data is the document: the exit code, or [None] when it is falsy. *)
Definition execAction (macAddress actionId : string) : js S (DeviceOutput (option Z)) :=
  let* out := fetchGET DExec (DEVICE_ACTIONS_EXEC_ENDPOINT macAddress actionId) in
  if bool_decide (f_code out = Some 202) then
    jret (MkDeviceOutput true (Some "Device not connected. Queued action execution.") None)
  else if negb (f_success out) then
    jret (device_failed "Failed to execute action. Got a response code of " (f_code out))
  else jret (MkDeviceOutput true None (f_data out)).

Definition getDeviceActions (macAddress : string) : js S (DeviceOutput (list Action)) :=
  let* out := fetchGET DActions (DEVICE_ACTIONS_ENDPOINT macAddress) in
  if negb (f_success out) then
    jret (device_failed "Failed to obtain device actions. Got a response code of " (f_code out))
  else jret (MkDeviceOutput true None (f_data out)).

Definition getDeviceTags (identifier : Z) : js S (DeviceOutput (list string)) :=
  let* out := fetchGET DTags (DEVICE_TAGS_ENDPOINT (Some identifier)) in
  if negb (f_success out) then
    jret (device_failed "Failed to obtain device tags. Got a response code of " (f_code out))
  else jret (MkDeviceOutput true None (f_data out)).

Definition getDeviceActionLog (macAddress : string) : js S (DeviceOutput (list Task)) :=
  let* out := fetchGET DActionLog (DEVICE_ACTION_LOG_ENDPOINT macAddress) in
  if negb (f_success out) then
    jret (device_failed "Failed to obtain device action log. Got a response code of " (f_code out))
  else jret (MkDeviceOutput true None (f_data out)).

(** ** The action log *)

(** A request whose document is not used. *)
Definition send_ignored (url method : string) (fields : list (string * json)) (message : string) :
    js S (DeviceOutput unit) :=
  let* out := fetchWrapper DIgnored url method json_headers (Some (BJson (JObj fields))) in
  if negb (f_success out) then jret (device_failed message (f_code out))
  else jret (MkDeviceOutput true None None).

Definition clearDeviceActionLog (macAddress : string) : js S (DeviceOutput unit) :=
  send_ignored (DEVICE_ACTION_LOG_ENDPOINT macAddress) "DELETE" []
    "Failed to clear device action log. Got a response code of ".

Definition removePendingDeviceActions (macAddress : string) : js S (DeviceOutput unit) :=
  send_ignored (DEVICE_PENDING_ACTIONS_ENDPOINT macAddress) "DELETE" []
    "Failed to remove pending device actions. Got a response code of ".

Definition removeSelectedDeviceActions (macAddress : string) (actions : list string) :
    js S (DeviceOutput unit) :=
  send_ignored (DEVICE_REMOVE_ACTIONS_ENDPOINT macAddress) "POST"
    [("actions", JArr (map JStr actions))]
    "Failed to remove selected device actions. Got a response code of ".

(** ** Files *)

Definition downloadDeviceFile (identifier : Z) (file : string) : js S (DeviceOutput unit) :=
  let* out := fetchWrapper DFile (DEVICE_DOWNLOAD_FILE_ENDPOINT (Some identifier)) "POST"
                json_headers (Some (BJson (JObj [("file", JStr file)]))) in
  match f_success out, f_data out with
  | true, Some (status, url) =>
      if negb (status =? 0) then
        jret (MkDeviceOutput false (Some "Failed to download file. It does not exist.") None)
      else (window_open url ;;; jret (MkDeviceOutput true None None))
  | _, _ => jret (device_failed "Failed to download file. Got a response code of " (f_code out))
  end.
End Devices.
