(* ===== verification/DevicesList.v ===== *)
(** * [components/devices/DevicesList.vue]: the list of devices *)

From S2P Require Import Prelude Json Http Async App Utils Fetch Polling Notifications Jwt Samples Groups GroupsList Devices.
From stdpp Require Import base tactics list gmap strings pretty.
#[local] Open Scope Z_scope.

Inductive DevicePopupOpen : Type := PopupRemoveDevice | PopupRemovePendingDevice | DevicePopupNone.

#[export] Instance DevicePopupOpen_eq_dec : EqDecision DevicePopupOpen.
Proof. solve_decision. Defined.

Record DevicesList : Type := MkDevicesList {
  dl_intervalID : option Z;
  dl_popupOpen : DevicePopupOpen;
  deviceToRemove : option Z;
  pendingDeviceToRemove : option (string * string);  (* MAC address, public key *)
  filteredDevices : resource (list RegisteredDevice);
}.

Definition dl_interval : lens DevicesList (option Z).
Proof.
  refine (Lens dl_intervalID (fun x s => MkDevicesList x (dl_popupOpen s) (deviceToRemove s)
    (pendingDeviceToRemove s) (filteredDevices s)) _ _ _); lens_laws.
Defined.
Definition l_dl_popupOpen : lens (world DevicesList) DevicePopupOpen.
Proof.
  refine (lens_comp local_state (Lens dl_popupOpen (fun x s => MkDevicesList (dl_intervalID s) x
    (deviceToRemove s) (pendingDeviceToRemove s) (filteredDevices s)) _ _ _)); lens_laws.
Defined.
Definition l_deviceToRemove : lens (world DevicesList) (option Z).
Proof.
  refine (lens_comp local_state (Lens deviceToRemove (fun x s => MkDevicesList (dl_intervalID s)
    (dl_popupOpen s) x (pendingDeviceToRemove s) (filteredDevices s)) _ _ _)); lens_laws.
Defined.
Definition l_pendingDeviceToRemove : lens (world DevicesList) (option (string * string)).
Proof.
  refine (lens_comp local_state (Lens pendingDeviceToRemove (fun x s => MkDevicesList
    (dl_intervalID s) (dl_popupOpen s) (deviceToRemove s) x (filteredDevices s)) _ _ _)); lens_laws.
Defined.
Definition l_filteredDevices : lens (world DevicesList) (resource (list RegisteredDevice)).
Proof.
  refine (lens_comp local_state (Lens filteredDevices (fun x s => MkDevicesList (dl_intervalID s)
    (dl_popupOpen s) (deviceToRemove s) (pendingDeviceToRemove s) x) _ _ _)); lens_laws.
Defined.

Definition initial_devices_list : DevicesList :=
  MkDevicesList None DevicePopupNone None None fresh_resource.

Section Component.
Context `{BuildEnv}.
(** The property [tag] of the component. *)
Context (tag : option string).

Abbreviation W := (world DevicesList).

(** [message || fallback], when the request has failed. *)
Definition notify_failure (out : RequestOutput) (headline fallback : string) : js W unit :=
  if negb (ro_success out)
  then notifyError headline (Some (or_message (ro_message out) fallback)) else jret tt.

Definition registerDevice (mac_address public_key : string) : js W unit :=
  let* out := registerDeviceRequest mac_address public_key in
  notify_failure out "Error when registering device:" "Registration of device failed".

Definition closeRemoveDevicePopup : js W unit := assign l_dl_popupOpen DevicePopupNone.

Definition removePendingDevice : js W unit :=
  let* p := read l_pendingDeviceToRemove in
  match p with
  | None => jthrow TypeError
  | Some (mac_address, public_key) =>
      let* out := removePendingDeviceRequest mac_address public_key in
      notify_failure out "Error when removing device:" "Removal of device failed" ;;;
      closeRemoveDevicePopup
  end.

Definition removeDevice : js W unit :=
  let* id := read l_deviceToRemove in
  let* out := removeDeviceRequest id in
  notify_failure out "Error when removing device:" "Removal of device failed" ;;;
  closeRemoveDevicePopup.

Definition devices : getter W :=
  if truthy_str tag then filteredDevicesResources (default "" tag) l_filteredDevices
  else MkGetter DDevices DEVICES_ENDPOINT (at_app l_dm_registered).

Definition fetchDevicesListResources : js W unit :=
  fetchResources devices ;;;
  fetchResources pendingDevicesResources ;;;
  fetchResources groupResources.

(** The devices the list shows. *)
Definition shown_devices (s : W) : option (list RegisteredDevice) :=
  if truthy_str tag then resources (view l_filteredDevices s)
  else resources (view (at_app l_dm_registered) s).

(** A tag that only one device has leads to the page of the device; the promise
    of [router.push] is not awaited. *)
Definition redirect_single : js W unit :=
  let* shown := ask shown_devices in
  match truthy_str tag, shown with
  | true, Some [device] =>
      detach (navigate ("/devices/" +:+ pretty (dev_id device))) (jret tt)
  | _, _ => jret tt
  end.

Definition onMounted : js W unit :=
  mounted dl_interval fetchDevicesListResources ;;; redirect_single.

Definition onUnmounted : js W unit := stop_polling dl_interval.

Definition pendingDevicesCount (s : W) : nat :=
  length (default [] (resources (view (at_app l_dm_pending) s))).
Definition registeredDevicesCount (s : W) : nat := length (default [] (shown_devices s)).
Definition devicesCount (s : W) : nat := (pendingDevicesCount s + registeredDevicesCount s)%nat.

Definition openRemoveDevicePopup (id : Z) : js W unit :=
  assign l_deviceToRemove (Some id) ;;;
  assign l_dl_popupOpen PopupRemoveDevice.

Definition openRemovePendingDevicePopup (mac_address public_key : string) : js W unit :=
  assign l_pendingDeviceToRemove (Some (mac_address, public_key)) ;;;
  assign l_dl_popupOpen PopupRemovePendingDevice.
End Component.
