(* ===== verification/DevicesView.v ===== *)
(** * The template of [components/devices/DevicesList.vue]

    A device without the field [groups] makes the rendering raise; the page then
    stays as it was rendered last. *)

From S2P Require Import Prelude Json Http Async App Html Utils Fetch Polling Notifications Jwt Groups GroupsList Widgets Devices DevicesList.
From stdpp Require Import base tactics list gmap strings pretty.
#[local] Open Scope Z_scope.

(** The expressions the template binds to events. *)
Inductive devices_handler : Type :=
| VRow (id : Z)
| VOpenRemove (id : Z) | VOpenRemovePending (mac_address public_key : string)
| VRegister (mac_address public_key : string)
| VCloseRemove | VRemoveDevice | VRemovePending.

(** [s.slice(0, n)] *)
Fixpoint str_take (n : nat) (s : string) : string :=
  match n, s with
  | Datatypes.S n, String c s => String c (str_take n s)
  | _, _ => EmptyString
  end.

Section View.
Context `{BuildEnv}.
(** The property [tag] of the component. *)
Context (tag : option string).

Abbreviation W := (world DevicesList).
Abbreviation tree := (html devices_handler).

Definition count_row (c label value : string) : tree :=
  El "tr" [cls c] []
    [El "td" [cls "entry"] [] [div "value" [str label]];
     El "td" [cls "entry"] [] [div "value" [str value]]].

Definition devices_overview (s : W) : tree :=
  let total := pretty (devicesCount tag s) in
  El "div" [id_ "device-list-overview"] []
    [node "p" [str "Overview"];
     div "resources-table-wrapper checked"
       [El "table" [cls "resources-table"] []
          [node "tbody"
             [count_row "resources-table-row no-border" "Total devices" total;
              count_row "resources-table-row no-border" "Registered devices"
                (pretty (registeredDevicesCount tag s) +:+ "/" +:+ total);
              count_row "resources-table-row" "Unregistered devices"
                (pretty (pendingDevicesCount s) +:+ "/" +:+ total)]]]].

(** A group of a device, as far as it is loaded. *)
Definition group_block (group : option Group) : tree :=
  div "group-block"
    [El "span" [cls "groupid"] []
       [str ("#" +:+ match group with Some g => pretty (grp_id g) | None => "" end)];
     Text (t_or (group ≫= fun g => grp_metadata g !! "rdfm.group.name") "Unknown group")].

(** The groups of a device; [device.groups!.length] raises without them. *)
Definition device_groups (s : W) (device : RegisteredDevice) : outcome (list tree) :=
  let groups := resources (view (at_app l_dm_groups) s) in
  match dev_groups device with
  | None => Raised TypeError
  | Some ids =>
      Done (when (negb (0 <? length ids)%nat) [div "value" [str "-"]] ++
            match groups with
            | Some groups =>
                when (0 <? length ids)%nat
                  [div "value"
                     (map (fun devGroup =>
                        group_block (js_find (fun g => grp_id g =? devGroup) groups)) ids)]
            | None => []
            end)
  end.

(** The progress of an update of the device. *)
Definition device_progress (a : App) (device : RegisteredDevice) : list tree :=
  match device_update a (Some (dev_mac_address device)) with
  | Some (progress, version) => [UpdateProgress progress version]
  | None => []
  end.

Definition device_cells (a : App) (device : RegisteredDevice) (groups : list tree) : list tree :=
  [div "status" [Status (dev_connected device) false];
   entry "ID" [str ("#" +:+ pretty (dev_id device))];
   entry "Name" [str (dev_name device)];
   entry "Capabilities" [Text (TFlags (dev_capabilities device))];
   entry "MAC Address" [str (dev_mac_address device)];
   entry "Software version" [Text (t_meta (dev_metadata device !! "rdfm.software.version"))];
   entry "Last Accessed" [str (dev_last_access device)];
   div "entry groups" (div "title" [str "Groups"] :: groups);
   div "progress" (device_progress a device)].

(** The button keeps its click from the row. *)
Definition device_button (a : App) (device : RegisteredDevice) : tree :=
  div "entry"
    [div "button-wrapper"
       (when (allowedTo (app_access a) PDelete RDevice (Some (dev_id device)) None)
          [El "button" [cls "action-button red"]
             [OnClick [] (Some (VOpenRemove (dev_id device))); OnClick [MStop; MPrevent] None]
             [str "Remove"]])].

(** A click on the row opens the page of the device. *)
Definition device_row (s : W) (device : RegisteredDevice) (groups : list tree) : tree :=
  El "div" [("key", TNum (dev_id device)); cls "row"] [OnClick [] (Some (VRow (dev_id device)))]
    (device_cells s.1 device groups ++ [device_button s.1 device]).

(** The rows, unless one of them raises. *)
Fixpoint device_rows (s : W) (devices : list RegisteredDevice) : outcome (list tree) :=
  match devices with
  | [] => Done []
  | device :: devices =>
      match device_groups s device, device_rows s devices with
      | Done groups, Done rows => Done (device_row s device groups :: rows)
      | Raised e, _ | _, Raised e => Raised e
      end
  end.

Definition pending_row (a : App) (device : PendingDevice) : tree :=
  let admin := hasAdminRole (app_access a) RW in
  El "div" [("key", TStr (pd_mac_address device)); cls "row"] []
    [entry "MAC Address" [str (pd_mac_address device)];
     entry "Last appeared" [str (pd_last_appeared device)];
     entry "Device type" [Text (t_meta (pd_metadata device !! "rdfm.hardware.devtype"))];
     entry "Software version" [Text (t_meta (pd_metadata device !! "rdfm.software.version"))];
     entry "Public key" [str (str_take 15 (pd_public_key device) +:+ "...")];
     div "entry"
       [div "button-wrapper"
          (when admin
             [button "action-button blue"
                (VRegister (pd_mac_address device) (pd_public_key device)) [str "Register"]] ++
           when admin
             [button "action-button red"
                (VOpenRemovePending (pd_mac_address device) (pd_public_key device)) [str "Remove"]])]].

Definition registered_list (s : W) : outcome (list tree) :=
  if (registeredDevicesCount tag s =? 0)%nat then Done []
  else match device_rows s (default [] (shown_devices tag s)) with
       | Raised e => Raised e
       | Done rows =>
           Done [El "div" [id_ "device-list-registered"] []
                   [node "p" [str "Registered"]; div "device-list" rows]]
       end.

Definition pending_list (s : W) : list tree :=
  when (negb (pendingDevicesCount s =? 0)%nat)
    [El "div" [id_ "device-list-unregistered"] []
       [node "p" [str "Unregistered"];
        div "device-list"
          (map (pending_row s.1) (default [] (resources (view (at_app l_dm_pending) s))))]].

Definition remove_device_popups (s : W) : list tree :=
  RemovePopup [OnClick [MSelf] (Some VCloseRemove)] "Are you absolutely sure?"
    (bool_decide (view l_dl_popupOpen s = PopupRemoveDevice))
    ("This action cannot be undone. It will permanently delete the device #" +:+
     show_id (view l_deviceToRemove s) +:+ ".")
    VCloseRemove VRemoveDevice ++
  RemovePopup [OnClick [MSelf] (Some VCloseRemove)] "Are you absolutely sure?"
    (bool_decide (view l_dl_popupOpen s = PopupRemovePendingDevice))
    "This action cannot be undone. It will permanently delete the unregistered device."
    VCloseRemove VRemovePending.

Definition DevicesList_template (s : W) : outcome (list tree) :=
  match registered_list s with
  | Raised e => Raised e
  | Done registered =>
      Done (section "devices"
        [TitleBar s.1 (MkTitleBar "Devices" (TStr "manage your devices") None None None false None);
         div "container"
           [div "resources-list" ([devices_overview s] ++ registered ++ pending_list s)]] ::
        remove_device_popups s)
  end.

(** ** What the events do *)

(** [router.push('/devices/' + device.id)] *)
Definition openDevice (id : Z) : js W unit :=
  detach (navigate ("/devices/" +:+ pretty id)) (jret tt).

Definition devices_perform (h : devices_handler) : js W unit :=
  match h with
  | VRow id => openDevice id
  | VOpenRemove id => openRemoveDevicePopup id
  | VOpenRemovePending mac_address public_key => openRemovePendingDevicePopup mac_address public_key
  | VRegister mac_address public_key => registerDevice mac_address public_key
  | VCloseRemove => closeRemoveDevicePopup
  | VRemoveDevice => removeDevice
  | VRemovePending => removePendingDevice
  end.
End View.
