(* ===== verification/Device.v ===== *)
(** * [components/devices/Device.vue]: the page of one device *)

From S2P Require Import Prelude Json Http Async App Utils Fetch Polling Notifications Jwt Uri Samples Groups GroupsList Devices.
From Stdlib Require Import Ascii.
From stdpp Require Import base tactics list gmap strings pretty.
#[local] Open Scope Z_scope.

(** ** State *)

Record DevicePage : Type := MkDevicePage {
  dv_interval : option Z;
  dv_device : option RegisteredDevice;
  dv_groups : option (list Group);
  dv_pattern : option string;
  dv_watching : bool;                    (* [stop()] has not been called *)
  dv_tags : list string;
  dv_actions : list (Action * bool);     (* the action and its flag [running] *)
  dv_tasks : list Task;
  showingActionLog : bool;
  fileToDownload : string;               (* the text in the input *)
  emptyPathError : bool;
  isTerminalOpened : bool;
  isFullscreen : bool;
}.

Definition l_dv_interval : lens (world DevicePage) (option Z).
Proof.
  refine (lens_comp local_state (Lens dv_interval (fun x s => MkDevicePage x (dv_device s)
    (dv_groups s) (dv_pattern s) (dv_watching s) (dv_tags s) (dv_actions s) (dv_tasks s)
    (showingActionLog s) (fileToDownload s) (emptyPathError s) (isTerminalOpened s)
    (isFullscreen s)) _ _ _)); lens_laws.
Defined.
Definition l_device : lens (world DevicePage) (option RegisteredDevice).
Proof.
  refine (lens_comp local_state (Lens dv_device (fun x s => MkDevicePage (dv_interval s) x
    (dv_groups s) (dv_pattern s) (dv_watching s) (dv_tags s) (dv_actions s) (dv_tasks s)
    (showingActionLog s) (fileToDownload s) (emptyPathError s) (isTerminalOpened s)
    (isFullscreen s)) _ _ _)); lens_laws.
Defined.
Definition l_groups_of_device : lens (world DevicePage) (option (list Group)).
Proof.
  refine (lens_comp local_state (Lens dv_groups (fun x s => MkDevicePage (dv_interval s)
    (dv_device s) x (dv_pattern s) (dv_watching s) (dv_tags s) (dv_actions s) (dv_tasks s)
    (showingActionLog s) (fileToDownload s) (emptyPathError s) (isTerminalOpened s)
    (isFullscreen s)) _ _ _)); lens_laws.
Defined.
Definition l_pattern : lens (world DevicePage) (option string).
Proof.
  refine (lens_comp local_state (Lens dv_pattern (fun x s => MkDevicePage (dv_interval s)
    (dv_device s) (dv_groups s) x (dv_watching s) (dv_tags s) (dv_actions s) (dv_tasks s)
    (showingActionLog s) (fileToDownload s) (emptyPathError s) (isTerminalOpened s)
    (isFullscreen s)) _ _ _)); lens_laws.
Defined.
Definition l_watching : lens (world DevicePage) bool.
Proof.
  refine (lens_comp local_state (Lens dv_watching (fun x s => MkDevicePage (dv_interval s)
    (dv_device s) (dv_groups s) (dv_pattern s) x (dv_tags s) (dv_actions s) (dv_tasks s)
    (showingActionLog s) (fileToDownload s) (emptyPathError s) (isTerminalOpened s)
    (isFullscreen s)) _ _ _)); lens_laws.
Defined.
Definition l_tags : lens (world DevicePage) (list string).
Proof.
  refine (lens_comp local_state (Lens dv_tags (fun x s => MkDevicePage (dv_interval s)
    (dv_device s) (dv_groups s) (dv_pattern s) (dv_watching s) x (dv_actions s) (dv_tasks s)
    (showingActionLog s) (fileToDownload s) (emptyPathError s) (isTerminalOpened s)
    (isFullscreen s)) _ _ _)); lens_laws.
Defined.
Definition l_actions : lens (world DevicePage) (list (Action * bool)).
Proof.
  refine (lens_comp local_state (Lens dv_actions (fun x s => MkDevicePage (dv_interval s)
    (dv_device s) (dv_groups s) (dv_pattern s) (dv_watching s) (dv_tags s) x (dv_tasks s)
    (showingActionLog s) (fileToDownload s) (emptyPathError s) (isTerminalOpened s)
    (isFullscreen s)) _ _ _)); lens_laws.
Defined.
Definition l_tasks : lens (world DevicePage) (list Task).
Proof.
  refine (lens_comp local_state (Lens dv_tasks (fun x s => MkDevicePage (dv_interval s)
    (dv_device s) (dv_groups s) (dv_pattern s) (dv_watching s) (dv_tags s) (dv_actions s) x
    (showingActionLog s) (fileToDownload s) (emptyPathError s) (isTerminalOpened s)
    (isFullscreen s)) _ _ _)); lens_laws.
Defined.
Definition l_showingActionLog : lens (world DevicePage) bool.
Proof.
  refine (lens_comp local_state (Lens showingActionLog (fun x s => MkDevicePage (dv_interval
    s) (dv_device s) (dv_groups s) (dv_pattern s) (dv_watching s) (dv_tags s) (dv_actions s)
    (dv_tasks s) x (fileToDownload s) (emptyPathError s) (isTerminalOpened s) (isFullscreen s))
    _ _ _)); lens_laws.
Defined.
Definition l_fileToDownload : lens (world DevicePage) string.
Proof.
  refine (lens_comp local_state (Lens fileToDownload (fun x s => MkDevicePage (dv_interval s)
    (dv_device s) (dv_groups s) (dv_pattern s) (dv_watching s) (dv_tags s) (dv_actions s)
    (dv_tasks s) (showingActionLog s) x (emptyPathError s) (isTerminalOpened s) (isFullscreen
    s)) _ _ _)); lens_laws.
Defined.
Definition l_emptyPathError : lens (world DevicePage) bool.
Proof.
  refine (lens_comp local_state (Lens emptyPathError (fun x s => MkDevicePage (dv_interval s)
    (dv_device s) (dv_groups s) (dv_pattern s) (dv_watching s) (dv_tags s) (dv_actions s)
    (dv_tasks s) (showingActionLog s) (fileToDownload s) x (isTerminalOpened s) (isFullscreen
    s)) _ _ _)); lens_laws.
Defined.
Definition l_isTerminalOpened : lens (world DevicePage) bool.
Proof.
  refine (lens_comp local_state (Lens isTerminalOpened (fun x s => MkDevicePage (dv_interval
    s) (dv_device s) (dv_groups s) (dv_pattern s) (dv_watching s) (dv_tags s) (dv_actions s)
    (dv_tasks s) (showingActionLog s) (fileToDownload s) (emptyPathError s) x (isFullscreen s))
    _ _ _)); lens_laws.
Defined.
Definition l_isFullscreen : lens (world DevicePage) bool.
Proof.
  refine (lens_comp local_state (Lens isFullscreen (fun x s => MkDevicePage (dv_interval s)
    (dv_device s) (dv_groups s) (dv_pattern s) (dv_watching s) (dv_tags s) (dv_actions s)
    (dv_tasks s) (showingActionLog s) (fileToDownload s) (emptyPathError s) (isTerminalOpened s)
    x) _ _ _)); lens_laws.
Defined.

Definition initial_device_page : DevicePage :=
  MkDevicePage None None None None true [] [] [] false "" false false false.

(** ** Resolving the route *)

Definition is_hex (c : ascii) : bool := bool_decide (is_Some (hex_value c)).
Definition is_mac_separator (c : ascii) : bool := Ascii.eqb c ":" || Ascii.eqb c "-".
Definition is_digit (c : ascii) : bool := (48 <=? code c) && (code c <=? 57).

(** [/^([0-9A-Fa-f]{2}[:-]){5}([0-9A-Fa-f]{2})$/] *)
Fixpoint mac_groups (n : nat) (l : list ascii) : bool :=
  match n, l with
  | O, [a; b] => is_hex a && is_hex b
  | S n, a :: b :: sep :: l => is_hex a && is_hex b && is_mac_separator sep && mac_groups n l
  | _, _ => false
  end.

Definition MAC_ADDR_REGEX (s : string) : bool := mac_groups 5 (String.list_ascii_of_string s).

(** [/^\d+$/] *)
Definition all_digits (s : string) : bool :=
  let l := String.list_ascii_of_string s in
  (0 <? length l)%nat && forallb is_digit l.

(** [Number(s)] of a decimal numeral. *)
Definition decimal_value (s : string) : Z :=
  fold_left (fun acc c => acc * 10 + (code c - 48)) (String.list_ascii_of_string s) 0.

Definition uri_error : exn := JsError "URIError".

(** The device and the name of the pattern that was tried last. The route is
    only decoded when there is a device to compare with. *)
Definition find_by_pattern (routeId : string) (devices : list RegisteredDevice) :
    outcome (option RegisteredDevice * string) :=
  if MAC_ADDR_REGEX routeId then
    Done (js_find (fun d => String.eqb (dev_mac_address d) routeId) devices, "MAC address")
  else match devices with
       | [] => Done (None, "name")
       | _ => match decodeURIComponent routeId with
              | None => Raised uri_error
              | Some name => Done (js_find (fun d => String.eqb (dev_name d) name) devices, "name")
              end
       end.

Definition find_device (routeId : string) (devices : list RegisteredDevice) :
    outcome (option RegisteredDevice * string) :=
  match find_by_pattern routeId devices with
  | Done (None, foundPattern) =>
      if all_digits routeId then
        Done (js_find (fun d => dev_id d =? decimal_value routeId) devices, "id")
      else Done (None, foundPattern)
  | o => o
  end.

Section Component.
Context `{BuildEnv} `{Collation}.
(** [route.params.id] *)
Context (routeId : string).

Abbreviation W := (world DevicePage).

(** Properties of [undefined] raise. *)
Definition the_device : js W RegisteredDevice :=
  let* d := read l_device in
  match d with Some d => jret d | None => jthrow TypeError end.

Definition setup : js W unit :=
  detach (fetchResources groupResources) (jret tt) ;;;
  detach (fetchResources registeredDevicesResources) (jret tt) ;;;
  let* timer := setInterval in
  assign l_dv_interval (Some timer).

Definition unmounted : js W unit :=
  let* id := read l_dv_interval in
  match id with Some timer => clearInterval timer | None => jret tt end.

(** The groups of a device, as far as they are loaded. *)
Definition groups_of (device : RegisteredDevice) (loaded : option (list Group)) : option (list Group) :=
  option_map (omap (fun id => loaded ≫= js_find (fun g => grp_id g =? id))) (dev_groups device).

(** The callback of [watch]: the list of devices has changed. *)
Definition devices_changed : js W unit :=
  let* watching := read l_watching in
  let* devices := read (at_app l_dm_registered) in
  let* device := read l_device in
  match watching, resources devices, device with
  | true, Some devices, None =>
      let* found := jlift (find_device routeId devices) in
      match found with
      | (Some device, foundPattern) =>
          let* loaded := read (at_app l_dm_groups) in
          assign l_device (Some device) ;;;
          assign l_groups_of_device (groups_of device (resources loaded)) ;;;
          assign l_pattern (Some foundPattern)
      | (None, foundPattern) =>
          navigate "devices" ;;;
          notifyError ("Device with " +:+ foundPattern +:+ " '" +:+ routeId +:+ "' not found.") None ;;;
          assign l_watching false
      end
  | _, _, _ => jret tt
  end.

(** ** Tags and actions *)

(** The first [effect]. *)
Definition fetch_tags : js W unit :=
  let* device := read l_device in
  match device with
  | None => jret tt
  | Some device =>
      let* newTags := getDeviceTags (dev_id device) in
      match do_success newTags, do_data newTags with
      | true, Some data => assign l_tags data
      | _, _ => jret tt
      end
  end.

Definition by_name (a b : Action) : Z := localeCompare (action_name a) (action_name b).

(** Actions that have just been loaded are not running. *)
Definition not_running (l : list Action) : list (Action * bool) := map (fun a => (a, false)) l.

(** The second [effect]. It reads [actions], so that it runs again, at once, when
    another array is assigned to them; a run ends without a request when there are
    actions. A new array comes with every answer, even with one that lists no actions;
    the array stored in [deviceActions] may be the one that [actions] hold already, and
    then its assignment is no change. An execution is followed for as many runs as
    [stored_held] has entries, which say whether it is. *)
Fixpoint fetch_actions (stored_held : list bool) : js W unit :=
  match stored_held with
  | [] => jret tt
  | held :: stored_held =>
      let* device := read l_device in
      let* actions := read l_actions in
      match device, actions with
      | Some device, [] =>
          let* newActions := getDeviceActions (dev_mac_address device) in
          match do_success newActions, do_data newActions with
          | true, Some data =>
              let sorted := sort_defined by_name data in
              assign l_actions (not_running sorted) ;;;
              detach (fetch_actions stored_held)
                (let* device := the_device in
                 update (at_app l_deviceActions) (<[dev_mac_address device := sorted]>))
          | _, _ =>
              let* device := the_device in
              let* known := read (at_app l_deviceActions) in
              match known !! dev_mac_address device with
              | Some l =>
                  assign l_actions (not_running l) ;;;
                  if held : bool then jret tt else detach (fetch_actions stored_held) (jret tt)
              | None => jret tt
              end
          end
      | _, _ => jret tt
      end
  end.

Definition isRunning (id : string) (actions : list (Action * bool)) : bool :=
  js_some (fun '(a, running) => String.eqb (action_id a) id && running) actions.

Definition setRunning (id : string) (running : bool) (actions : list (Action * bool)) :
    list (Action * bool) :=
  map (fun '(a, r) => if negb (String.eqb (action_id a) id) then (a, r) else (a, running)) actions.

(** [device.value?.name + ' — ' + ..] *)
Definition headline_of (device : option RegisteredDevice) (text : string) : string :=
  template (option_map dev_name device) +:+ text.

(** The notification for the outcome of an action. *)
Definition report_action (out : DeviceOutput (option Z)) (headline : string) : js W unit :=
  if do_success out then
    match do_data out with
    | None | Some None => notifySuccess headline (do_message out)
    | Some (Some status_code) =>
        if negb (status_code =? 0) then
          notifyError headline
            (Some ("Action finished with non-zero exit code: " +:+ pretty status_code))
        else notifySuccess headline (Some "Action finished successfully")
    end
  else notifyError headline (Some "Action failed to execute").

Definition runAction (id : string) : js W unit :=
  let* actions := read l_actions in
  if isRunning id actions then jret tt
  else
    (update l_actions (setRunning id true) ;;;
     let* actions := read l_actions in
     let action := js_find (fun '(a, _) => String.eqb (action_id a) id) actions in
     let* device := read l_device in
     match action with
     | None => jthrow TypeError
     | Some (action, _) =>
         let title device := headline_of device (" — " +:+ action_name action) in
         notifySuccess (title device) (Some "Action started") ;;;
         let* device := the_device in
         let* outcome := execAction (dev_mac_address device) id in
         update l_actions (setRunning id false) ;;;
         let* device := read l_device in
         report_action outcome (title device)
     end).

(** ** The action log *)

Definition log_status (task : Task) : Task :=
  let status := if String.eqb (task_status task) "0" then "success"
                else if String.eqb (task_status task) "-1" then "error"
                else task_status task in
  MkTask (task_id task) status false (task_action task) (task_created task) (task_download_url task).

Definition selectedCount (tasks : list Task) : string :=
  pretty (Z.of_nat (length (js_filter task_selected tasks))) +:+ " out of " +:+
  pretty (Z.of_nat (length tasks)) +:+ " row(s) selected.".

Definition log_failure (msg : string) : js W unit :=
  let* device := read l_device in
  notifyError (headline_of device " action log") (Some msg).

Definition fetchActionLog : js W unit :=
  let* device := the_device in
  let* result := getDeviceActionLog (dev_mac_address device) in
  if do_success result then
    (assign l_tasks (map log_status (default [] (do_data result))) ;;;
     assign l_showingActionLog true)
  else log_failure "Failed to fetch action log".

(** After a change of the log it is fetched again; that promise is not awaited. *)
Definition after_change (result : DeviceOutput unit) (msg : string) : js W unit :=
  if do_success result then detach fetchActionLog (jret tt) else log_failure msg.

Definition clearActionLog : js W unit :=
  let* device := the_device in
  let* result := clearDeviceActionLog (dev_mac_address device) in
  after_change result "Failed to clear action log".

Definition removePendingActions : js W unit :=
  let* device := the_device in
  let* result := removePendingDeviceActions (dev_mac_address device) in
  after_change result "Failed to remove pending actions".

Definition selected_tasks (tasks : list Task) : list string :=
  map task_id (js_filter task_selected tasks).

Definition removeSelectedActions : js W unit :=
  let* tasks := read l_tasks in
  let* device := the_device in
  let* result := removeSelectedDeviceActions (dev_mac_address device) (selected_tasks tasks) in
  after_change result "Failed to remove actions".

Definition toggle_task (t : Task) : Task :=
  MkTask (task_id t) (task_status t) (negb (task_selected t)) (task_action t) (task_created t)
    (task_download_url t).

(** A click on the [i]-th row; [in_dots]: on its download menu. *)
Definition selectTask (i : nat) (in_dots : bool) : js W unit :=
  if in_dots then jret tt else update l_tasks (alter toggle_task i).

Definition closeActionLogPopup : js W unit := assign l_showingActionLog false.

(** ** Files *)

Definition downloadFile : js W unit :=
  let* path := read l_fileToDownload in
  (if String.eqb path "" then assign l_emptyPathError true else jret tt) ;;;
  let* device := the_device in
  let* result := downloadDeviceFile (dev_id device) path in
  if negb (do_success result) then
    (let* device := read l_device in
     notifyError (headline_of device " download") (Some "Failed to download file") ;;;
     assign l_emptyPathError true)
  else jret tt.

(** ** The terminal *)

Definition terminalButton (s : W) : string :=
  if view l_isTerminalOpened s then "Close device shell" else "Open device shell".

Definition toggleTerminal : js W unit :=
  update l_isTerminalOpened negb ;;;
  assign l_isFullscreen false.

Definition terminalFullscreen : js W unit := update l_isFullscreen negb.

Definition set_disconnected (d : RegisteredDevice) : RegisteredDevice :=
  MkRegisteredDevice (dev_id d) (dev_last_access d) (dev_name d) (dev_mac_address d) (dev_groups d)
    (dev_metadata d) (dev_capabilities d) (dev_public_key d) false (dev_progress d).

(** The device is the object the page has found in the list of devices. As long as
    the list has not been fetched again ([aliased]) it still holds this object,
    and a write to the one is a write to the other. *)
Definition write_device (aliased : bool) (f : RegisteredDevice -> RegisteredDevice) : js W unit :=
  let* device := the_device in
  assign l_device (Some (f device)) ;;;
  if aliased then
    update (at_app l_dm_registered) (fun r =>
      MkResource (option_map (fun l =>
        match list_find (fun d => d = device) l with
        | Some (i, _) => <[i := f device]> l
        | None => l
        end) (resources r)) (pollingStatus r))
  else jret tt.

(** The terminal reports that its connection is closed. *)
Definition disconnect (aliased : bool) : js W unit :=
  toggleTerminal ;;;
  write_device aliased set_disconnected.
End Component.
