(* ===== verification/DeviceView.v ===== *)
(** * The template of [components/devices/Device.vue] *)

From S2P Require Import Prelude Json Http Async App Html Utils Fetch Polling Notifications Jwt Uri Groups GroupsList Widgets Packages Devices DevicesList Device.
From stdpp Require Import base tactics list gmap strings pretty.
#[local] Open Scope Z_scope.

(** The expressions the template binds to events. *)
Inductive device_handler : Type :=
| HFetchLog | HRun (action_id : string)
| HCloseLog | HClearLog | HRemovePending | HRemoveSelected
| HSelect (i : nat) (in_dots : bool)
| HDownloadTask (url : string) | HCopyTask (url : string)
| HDownloadFile
| HToggleTerminal | HFullscreen | HDisconnect.

Section View.
Context `{BuildEnv}.
(** [route.params.id] *)
Context (id : string).

Abbreviation W := (world DevicePage).
Abbreviation tree := (html device_handler).

Definition devicesLoaded (s : W) : bool :=
  bool_decide (is_Some (resources (view (at_app l_dm_registered) s))).

(** [allowedTo(permission, 'device', device?.id)] *)
Definition device_allowed (s : W) (permission : PermissionKind) : bool :=
  allowedTo (app_access s.1) permission RDevice (option_map dev_id (view l_device s)) None.

(** [device?.capabilities.name] *)
Definition capable (s : W) (name : string) : bool :=
  match view l_device s ≫= fun d => dev_capabilities d !! name with Some b => b | None => false end.

(** ** The title *)

Definition title_bar (s : W) : tree :=
  match view l_device s with
  | Some device =>
      let mac := dev_mac_address device in
      TitleBar s.1 (MkTitleBar ("Device " +:+ mac)
        (t_meta (dev_metadata device !! "rdfm.software.version")) None (Some HFetchLog) (Some mac)
        (default (dev_connected device) (view (at_app l_deviceConnections) s !! mac))
        (Some "Open action log"))
  | None =>
      TitleBar s.1 (MkTitleBar
        ("Device with " +:+ template (view l_pattern s) +:+ " '" +:+ id +:+ "' was not found")
        (TStr "") None None None false None)
  end.

(** ** Actions *)

Definition action_button (a : Action * bool) : tree :=
  let (action, running) := a in
  El "button" [cls (if running : bool then "action running" else "action")]
    [OnClick [] (Some (HRun (action_id action)))]
    [div "name" [str (action_name action)];
     div "description three-lines" [str (action_description action)];
     div "run" [El "svg" [cls "if-not-running"] [] [node "path" []];
                El "svg" [cls "if-running rotating"] [] [node "path" []]]].

Definition actions_container (s : W) : list tree :=
  let actions := view l_actions s in
  when ((0 <? length actions)%nat && device_allowed s PUpdate)
    [div "actions-container" (map action_button actions)].

(** ** The action log *)

(** [target.closest('.dots')], for a target in the row of a task. *)
Definition in_dots (path : list nat) : bool :=
  match path with 4%nat :: 0%nat :: _ => true | _ => false end.

Definition task_row (i : nat) (task : Task) : tree :=
  El "tr" [] [OnClickIn in_dots (HSelect i true) (HSelect i false)]
    [node "td" [div "checkbox" [div (if task_selected task then "selected" else "") []]];
     node "td" [str (task_action task)];
     node "td" [str (task_created task)];
     node "td" [div ("status " +:+ task_status task) [str (task_status task)]];
     node "td"
       (when (truthy_str (task_download_url task))
          [div "dots"
             [DownloadButton_template true (HDownloadTask (default "" (task_download_url task)))
                (HCopyTask (default "" (task_download_url task)))]])].

(** The buttons that change the log. *)
Definition log_buttons (s : W) : list tree :=
  let button color h icon text :=
    when (device_allowed s PUpdate)
      [button ("action-button " +:+ color) h [leaf icon; str text]] in
  button "gray" HClearLog "Completed" "Clear completed tasks" ++
  button "gray" HRemovePending "Pending" "Clear pending tasks" ++
  button "red" HRemoveSelected "Delete" "Remove selected".

(** The popup; [device!.mac_address] raises without a device. *)
Definition action_log (s : W) : outcome (list tree) :=
  if negb (view l_showingActionLog s) then Done []
  else match view l_device s with
  | None => Raised TypeError
  | Some device =>
      Done [BlurPanel [OnClick [MSelf] (Some HCloseLog)]
        [div "popup"
           [div "header-with-buttons"
              [div "title-container"
                 [div "header"
                    [p "title" "Action log";
                     p "description" ("Actions assigned to device " +:+ dev_mac_address device)];
                  button "action-button" HCloseLog [leaf "Cross"]];
               div "divider" [];
               div "button-wrapper"
                 [p "selected-count" (selectedCount (view l_tasks s));
                  div "buttons" (log_buttons s)]];
            div "body action-log"
              [node "table"
                 [node "thead"
                    [node "tr" (map (fun h => node "th" (when (negb (String.eqb h "")) [str h]))
                       [""; "Action"; "Created date"; "Status"; ""])];
                  node "tbody" (imap task_row (view l_tasks s))]]]]]
  end.

(** ** Files and the terminal *)

Definition download_container (s : W) : list tree :=
  when (capable s "filesystem" && device_allowed s PRead)
    [div "download-container"
       ([p "" "Download file from path";
         El "table" [cls "file-selector"] []
           [node "tbody"
              [El "td" [cls "icon"] [] [leaf "File"];
               El "td" [cls "input"] [] [El "input" [("type", TStr "text")] [] []];
               node "td" [button "action-button" HDownloadFile [leaf "Download"; str "Download file"]]]]] ++
        when (view l_emptyPathError s) [div "errors" [node "p" [str "File not found"]]])].

Definition fullscreen_class (s : W) (c : string) : string :=
  if view l_isFullscreen s then c +:+ " fullscreen" else c.

Definition terminal_container (s : W) : list tree :=
  let opened := view l_isTerminalOpened s in
  when (capable s "shell" && device_allowed s PShell)
    [div (fullscreen_class s "terminal-container")
       (El "button" [cls (if opened then "action-button gray tab-active" else "action-button gray")] []
          (El "div" [] [OnClick [] (Some HToggleTerminal)] [str (terminalButton s)] ::
           when opened
             [El "div" [] [OnClick [] (Some HFullscreen)]
                [leaf (if view l_isFullscreen s then "Collapse" else "Expand")]]) ::
        when opened
          [div (fullscreen_class s "terminal-wrapper")
             [El "Terminal"
                [cls "terminal"; ("device", t_opt (option_map dev_mac_address (view l_device s)))]
                [OnEmit "shell-disconnected" HDisconnect] []]])].

(** ** The details of the device *)

Definition block (title : string) (kids : list tree) : tree := div "block" (p "title" title :: kids).

Definition code_block (c : string) (t : content) : tree :=
  El "pre" [cls c] [] [node "code" [Text t]].

Definition details_groups (s : W) (device : RegisteredDevice) : list tree :=
  let ids := default [] (dev_groups device) in
  when (0 <? length ids)%nat
    (map (fun group =>
       El "span" [cls "group-block"; ("title", t_opt (grp_metadata group !! "rdfm.group.description"))] []
         [El "span" [cls "groupid"] [] [str ("#" +:+ pretty (grp_id group))];
          Text (t_opt (grp_metadata group !! "rdfm.group.name"))])
       (default [] (view l_groups_of_device s))) ++
  when (length ids =? 0)%nat
    [node "span" [str "This device is not assigned to any group"]].

Definition details (s : W) : list tree :=
  match view l_device s with
  | None => []
  | Some device =>
      let metadata := dev_metadata device in
      [div "device-container"
         ([block "MAC Address" [code_block "small" (TStr (dev_mac_address device))]] ++
          when (0 <? length (view l_tags s))%nat
            [block "Tags" [El "div" [id_ "tags"] []
               (map (fun tag => node "div" [code_block "small" (TStr tag)]) (view l_tags s))]] ++
          [block "Device Type" [code_block "small" (t_meta (metadata !! "rdfm.hardware.devtype"))];
           block "Software Version" [code_block "small" (t_meta (metadata !! "rdfm.software.version"))];
           block "Groups" [El "p" [cls "value"] [] (details_groups s device)];
           block "Last Access" [p "value" (dev_last_access device)];
           block "capabilities" [code_block "large" (TFlags (dev_capabilities device))];
           block "Metadata" [El "pre" [] [] [node "code" [Text (TMap metadata)]]]])]
  end.

Definition Device_template (s : W) : outcome (list tree) :=
  if negb (devicesLoaded s) then Done []
  else match action_log s with
  | Raised e => Raised e
  | Done log =>
      Done [node "div"
        ([title_bar s] ++ actions_container s ++ log ++ download_container s ++
         terminal_container s ++ details s)]
  end.

(** ** What the events do *)

(** The page with the clipboard of its download buttons; [aliased]: see
    [write_device]. *)
Definition device_perform (aliased : bool) (h : device_handler) : js (world (DevicePage * DownloadButton)) unit :=
  match h with
  | HFetchLog => zoom l_page fetchActionLog
  | HRun action_id => zoom l_page (runAction action_id)
  | HCloseLog => zoom l_page closeActionLogPopup
  | HClearLog => zoom l_page clearActionLog
  | HRemovePending => zoom l_page removePendingActions
  | HRemoveSelected => zoom l_page removeSelectedActions
  | HSelect i in_dots => zoom l_page (selectTask i in_dots)
  | HDownloadTask url => zoom l_component (download None (Some url))
  | HCopyTask url => zoom l_component (copyDownloadLink None (Some url))
  | HDownloadFile => zoom l_page downloadFile
  | HToggleTerminal => zoom l_page toggleTerminal
  | HFullscreen => zoom l_page terminalFullscreen
  | HDisconnect => zoom l_page (disconnect aliased)
  end.
End View.
