(* ===== verification/DevicesSpec.v ===== *)
(** * Devices: what the requests and the pages guarantee *)

From S2P Require Import Prelude Json Http Async App Utils Fetch Polling Notifications Jwt Uri Samples Groups GroupsList Devices DevicesList Device.
From Stdlib Require Import Ascii.
From stdpp Require Import base tactics list gmap strings pretty.
#[local] Open Scope Z_scope.

(** ** The commands of [devices.ts] *)

Inductive device_command : Type :=
| DRegister (mac_address public_key : string)
| DRemovePending (mac_address public_key : string)
| DRemove (identifier : option Z).

Section Commands.
Context `{BuildEnv} {S : Type} `{HasApp S}.

Definition perform_device (c : device_command) : js S RequestOutput :=
  match c with
  | DRegister m k => registerDeviceRequest m k
  | DRemovePending m k => removePendingDeviceRequest m k
  | DRemove i => removeDeviceRequest i
  end.

(** The request of a command, with the header fields [h]. *)
Definition device_url (c : device_command) : string :=
  match c with
  | DRegister _ _ => REGISTER_DEVICE_ENDPOINT
  | DRemovePending _ _ => PENDING_ENDPOINT
  | DRemove i => DELETE_DEVICE_ENDPOINT i
  end.

Definition device_method (c : device_command) : string :=
  match c with DRegister _ _ => "POST" | _ => "DELETE" end.

Definition device_body (c : device_command) : body :=
  match c with
  | DRegister m k | DRemovePending m k => device_key m k
  | DRemove _ => BJson (JObj [])
  end.

Definition device_event (c : device_command) (h : Headers) : event :=
  EHttp (Request DIgnored (device_url c) (device_method c) h (Some (device_body c))).

Definition device_message (c : device_command) : option Z -> string :=
  match c with DRegister _ _ => registerDevice_message | _ => removal_message end.

Lemma token_polled_pending out (s : S) : token (polled pendingDevicesResources out s) = token s.
Proof.
  unfold token, polled, pendingDevicesResources; cbn [g_value g_doc].
  destruct (f_success _); [|destruct (bool_decide _)]; frame.
Qed.

(** The two polls that follow a change. *)
Lemma refresh_devices_run (srv : server) n (s : S) own :
  authorized (token s) ∅ = Some own ->
  let q1 := poll_request pendingDevicesResources own in
  let q2 := poll_request registeredDevicesResources own in
  let s1 := polled pendingDevicesResources (report (srv (sent n) q1)) s in
  run srv refresh_devices n s =
    (Done tt, polled registeredDevicesResources (report (srv (sent n ++ [q1]) q2)) s1,
     Net ((sent n ++ [q1]) ++ [q2]) (pending n)).
Proof.
  intros Hown. cbn zeta. unfold refresh_devices. rewrite run_jbind, fetchResources_run, Hown.
  cbn [sent pending]. now rewrite fetchResources_run, token_polled_pending, Hown.
Qed.

(** C24: registering and removing a device sends exactly one request; if it is
    accepted the pending devices and then the registered ones are polled, and
    otherwise the message for the response code is returned and nothing else is
    sent. *)
Theorem device_command_contract c (srv : server) n (s : S) own h :
  authorized (token s) ∅ = Some own -> authorized (token s) initial_headers = Some h ->
  let rq := device_event c h in
  let out := report (D := unit) (srv (sent n) rq) in
  let n1 := Net (sent n ++ [rq]) (pending n) in
  let q1 := poll_request pendingDevicesResources own in
  let q2 := poll_request registeredDevicesResources own in
  run srv (perform_device c) n s =
    if f_success out
    then (Done out_ok,
          polled registeredDevicesResources (report (srv (sent n1 ++ [q1]) q2))
            (polled pendingDevicesResources (report (srv (sent n1) q1)) s),
          Net ((sent n1 ++ [q1]) ++ [q2]) (pending n))
    else (Done (out_error (device_message c (f_code out))), s, n1).
Proof.
  intros Hown Hh. cbn zeta.
  destruct c; cbn [perform_device];
    unfold registerDeviceRequest, removePendingDeviceRequest, removeDeviceRequest, fetchPOST;
    rewrite run_jbind, fetchWrapper_run; cbn [headers_contents json_headers]; rewrite Hh; cbn zeta;
    cbn [store_headers];
    (destruct (f_success (report _)) eqn:E; cbn [negb]; [|reflexivity]);
    now rewrite run_jbind, (refresh_devices_run srv _ s own Hown).
Qed.

(** ** Running an action on the device *)

(** The result a request to run an action reports. *)
Definition exec_result (o : http_outcome (option Z)) : DeviceOutput (option Z) :=
  match o with
  | NetworkError => device_failed "Failed to execute action. Got a response code of " None
  | Response status json =>
      if status =? 202
      then MkDeviceOutput true (Some "Device not connected. Queued action execution.") None
      else match json with
           | Some data =>
               if response_ok status then MkDeviceOutput true None (Some data)
               else device_failed "Failed to execute action. Got a response code of " (Some status)
           | None => device_failed "Failed to execute action. Got a response code of " (Some status)
           end
  end.

Definition exec_event (mac id : string) (h : Headers) : event :=
  EHttp (Request DExec (DEVICE_ACTIONS_EXEC_ENDPOINT mac id) "GET" h None).

Lemma execAction_run (srv : server) n (s : S) mac id own :
  authorized (token s) ∅ = Some own ->
  let rq := exec_event mac id own in
  run srv (execAction mac id) n s =
    (Done (exec_result (srv (sent n) rq)), s, Net (sent n ++ [rq]) (pending n)).
Proof.
  intros Hown. cbn zeta. unfold execAction, fetchGET. rewrite run_jbind, fetchWrapper_run.
  cbn [headers_contents]. rewrite Hown. cbn zeta. fold (exec_event mac id own).
  generalize (srv (sent n) (exec_event mac id own)). cbn [reply exec_event rq_doc denote].
  intros [|st json]; unfold exec_result, report; [reflexivity|].
  destruct (Z.eqb_spec st 202) as [->|Hne].
  - destruct json; reflexivity.
  - destruct json as [data|]; [destruct (response_ok st) eqn:E|];
      cbn [f_code f_success fetch_failed f_data];
      rewrite bool_decide_eq_false_2 by congruence; reflexivity.
Qed.
End Commands.

Section Page.
Context `{BuildEnv} `{Collation}.

Abbreviation W := (world DevicePage).

(** *** The flags [running] *)

Lemma isRunning_set id id' b l :
  isRunning id (setRunning id' b l) =
  if String.eqb id' id then b && js_some (fun '(a, _) => String.eqb (action_id a) id) l
  else isRunning id l.
Proof.
  unfold isRunning, setRunning, js_some. destruct (String.eqb_spec id' id) as [->|Hne].
  - induction l as [|[a r] l IH]; cbn; [now rewrite andb_false_r|]. rewrite IH.
    destruct (String.eqb (action_id a) id) eqn:E; cbn; rewrite E; cbn; [|done]. now destruct b.
  - induction l as [|[a r] l IH]; cbn; [done|]. rewrite IH.
    destruct (String.eqb_spec (action_id a) id') as [Ha|]; cbn; [|done].
    destruct (String.eqb_spec (action_id a) id); [congruence|reflexivity].
Qed.

(** Clearing a flag that was set by the same call restores the list. *)
Lemma setRunning_restore id l :
  isRunning id l = false -> setRunning id false (setRunning id true l) = l.
Proof.
  unfold isRunning, setRunning, js_some. induction l as [|[a r] l IH]; cbn; [done|].
  intros Hr. apply orb_false_elim in Hr as [Hr Hl]. rewrite IH by done. f_equal.
  destruct (String.eqb (action_id a) id) eqn:E; cbn in *; rewrite E; cbn; congruence.
Qed.

#[local] Arguments isRunning : simpl never.
#[local] Arguments setRunning : simpl never.

Lemma setRunning_ids id id' b l :
  js_some (fun '(a, _) => String.eqb (action_id a) id) (setRunning id' b l) =
  js_some (fun '(a, _) => String.eqb (action_id a) id) l.
Proof.
  unfold setRunning, js_some. induction l as [|[a r] l IH]; cbn; [done|].
  rewrite IH. now destruct (String.eqb (action_id a) id').
Qed.

(** The notification that ends an action. *)
Definition action_toast (out : DeviceOutput (option Z)) (headline : string) : toast :=
  let success msg := ToastSuccess (buildHTML headline msg) in
  let error msg := ToastError (buildHTML headline (Some msg)) in
  if do_success out then
    match do_data out with
    | None | Some None => success (do_message out)
    | Some (Some 0) => success (Some "Action finished successfully")
    | Some (Some c) => error ("Action finished with non-zero exit code: " +:+ pretty c)
    end
  else error "Action failed to execute".

Lemma report_action_run (srv : server) n (s : W) out headline :
  run srv (report_action out headline) n s =
  (Done tt, over (at_app l_toasts) (enqueue (action_toast out headline)) s, n).
Proof.
  unfold report_action, action_toast. destruct (do_success out); [|reflexivity].
  destruct (do_data out) as [[c|]|]; [|reflexivity|reflexivity]. now destruct c.
Qed.

(** The device does not change while an action runs. *)
Ltac at_device l Hd := repeat match goal with |- context [view l_device ?x] =>
  change (view l_device x) with (dv_device l) end; rewrite ?Hd.

(** C25: running an action that is known and not running announces it, sends one
    request to execute it on the device, and announces its outcome: success for
    exit code 0 or a queued action, an error for any other exit code or a failed
    request. Afterwards the action can be run again. While an action is running,
    running it again does nothing. *)
Theorem runAction_contract id (srv : server) n (s : W) :
  (isRunning id (view l_actions s) = true -> run srv (runAction id) n s = (Done tt, s, n)) /\
  (forall device action flag own,
   isRunning id (view l_actions s) = false ->
   js_find (fun '(a, _) => String.eqb (action_id a) id) (setRunning id true (view l_actions s)) =
     Some (action, flag) ->
   view l_device s = Some device -> authorized (token s) ∅ = Some own ->
   let rq := exec_event (dev_mac_address device) id own in
   let title := dev_name device +:+ " — " +:+ action_name action in
   run srv (runAction id) n s =
     (Done tt,
      over (at_app l_toasts) (fun t => enqueue (action_toast (exec_result (srv (sent n) rq)) title)
        (enqueue (ToastSuccess (buildHTML title (Some "Action started"))) t)) s,
      Net (sent n ++ [rq]) (pending n))).
Proof.
  split; [intros Hr; unfold runAction; js_run; now rewrite Hr|].
  intros device action flag own Hr Hf Hd Hown. cbn zeta. unfold runAction. js_run. rewrite Hr.
  js_run. unfold over. rewrite view_put, Hf. destruct s as [a l]. cbn in Hd, Hr.
  unfold notifySuccess, the_device. js_run. at_device l Hd. js_run.
  rewrite run_jbind. erewrite execAction_run by exact Hown. js_run. at_device l Hd.
  rewrite report_action_run. unfold over, at_app.
  destruct l. cbn in *. now rewrite setRunning_restore.
Qed.

(** *** Actions under interleaving *)

(** A thread that waits for the result of the action [id] and will then clear its
    flag. *)
Definition awaits_action (id : string) (p : js W unit) : Prop :=
  match p with
  | Await e k =>
      (exists mac h, e = exec_event mac id h) /\
      forall r s, exists s', advance (k r) s = (s', Ret tt, [], []) /\
        view l_actions s' = setRunning id false (view l_actions s)
  | _ => False
  end.

Lemma report_action_advance out headline (s : W) :
  exists s', advance (report_action out headline) s = (s', Ret tt, [], []) /\
    view l_actions s' = view l_actions s.
Proof.
  unfold report_action. destruct (do_success out); [|eexists; split; reflexivity].
  destruct (do_data out) as [[c|]|]; [destruct (negb _)| |]; eexists; split; reflexivity.
Qed.

Lemma js_find_flag id (l : list (Action * bool)) a b :
  js_find (fun '(a, _) => String.eqb (action_id a) id) l = Some (a, b) ->
  js_some (fun '(a, _) => String.eqb (action_id a) id) l = true.
Proof.
  intros Hf. apply js_find_some in Hf as [Hin Ha]. apply js_some_spec. eauto.
Qed.

(** Running an action up to its request: either it has finished, or it has set the
    flag, which was clear, and waits. *)
Lemma runAction_advance id (s : W) :
  exists s' p' es, advance (runAction id) s = (s', p', [], es) /\
    (forall id', isRunning id' (view l_actions s) = true -> isRunning id' (view l_actions s') = true) /\
    (finished p' \/
     awaits_action id p' /\ isRunning id (view l_actions s) = false /\
     isRunning id (view l_actions s') = true).
Proof.
  unfold runAction, jbind, read, reads. cbn [pbind advance].
  destruct (isRunning id (view l_actions s)) eqn:Hr.
  { eexists s, _, []. split; [reflexivity|]. split; [done|]. left. exact Logic.I. }
  set (s1 := put l_actions (setRunning id true (view l_actions s)) s).
  assert (Hgrow : forall id', isRunning id' (view l_actions s) = true ->
    isRunning id' (view l_actions s1) = true).
  { intros id' Hid'. unfold s1. rewrite view_put, isRunning_set.
    destruct (String.eqb_spec id id'); [congruence|done]. }
  unfold update, modify. cbn [pbind advance]. fold s1.
  change (over l_actions (setRunning id true) s) with s1.
  destruct (js_find _ _) as [[action flag]|] eqn:Hf.
  2: { eexists s1, _, []. split; [reflexivity|]. split; [done|]. left. exact Logic.I. }
  unfold notifySuccess, update, modify. cbn [pbind advance].
  set (s2 := over (at_app l_toasts) _ s1).
  assert (Ha : view l_actions s2 = view l_actions s1) by reflexivity.
  unfold the_device, read, reads, jbind. cbn [pbind advance].
  destruct (view l_device s2) as [device|].
  2: { eexists s2, _, []. split; [reflexivity|]. rewrite Ha. split; [done|]. left. exact Logic.I. }
  cbn [pbind jret]. unfold execAction, fetchGET. unfold jbind at 1. rewrite pbind_assoc.
  match goal with |- context [pbind (fetchWrapper _ _ _ _ _) ?K] => set (cont := K) end.
  assert (Hcont : forall out s3, exists s', advance (cont out) s3 = (s', Ret tt, [], []) /\
    view l_actions s' = setRunning id false (view l_actions s3)).
  { intros out s3. unfold cont.
    assert (Hend : forall o, exists s', advance (pbind (jret o) (fun outcome =>
        Get (fun s0 => Put (over l_actions (setRunning id false) s0) (Get (fun s4 =>
          report_action outcome (headline_of (view l_device s4) (" — " +:+ action_name action)))))))
        s3 = (s', Ret tt, [], []) /\
      view l_actions s' = setRunning id false (view l_actions s3)).
    { intros o. cbn [jret pbind advance].
      destruct (report_action_advance o (headline_of (view l_device
        (over l_actions (setRunning id false) s3)) (" — " +:+ action_name action))
        (over l_actions (setRunning id false) s3)) as (s' & -> & Hs').
      exists s'. split; [done|]. rewrite Hs'. unfold over. now rewrite view_put. }
    destruct (bool_decide _); [apply Hend|]. destruct (negb _); apply Hend. }
  destruct (advance_fetch DExec (DEVICE_ACTIONS_EXEC_ENDPOINT (dev_mac_address device) id) "GET" ∅
    None cont s2) as [(own & k & _ & Hadv & Hk)|[_ Hadv]];
    unfold jbind in Hadv; rewrite Hadv.
  - do 3 eexists. split; [reflexivity|]. rewrite Ha. split; [done|]. right. split; [|split; [done|]].
    + split; [now exists (dev_mac_address device), own|]. intros r s3. rewrite Hk. apply Hcont.
    + apply js_find_flag in Hf. unfold s1 in *. rewrite view_put in *.
      rewrite setRunning_ids in Hf. now rewrite isRunning_set, String.eqb_refl, Hf.
  - destruct (Hcont (fetch_failed None) s2) as (s' & -> & Hs').
    do 3 eexists. split; [reflexivity|]. split; [|now left].
    intros id' Hid'. rewrite Hs', Ha. unfold s1. rewrite view_put, setRunning_restore; done.
Qed.

(** Handlers that neither wait nor touch the actions: selecting tasks, opening
    popups, the timer of the notifications. *)
Definition neutral (p : js W unit) : Prop :=
  forall s, exists s' es, advance p s = (s', Ret tt, [], es) /\ view l_actions s' = view l_actions s.

Definition action_handler (p : js W unit) : Prop := (exists id, p = runAction id) \/ neutral p.

(** A thread has finished, or waits for the result of the action [id]. *)
Definition role (p : js W unit) (o : option string) : Prop :=
  match o with None => finished p | Some id => awaits_action id p end.

(** The actions that are waited for. *)
Definition waiting (ids : list (option string)) : list string := omap (fun o => o) ids.

Lemma waiting_app l m : waiting (l ++ m) = waiting l ++ waiting m.
Proof. apply omap_app. Qed.

Definition one_per_action (c : config (event := event) (reply := reply)) : Prop :=
  exists ids, Forall2 role (threads c) ids /\ NoDup (waiting ids) /\
    forall id, id ∈ waiting ids -> isRunning id (view l_actions (store c)) = true.

Lemma one_per_action_start c id :
  one_per_action c ->
  forall s' p' es, advance (runAction id) (store c) = (s', p', [], es) ->
  one_per_action (Config s' (threads c ++ [p']) (trace c ++ es)).
Proof.
  intros (ids & Hr & Hnd & Hrun) s' p' es Hadv.
  destruct (runAction_advance id (store c)) as (s1 & p1 & es1 & Hadv1 & Hgrow & Hp).
  rewrite Hadv in Hadv1. injection Hadv1 as <- <- <-. cbn.
  destruct Hp as [Hfin|(Hw & Hoff & Hon)].
  - exists (ids ++ [None]). split; [apply Forall2_app; auto|]. rewrite waiting_app. cbn.
    rewrite app_nil_r. split; [done|]. intros id' Hid'. now apply Hgrow, Hrun.
  - exists (ids ++ [Some id]). split; [apply Forall2_app; auto|]. rewrite waiting_app. cbn. split.
    + apply NoDup_app. repeat split; [done| |apply NoDup_singleton].
      intros id' Hid' Hin. apply list_elem_of_singleton in Hin as ->.
      apply Hrun in Hid'. congruence.
    + intros id' Hid'. apply elem_of_app in Hid' as [Hid'|Hid']; [now apply Hgrow, Hrun|].
      now apply list_elem_of_singleton in Hid' as ->.
Qed.

Lemma waiting_insert_none (ids : list (option string)) i id0 :
  ids !! i = Some (Some id0) -> NoDup (waiting ids) ->
  NoDup (waiting (<[i := None]> ids)) /\
  forall id', id' ∈ waiting (<[i := None]> ids) -> id' ∈ waiting ids /\ id' <> id0.
Proof.
  intros Hi Hnd. apply list_elem_of_split_length in Hi as (l1 & l2 & -> & ->).
  rewrite insert_app_r_alt, Nat.sub_diag by lia. cbn [list_insert insert].
  rewrite !waiting_app in *. cbn in *. apply NoDup_app in Hnd as (H1 & Hd & H2).
  apply NoDup_cons in H2 as [Hn H2]. split.
  - apply NoDup_app. split; [done|]. split; [|done]. intros x Hx Hx'. eapply Hd; [done|]. now right.
  - intros id' Hid'. apply elem_of_app in Hid' as [Hid'|Hid'].
    + split; [apply elem_of_app; now left|]. intros ->. apply (Hd id0 Hid'). left.
    + split; [apply elem_of_app; right; now right|]. now intros ->.
Qed.

Lemma one_per_action_step c c' :
  step (fun _ => action_handler) c c' -> one_per_action c -> one_per_action c'.
Proof.
  intros [s ts tr p s' p' cbs es Hp Hadv|s ts tr i e k r s' p' cbs es Hi Hadv] Hinv.
  - destruct Hp as [[id ->]|Hn].
    + destruct (runAction_advance id s) as (s1 & p1 & es1 & Hadv1 & _).
      rewrite Hadv in Hadv1. injection Hadv1 as -> -> -> ->.
      now apply (one_per_action_start (Config s ts tr) id Hinv).
    + destruct (Hn s) as (s1 & es1 & Hadv1 & Ha).
      rewrite Hadv in Hadv1. injection Hadv1 as -> -> -> ->.
      destruct Hinv as (ids & Hr & Hnd & Hrun). exists (ids ++ [None]). cbn [store threads] in *.
      rewrite waiting_app, app_nil_r, Ha. split; [|auto]. apply Forall2_app; [done|]. now constructor.
  - destruct Hinv as (ids & Hr & Hnd & Hrun). cbn [store threads] in *.
    destruct (Forall2_lookup_l _ _ _ _ _ Hr Hi) as (o & Ho & Hrole).
    destruct o as [id|]; [|contradiction].
    destruct Hrole as [_ Hk]. destruct (Hk r s) as (s1 & Hadv1 & Ha).
    rewrite Hadv in Hadv1. injection Hadv1 as -> -> -> ->.
    destruct (waiting_insert_none ids i _ Ho Hnd) as [Hnd' Hin].
    exists (<[i := None]> ids). rewrite app_nil_r. split; [|split; [done|]].
    + now apply Forall2_insert.
    + intros id' Hid'. apply Hin in Hid' as [Hid' Hne]. cbn [store]. rewrite Ha, isRunning_set.
      destruct (String.eqb_spec id id'); [congruence|]. now apply Hrun.
Qed.

(** C26: whatever the order in which actions are started and their results arrive,
    a request to execute an action is only waited for by one thread at a time,
    and the action is shown as running meanwhile. *)
Theorem one_run_per_action s c :
  reachable (fun _ => action_handler) s c ->
  exists ids, Forall2 role (threads c) ids /\ NoDup (waiting ids) /\
    forall id, id ∈ waiting ids -> isRunning id (view l_actions (store c)) = true.
Proof.
  intros Hr. assert (Hc : one_per_action (Config s [] [])).
  { exists []. cbn. split; [constructor|]. split; [constructor|]. intros id Hid.
    now apply elem_of_nil in Hid. }
  unfold reachable in Hr. revert Hc. induction Hr as [c|c c1 c2 Hs Hr IH]; intros Hc; [exact Hc|].
  apply IH. now apply (one_per_action_step c).
Qed.
End Page.
