(* ===== verification/DevicesPage.v ===== *)
(** * The devices page as a concurrent program

    Whatever the user does to the rendered page and in whatever order handlers are
    resumed, devices are registered and removed only by those who may do so. The
    page never changes the access of the user, which is a parameter here. *)

From S2P Require Import Prelude Json Http Async App Html Utils Fetch Polling Notifications Jwt Preserves SharedState Samples Groups GroupsList Widgets Devices DevicesList DevicesView Uri Device DevicesSpec.
From stdpp Require Import base tactics list gmap strings pretty relations.
#[local] Open Scope Z_scope.

Section Page.
Context `{BuildEnv} (R : shared_resource -> Prop) (tag : option string) (acc : access).

Abbreviation W := (world DevicesList).

Definition may_delete (id : Z) : Prop := allowedTo acc PDelete RDevice (Some id) None = true.
Definition may_register : Prop := hasAdminRole acc RW = true.

(** ** The invariant *)

(** A device that has been chosen may be removed, and stays chosen. *)
Record popups_ok (l : DevicesList) : Prop := {
  ok_filtered : polling_ok (filteredDevices l);
  ok_remove : dl_popupOpen l = PopupRemoveDevice -> is_Some (deviceToRemove l);
  ok_delete : forall id, deviceToRemove l = Some id -> may_delete id;
  ok_register : is_Some (pendingDeviceToRemove l) -> may_register;
}.

Abbreviation page_ok := (parts_ok popups_ok (app_ok R (granted_by acc))).

(** The commands the user may give. *)
Definition permitted (c : device_command) : Prop :=
  match c with
  | DRegister _ _ | DRemovePending _ _ => may_register
  | DRemove i => exists id, i = Some id /\ may_delete id
  end.

Definition page_getters : list (getter W) :=
  [devices tag; registeredDevicesResources; pendingDevicesResources; groupResources].

Inductive page_request : event -> Prop :=
| req_poll (g : getter W) h : In g page_getters -> page_request (poll_request g h)
| req_command c h : permitted c -> page_request (device_event c h)
| req_open (id : Z) : page_request (ENavigate ("/devices/" +:+ pretty id)).

Abbreviation safe := (preserves page_ok page_request).

Ltac local_writes :=
  intros s Hs; js_wp; destruct s as [a l]; destruct Hs as [[Hf Hrem Hdel Hreg] Ha];
  split; [|exact Ha]; split; cbn in *; try done; try (intros; congruence); eauto.

Lemma getter_writes (g : getter W) r s :
  In g page_getters -> polling_ok r -> page_ok s -> page_ok (put (g_value g) r s).
Proof.
  intros [<-|[<-|[<-|[<-|[]]]]]; revert r; try data_writes.
  unfold devices. destruct (truthy_str tag); [|data_writes].
  intros r Hr Hs. destruct s as [a l], Hs as [[] ?]. now split.
Qed.

Lemma devices_safe_fetchResources (g : getter W) : In g page_getters -> safe (fetchResources g).
Proof.
  intros Hg. apply preserves_fetchResources; [apply _|now constructor|].
  intros r s. now apply getter_writes.
Qed.

Ltac getters := apply devices_safe_fetchResources; unfold page_getters; cbn; tauto.

Lemma safe_refresh : safe refresh_devices.
Proof. apply preserves_bind; [|intros _]; getters. Qed.

(** ** The handlers *)

Lemma safe_command c : permitted c -> safe (perform_device c).
Proof.
  intros Hc. assert (Htail : forall (out : fetched unit) (msg : option Z -> string),
    safe (if negb (f_success out) then jret (out_error (msg (f_code out)))
          else refresh_devices ;;; jret out_ok)).
  { intros out msg. destruct (negb _); auto using safe_refresh with page. }
  destruct c; cbn [perform_device]; (apply preserves_bind; [|intros out; apply Htail]);
    apply preserves_fetch_new; intros h; exact (req_command _ h Hc).
Qed.

Lemma safe_failure out headline fallback : safe (notify_failure out headline fallback).
Proof. unfold notify_failure. destruct (negb _); auto with page. Qed.

Lemma safe_register m k : may_register -> safe (registerDevice m k).
Proof.
  intros Hm. apply preserves_bind; [|intros; apply safe_failure]. now apply (safe_command (DRegister m k)).
Qed.

Lemma safe_close : safe closeRemoveDevicePopup.
Proof. unfold closeRemoveDevicePopup. local_writes. Qed.

Lemma devices_safe_openRemove id : may_delete id -> safe (openRemoveDevicePopup id).
Proof. intros Hm. unfold openRemoveDevicePopup. local_writes. Qed.

Lemma safe_openRemovePending m k : may_register -> safe (openRemovePendingDevicePopup m k).
Proof. intros Hm. unfold openRemovePendingDevicePopup. local_writes. Qed.

Lemma safe_openDevice id : safe (openDevice id).
Proof. apply preserves_detach; auto with page. apply preserves_navigate. constructor. Qed.

(** Whoever is asked for before the request is sent may be acted upon. *)
Lemma safe_removePending : safe removePendingDevice.
Proof.
  intros s Hs. unfold removePendingDevice. js_wp.
  destruct (view l_pendingDeviceToRemove s) as [[m k]|] eqn:Hp; [|exact Hs].
  assert (Hm : may_register). { apply (ok_register _ (proj1 Hs)). destruct s. cbn in *. eauto. }
  refine (preserves_bind page_ok page_request _ _ _ _ s Hs);
    [now apply (safe_command (DRemovePending m k))|].
  intros out. apply preserves_bind; [apply safe_failure|intros _; apply safe_close].
Qed.

Lemma keeps_remove s :
  page_ok s -> is_Some (deviceToRemove (snd s)) -> keeps page_ok page_request removeDevice s.
Proof.
  intros Hs [id Hid]. unfold removeDevice. js_wp. pose proof (ok_delete _ (proj1 Hs) id Hid) as Hm.
  change (view l_deviceToRemove s) with (deviceToRemove (snd s)). rewrite Hid.
  refine (preserves_bind page_ok page_request _ _ _ _ s Hs).
  - apply (safe_command (DRemove (Some id))). cbn. eauto.
  - intros out. apply preserves_bind; [apply safe_failure|intros _; apply safe_close].
Qed.

(** ** The rendered page *)

(** What a handler may assume of the user besides the invariant. *)
Definition ready (h : devices_handler) : Prop :=
  match h with
  | VOpenRemove id => may_delete id
  | VOpenRemovePending _ _ | VRegister _ _ => may_register
  | VRemoveDevice => False
  | VRow _ | VCloseRemove | VRemovePending => True
  end.

Lemma ready_safe h : ready h -> safe (devices_perform h).
Proof.
  intros Hr. destruct h; cbn [devices_perform ready] in *; [..|done|];
    auto using safe_openDevice, devices_safe_openRemove, safe_openRemovePending, safe_register, safe_close,
      safe_removePending.
Qed.

(** *** A row: the button keeps its click from the row *)

Lemma device_groups_silent s d groups :
  device_groups s d = Done groups -> Forall silent groups.
Proof.
  unfold device_groups. destruct (dev_groups d) as [ids|]; [|done]. intros [= <-].
  apply Forall_app_2; [auto 10 with silent|].
  case_match; [|constructor].
  apply Forall_when. constructor; [|constructor]. apply silent_div, Forall_map_all. intros id.
  unfold group_block. auto 10 with silent.
Qed.

Lemma UpdateProgress_silent progress version : silent (H := devices_handler) (UpdateProgress progress version).
Proof. unfold UpdateProgress, section. auto 20 with silent. Qed.

Lemma device_cells_silent a d groups : Forall silent groups -> Forall silent (device_cells a d groups).
Proof.
  intros Hg. unfold device_cells. rewrite !Forall_cons, Forall_nil. split_and!; auto 10 with silent.
  - unfold Status. auto 10 with silent.
  - unfold device_progress. destruct (device_update _ _) as [[]|];
      auto using UpdateProgress_silent with silent.
Qed.

Lemma device_button_click a d path hs b :
  bubble (device_button a d) path = Some (hs, b) ->
  (hs = [] /\ b = false /\ path <> [0; 0]%nat) \/
  (hs = [VOpenRemove (dev_id d)] /\ b = true /\ path = [0; 0]%nat /\
   allowedTo (app_access a) PDelete RDevice (Some (dev_id d)) None = true).
Proof.
  unfold device_button, div, str. destruct (allowedTo _ _ _ _ _);
  repeat (rewrite ?bubble_el, ?bubble_text; open_element;
          match goal with
          | |- context [match ?path with [] => _ | _ :: _ => _ end] => destruct path as [|[|?] ?]
          end; open_element; try discriminate);
    rewrite ?bubble_text; intros Hb; vm_compute in Hb; simplify_eq;
    first [now left|now right].
Qed.

(** Where the button of a row is. *)
Definition button_path : list nat := [9; 0; 0]%nat.

Lemma row_click s d groups path hs b :
  device_groups s d = Done groups -> bubble (device_row s d groups) path = Some (hs, b) ->
  hs = [VRow (dev_id d)] /\ path <> button_path \/
  hs = [VOpenRemove (dev_id d)] /\ path = button_path /\
    allowedTo (app_access s.1) PDelete RDevice (Some (dev_id d)) None = true.
Proof.
  intros Hg%device_groups_silent. unfold device_row. destruct path as [|i path].
  { intros Hb. vm_compute in Hb. simplify_eq. now left. }
  pose proof (device_cells_silent s.1 d groups Hg) as Hc.
  destruct ((device_cells s.1 d groups ++ [device_button s.1 d]) !! i) as [k|] eqn:Hk.
  2:{ rewrite bubble_el, Hk. now open_element. }
  rewrite lookup_app in Hk. destruct (device_cells s.1 d groups !! i) as [k'|] eqn:Hk'.
  - injection Hk as ->. intros Hb. eapply bubble_silent in Hb; [|reflexivity| |].
    + vm_compute in Hb. simplify_eq. left. split; [done|]. unfold button_path. now intros [= -> ->].
    + rewrite lookup_app, Hk'. reflexivity.
    + exact (Forall_lookup_1 _ _ _ _ Hc Hk').
  - destruct (i - length _)%nat as [|j] eqn:Ej; [|destruct j; discriminate]. injection Hk as <-.
    rewrite bubble_el, lookup_app, Hk', Ej. open_element.
    destruct (bubble (device_button s.1 d) path) as [[hs1 b1]|] eqn:E; [|discriminate].
    destruct (device_button_click _ _ _ _ _ E) as [(-> & -> & Hpath)|(-> & -> & -> & Ha)].
    + intros Hb. vm_compute in Hb. simplify_eq. left. split; [done|]. unfold button_path.
      intros [= _ ->]. now apply Hpath.
    + intros Hb. simplify_eq. right. split_and!; [done| |done]. unfold button_path. f_equal.
      apply lookup_ge_None in Hk'. cbn [device_cells length] in *. lia.
Qed.
(** A click in the row of a device does exactly one thing: on the button that
    is there for users who may delete the device it asks whether to remove the
    device, and the click does not reach the row; anywhere else it opens the page
    of the device. *)
Theorem device_row_click (srv : server) n s d groups path hs b :
  device_groups s d = Done groups -> bubble (device_row s d groups) path = Some (hs, b) ->
  run srv (dispatch devices_perform hs) n s =
  if bool_decide (path = button_path)
  then (Done tt, put l_dl_popupOpen PopupRemoveDevice (put l_deviceToRemove (Some (dev_id d)) s), n)
  else (Done tt, s, Net (sent n ++ [ENavigate ("/devices/" +:+ pretty (dev_id d))])
                      (pending n ++ [Ret tt])).
Proof.
  intros Hg Hb. destruct (row_click s d groups path hs b Hg Hb) as [[-> Hp]|(-> & -> & _)].
  - rewrite bool_decide_eq_false_2 by done. cbn. now destruct (srv _ _).
  - rewrite bool_decide_eq_true_2 by done. reflexivity.
Qed.

(** *** What the page offers *)

Lemma device_rows_elem s ds rows t :
  device_rows s ds = Done rows -> t ∈ rows ->
  exists d groups, device_groups s d = Done groups /\ t = device_row s d groups.
Proof.
  revert rows. induction ds as [|d ds IH]; cbn; intros rows Hr Ht.
  { injection Hr as <-. now apply elem_of_nil in Ht. }
  destruct (device_groups s d) as [groups|] eqn:Eg; [|done].
  destruct (device_rows s ds) as [rows'|]; [|done]. injection Hr as <-.
  apply elem_of_cons in Ht as [->|Ht]; [eauto|]. now apply (IH rows').
Qed.

Lemma device_row_ready s d groups h :
  granted_by acc (app_access s.1) -> device_groups s d = Done groups -> h ∈ clicks (device_row s d groups) ->
  ready h.
Proof.
  intros Ha Hg. unfold device_row, device_cells, device_button, device_progress, div.
  assert (Hno : h ∈ page_clicks groups -> ready h).
  { unfold device_groups in Hg. destruct (dev_groups d) as [ids|]; [|done]. injection Hg as <-.
    unfold group_block. case_match; click_cases. }
  destruct (device_update _ _) as [[]|]; click_cases; try done; eapply granted_allowed; eauto.
Qed.

Lemma registered_ready s registered h :
  granted_by acc (app_access s.1) -> registered_list tag s = Done registered -> h ∈ page_clicks registered -> ready h.
Proof.
  intros Ha Hr. unfold registered_list in Hr. destruct (_ =? 0)%nat; [now injection Hr as <-; intros ?%elem_of_nil|].
  destruct (device_rows _ _) as [rows|] eqn:E; [|done]. injection Hr as <-. unfold id_.
  html_clicks. intros (t & Ht & Hh)%flat_map_elem.
  destruct (device_rows_elem _ _ _ _ E Ht) as (d & groups & Hg & ->).
  now apply (device_row_ready s d groups h).
Qed.

Lemma pending_ready s h : granted_by acc (app_access s.1) -> h ∈ page_clicks (pending_list s) -> ready h.
Proof.
  intros Ha. unfold pending_list, pending_row, id_. rewrite (granted_role acc) by done. click_cases; done.
Qed.

Lemma devices_template_click s page path hs :
  page_ok s -> DevicesList_template tag s = Done page -> click page path = Some hs ->
  Forall ready hs \/ hs = [VRemoveDevice] /\ dl_popupOpen (snd s) = PopupRemoveDevice.
Proof.
  intros Hs Hp Hc. unfold DevicesList_template in Hp.
  destruct (registered_list tag s) as [registered|] eqn:Er; [|done]. injection Hp as <-.
  pose proof (ok_rights _ (proj2 Hs)) as Ha.
  apply click_root in Hc as (t & path' & b & Ht & Hb). apply elem_of_cons in Ht as [->|Ht].
  - left. eapply root_clicks; [now apply list_elem_of_singleton|exact Hb|].
    intros h. unfold section, id_, devices_overview, count_row, id_. click_cases;
      cbn [tb_buttonCallback]; widget_cases.
    + intros Hh. eapply registered_ready; eauto.
    + now apply pending_ready.
  - unfold remove_device_popups in Ht. apply elem_of_app in Ht as [Ht|Ht];
      destruct (RemovePopup_click _ _ _ _ _ _ _ _ _ _ Ht Hb) as (Hen & [->|[->|[->| ->]]]);
      try (left; now repeat constructor).
    right. now apply bool_decide_eq_true in Hen.
Qed.

(** Nothing can be typed on the page. *)
Lemma device_groups_typing s d groups l :
  device_groups s d = Done groups -> l ∈ page_inputs groups -> False.
Proof.
  unfold device_groups. destruct (dev_groups d) as [ids|]; [|done]. intros [= <-].
  unfold group_block. case_match; click_cases.
Qed.

Lemma device_row_typing s d groups l :
  device_groups s d = Done groups -> l ∈ collect typing (device_row s d groups) -> False.
Proof.
  intros Hg. unfold device_row, device_cells, device_button, device_progress, div.
  destruct (device_update _ _) as [[]|]; click_cases; now apply (device_groups_typing s d).
Qed.

Lemma registered_typing s registered l :
  registered_list tag s = Done registered -> l ∈ page_inputs registered -> False.
Proof.
  intros Hr. unfold registered_list in Hr.
  destruct (_ =? 0)%nat; [now injection Hr as <-; intros ?%elem_of_nil|].
  destruct (device_rows _ _) as [rows|] eqn:E; [|done]. injection Hr as <-. unfold id_.
  html_clicks. intros (t & Ht & Hl)%flat_map_elem.
  destruct (device_rows_elem _ _ _ _ E Ht) as (d & groups & Hg & ->).
  now apply (device_row_typing s d groups l).
Qed.

Lemma devices_template_typed s page h : DevicesList_template tag s = Done page -> typed page h -> False.
Proof.
  intros Hp Ht. assert (Hl : forall l, l ∈ page_inputs page -> False).
  { intros l. unfold DevicesList_template in Hp.
    destruct (registered_list tag s) as [registered|] eqn:Er; [|done]. injection Hp as <-.
    unfold section, id_, devices_overview, count_row, id_, remove_device_popups.
    click_cases; cbn [tb_buttonCallback]; widget_cases.
    - exact (registered_typing s registered l Er).
    - unfold pending_list, pending_row, id_. click_cases. }
  destruct Ht as [(f & x & Hin & _)|(f & x & Hin & _)]; exact (Hl _ Hin).
Qed.

(** Everything that can happen while the page is shown. When rendering raises, the
    elements of an earlier rendering stay: any handler a rendering could have
    offered to this user, with a device that has been chosen. *)
Inductive page_handler : W -> js W unit -> Prop :=
| h_mounted s : page_handler s (onMounted tag)
| h_unmounted s : page_handler s onUnmounted
| h_poll s : page_handler s (fetchDevicesListResources tag)
| h_user s page q :
    DevicesList_template tag s = Done page -> user_event devices_perform page q -> page_handler s q
| h_stale s e h :
    DevicesList_template tag s = Raised e ->
    ready h \/ h = VRemoveDevice /\ is_Some (deviceToRemove (snd s)) ->
    page_handler s (dispatch devices_perform [h])
| h_toast_tick s : page_handler s (update (at_app l_toasts) tick)
| h_toast_expire s i : page_handler s (update (at_app l_toasts) (expire i))
| h_storage s f : page_handler s (update (at_app l_storage) f).

Lemma devices_interval_free v s : page_ok s -> page_ok (put (Polling.intervalID dl_interval) v s).
Proof. destruct s. now intros [[] ?]. Qed.

Lemma safe_fetch : safe (fetchDevicesListResources tag).
Proof. repeat (apply preserves_bind; [|intros _]); getters. Qed.

Lemma devices_safe_mounted : safe (onMounted tag).
Proof.
  apply preserves_bind; [apply preserves_mounted; [apply _|exact devices_interval_free|exact safe_fetch]|].
  intros _. unfold redirect_single. apply preserves_bind; [apply preserves_ask|intros shown].
  destruct (truthy_str tag); [|auto with page].
  destruct shown as [[|d [|? ?]]|]; auto with page.
  apply preserves_detach; [|auto with page]. apply preserves_navigate. constructor.
Qed.

Lemma devices_handlers_keep p s : page_handler s p -> page_ok s -> keeps page_ok page_request p s.
Proof.
  destruct 1 as [s|s|s|s page q Hp Hu|s e h Hp Hr|s|s i|s f]; intros Hs.
  - now apply devices_safe_mounted.
  - apply preserves_stop_polling; [apply _|exact devices_interval_free|exact Hs].
  - now apply safe_fetch.
  - destruct Hu as [(path & hs & Hc & ->)|(h & Ht & ->)].
    + destruct (devices_template_click _ _ _ _ Hs Hp Hc) as [Hr|[-> Hpop]].
      * apply preserves_dispatch; [|done]. eapply Forall_impl; [exact Hr|]. exact ready_safe.
      * apply keeps_detach; [|now intros s' Hs'].
        apply keeps_remove; [done|]. exact (ok_remove _ (proj1 Hs) Hpop).
    + destruct (devices_template_typed _ _ _ Hp Ht).
  - apply keeps_detach; [|now intros s' Hs'].
    destruct Hr as [Hr|[-> Hd]]; [now apply ready_safe|now apply keeps_remove].
  - apply preserves_toasts; [apply _|intros t; apply tick_ok|exact Hs].
  - apply preserves_toasts; [apply _|intros t; apply expire_ok|exact Hs].
  - apply preserves_storage; [apply _|exact Hs].
Qed.

Lemma initial_popups_ok : popups_ok initial_devices_list.
Proof. split; cbn; [apply polling_ok_fresh|discriminate|discriminate|]. now intros [? [=]]. Qed.
End Page.

Definition initial_page (a : App) : world DevicesList := (a, initial_devices_list).

(** C7: the devices page sends only what the user may do: whatever is done to the
    rendered page, in whatever order handlers are resumed and whatever the server
    answers, every request it ever sends is a poll, the registration of a device or
    the removal of an unregistered one by a user with the role for everything, or
    the removal of a device that [allowedTo] permits to delete; besides, it only
    opens pages of devices. *)
Theorem devices_page_authorized `{BuildEnv} tag acc a c :
  app_access a = acc -> toasts_ok (view l_toasts a) ->
  reachable (page_handler tag acc) (initial_page a) c -> Forall (page_request tag acc) (trace c).
Proof.
  intros <- Ht Hreach.
  apply (reachable_ok _ _ _ (devices_handlers_keep no_resource tag (app_access a)) (initial_page a) c);
    [|done].
  split; [apply initial_popups_ok|]. now apply app_ok_rights, granted_refl.
Qed.

(** ** The page at concrete inputs *)

#[local] Existing Instance sample_env.

(** A user who may delete one of two registered devices. *)
Definition device_deleter : access := MkAccess [] [MkPermission PDelete RDevice 7 "abcd"].

Definition grouped_device (id : Z) : RegisteredDevice :=
  let d := sample_device id in
  MkRegisteredDevice (dev_id d) (dev_last_access d) (dev_name d) (dev_mac_address d) (Some [1])
    (dev_metadata d) (dev_capabilities d) (dev_public_key d) (dev_connected d) (dev_progress d).

Definition loaded_devices : App :=
  put l_access device_deleter
    (put l_dm_registered (MkResource (Some [grouped_device 7; grouped_device 8]) ActivePolling)
      sample_state).

Lemma device_row_click_witness :
  let s := (loaded_devices, initial_devices_list) in
  run accepting (dispatch devices_perform [VOpenRemove 7]) idle s =
    (Done tt, put l_dl_popupOpen PopupRemoveDevice (put l_deviceToRemove (Some 7) s), idle).
Proof.
  exact (device_row_click accepting idle (loaded_devices, initial_devices_list) (grouped_device 7)
    [] button_path _ true eq_refl eq_refl).
Defined.

Definition remove_path : list nat := [0; 1; 0; 1; 1; 0]%nat ++ button_path.
Definition confirm_path : list nat := [1; 0; 1; 0; 1]%nat.

(** The user asks to remove the device and confirms. *)
Lemma devices_page_authorized_witness :
  let s0 := initial_page loaded_devices in
  let '(s1, p1, cbs1, es1) := advance (dispatch devices_perform [VOpenRemove 7]) s0 in
  let '(s2, p2, cbs2, es2) := advance (dispatch devices_perform [VRemoveDevice]) s1 in
  length es2 = 1%nat /\ Forall (page_request None device_deleter) (es1 ++ es2).
Proof.
  cbv zeta. set (s0 := initial_page loaded_devices).
  destruct (advance (dispatch devices_perform [VOpenRemove 7]) s0) as [[[s1 p1] cbs1] es1] eqn:E1.
  destruct (advance (dispatch devices_perform [VRemoveDevice]) s1) as [[[s2 p2] cbs2] es2] eqn:E2.
  pose proof (f_equal (fun x => fst (fst (fst x))) E1) as H1. cbn [fst] in H1.
  split.
  - apply (f_equal (fun x => length (snd x))) in E2. cbn [snd] in E2. rewrite <- E2, <- H1.
    vm_compute. reflexivity.
  - refine (devices_page_authorized None device_deleter loaded_devices
      (Config s2 ((p1 :: cbs1) ++ p2 :: cbs2) (es1 ++ es2)) eq_refl toasts_ok_init _).
    eapply rtc_l; [|apply rtc_once].
    + destruct (DevicesList_template None s0) as [page|] eqn:Ep; [|vm_compute in Ep; discriminate].
      refine (step_start (page_handler None device_deleter) s0 [] [] _ _ _ _ _
        (h_user _ _ _ _ _ Ep (or_introl _)) E1).
      exists remove_path. eexists. split; [|reflexivity].
      vm_compute in Ep. injection Ep as <-. vm_compute. reflexivity.
    + destruct (DevicesList_template None s1) as [page|] eqn:Ep.
      2:{ rewrite <- H1 in Ep. vm_compute in Ep. discriminate. }
      refine (step_start (page_handler None device_deleter) s1 _ _ _ _ _ _ _
        (h_user _ _ _ _ _ Ep (or_introl _)) E2).
      exists confirm_path. eexists. split; [|reflexivity].
      rewrite <- H1 in Ep. vm_compute in Ep. injection Ep as <-. vm_compute. reflexivity.
Defined.
