(* ===== verification/DevicePageSpec.v ===== *)
(** * The page of a device: resolving the route, downloading files *)

From S2P Require Import Prelude Json Http Async App Utils Fetch Polling Notifications Jwt Uri Samples Groups GroupsList Devices DevicesList Device DevicesSpec.
From Stdlib Require Import Ascii.
From stdpp Require Import base tactics list gmap strings pretty.
#[local] Open Scope Z_scope.

(** ** Which device a route names *)

Lemma mac_not_digits r : MAC_ADDR_REGEX r = true -> all_digits r = false.
Proof.
  unfold MAC_ADDR_REGEX, all_digits.
  destruct (String.list_ascii_of_string r) as [|a [|b [|sep l]]]; try discriminate.
  cbn [mac_groups]. intros Hm. reflect_bools.
  assert (Hd : is_digit sep = false).
  { match goal with H : is_mac_separator sep = true |- _ =>
      unfold is_mac_separator in H; apply orb_prop in H as [H|H]; apply Ascii.eqb_eq in H as -> end;
      reflexivity. }
  cbn [length forallb]. rewrite Hd, !andb_false_r. reflexivity.
Qed.






(** ** Downloading a file *)

Section Download.
Context `{BuildEnv} `{Collation}.

Abbreviation W := (world DevicePage).

Definition file_event (device : RegisteredDevice) (path : string) (h : Headers) : event :=
  EHttp (Request DFile (DEVICE_DOWNLOAD_FILE_ENDPOINT (Some (dev_id device))) "POST" h
    (Some (BJson (JObj [("file", JStr path)])))).

(** The link of a file that exists on the device. *)
Definition file_link (o : http_outcome (Z * string)) : option string :=
  match f_data (report o) with
  | Some (status, url) => if status =? 0 then Some url else None
  | None => None
  end.

(** The state when the path is checked. *)
Definition path_checked (path : string) (s : W) : W :=
  if String.eqb path "" then put l_emptyPathError true s else s.

Lemma downloadDeviceFile_run (srv : server) n (s : W) device path h :
  authorized (token s) initial_headers = Some h ->
  let rq := file_event device path h in
  exists out s',
    run srv (downloadDeviceFile (dev_id device) path) n s =
      (Done out, s', Net (sent n ++ [rq]) (pending n)) /\
    match file_link (srv (sent n) rq) with
    | Some url => do_success out = true /\ s' = over (at_app l_opened) (fun l => l ++ [url]) s
    | None => do_success out = false /\ s' = s
    end.
Proof.
  intros Hh. cbn zeta. unfold downloadDeviceFile. rewrite run_jbind, fetchWrapper_run.
  cbn [headers_contents json_headers]. rewrite Hh. cbn zeta. cbn [store_headers].
  fold (file_event device path h). unfold file_link.
  generalize (srv (sent n) (file_event device path h)).
  cbn [reply file_event rq_doc denote]. intros o. pose proof (report_data o) as Hd.
  destruct (f_success (report _)) eqn:Es.
  - destruct Hd as [Hd _]. destruct (Hd eq_refl) as [[st url] ->].
    destruct (st =? 0); cbn [negb]; do 2 eexists; (split; [reflexivity|]); auto.
  - destruct (f_data (report _)) as [x|]; [exfalso; enough (false = true) by done; apply Hd; eauto|].
    do 2 eexists. split; [reflexivity|]. auto.
Qed.

(** C28: the request for a file is sent whatever the path; an empty one is
    reported as an error and requested all the same. The link that is opened is
    the one of an answer that says the file exists; otherwise an error is shown
    and nothing is opened. *)
Theorem downloadFile_contract (srv : server) n (s : W) device path h :
  view l_device s = Some device -> view l_fileToDownload s = path ->
  authorized (token s) initial_headers = Some h ->
  let rq := file_event device path h in
  let s1 := path_checked path s in
  let n1 := Net (sent n ++ [rq]) (pending n) in
  run srv downloadFile n s =
    match file_link (srv (sent n) rq) with
    | Some url => (Done tt, over (at_app l_opened) (fun l => l ++ [url]) s1, n1)
    | None => (Done tt, put l_emptyPathError true (over (at_app l_toasts)
        (enqueue (ToastError (buildHTML (dev_name device +:+ " download")
           (Some "Failed to download file")))) s1), n1)
    end.
Proof.
  intros Hd Hp Hh. cbn zeta. unfold downloadFile. js_run. rewrite Hp.
  assert (Hcheck : forall (q : js W unit), run srv ((if String.eqb path ""
      then assign l_emptyPathError true else jret tt) ;;; q) n s =
    run srv q n (path_checked path s)).
  { intros q. unfold path_checked. destruct (String.eqb path ""); reflexivity. }
  rewrite Hcheck. set (s1 := path_checked path s).
  assert (Hd1 : view l_device s1 = Some device)
    by (rewrite <- Hd; unfold s1, path_checked; now destruct (String.eqb path "")).
  assert (Hh1 : authorized (token s1) initial_headers = Some h)
    by (rewrite <- Hh; unfold s1, path_checked; now destruct (String.eqb path "")).
  unfold the_device. js_run. rewrite Hd1. js_run. rewrite run_jbind.
  destruct (downloadDeviceFile_run srv n s1 device path h Hh1) as (out & s2 & -> & Ho).
  destruct (file_link _) as [url|]; destruct Ho as [-> ->]; cbn [negb]; [reflexivity|].
  js_run. rewrite Hd1. reflexivity.
Qed.
End Download.

(** ** The list of devices *)

Section List_.
Context `{BuildEnv}.

Abbreviation W := (world DevicesList).

(** The list leads to the page of a device exactly when it is filtered by a
    tag that one single device has; the filtered list otherwise stays. *)
Theorem redirect_single_spec tag (srv : server) n (s : W) :
  run srv (redirect_single tag) n s =
  match truthy_str tag, shown_devices tag s with
  | true, Some [device] =>
      (Done tt, s, Net (sent n ++ [ENavigate ("/devices/" +:+ pretty (dev_id device))])
                     (pending n ++ [Ret tt]))
  | _, _ => (Done tt, s, n)
  end.
Proof.
  unfold redirect_single. js_run. destruct (truthy_str tag); [|reflexivity].
  destruct (shown_devices tag s) as [[|d [|]]|]; try reflexivity.
  cbn. now destruct (srv _ _).
Qed.
End List_.

(** ** The theorems at concrete inputs *)

#[local] Existing Instance sample_env.

(** Byte order stands for the user's locale. *)
Definition byte_collation : Collation := fun a b =>
  match String.compare a b with Lt => -1 | Eq => 0 | Gt => 1 end.
#[local] Existing Instance byte_collation.

Definition reboot : Action := MkAction "reboot" "Reboot" ["reboot"] "".

(** The page of a device with one action and a path in the file input. *)
Definition sample_device_page : world DevicePage :=
  (sample_state, MkDevicePage None (Some (sample_device 7)) None None true [] [(reboot, false)] []
     false "/etc/issue" false false false).

Lemma sample_page_authorized : authorized (token sample_device_page) ∅ =
  Some {["Authorization" := bearer]}.
Proof. vm_compute. reflexivity. Qed.

Lemma device_command_contract_witness :
  fst (fst (run accepting (perform_device (DRegister "00:11:22:33:44:55" "key")) idle sample_state)) =
    Done out_ok /\
  fst (fst (run (refusing 404) (perform_device (DRemove (Some 7))) idle sample_state)) =
    Done (out_error (removal_message (Some 404))).
Proof.
  assert (Ha : authorized (token sample_state) ∅ = Some {["Authorization" := bearer]})
    by (vm_compute; reflexivity).
  assert (Hb : authorized (token sample_state) initial_headers =
    Some (<["Authorization" := bearer]> initial_headers)) by (vm_compute; reflexivity).
  split; rewrite (device_command_contract _ _ _ _ _ _ Ha Hb); vm_compute; reflexivity.
Defined.

Lemma runAction_contract_witness :
  let s' := snd (fst (run accepting (runAction "reboot") idle sample_device_page)) in
  length (displayed (view (at_app l_toasts) s')) = 2%nat /\
  view l_actions s' = [(reboot, false)].
Proof.
  rewrite (proj2 (runAction_contract "reboot" accepting idle sample_device_page)
    (sample_device 7) reboot true _ eq_refl eq_refl eq_refl sample_page_authorized).
  vm_compute. auto.
Defined.

Lemma one_run_per_action_witness :
  let '(s1, p1, cbs, es) := advance (runAction "reboot") sample_device_page in
  length es = 1%nat /\
  exists ids, Forall2 role (p1 :: cbs) ids /\ NoDup (waiting ids) /\
    forall id, id ∈ waiting ids -> isRunning id (view l_actions s1) = true.
Proof.
  destruct (advance (runAction "reboot") sample_device_page) as [[[s1 p1] cbs] es] eqn:E.
  split.
  { apply (f_equal (fun x => length (snd x))) in E. cbn [snd] in E.
    rewrite <- E. vm_compute. reflexivity. }
  refine (one_run_per_action sample_device_page (Config s1 (p1 :: cbs) es) _). apply rtc_once.
  exact (step_start _ _ [] [] _ _ _ _ _ (or_introl (ex_intro _ "reboot" eq_refl)) E).
Defined.

Lemma downloadFile_contract_witness :
  view (at_app l_opened) (snd (fst (run accepting downloadFile idle sample_device_page))) =
    ["https://rdfm.example/f"].
Proof.
  assert (Hh : authorized (token sample_device_page) initial_headers =
    Some (<["Authorization" := bearer]> initial_headers)) by (vm_compute; reflexivity).
  rewrite (downloadFile_contract accepting idle sample_device_page (sample_device 7) "/etc/issue" _
    eq_refl eq_refl Hh). vm_compute. reflexivity.
Defined.
