(* ===== verification/DevicePage.v ===== *)
(** * The page of a device as a concurrent program

    Once the device is resolved, whatever the user does to the rendered page and in
    whatever order handlers are resumed, the page only sends requests on that device,
    it changes the device or its log only for users who may update it, and it mounts
    the terminal only for users who may open a shell. *)

From S2P Require Import Prelude Json Http Async App Html Utils Fetch Polling Notifications Jwt Preserves SharedState Samples Groups GroupsList Widgets Packages Devices DevicesList Device DeviceView DevicePageSpec.
From stdpp Require Import base tactics list gmap strings pretty relations.
#[local] Open Scope Z_scope.

Section Page.
Context `{BuildEnv} `{Collation} (R : shared_resource -> Prop).
Context (routeId : string) (acc : access) (d : RegisteredDevice).

Abbreviation W := (world DevicePage).

Definition may (k : PermissionKind) : Prop := allowedTo acc k RDevice (Some (dev_id d)) None = true.
Definition has_capability (name : string) : Prop := dev_capabilities d !! name = Some true.

(** ** The invariant *)

(** The device that is shown, once the route is resolved; the terminal may have
    reported it as disconnected. *)
Definition shown (l : DevicePage) : Prop :=
  dv_device l = None \/ dv_device l = Some d \/ dv_device l = Some (set_disconnected d).

Definition may_shell : Prop := has_capability "shell" /\ may PShell.

Record device_ok (l : DevicePage) : Prop := {
  ok_shown : shown l;
  ok_terminal : isTerminalOpened l = true -> may_shell;
}.

Abbreviation data_ok := (app_ok R (granted_by acc)).
Abbreviation page_ok := (parts_ok device_ok data_ok).

(** The route leads to this device, or to none, in the list that is loaded. *)
Definition resolves_to (s : W) : Prop :=
  forall devices device pattern,
    resources (view (at_app l_dm_registered) s) = Some devices ->
    find_device routeId devices = Done (Some device, pattern) -> device = d.

Definition get_request (doc : doc) (url : string) (h : Headers) : event :=
  EHttp (Request doc url "GET" h None).

(** A change of the action log. *)
Inductive log_change : string -> string -> list (string * json) -> Prop :=
| change_clear : log_change (DEVICE_ACTION_LOG_ENDPOINT (dev_mac_address d)) "DELETE" []
| change_pending : log_change (DEVICE_PENDING_ACTIONS_ENDPOINT (dev_mac_address d)) "DELETE" []
| change_selected ids :
    log_change (DEVICE_REMOVE_ACTIONS_ENDPOINT (dev_mac_address d)) "POST"
      [("actions", JArr (map JStr ids))].

Inductive page_request : event -> Prop :=
| req_poll (g : getter W) h :
    g = groupResources \/ g = registeredDevicesResources -> page_request (poll_request g h)
| req_leave : page_request (ENavigate "devices")
| req_tags h : page_request (get_request DTags (DEVICE_TAGS_ENDPOINT (Some (dev_id d))) h)
| req_actions h : page_request (get_request DActions (DEVICE_ACTIONS_ENDPOINT (dev_mac_address d)) h)
| req_log h : page_request (get_request DActionLog (DEVICE_ACTION_LOG_ENDPOINT (dev_mac_address d)) h)
| req_exec id h :
    may PUpdate ->
    page_request (get_request DExec (DEVICE_ACTIONS_EXEC_ENDPOINT (dev_mac_address d) id) h)
| req_change url method fields h :
    may PUpdate -> log_change url method fields ->
    page_request (EHttp (Request DIgnored url method h (Some (BJson (JObj fields)))))
| req_file path h :
    may PRead -> has_capability "filesystem" -> page_request (file_event d path h).

Abbreviation safe := (preserves page_ok page_request).

(** Writes that concern neither the device nor the terminal. *)
Ltac local_writes :=
  let a := fresh "a" in let pg := fresh "pg" in
  let Hd := fresh "Hd" in let Ht := fresh "Ht" in let Ha := fresh "Ha" in
  intros [a pg] [[Hd Ht] Ha]; js_wp;
  split; [|exact Ha]; split; [exact Hd|cbn in *; try done; auto].

Lemma device_safe_fetchResources (g : getter W) :
  g = groupResources \/ g = registeredDevicesResources -> safe (fetchResources g).
Proof.
  intros Hg. apply preserves_fetchResources; [apply _|now constructor|].
  destruct Hg as [-> | ->]; data_writes.
Qed.

(** The device is known. *)
Lemma safe_the_device {A} (f : RegisteredDevice -> js W A) :
  safe (f d) -> safe (f (set_disconnected d)) -> safe (jbind the_device f).
Proof.
  intros Hd Hd' s Hs. unfold the_device. js_wp.
  change (view l_device s) with (dv_device (snd s)).
  destruct (ok_shown _ (proj1 Hs)) as [-> | [-> | ->]]; cbn; [exact Hs|now apply Hd|now apply Hd'].
Qed.

Lemma safe_read_device {A} (f : option RegisteredDevice -> js W A) :
  safe (f None) -> safe (f (Some d)) -> safe (f (Some (set_disconnected d))) ->
  safe (let* o := read l_device in f o).
Proof.
  intros Hn Hd Hd' s Hs. js_wp. change (view l_device s) with (dv_device (snd s)).
  destruct (ok_shown _ (proj1 Hs)) as [-> | [-> | ->]]; [now apply Hn|now apply Hd|now apply Hd'].
Qed.

#[local] Hint Resolve device_safe_fetchResources safe_the_device safe_read_device : page.

(** ** What runs without the user *)

Lemma safe_get doc url : (forall h, page_request (get_request doc url h)) ->
  safe (fetchGET doc url).
Proof. intros Hr. apply preserves_fetch_new. exact Hr. Qed.

(** Resolving the route, when it leads to this device. *)
Lemma keeps_devices_changed s :
  resolves_to s -> page_ok s -> keeps page_ok page_request (devices_changed routeId) s.
Proof.
  intros Hr Hs. unfold devices_changed. js_wp.
  destruct (view l_watching s), (resources (view (at_app l_dm_registered) s)) as [devices|] eqn:Ed,
    (view l_device s); try exact Hs.
  unfold jlift. destruct (find_device routeId devices) as [[[device|] pattern]|e] eqn:Ef; [| |exact Hs].
  - js_wp. rewrite (Hr _ _ _ Ed Ef). destruct s as [a pg], Hs as [[Hd Ht] Ha].
    split; [|exact Ha]. split; [now right; left|exact Ht].
  - revert s Hs Hr Ed. cut (safe (navigate "devices" ;;;
      notifyError ("Device with " +:+ pattern +:+ " '" +:+ routeId +:+ "' not found.") None ;;;
      assign l_watching false)); [now intros Hsafe s Hs _ _; apply Hsafe|].
    apply preserves_bind; [apply preserves_navigate; constructor|intros _].
    apply preserves_bind; [auto with page|intros _; local_writes].
Qed.

Lemma safe_fetch_tags : safe fetch_tags.
Proof.
  assert (Hw : forall l, safe (assign l_tags l)) by (intros l; local_writes).
  unfold fetch_tags. apply safe_read_device; [auto with page|..]; cbv beta iota;
    (apply preserves_bind; [|intros out; destruct (do_success out), (do_data out); auto with page]);
    unfold getDeviceTags; cbn [dev_id set_disconnected];
    (apply preserves_bind; [apply safe_get; constructor|intros out; destruct (negb _); auto with page]).
Qed.

Lemma safe_fetch_actions runs : safe (fetch_actions runs).
Proof.
  assert (Hw : forall l, safe (assign l_actions l)) by (intros l; local_writes).
  assert (Hu : forall f, safe (update (at_app l_deviceActions) f)).
  { intros f. apply preserves_update. data_writes. }
  assert (Hg : safe (getDeviceActions (dev_mac_address d))).
  { apply preserves_bind; [apply safe_get; constructor|intros out; destruct (negb _); auto with page]. }
  induction runs as [|held runs IH]; cbn [fetch_actions]; [auto with page|].
  assert (Hk : forall m : string, safe (let* known := read (at_app l_deviceActions) in
    match known !! m with
    | Some l => assign l_actions (not_running l) ;;;
        if held : bool then jret tt else detach (fetch_actions runs) (jret tt)
    | None => jret tt
    end)).
  { intros m. apply preserves_bind; [apply preserves_read|intros known; destruct (known !! m); [|auto with page]].
    apply preserves_bind; [apply Hw|intros _]. destruct held; auto with page. }
  apply safe_read_device; [auto with page|..];
    (apply preserves_bind; [apply preserves_read|intros [|? ?]; [|auto with page]]);
    cbn [dev_mac_address set_disconnected]; (apply preserves_bind; [exact Hg|intros out]);
    destruct (do_success out), (do_data out); try (apply safe_the_device; apply Hk);
    (apply preserves_bind; [apply Hw|intros _]); apply preserves_detach; auto 10 with page.
Qed.

(** ** What the user starts *)

Lemma safe_log_failure msg : safe (log_failure msg).
Proof. apply safe_read_device; auto with page. Qed.

Lemma safe_fetchActionLog : safe fetchActionLog.
Proof.
  assert (Hw : forall l, safe (assign l_tasks l)) by (intros l; local_writes).
  assert (Hs : safe (assign l_showingActionLog true)) by local_writes.
  unfold fetchActionLog, getDeviceActionLog. apply safe_the_device; cbn [dev_mac_address set_disconnected];
    (apply preserves_bind; [|intros out; destruct (do_success out); auto using safe_log_failure with page]);
    (apply preserves_bind; [apply safe_get; constructor|intros out; destruct (negb _); auto with page]).
Qed.

Lemma safe_after_change result msg : safe (after_change result msg).
Proof.
  unfold after_change. destruct (do_success result); auto using safe_fetchActionLog, safe_log_failure with page.
Qed.

Lemma safe_send_ignored url method fields msg :
  may PUpdate -> log_change url method fields -> safe (send_ignored url method fields msg).
Proof.
  intros Hm Hc. apply preserves_bind; [|intros out; destruct (negb _); auto with page].
  apply preserves_fetch_new. intros h. now apply req_change.
Qed.

Lemma safe_change (change : RegisteredDevice -> js W (DeviceOutput unit)) msg :
  safe (change d) -> safe (change (set_disconnected d)) ->
  safe (let* device := the_device in let* result := change device in after_change result msg).
Proof.
  intros Hd Hd'. apply safe_the_device; (apply preserves_bind; [done|]); intros; apply safe_after_change.
Qed.

Lemma safe_clear : may PUpdate -> safe clearActionLog.
Proof.
  intros Hm. apply safe_change; apply safe_send_ignored; auto; exact change_clear.
Qed.
Lemma safe_pending : may PUpdate -> safe removePendingActions.
Proof.
  intros Hm. apply safe_change; apply safe_send_ignored; auto; exact change_pending.
Qed.
Lemma safe_selected : may PUpdate -> safe removeSelectedActions.
Proof.
  intros Hm. unfold removeSelectedActions. apply preserves_bind; [apply preserves_read|intros tasks].
  apply (safe_change (fun device => removeSelectedDeviceActions (dev_mac_address device) (selected_tasks tasks)));
    apply safe_send_ignored; auto; exact (change_selected _).
Qed.

Lemma safe_report out headline : safe (report_action out headline).
Proof.
  unfold report_action. destruct (do_success out); [|auto with page].
  destruct (do_data out) as [[code|]|]; [destruct (negb _)| |]; auto with page.
Qed.

Lemma safe_execAction id : may PUpdate -> safe (execAction (dev_mac_address d) id).
Proof.
  intros Hm. apply preserves_bind; [apply safe_get; now constructor|intros out].
  destruct (bool_decide _); [|destruct (negb _)]; auto with page.
Qed.

Lemma safe_runAction id : may PUpdate -> safe (runAction id).
Proof.
  intros Hm. assert (Hw : forall f, safe (update l_actions f)) by (intros f; local_writes).
  unfold runAction. apply preserves_bind; [apply preserves_read|intros actions].
  destruct (isRunning id actions); [auto with page|].
  apply preserves_bind; [apply Hw|intros _].
  apply preserves_bind; [apply preserves_read|intros actions'].
  apply preserves_bind; [apply preserves_read|intros device].
  destruct (js_find _ _) as [[action running]|]; [|auto with page].
  apply preserves_bind; [auto with page|intros _].
  apply safe_the_device; cbn [dev_mac_address set_disconnected];
    (apply preserves_bind; [now apply safe_execAction|intros out]);
    (apply preserves_bind; [apply Hw|intros _]);
    (apply preserves_bind; [apply preserves_read|intros device']); apply safe_report.
Qed.

Lemma safe_downloadFile : may PRead -> has_capability "filesystem" -> safe downloadFile.
Proof.
  intros Hm Hc. assert (Hw : safe (assign l_emptyPathError true)) by local_writes.
  unfold downloadFile, downloadDeviceFile. apply preserves_bind; [apply preserves_read|intros path].
  apply preserves_bind; [destruct (String.eqb _ _); auto with page|intros _].
  apply safe_the_device; cbn [dev_id set_disconnected];
    (apply preserves_bind; [|intros out; destruct (negb _); auto with page]);
    (apply preserves_bind; [apply preserves_fetch_new; intros h; now apply (req_file path)|intros out]);
    destruct (f_success out), (f_data out) as [[status url]|]; try destruct (negb _); auto with page.
Qed.

Lemma safe_toggleTerminal : may_shell -> safe toggleTerminal.
Proof.
  intros Hm. unfold toggleTerminal. apply preserves_bind; [local_writes|intros _; local_writes].
Qed.

Lemma safe_write_device aliased : safe (write_device aliased set_disconnected).
Proof.
  assert (Hw : safe (assign l_device (Some (set_disconnected d)))).
  { intros [a pg] [[Hd Ht] Ha]. js_wp. split; [|exact Ha]. split; [now right; right|exact Ht]. }
  assert (Hu : forall f : resource (list RegisteredDevice) -> resource (list RegisteredDevice),
    (forall r, polling_ok r -> polling_ok (f r)) -> safe (update (at_app l_dm_registered) f)).
  { intros f Hf. apply preserves_update. data_writes. }
  unfold write_device. apply safe_the_device; (apply preserves_bind; [exact Hw|intros _]);
    destruct aliased; [|auto with page| |auto with page]; apply Hu; intros [[l|] st];
    unfold polling_ok; cbn; now rewrite !is_Some_alt.
Qed.

Lemma safe_disconnect aliased : may_shell -> safe (disconnect aliased).
Proof.
  intros Hm. apply preserves_bind; [now apply safe_toggleTerminal|intros _; apply safe_write_device].
Qed.

(** ** The events of the rendered page *)

Abbreviation G := (world (DevicePage * DownloadButton)).

Abbreviation state_ok := (with_component (C := DownloadButton) device_ok data_ok).

(** What a handler needs to be run. *)
Definition ready (h : device_handler) : Prop :=
  match h with
  | HRun _ | HClearLog | HRemovePending | HRemoveSelected => may PUpdate
  | HDownloadTask url | HCopyTask url => truthy_str (Some url) = true
  | HDownloadFile => may PRead /\ has_capability "filesystem"
  | HToggleTerminal | HDisconnect => may_shell
  | _ => True
  end.

Lemma device_ready_gsafe aliased h : ready h -> preserves state_ok page_request (device_perform aliased h).
Proof.
  intros Hr. destruct h; cbn [ready device_perform] in *; try (apply preserves_on_page).
  - apply safe_fetchActionLog.
  - now apply safe_runAction.
  - unfold closeActionLogPopup. local_writes.
  - now apply safe_clear.
  - now apply safe_pending.
  - now apply safe_selected.
  - unfold selectTask. destruct in_dots; [auto with page|local_writes].
  - apply preserves_in_component. unfold download. cbn [truthy_num]. rewrite Hr. auto with page.
  - apply preserves_in_component. unfold copyDownloadLink. rewrite Hr.
    apply preserves_bind; [auto with page|intros link].
    apply preserves_bind; [|auto with page]. apply preserves_assign. now intros [].
  - destruct Hr. now apply safe_downloadFile.
  - now apply safe_toggleTerminal.
  - unfold terminalFullscreen. local_writes.
  - now apply safe_disconnect.
Qed.
Lemma shown_device s : page_ok s -> view l_device s = None \/ exists d', view l_device s = Some d' /\
  dev_id d' = dev_id d /\ dev_capabilities d' = dev_capabilities d.
Proof.
  intros [[Hd _] _]. change (view l_device s) with (dv_device (snd s)).
  destruct Hd as [-> | [-> | ->]]; [now left|right|right]; eexists; split_and!; reflexivity.
Qed.

(** Without a device only the roles count, which permit the same for every device. *)
Lemma allowed_without_id (a : access) k : allowedTo a k RDevice None None = true ->
  allowedTo a k RDevice (Some (dev_id d)) None = true.
Proof.
  rewrite !allowedTo_body. destruct (_ || _); [done|].
  assert (hasPermission a k RDevice None = false) as ->; [|done].
  unfold hasPermission, js_some. induction (permissions a) as [|p l IH]; cbn; [done|].
  rewrite IH, (bool_decide_eq_false_2 (None = Some _)) by done. now rewrite andb_false_r.
Qed.

Lemma allowed_may s k : page_ok s -> device_allowed s k = true -> may k.
Proof.
  intros Hs Ha. apply (granted_allowed _ _ _ _ _ _ (ok_rights _ (proj2 Hs))). revert Ha. unfold device_allowed.
  destruct (shown_device s Hs) as [-> | (d' & -> & Hid & _)]; cbn [option_map];
    [apply allowed_without_id|now rewrite Hid].
Qed.

Lemma capable_has s name : page_ok s -> capable s name = true -> has_capability name.
Proof.
  intros Hs. unfold capable, has_capability.
  destruct (shown_device s Hs) as [-> | (d' & -> & _ & Hc)]; cbn [mbind option_bind]; [done|].
  rewrite Hc. destruct (dev_capabilities d !! name) as [[]|]; congruence.
Qed.

(** *** The parts of the page *)

Lemma details_silent {X} s (pick : listener device_handler -> list X) x :
  x ∈ page_collect pick (details s) -> False.
Proof.
  unfold details, DeviceView.block, code_block, details_groups, id_.
  destruct (view l_device s) as [device|]; [|intros ?%elem_of_nil; done].
  click_cases.
Qed.

Definition containers (s : W) : list (html device_handler) :=
  actions_container s ++ download_container s ++ terminal_container s.

(** What is picked comes from the title, from one of the containers or from the log. *)
Lemma template_collect {X} (pick : listener device_handler -> list X) s page x :
  Device_template routeId s = Done page -> x ∈ page_collect pick page ->
  x ∈ collect pick (title_bar routeId s) \/ x ∈ page_collect pick (containers s) \/
  exists log, action_log s = Done log /\ x ∈ page_collect pick log.
Proof.
  unfold Device_template. destruct (negb _); [intros [= <-]; now intros ?%elem_of_nil|].
  destruct (action_log s) as [log|] eqn:El; [|done]. intros [= <-]. unfold containers.
  html_clicks. rewrite !elem_of_app.
  intros [Hx|[Hx|[Hx|[Hx|[Hx|Hx]]]]]; eauto 6. destruct (details_silent s _ x Hx).
Qed.

(** The log is only shown of a device, and in it the buttons and the rows are heard. *)
Lemma action_log_collect {X} (pick : listener device_handler -> list X) s log x :
  action_log s = Done log -> x ∈ page_collect pick log ->
  x ∈ pick (OnClick [MSelf] (Some HCloseLog)) \/ x ∈ pick (OnClick [] (Some HCloseLog)) \/
  x ∈ page_collect pick (log_buttons s) \/
  exists i task, x ∈ collect pick (task_row i task).
Proof.
  unfold action_log. destruct (negb _); [intros [= <-]; now intros ?%elem_of_nil|].
  destruct (view l_device s) as [device|]; [|done]. intros [= <-].
  pose proof (page_collect_imap pick task_row (view l_tasks s) x) as Hrows.
  click_cases; try tauto. intros Hx. apply Hrows in Hx as (i & task & _ & Hx). eauto 6.
Qed.

Lemma title_ready s h : h ∈ clicks (title_bar routeId s) -> ready h.
Proof.
  unfold title_bar. destruct (view l_device s); rewrite TitleBar_collect;
    cbn [tb_buttonCallback picks heard]; autorewrite with elem; intuition (subst; exact I).
Qed.

Lemma containers_ready s h : page_ok s -> h ∈ page_clicks (containers s) -> ready h.
Proof.
  intros Hs. unfold containers, actions_container, download_container, terminal_container, action_button.
  widget_cases; reflect_bools.
  - apply (allowed_may s); assumption.
  - split; [apply (allowed_may s)|apply (capable_has s)]; assumption.
  - split; [apply (capable_has s)|apply (allowed_may s)]; assumption.
  - exact I.
Qed.

Lemma log_ready s log h : page_ok s -> action_log s = Done log -> h ∈ page_clicks log -> ready h.
Proof.
  intros Hs El Hh. destruct (action_log_collect heard s log h El Hh) as [Hc|[Hc|[Hc|(i & task & Hc)]]];
    revert Hc; cbn [heard].
  - now intros ->%list_elem_of_singleton.
  - now intros ->%list_elem_of_singleton.
  - unfold log_buttons. widget_cases; apply (allowed_may s); assumption.
  - unfold task_row. widget_cases; try exact I; destruct (task_download_url task); done.
Qed.

Lemma template_ready s page h :
  page_ok s -> Device_template routeId s = Done page -> h ∈ page_clicks page -> ready h.
Proof.
  intros Hs Hp Hh. destruct (template_collect heard s page h Hp Hh) as [Hc|[Hc|(log & El & Hc)]].
  - now apply (title_ready s).
  - now apply (containers_ready s).
  - now apply (log_ready s log).
Qed.

(** Only the terminal emits an event, and only while it is mounted. *)
Lemma template_emits s page h :
  page_ok s -> Device_template routeId s = Done page -> h ∈ page_emits page -> ready h.
Proof.
  intros Hs Hp Hh.
  destruct (template_collect emitted s page h Hp Hh) as [Hc|[Hc|(log & El & Hc)]]; revert Hc.
  - unfold title_bar. destruct (view l_device s); rewrite TitleBar_collect;
      cbn [tb_buttonCallback picks emitted]; autorewrite with elem; tauto.
  - unfold containers, actions_container, download_container, terminal_container, action_button.
    widget_cases; reflect_bools.
    split; [apply (capable_has s)|apply (allowed_may s)]; assumption.
  - intros Hc. destruct (action_log_collect emitted s log h El Hc) as [Hc'|[Hc'|[Hc'|(i & task & Hc')]]];
      revert Hc'; [intros ?%elem_of_nil; done|intros ?%elem_of_nil; done| |].
    + unfold log_buttons. widget_cases.
    + unfold task_row. widget_cases.
Qed.

Lemma device_template_typed s page h : Device_template routeId s = Done page -> typed page h -> False.
Proof.
  intros Hp. assert (Hl : forall l, l ∈ page_inputs page -> False);
    [|destruct 1 as [(f & x & Hin & _)|(f & x & Hin & _)]; exact (Hl _ Hin)].
  intros l Hl. destruct (template_collect typing s page l Hp Hl) as [Hc|[Hc|(log & El & Hc)]]; revert Hc.
  - unfold title_bar. destruct (view l_device s); rewrite TitleBar_collect;
      cbn [tb_buttonCallback picks typing]; autorewrite with elem; tauto.
  - unfold containers, actions_container, download_container, terminal_container, action_button.
    widget_cases.
  - intros Hc. destruct (action_log_collect typing s log l El Hc) as [Hc'|[Hc'|[Hc'|(i & task & Hc')]]];
      revert Hc'; [intros ?%elem_of_nil; done|intros ?%elem_of_nil; done| |].
    + unfold log_buttons. widget_cases.
    + unfold task_row. widget_cases.
Qed.

(** ** The theorem *)

(** Everything that can happen while the page is shown: the watchers and effects,
    polling, the events of the rendered page and of the components in it, the text
    in the input of a path. An effect may be started at any moment, as by an assignment
    of what it reads, and the second one may go on to run as often as it likes. The route is resolved in states that satisfy [resolves]. *)
Inductive page_handler (resolves : W -> Prop) : G -> js G unit -> Prop :=
| h_setup s : page_handler resolves s (zoom l_page setup)
| h_poll s : page_handler resolves s (zoom l_page (fetchResources registeredDevicesResources))
| h_changed s : resolves (view l_page s) -> page_handler resolves s (zoom l_page (devices_changed routeId))
| h_tags s : page_handler resolves s (zoom l_page fetch_tags)
| h_actions s runs : page_handler resolves s (zoom l_page (fetch_actions runs))
| h_unmounted s : page_handler resolves s (zoom l_page unmounted)
| h_user s aliased page q :
    Device_template routeId (view l_page s) = Done page ->
    user_event (device_perform aliased) page q -> page_handler resolves s q
| h_emit s aliased page h :
    Device_template routeId (view l_page s) = Done page -> h ∈ page_emits page ->
    page_handler resolves s (device_perform aliased h)
| h_path s text : page_handler resolves s (zoom l_page (assign l_fileToDownload text))
| h_connection s mac b :
    page_handler resolves s (zoom l_page (update (at_app l_deviceConnections) (<[mac := b]>)))
| h_toast_tick s : page_handler resolves s (zoom l_page (update (at_app l_toasts) tick))
| h_toast_expire s i : page_handler resolves s (zoom l_page (update (at_app l_toasts) (expire i)))
| h_storage s f : page_handler resolves s (zoom l_page (update (at_app l_storage) f)).

Lemma device_safe_unmounted : safe unmounted.
Proof.
  apply preserves_bind; [apply preserves_read|intros [t|]; [|auto with page]].
  apply preserves_clearInterval. apply _.
Qed.

Lemma safe_setup : safe setup.
Proof.
  unfold setup. apply preserves_bind; [auto with page|intros _].
  apply preserves_bind; [auto with page|intros _].
  apply preserves_bind; [now apply preserves_setInterval; typeclasses eauto|intros timer]. local_writes.
Qed.

Lemma device_handlers_keep p s :
  page_handler resolves_to s p -> state_ok s -> keeps state_ok page_request p s.
Proof.
  destruct 1 as [s|s|s Hres|s|s runs|s|s aliased page q Hp Hu|s aliased page h Hp Hh|s text|s mac b|s|s i|s f];
    intros Hs.
  3: apply (keeps_zoom l_page page_ok); now apply keeps_devices_changed.
  6: destruct Hu as [(path & hs & Hc & ->)|(h & Ht & ->)]; [|destruct (device_template_typed _ _ _ Hp Ht)].
  6: { apply preserves_dispatch; [|done]. apply click_root in Hc as (t & path' & b & Ht & Hb).
       eapply Forall_impl; [|intros h; exact (device_ready_gsafe aliased h)].
       eapply root_clicks; [exact Ht|exact Hb|]. intros h. now apply (template_ready (view l_page s)). }
  6: { apply device_ready_gsafe; [|done]. now apply (template_emits (view l_page s) page). }
  all: apply preserves_on_page; [|exact Hs]; auto using device_safe_fetchResources, safe_setup, safe_fetch_tags,
    safe_fetch_actions, device_safe_unmounted, tick_ok, expire_ok, preserves_toasts, preserves_storage with page.
  - local_writes.
  - apply preserves_update. data_writes.
Qed.

Lemma initial_device_ok (l : DevicePage) :
  dv_device l = None \/ dv_device l = Some d -> isTerminalOpened l = false -> device_ok l.
Proof. intros [Hd|Hd] Ht; split; rewrite ?Ht; try done; unfold shown; auto. Qed.
End Page.

(** C8: a page whose route leads to the device [d] only sends requests on this
    device: whatever is done to the rendered page, in whatever order handlers are
    resumed and whatever the server answers, before and after the route is resolved,
    every request is a poll, or reads the tags, actions or log of the device, or
    executes an action or changes the log for a user with the right to update the
    device, or fetches a file of a device that can serve files for a user with the
    right to read it, or leads back to the list when the route leads nowhere. A
    terminal is only mounted on a device that has a shell, for a user with the right
    to open it. *)
Theorem device_page_authorized `{BuildEnv} `{Collation} routeId acc d a (l : DevicePage) b c :
  app_access a = acc -> toasts_ok (view l_toasts a) ->
  dv_device l = None \/ dv_device l = Some d -> isTerminalOpened l = false ->
  reachable (page_handler routeId (resolves_to routeId d)) (a, (l, b)) c ->
  Forall (page_request acc d) (trace c) /\
  (isTerminalOpened (fst (snd (store c))) = true -> may_shell acc d).
Proof.
  intros <- Ht Hd Hc Hr.
  destruct (reachable_ok _ _ _ (device_handlers_keep no_resource routeId (app_access a) d) (a, (l, b)) c)
    as (Hs & _ & Htr); [|done|].
  - split; [now apply initial_device_ok|]. now apply app_ok_rights, granted_refl.
  - split; [exact Htr|]. exact (ok_terminal _ _ _ (proj1 Hs)).
Qed.

(** ** The page at a concrete input *)

#[local] Existing Instance sample_env.
#[local] Existing Instance byte_collation.

(** A user who may update the device, which has one action. *)
Definition device_updater : access := MkAccess [] [MkPermission PUpdate RDevice 7 "abcd"].

Definition updatable_device : world (DevicePage * DownloadButton) :=
  (put l_access device_updater
     (put l_dm_registered (MkResource (Some [sample_device 7]) ActivePolling) sample_state),
   (MkDevicePage None (Some (sample_device 7)) None None true [] [(reboot, false)] []
      false "" false false false, MkDownloadButton None)).

(** The path of the button of the action. *)
Definition action_path : list nat := [0; 1; 0; 0]%nat.

Lemma device_page_authorized_witness :
  let '(s1, p1, cbs1, es1) := advance (dispatch (device_perform true) [HRun "reboot"]) updatable_device in
  length es1 = 1%nat /\ Forall (page_request device_updater (sample_device 7)) es1.
Proof.
  destruct (advance (dispatch (device_perform true) [HRun "reboot"]) updatable_device)
    as [[[s1 p1] cbs1] es1] eqn:E1.
  split; [apply (f_equal (fun x => length (snd x))) in E1; cbn [snd] in E1; rewrite <- E1;
          vm_compute; reflexivity|].
  refine (proj1 (device_page_authorized "7" device_updater (sample_device 7)
    (fst updatable_device) (fst (snd updatable_device)) (snd (snd updatable_device))
    (Config s1 (p1 :: cbs1) es1) eq_refl toasts_ok_init (or_intror eq_refl) eq_refl _)).
  apply rtc_once.
  destruct (Device_template "7" (view l_page updatable_device)) as [page|] eqn:Ep;
    [|vm_compute in Ep; discriminate].
  refine (step_start (page_handler "7" _) updatable_device [] [] _ _ _ _ _
    (h_user _ _ _ _ _ _ Ep (or_introl _)) E1).
  exists action_path. eexists. split; [|reflexivity].
  vm_compute in Ep. injection Ep as <-. vm_compute. reflexivity.
Defined.
