(* ===== verification/PagesSettle.v ===== *)
(** * Which pages come to rest

    As for the groups page: the handlers of the packages and devices pages send bounded
    numbers of requests, and so do those of the page of a device except for the effect
    that loads its actions, which runs again when it has stored an empty list. *)

From S2P Require Import Prelude Json Http Async App Html Utils Fetch Polling Notifications Jwt Preserves Settles Uri Samples Groups GroupsList Widgets SimpleDropdown GroupsView GroupsPage GroupsSettle Packages PackagesView PackagesPage Devices DevicesList DevicesView DevicesSpec DevicesPage Device DeviceView DevicePage.
From stdpp Require Import base tactics list gmap strings pretty relations.
#[local] Open Scope Z_scope.

(** ** The widgets *)

Section Widgets.
Context {H : Type} (cost : H -> nat).

Lemma cheap_bar_button n id (h : H) name :
  (cost h <= n)%nat -> cheap cost n (bar_button id (Some h) name).
Proof.
  intros Hh. apply cheap_mono with (cost h + 0)%nat; [lia|]. apply cheap_above.
  - unfold total. cbn. lia.
  - repeat constructor. apply cheap_text.
Qed.

Lemma TitleBar_cheap n a (props : TitleBarProps H) :
  (forall h, tb_buttonCallback props = Some h -> cost h <= n)%nat -> cheap cost n (TitleBar a props).
Proof.
  intros Hc. assert (Hb : forall id name, cheap cost n (bar_button id (tb_buttonCallback props) name)).
  { intros id name. destruct (tb_buttonCallback props) as [h|]; [apply cheap_bar_button; auto|].
    apply cheap_el; [reflexivity|]. repeat constructor. apply cheap_text. }
  unfold TitleBar, UpdateProgress, Status, section, id_.
  destruct (truthy_str (tb_smallButtonName props)), (truthy_str (tb_device props)),
    (device_update a (tb_device props)) as [[]|]; auto 40 with cheap.
Qed.
End Widgets.

(** A row of details below listeners of its own. *)
#[local] Hint Extern 1 (cheap _ _ (TitleBar _ _)) => apply TitleBar_cheap; cbn; intros ? [= <-]; cbn; lia : cheap.

(** ** The packages page *)

Section Packages.
Context `{BuildEnv} `{JsonParser}.

Lemma within_uploadRequest {S} `{HasApp S} files data : within (state := S) 3 (uploadPackageRequest files data).
Proof. unfold uploadPackageRequest, fetchPOST. at_rest. Qed.
Lemma within_removeRequest {S} `{HasApp S} i : within (state := S) 2 (removePackageRequest i).
Proof. unfold removePackageRequest, fetchDELETE. at_rest. Qed.
Lemma within_download_at {S} `{HasApp S} u : within (state := S) 1 (download_at u).
Proof. unfold download_at, fetchGET. at_rest. Qed.
#[local] Hint Resolve within_uploadRequest within_removeRequest within_download_at : rest.

Lemma within_uploadPackage : within 3 uploadPackage.
Proof.
  unfold uploadPackage. apply (within_seq 0); [cbn; intros; exact I|lia|intros _].
  apply (within_finally 3 0); [|cbn; intros; exact I].
  unfold upload_body. at_rest.
Qed.

Lemma within_removePackage : within 2 removePackage.
Proof. unfold removePackage. at_rest. Qed.

Lemma within_download_url r : within 1 (getPackageDownloadUrl r).
Proof. destruct r; unfold getPackageDownloadUrl, downloadPackageRequest; at_rest. Qed.
#[local] Hint Resolve within_download_url : rest.

Lemma within_download r u : within 1 (download r u).
Proof. unfold download, window_open. at_rest. Qed.
Lemma within_copyDownloadLink r u : within 1 (copyDownloadLink r u).
Proof. unfold copyDownloadLink. destruct (truthy_str u); at_rest. Qed.

Definition packages_requests (h : packages_handler) : nat :=
  match h with PUpload => 3 | PRemove => 2 | PDownload _ | PCopyLink _ => 1 | _ => 0 end.

Lemma within_packages_perform h : within (packages_requests h) (packages_perform h).
Proof.
  destruct h; cbn [packages_requests packages_perform]; try apply within_zoom;
    auto using within_uploadPackage, within_removePackage, within_download, within_copyDownloadLink;
    cbn; intros; exact I.
Qed.

Abbreviation small := (cheap packages_requests 3).

Lemma package_row_small s pckg : small (package_row s pckg).
Proof. unfold package_row, DownloadButton_template, download_icon, id_. auto 60 with cheap. Qed.

Lemma add_package_small s : Forall small (add_package_popup s).
Proof.
  unfold add_package_popup, package_field, package_input, field_errors, disabled_if, BlurPanel, id_.
  auto 60 with cheap.
Qed.

Lemma packages_title_small a : small (packages_title_bar a).
Proof. unfold packages_title_bar. destruct (hasUploadAccess _); auto with cheap. Qed.

#[local] Hint Resolve package_row_small add_package_small packages_title_small : cheap.

Lemma packages_template_small s : Forall small (PackagesList_template s).
Proof.
  assert (Hg : forall l, Forall small (map (package_row s) l)) by (intros l; apply Forall_map_all, package_row_small).
  unfold PackagesList_template, remove_package_popup, RemovePopup, BlurPanel, packages_container,
    packages_overview, id_. auto 60 with cheap.
Qed.

Lemma packages_handler_within s p : PackagesPage.page_handler s p -> within 3 p.
Proof.
  destruct 1 as [s|s|s|s q Hu|s f|s|s i|s f].
  - apply within_zoom, within_mounted, within_mono with 2%nat; [lia|]. unfold fetchPackagesListResources. at_rest.
  - apply within_zoom. apply (within_seq 0); [cbn; intros; exact I|lia|intros _; apply within_stop_polling].
  - apply within_zoom. apply within_mono with 1%nat; [lia|apply within_fetchResources].
  - eapply within_user_event; [exact within_packages_perform|apply packages_template_small| |exact Hu].
    intros []; cbn; lia.
  - apply within_zoom. at_rest.
  - apply within_zoom. at_rest.
  - apply within_zoom. at_rest.
  - apply within_zoom. at_rest.
Qed.
End Packages.

(** ** The devices page *)

Section Devices.
Context `{BuildEnv} (tag : option string) (acc : access).

Lemma within_refresh {S} `{HasApp S} : within (state := S) 2 refresh_devices.
Proof. unfold refresh_devices. at_rest. Qed.
#[local] Hint Resolve within_refresh : rest.

Lemma within_device_command {S} `{HasApp S} c : within (state := S) 3 (perform_device c).
Proof.
  destruct c; cbn [perform_device]; unfold registerDeviceRequest, removePendingDeviceRequest,
    removeDeviceRequest, fetchPOST; at_rest.
Qed.

Lemma within_fetch_devices : within 3 (fetchDevicesListResources tag).
Proof. unfold fetchDevicesListResources. at_rest. Qed.

(** The list, and the redirection to its only device. *)
Lemma within_devices_mounted : within 4 (DevicesList.onMounted tag).
Proof.
  apply (within_bind 3 1); [apply within_mounted, within_fetch_devices|intros _].
  unfold redirect_single. apply (within_seq 0); [cbn; intros; exact I|lia|intros shown].
  destruct (truthy_str tag), shown as [[|d [|? ?]]|]; try exact I.
  apply within_detach_ret, within_navigate.
Qed.

Definition devices_requests (h : devices_handler) : nat :=
  match h with VRegister _ _ | VRemoveDevice | VRemovePending => 3 | VRow _ => 1 | _ => 0 end.

Lemma within_devices_perform h : within (devices_requests h) (devices_perform h).
Proof.
  destruct h; cbn [devices_requests devices_perform]; try (cbn; intros; exact I).
  - apply within_detach_ret, within_navigate.
  - unfold registerDevice. eapply within_seq; [apply (within_device_command (DRegister _ _))|lia|].
    unfold notify_failure. at_rest.
  - unfold removeDevice. apply (within_seq 0); [cbn; intros; exact I|lia|intros i].
    eapply within_seq; [apply (within_device_command (DRemove i))|lia|]. unfold notify_failure. at_rest.
  - unfold removePendingDevice. apply (within_seq 0); [cbn; intros; exact I|lia|intros [[mac key]|]]; [|exact I].
    eapply within_seq; [apply (within_device_command (DRemovePending mac key))|lia|].
    unfold notify_failure. at_rest.
Qed.

Abbreviation small := (cheap devices_requests 3).

Lemma group_blocks_free s device groups :
  device_groups s device = Done groups -> Forall (cheap devices_requests 0) groups.
Proof.
  unfold device_groups. destruct (dev_groups device) as [ids|]; [|done]. intros [= <-].
  assert (Hg : forall (f : Z -> option Group) l, Forall (cheap devices_requests 0) (map (fun i => group_block (f i)) l)).
  { intros f l. apply Forall_map_all. intros i. unfold group_block. auto 40 with cheap. }
  destruct (resources _); auto 40 with cheap.
Qed.

(** A click on a row costs what its own listener does, or what its button does. *)
Lemma device_row_small s device groups :
  device_groups s device = Done groups -> small (device_row s device groups).
Proof.
  intros Hg%group_blocks_free. assert (Hp : Forall (cheap devices_requests 0) (device_progress s.1 device)).
  { unfold device_progress, UpdateProgress, section, id_. destruct (device_update _ _) as [[]|]; auto 40 with cheap. }
  unfold device_row, device_cells, device_button, Status, id_, dot. auto 60 with cheap.
Qed.

Lemma device_rows_small s l rows : device_rows s l = Done rows -> Forall small rows.
Proof.
  revert rows. induction l as [|device l IH]; cbn [device_rows]; intros rows; [now intros [= <-]|].
  destruct (device_groups s device) as [groups|] eqn:Eg; [|done].
  destruct (device_rows s l) as [rest|]; [|done]. intros [= <-].
  constructor; [now apply device_row_small|auto].
Qed.

Lemma pending_row_small a device : small (pending_row a device).
Proof. unfold pending_row. destruct (hasAdminRole _ _); auto 60 with cheap. Qed.
#[local] Hint Resolve pending_row_small : cheap.

Lemma devices_template_small s page : DevicesList_template tag s = Done page -> Forall small page.
Proof.
  assert (Hp : forall l, Forall small (map (pending_row s.1) l)) by (intros l; apply Forall_map_all, pending_row_small).
  unfold DevicesList_template, registered_list.
  destruct (_ =? 0)%nat; [|destruct (device_rows _ _) as [rows|] eqn:Er; [apply device_rows_small in Er|done]];
    intros [= <-]; unfold remove_device_popups, RemovePopup, BlurPanel, pending_list, devices_overview,
      count_row, section, id_; auto 60 with cheap.
Qed.

Lemma devices_handler_within s p : DevicesPage.page_handler tag acc s p -> within 4 p.
Proof.
  destruct 1 as [s|s|s|s page q Hp Hu|s e h Hp Hr|s|s i|s f].
  - apply within_devices_mounted.
  - apply within_stop_polling.
  - apply within_mono with 3%nat; [lia|]. apply within_fetch_devices.
  - apply within_mono with 3%nat; [lia|].
    eapply within_user_event; [exact within_devices_perform|exact (devices_template_small _ _ Hp)| |exact Hu].
    intros []; cbn; lia.
  - apply within_mono with (Settles.total devices_requests [h]); [destruct h; cbn; lia|].
    apply within_dispatch, within_devices_perform.
  - at_rest.
  - at_rest.
  - at_rest.
Qed.
End Devices.

(** ** The page of a device *)

Section Device.
Context `{BuildEnv} `{Collation} (routeId : string).

Section Requests.
Context {S : Type} `{HasApp S}.

Lemma within_send url method fields msg : within (state := S) 1 (send_ignored url method fields msg).
Proof. unfold send_ignored. at_rest. Qed.
Lemma within_execAction mac id : within (state := S) 1 (execAction mac id).
Proof. unfold execAction, fetchGET. at_rest. Qed.
Lemma within_getDeviceActions mac : within (state := S) 1 (getDeviceActions mac).
Proof. unfold getDeviceActions, fetchGET. at_rest. Qed.
Lemma within_getDeviceTags id : within (state := S) 1 (getDeviceTags id).
Proof. unfold getDeviceTags, fetchGET. at_rest. Qed.
Lemma within_getDeviceActionLog mac : within (state := S) 1 (getDeviceActionLog mac).
Proof. unfold getDeviceActionLog, fetchGET. at_rest. Qed.
Lemma within_downloadDeviceFile id file : within (state := S) 1 (downloadDeviceFile id file).
Proof. unfold downloadDeviceFile, window_open. at_rest. Qed.
End Requests.

Lemma within_the_device : within 0 the_device.
Proof. unfold the_device. at_rest. Qed.
Lemma within_log_failure msg : within 0 (log_failure msg).
Proof. unfold log_failure. at_rest. Qed.
#[local] Hint Resolve within_send within_execAction within_getDeviceActions within_getDeviceTags
  within_getDeviceActionLog within_downloadDeviceFile within_the_device within_log_failure : rest.

Lemma within_fetchActionLog : within 1 fetchActionLog.
Proof. unfold fetchActionLog. at_rest. Qed.
#[local] Hint Resolve within_fetchActionLog : rest.

(** A change of the log, and the request for the new one. *)
Lemma within_log_change (request : RegisteredDevice -> js (world DevicePage) (DeviceOutput unit)) msg :
  (forall d, within 1 (request d)) ->
  within 2 (let* device := the_device in let* result := request device in after_change result msg).
Proof.
  intros Hr. eapply within_seq; [apply within_the_device|lia|intros d].
  eapply within_seq; [apply Hr|lia|intros result]. unfold after_change. at_rest.
Qed.

Lemma within_runAction id : within 1 (runAction id).
Proof. unfold runAction, report_action. at_rest. Qed.
Lemma within_downloadFile : within 1 downloadFile.
Proof. unfold downloadFile. at_rest. Qed.
Lemma within_fetch_tags : within 1 fetch_tags.
Proof. unfold fetch_tags. at_rest. Qed.
Lemma within_devices_changed : within 1 (devices_changed routeId).
Proof. unfold devices_changed, jlift. at_rest. Qed.
Lemma within_disconnect aliased : within 0 (disconnect aliased).
Proof. unfold disconnect, toggleTerminal, write_device. at_rest. Qed.

Definition device_requests (h : device_handler) : nat :=
  match h with
  | HClearLog | HRemovePending | HRemoveSelected => 2
  | HFetchLog | HRun _ | HDownloadTask _ | HCopyTask _ | HDownloadFile => 1
  | _ => 0
  end.

Lemma within_device_perform aliased h : within (device_requests h) (device_perform aliased h).
Proof.
  destruct h; cbn [device_requests device_perform]; apply within_zoom;
    auto using within_fetchActionLog, within_runAction, within_downloadFile, within_download,
      within_copyDownloadLink, within_disconnect.
  - cbn. intros; exact I.
  - now apply (within_log_change (fun d => clearDeviceActionLog (dev_mac_address d))); intros d; apply within_send.
  - now apply (within_log_change (fun d => removePendingDeviceActions (dev_mac_address d))); intros d; apply within_send.
  - unfold removeSelectedActions. apply (within_seq 0); [cbn; intros; exact I|lia|intros tasks].
    now apply (within_log_change (fun d => removeSelectedDeviceActions (dev_mac_address d) (selected_tasks tasks)));
      intros d; apply within_send.
  - unfold selectTask. at_rest.
  - unfold toggleTerminal. at_rest.
  - unfold terminalFullscreen. at_rest.
Qed.

Abbreviation small := (cheap device_requests 2).

Lemma action_button_small a : small (action_button a).
Proof. destruct a as [action running]. unfold action_button. auto 60 with cheap. Qed.

Lemma log_buttons_small s : Forall small (log_buttons s).
Proof. unfold log_buttons. auto 60 with cheap. Qed.

Lemma task_row_small i task : small (task_row i task).
Proof. unfold task_row, DownloadButton_template, download_icon, id_. auto 60 with cheap. Qed.

#[local] Hint Resolve action_button_small log_buttons_small task_row_small : cheap.

Lemma device_title_small s : small (title_bar routeId s).
Proof. unfold title_bar. destruct (view l_device s); auto with cheap. Qed.

Lemma action_log_small s log : action_log s = Done log -> Forall small log.
Proof.
  unfold action_log. destruct (negb _); [now intros [= <-]|]. destruct (view l_device s) as [d|]; [|done].
  assert (Hr : forall l, Forall small (imap task_row l)).
  { intros l. apply Forall_forall. intros t (i & a & -> & _)%elem_of_lookup_imap. apply task_row_small. }
  intros [= <-]. unfold BlurPanel. auto 60 with cheap.
Qed.

Lemma download_container_small s : Forall small (download_container s).
Proof. unfold download_container. auto 60 with cheap. Qed.

Lemma terminal_container_small s : Forall small (terminal_container s).
Proof. unfold terminal_container. auto 60 with cheap. Qed.

#[local] Hint Extern 0 (Forall _ (map (fun _ => _) _)) => apply Forall_map_all; intro; cbv beta : cheap.

Lemma details_small s : Forall small (details s).
Proof.
  unfold details. destruct (view l_device s) as [d|]; [|constructor].
  unfold DeviceView.block, code_block, details_groups, id_. auto 80 with cheap.
Qed.

#[local] Hint Resolve device_title_small download_container_small terminal_container_small details_small : cheap.

Lemma device_template_small s page : Device_template routeId s = Done page -> Forall small page.
Proof.
  unfold Device_template. destruct (negb _); [now intros [= <-]|].
  destruct (action_log s) as [log|] eqn:El; [|done]. apply action_log_small in El. intros [= <-].
  unfold actions_container. auto 60 with cheap.
Qed.

(** A handler that the template has emitted. *)
Lemma device_requests_bound h : (device_requests h <= 2)%nat.
Proof. destruct h; cbn; lia. Qed.

Lemma within_setup : within 2 setup.
Proof.
  unfold setup. eapply within_seq; [apply within_detach_ret, within_fetchResources|lia|intros _].
  eapply within_seq; [apply within_detach_ret, within_fetchResources|lia|intros _]. at_rest.
Qed.

(** All handlers but the effect that loads the actions. *)
Definition loads_actions (p : js (world (DevicePage * DownloadButton)) unit) : Prop :=
  exists runs, p = zoom l_page (fetch_actions runs).

Lemma device_handler_within resolves s p :
  DevicePage.page_handler routeId resolves s p -> ~ loads_actions p -> within 2 p.
Proof.
  destruct 1 as [s|s|s Hr|s|s runs|s|s aliased page q Hp Hu|s aliased page h Hp Hh|s text|s mac b|s|s i|s f];
    intros Hn.
  5: { destruct Hn. now exists runs. }
  6: exact (within_user_event _ _ 2 page q (within_device_perform aliased) (device_template_small _ _ Hp)
      device_requests_bound Hu).
  6: apply within_mono with (device_requests h); [apply device_requests_bound|apply within_device_perform].
  1: apply within_zoom, within_setup.
  all: apply within_zoom; [..]; try (apply within_mono with 1%nat; [lia|]);
    auto using within_fetch_tags, within_devices_changed with rest; try at_rest.
  unfold unmounted. at_rest.
Qed.

(** *** The effect that loads the actions *)

(** A device is shown and no actions are; the token can be sent. *)
Record waits_for_actions (d : RegisteredDevice) (own : Headers) (s : world DevicePage) : Prop := {
  waits_device : view l_device s = Some d;
  waits_actions : view l_actions s = [];
  waits_token : authorized (token s) ∅ = Some own;
}.

Definition actions_event (d : RegisteredDevice) (own : Headers) : event :=
  EHttp (Request DActions (DEVICE_ACTIONS_ENDPOINT (dev_mac_address d)) "GET" own None).

(** What the effect does with an answer that lists no actions. *)
Definition no_actions (runs : list bool) : js (world DevicePage) unit :=
  assign l_actions (not_running []) ;;;
  detach (fetch_actions runs)
    (let* device := the_device in update (at_app l_deviceActions) (<[dev_mac_address device := []]>)).

(** It asks for the actions, and does so again when there are none. *)
Lemma effect_asks d own s held runs :
  waits_for_actions d own s ->
  exists k, advance (fetch_actions (held :: runs)) s =
      (s, Await (actions_event d own) k, [], [actions_event d own]) /\
    k (Response 200 (Some [])) = no_actions runs.
Proof.
  intros [Hd Ha Ht]. cbn [fetch_actions]. unfold jbind at 1 2, read, reads. cbn [pbind advance].
  rewrite Hd, Ha. unfold getDeviceActions, fetchGET, jbind at 1 2. rewrite pbind_assoc.
  match goal with |- context [pbind (fetchWrapper _ _ _ _ _) ?K] =>
    destruct (advance_fetch DActions (DEVICE_ACTIONS_ENDPOINT (dev_mac_address d)) "GET" ∅ None K s)
      as [(own' & k & Hown & Hadv & Hk)|[Hno _]] end; [|congruence].
  rewrite Ht in Hown. injection Hown as <-. exists k. split; [exact Hadv|]. rewrite Hk. reflexivity.
Qed.

(** The module remembers that the device has no actions. *)
Definition noted (d : RegisteredDevice) (s : world DevicePage) : world DevicePage :=
  over (at_app l_deviceActions) (<[dev_mac_address d := []]>) s.

Lemma noted_waits d own s : waits_for_actions d own s -> waits_for_actions d own (noted d s).
Proof. destruct s as [a p]. now intros [Hd Ha Ht]. Qed.

Lemma no_actions_ends d own s :
  waits_for_actions d own s -> advance (no_actions []) s = (noted d s, Ret tt, [], []).
Proof.
  intros [Hd Ha _]. unfold no_actions, assign, modify, jbind at 1. cbn [pbind advance not_running map].
  rewrite <- Ha, put_view. cbn [fetch_actions]. rewrite advance_detach. cbn [jret advance].
  unfold the_device, jbind, read, reads. cbn [pbind advance]. rewrite Hd. reflexivity.
Qed.

Lemma no_actions_asks d own s held runs :
  waits_for_actions d own s ->
  exists k, advance (no_actions (held :: runs)) s =
      (noted d s, Ret tt, [Await (actions_event d own) k], [actions_event d own]) /\
    k (Response 200 (Some [])) = no_actions runs.
Proof.
  intros Hw. destruct (effect_asks d own s held runs Hw) as (k & Hadv & Hk). exists k. split; [|exact Hk].
  destruct Hw as [Hd Ha _]. unfold no_actions, assign, modify, jbind at 1. cbn [pbind advance not_running map].
  rewrite <- Ha at 1. rewrite put_view, advance_detach, Hadv.
  unfold the_device, jbind, read, reads. cbn [pbind advance]. rewrite Hd. reflexivity.
Qed.

(** The effect alone, on the page with its download buttons. *)
Abbreviation G := (world (DevicePage * DownloadButton)).
Abbreviation effect_only := (fun (_ : G) p => loads_actions p).

Lemma asks_again d own n k m s ts tr i g (s0 : G) :
  waits_for_actions d own (view l_page s) -> ts !! i = Some (zoom l_page (Await (actions_event d own) g)) ->
  g (Response 200 (Some [])) = no_actions (replicate n true) ->
  runs effect_only s0 k m (Config s ts tr) ->
  exists c, runs effect_only s0 k (m + n) c /\ length (trace c) = (length tr + n)%nat.
Proof.
  revert m s ts tr i g. induction n as [|n IH]; intros m s ts tr i g Hw Hi Hg Hr.
  - exists (Config s ts tr). cbn [trace]. now rewrite !Nat.add_0_r.
  - destruct (no_actions_asks d own (view l_page s) true (replicate n true) Hw) as (g' & Hadv & Hg').
    assert (Hstep : advance (zoom l_page (g (Response 200 (Some [])))) s =
      (put l_page (noted d (view l_page s)) s, Ret tt,
       [zoom l_page (Await (actions_event d own) g')], [actions_event d own])).
    { rewrite advance_zoom, Hg. cbn [replicate]. now rewrite Hadv. }
    pose proof (runs_resume effect_only s0 k m s ts tr i _ _ _ _ _ _ _ Hr Hi Hstep) as Hr'.
    replace (m + S n)%nat with (S m + n)%nat by lia.
    assert (Hw' : waits_for_actions d own (view l_page (put l_page (noted d (view l_page s)) s)))
      by (rewrite view_put; now apply noted_waits).
    edestruct (fun Hi' => IH (S m) _ _ _ (length ts) g' Hw' Hi' Hg' Hr') as (c & Hc & Hlen).
    + rewrite lookup_app_r by now rewrite length_insert. rewrite length_insert, Nat.sub_diag. reflexivity.
    + exists c. split; [exact Hc|]. rewrite Hlen, length_app. cbn [length]. lia.
Qed.

(** Started once, the effect can send any number of requests. *)
Lemma effect_never_rests d own n (s : G) :
  waits_for_actions d own (view l_page s) ->
  exists c, runs effect_only s 1 n c /\ length (trace c) = S n.
Proof.
  intros Hw. destruct (effect_asks d own (view l_page s) true (replicate n true) Hw) as (g & Hadv & Hg).
  assert (Hstep : advance (zoom l_page (fetch_actions (replicate (S n) true))) s =
    (s, zoom l_page (Await (actions_event d own) g), [], [actions_event d own])).
  { rewrite advance_zoom. cbn [replicate]. rewrite Hadv. now rewrite put_view. }
  pose proof (runs_start effect_only s 0 0 s [] [] _ _ _ _ _ (runs_init _ _)
    (ex_intro _ (replicate (S n) true) eq_refl) Hstep) as Hr.
  destruct (asks_again d own n 1 0 s [zoom l_page (Await (actions_event d own) g)] _ 0%nat g s Hw eq_refl Hg Hr) as (c & Hc & Hlen).
  exists c. split; [exact Hc|exact Hlen].
Qed.
End Device.

(** ** All pages *)

Section All.
Context `{BuildEnv} `{JsonParser} `{Collation}.

(** C10: the list pages come to rest: however the user and the timers start the
    handlers of a page, in whatever order the answers arrive and whatever they are, [k]
    handlers cause at most [N * k] requests, suspended handlers are resumed at most
    [N * k] times in all, and as long as a handler has not ended some handler can be
    resumed. [N] is 8 for the groups (a configuration with its four changes and polls),
    3 for the packages and 4 for the devices. The page of a device comes to rest with 2
    but for one of its handlers: the effect that loads the actions, started once for a
    device whose list of actions is empty, is run again by the empty list it stores, so
    that for every [n] there is an execution of this effect alone with [n + 1] requests. *)
Theorem pages_settle tag acc routeId a (d : DevicePage * DownloadButton) :
  comes_to_rest GroupsPage.page_handler 8 (GroupsPage.initial_page a) /\
  comes_to_rest PackagesPage.page_handler 3 (PackagesPage.initial_page a) /\
  comes_to_rest (DevicesPage.page_handler tag acc) 4 (DevicesPage.initial_page a) /\
  comes_to_rest (fun s p => DevicePage.page_handler routeId (fun _ => True) s p /\ ~ loads_actions p) 2 (a, d) /\
  (is_Some (dv_device (fst d)) -> dv_actions (fst d) = [] -> token_fits (token (a, d)) ->
   forall n, exists c, runs (fun _ p => loads_actions p) (a, d) 1 n c /\ length (trace c) = S n).
Proof.
  split; [apply groups_page_settles|].
  split; [apply rests; [exact (fun s => packages_handler_within s)|exact some_reply]|].
  split; [apply rests; [exact (devices_handler_within tag acc)|exact some_reply]|].
  split; [apply rests; [|exact some_reply]; intros s p [Hp Hn]; exact (device_handler_within routeId _ s p Hp Hn)|].
  intros [device Hd] Ha Ht n. apply (authorized_fits _ ∅) in Ht as [own Ht].
  exact (effect_never_rests device own n (a, d) (Build_waits_for_actions _ _ (a, fst d) Hd Ha Ht)).
Qed.
End All.

(** ** A page at a concrete input *)

#[local] Existing Instance sample_env.
#[local] Existing Instance subject_parser.
#[local] Existing Instance sample_collation.

(** A device is shown that has no actions: the effect can ask for them a hundred times. *)
Lemma pages_settle_witness :
  exists c, runs (fun _ p => loads_actions p)
      (sample_state, (MkDevicePage None (Some (sample_device 7)) None None true [] [] [] false "" false false false,
        MkDownloadButton None)) 1 99 c /\
    length (trace c) = 100%nat.
Proof.
  apply (pages_settle None fresh_access "" sample_state
    (MkDevicePage None (Some (sample_device 7)) None None true [] [] [] false "" false false false,
     MkDownloadButton None)).
  - now exists (sample_device 7).
  - reflexivity.
  - apply (authorized_fits _ ∅). vm_compute. eauto.
Defined.
