(* ===== verification/PagesWellFormed.v ===== *)
(** * The rendered pages are well formed

    As for the groups page: the other pages key the rows of their lists by the
    identifiers of what they list, and no void element has children. *)

From S2P Require Import Prelude Json Http Async App Html Utils Fetch Polling Notifications Jwt Samples Groups GroupsList Widgets SimpleDropdown GroupsView GroupsPage GroupsWellFormed Packages PackagesView PackagesPage Devices DevicesList DevicesView DevicesPage Device DeviceView DevicePage.
From stdpp Require Import base tactics list gmap strings pretty.
#[local] Open Scope Z_scope.

#[local] Hint Resolve entry_well_formed : wf.

Lemma DownloadButton_well_formed {H} small (download copy : H) :
  well_formed (DownloadButton_template small download copy).
Proof.
  unfold DownloadButton_template, download_icon, div, node, button, leaf, str. destruct small; auto 30 with wf.
Qed.

#[local] Hint Resolve DownloadButton_well_formed : wf.

(** ** The packages page *)

Section Packages.
Context `{BuildEnv} `{JsonParser}.

Lemma package_field_well_formed errors label field (i : html packages_handler) :
  well_formed i -> key_of i = None -> well_formed (package_field errors label field i).
Proof.
  intros Hi Hk. unfold package_field, node, str, div. apply well_formed_keyless; [done| |].
  - apply Forall_app_2; [|apply field_errors_keyless]. auto with wf.
  - auto 20 with wf.
Qed.

Lemma add_package_popup_well_formed s : Forall well_formed (add_package_popup s).
Proof.
  unfold add_package_popup, BlurPanel, disabled_if.
  set (version := package_field _ "Version" _ _). set (type := package_field _ "Device type" _ _).
  set (file := package_field _ "File" _ _).
  assert (well_formed version) by (apply package_field_well_formed; [apply well_formed_void|done]).
  assert (well_formed type) by (apply package_field_well_formed; [apply well_formed_void|done]).
  assert (well_formed file) by (apply package_field_well_formed; [apply well_formed_void|done]).
  destruct (view l_uploadInProgress s); unfold div, p, button, node, str; auto 30 with wf.
Qed.

Lemma package_row_well_formed s pckg : well_formed (package_row s pckg).
Proof. unfold package_row, entry, button, div, str. auto 40 with wf. Qed.

Lemma packages_container_well_formed s :
  NoDup (map pkg_id (default [] (resources (view (at_app l_pm_packages) s)))) ->
  well_formed (packages_container s).
Proof.
  intros Hn%distinct_num. unfold packages_container, packages_overview.
  set (packages := default [] _) in *. set (list := div "device-list" _).
  assert (well_formed list).
  { apply (well_formed_keyed _ _ _ _ (fun p => TNum (pkg_id p))); auto using package_row_well_formed. }
  unfold div, node, str, id_. auto 40 with wf.
Qed.

Lemma packages_page_well_formed s :
  NoDup (map pkg_id (default [] (resources (view (at_app l_pm_packages) s)))) ->
  Forall well_formed (PackagesList_template s).
Proof.
  intros Hn. unfold PackagesList_template, remove_package_popup. rewrite !Forall_app, !Forall_cons, Forall_nil.
  split_and!; auto using add_package_popup_well_formed, packages_container_well_formed with wf.
  apply TitleBar_well_formed.
Qed.
End Packages.

(** ** The devices page *)

Section Devices.
Context `{BuildEnv} (tag : option string).

Lemma group_block_well_formed group : well_formed (group_block group).
Proof. unfold group_block, div, str. auto 30 with wf. Qed.

Lemma group_values_well_formed (group : Z -> option Group) ids :
  well_formed (div "value" (map (fun i => group_block (group i)) ids)).
Proof.
  apply well_formed_keyless; [done| |]; apply Forall_map_all; intros i; [done|apply group_block_well_formed].
Qed.

#[local] Hint Resolve group_values_well_formed : wf.

Lemma device_groups_well_formed s device groups :
  device_groups s device = Done groups -> Forall well_formed groups /\ keyless groups.
Proof.
  unfold device_groups. destruct (dev_groups device) as [ids|]; [|done]. intros [= <-].
  assert (Hnone : well_formed (H := devices_handler) (div "value" [str "-"])) by (unfold div, str; auto 20 with wf).
  unfold keyless. destruct (resources _); split; auto 20 with wf.
Qed.

Lemma device_row_well_formed s device groups :
  Forall well_formed groups -> keyless groups -> well_formed (device_row s device groups).
Proof.
  intros Hw Hk. unfold device_row, device_cells, device_progress, device_button.
  assert (well_formed (div "entry groups" (div "title" [str "Groups"] :: groups))).
  { apply well_formed_keyless; [done| |]; constructor; auto. unfold div, str. auto 20 with wf. }
  set (cell := div "entry groups" _) in *. unfold entry.
  destruct (device_update _ _) as [[]|]; unfold div, str; auto 50 with wf.
Qed.

(** A row is keyed by the identifier of its device. *)
Lemma device_rows_well_formed s devices rows :
  device_rows s devices = Done rows ->
  omap key_of rows = map (fun d => TNum (dev_id d)) devices /\ Forall well_formed rows.
Proof.
  revert rows. induction devices as [|device devices IH]; cbn [device_rows]; intros rows;
    [now intros [= <-]|].
  destruct (device_groups s device) as [groups|] eqn:Hg; [|done].
  destruct (device_rows s devices) as [rest|]; [|done]. intros [= <-].
  destruct (device_groups_well_formed _ _ _ Hg), (IH _ eq_refl) as [Hk Hw].
  split; [|now constructor; [apply device_row_well_formed|]].
  cbn [omap list_omap map]. cbn. f_equal. exact Hk.
Qed.

Lemma registered_list_well_formed s trees :
  NoDup (map dev_id (default [] (shown_devices tag s))) ->
  registered_list tag s = Done trees -> Forall well_formed trees /\ keyless trees.
Proof.
  intros Hn%distinct_num. unfold registered_list. destruct (_ =? 0)%nat; [intros [= <-]; repeat constructor|].
  destruct (device_rows s _) as [rows|] eqn:Hr; [|done]. intros [= <-].
  destruct (device_rows_well_formed _ _ _ Hr) as [Hk Hw].
  assert (well_formed (div "device-list" rows)) by (apply well_formed_el; now rewrite Hk).
  unfold node, str, id_, keyless. set (list := div "device-list" rows) in *. split; auto 30 with wf.
Qed.

Lemma pending_row_well_formed a device : well_formed (pending_row a device).
Proof. unfold pending_row, entry, button, div, str. auto 60 with wf. Qed.

Lemma pending_list_well_formed s :
  NoDup (map pd_mac_address (default [] (resources (view (at_app l_dm_pending) s)))) ->
  Forall well_formed (pending_list s) /\ keyless (pending_list s).
Proof.
  intros Hn%distinct_str. unfold pending_list. set (devices := default [] _) in *.
  set (list := div "device-list" _).
  assert (well_formed list).
  { apply (well_formed_keyed _ _ _ _ (fun d => TStr (pd_mac_address d))); auto using pending_row_well_formed. }
  unfold node, str, id_, keyless. split; auto 30 with wf.
Qed.

Lemma devices_overview_well_formed s : well_formed (devices_overview tag s).
Proof. unfold devices_overview, count_row, id_, node, div, str. auto 60 with wf. Qed.

Lemma devices_page_well_formed s page :
  NoDup (map dev_id (default [] (shown_devices tag s))) ->
  NoDup (map pd_mac_address (default [] (resources (view (at_app l_dm_pending) s)))) ->
  DevicesList_template tag s = Done page -> Forall well_formed page.
Proof.
  intros Hr [Hpw Hpk]%pending_list_well_formed. unfold DevicesList_template.
  destruct (registered_list tag s) as [registered|] eqn:He; [|done]. intros [= <-].
  destruct (registered_list_well_formed _ _ Hr He) as [Hw Hk].
  pose proof (devices_overview_well_formed s) as Ho.
  unfold remove_device_popups, section, div. set (list := El "div" [cls "resources-list"] [] _).
  assert (well_formed list).
  { apply well_formed_keyless; [done| |]; [repeat apply Forall_app_2|auto 20 with wf]; auto 20 with wf. }
  auto 30 with wf.
Qed.
End Devices.

(** ** The page of a device *)

Section Device.
Context `{BuildEnv} (id : string).

(** Nothing on this page is keyed. *)
Lemma action_button_well_formed a : well_formed (action_button a).
Proof. destruct a as [action running]. unfold action_button, node, div, str. auto 40 with wf. Qed.

Lemma task_row_well_formed i task : well_formed (task_row i task).
Proof.
  unfold task_row, node, div, str. destruct (task_selected task), (truthy_str _); auto 50 with wf.
Qed.

Lemma keyless_imap {A T} (f : nat -> A -> html T) l : (forall i a, key_of (f i a) = None) -> keyless (imap f l).
Proof. intros Hf. apply Forall_lookup. intros i x (a & _ & ->)%list_lookup_imap_Some. apply Hf. Qed.

Lemma well_formed_imap {A T} (f : nat -> A -> html T) l :
  (forall i a, well_formed (f i a)) -> Forall well_formed (imap f l).
Proof. intros Hf. apply Forall_lookup. intros i x (a & _ & ->)%list_lookup_imap_Some. apply Hf. Qed.

Lemma action_log_well_formed s log :
  action_log s = Done log -> Forall well_formed log /\ keyless log.
Proof.
  unfold action_log. destruct (negb _); [intros [= <-]; repeat constructor|].
  destruct (view l_device s) as [device|]; [|done]. intros [= <-].
  assert (Hrows : well_formed (node "tbody" (imap task_row (view l_tasks s)))).
  { apply well_formed_keyless; [done|now apply keyless_imap|]. apply well_formed_imap, task_row_well_formed. }
  unfold log_buttons, BlurPanel, keyless. set (rows := node "tbody" _) in *.
  unfold node, div, p, button, leaf, str. split; auto 60 with wf.
Qed.

Lemma keyless_when {T} b (l : list (html T)) : keyless l -> keyless (when b l).
Proof. destruct b; [done|constructor]. Qed.

Lemma title_bar_well_formed s : well_formed (title_bar id s) /\ key_of (title_bar id s) = None.
Proof. unfold title_bar. destruct (view l_device s); split; try done; apply TitleBar_well_formed. Qed.

Lemma actions_container_well_formed s : Forall well_formed (actions_container s) /\ keyless (actions_container s).
Proof.
  unfold actions_container. assert (well_formed (div "actions-container" (map action_button (view l_actions s)))).
  { apply well_formed_keyless; [done| |]; apply Forall_map_all; intros a.
    - now destruct a.
    - apply action_button_well_formed. }
  split; [|apply keyless_when]; auto 20 with wf.
Qed.

Lemma download_container_well_formed s : Forall well_formed (download_container s) /\ keyless (download_container s).
Proof.
  unfold download_container, p, button, leaf, node, div, str. split; [|apply keyless_when]; auto 60 with wf.
Qed.

Lemma terminal_container_well_formed s : Forall well_formed (terminal_container s) /\ keyless (terminal_container s).
Proof.
  unfold terminal_container, leaf, div, str. split; [|apply keyless_when]; auto 60 with wf.
Qed.

Lemma block_well_formed title (kids : list (html device_handler)) :
  Forall well_formed kids -> keyless kids -> well_formed (DeviceView.block title kids).
Proof.
  intros Hw Hk. unfold DeviceView.block, p. apply well_formed_keyless; [done| |]; constructor; auto.
  unfold str. auto 20 with wf.
Qed.

Lemma code_block_well_formed c t : well_formed (H := device_handler) (code_block c t).
Proof. unfold code_block, node. auto 20 with wf. Qed.

#[local] Hint Resolve block_well_formed code_block_well_formed : wf.

Lemma details_groups_well_formed s device : well_formed (El "p" [cls "value"] [] (details_groups s device)).
Proof.
  unfold details_groups, node, str. apply well_formed_keyless; [done| |]; apply Forall_app_2; auto 40 with wf.
Qed.

Lemma details_well_formed s : Forall well_formed (details s) /\ keyless (details s).
Proof.
  unfold details. destruct (view l_device s) as [device|]; [|split; constructor].
  pose proof (details_groups_well_formed s device) as Hg. set (groups := El "p" _ _ _) in *.
  assert (Ht : well_formed (El "div" [id_ "tags"] [] (map (fun tag : string => node "div" [code_block "small" (TStr tag)])
    (view l_tags s)))).
  { apply well_formed_keyless; [done| |]; apply Forall_map_all; intros t; [done|]. unfold node. auto 20 with wf. }
  set (tags := El "div" [id_ "tags"] [] _) in *.
  split; [|repeat constructor]. constructor; [|constructor].
  apply well_formed_keyless; [done| |]; unfold keyless, p, str, node; auto 60 with wf.
Qed.

Lemma device_page_well_formed s page : Device_template id s = Done page -> Forall well_formed page.
Proof.
  unfold Device_template. destruct (negb _); [intros [= <-]; constructor|].
  destruct (action_log s) as [log|] eqn:Hl; [|done]. intros [= <-].
  destruct (title_bar_well_formed s), (actions_container_well_formed s), (action_log_well_formed s log Hl),
    (download_container_well_formed s), (terminal_container_well_formed s), (details_well_formed s).
  constructor; [|constructor].
  apply well_formed_keyless; [done| |]; (constructor; [done|]); repeat apply Forall_app_2; assumption.
Qed.
End Device.

(** ** All pages *)

Section Pages.
Context `{BuildEnv} `{JsonParser} `{Collation}.

(** C29: what the pages render is well formed, whatever is open on them: all keyed
    siblings have distinct keys, and no void element has children. The groups page
    needs distinct identifiers of the loaded groups, of their packages and devices
    and of the rows of its popup, and no version that is the text [undefined], which
    stands for a missing one in the identifiers of the policies; the packages page
    needs distinct identifiers of the packages, the devices page those of the devices
    that are shown and the addresses of the unregistered ones; the page of a device,
    where nothing is keyed, needs nothing. The last two may raise instead. *)
Theorem pages_well_formed (g : world GroupsList) st (pk : world PackagesList) tag (ds : world DevicesList)
    devices id (d : world DevicePage) device :
  keys_ok g ->
  NoDup (map pkg_id (default [] (resources (view (at_app l_pm_packages) pk)))) ->
  NoDup (map dev_id (default [] (shown_devices tag ds))) ->
  NoDup (map pd_mac_address (default [] (resources (view (at_app l_dm_pending) ds)))) ->
  DevicesList_template tag ds = Done devices -> Device_template id d = Done device ->
  Forall well_formed (GroupsList_template g st) /\ Forall well_formed (PackagesList_template pk) /\
  Forall well_formed devices /\ Forall well_formed device.
Proof.
  intros Hg Hpk Hr Hp Hds Hd. split_and!.
  - now apply groups_page_well_formed.
  - now apply packages_page_well_formed.
  - exact (devices_page_well_formed tag ds devices Hr Hp Hds).
  - exact (device_page_well_formed id d device Hd).
Qed.
End Pages.

(** ** The pages at concrete inputs *)

#[local] Existing Instance sample_env.
#[local] Existing Instance subject_parser.
#[local] Existing Instance sample_collation.

Definition listed_packages : world PackagesList := view l_page (PackagesPage.initial_page loaded_packages).
Definition listed_devices : world DevicesList := DevicesPage.initial_page loaded_devices.
Definition shown_device : world DevicePage := view l_page updatable_device.

(** The popup of a group, a list with a package, two devices in a list, and the page
    of one of them. *)
Lemma pages_well_formed_witness :
  exists devices device,
    DevicesList_template None listed_devices = Done devices /\
    Device_template "7" shown_device = Done device /\
    Forall well_formed (GroupsList_template configured_page (MkSimpleDropdown true None)) /\
    Forall well_formed (PackagesList_template listed_packages) /\
    Forall well_formed devices /\ Forall well_formed device.
Proof.
  destruct (DevicesList_template None listed_devices) as [devices|] eqn:Hds; [|vm_compute in Hds; discriminate].
  destruct (Device_template "7" shown_device) as [device|] eqn:Hd; [|vm_compute in Hd; discriminate].
  exists devices, device. split; [done|]. split; [done|].
  apply (pages_well_formed configured_page (MkSimpleDropdown true None) listed_packages None listed_devices
    devices "7" shown_device device configured_page_ok); [..|exact Hds|exact Hd];
    apply (bool_decide_unpack _); vm_compute; exact I.
Defined.
