(* ===== verification/HomeView.v ===== *)
(** * [views/HomeView.vue]: the frame of the application

    The user menu (roles and their colours), the permissions of the session, and
    the device updates the server streams. *)

From S2P Require Import Prelude Json Http Async App Utils Fetch Polling Notifications Jwt Uri Samples Groups.
From Stdlib Require Import Ascii.
From stdpp Require Import base tactics list gmap strings pretty.
#[local] Open Scope Z_scope.

(** ** [stringToColour] *)

(** The hash of a text, given by its UTF-16 code units ([charCodeAt]). Every
    intermediate value is far below [2^53], so numbers are exact. *)
Definition colour_max : Z := 16777215.  (* 0xffffff *)

Definition colour_step (hash unit : Z) : Z := (2 * hash + unit * 3 + 3) mod colour_max.

Definition colour_hash (units : list Z) : Z := fold_left colour_step units 0.

Definition hex_char (d : Z) : ascii :=
  ascii_of_nat (Z.to_nat (if d <? 10 then d + 48 else d + 87)).

(** [n.toString(16)]; the fuel bounds the number of digits. *)
Fixpoint hex_digits (fuel : nat) (n : Z) : list ascii :=
  match fuel with
  | O => []
  | S fuel => if n <? 16 then [hex_char n] else hex_digits fuel (n / 16) ++ [hex_char (n mod 16)]
  end.

(** [s.padStart(width, c)] *)
Definition padStart (width : nat) (c : ascii) (l : list ascii) : list ascii :=
  replicate (width - length l) c ++ l.

Definition stringToColour (units : list Z) : string :=
  "#" +:+ String.string_of_list_ascii
    (padStart 6 (ascii_of_nat 48) (hex_digits 16 (colour_hash units))).

(** ** Session and roles *)

Record UserRole : Type := MkUserRole { role_name : string; role_colour : string }.

(** The code units of a text of ASCII characters. *)
Definition code_units (s : string) : list Z := map code (String.list_ascii_of_string s).

Definition string_order (a b : string) : Z :=
  match String.compare a b with Lt => -1 | Eq => 0 | Gt => 1 end.

(** The roles of the realm that concern RDFM, in order. *)
Definition rdfm_roles (c : Claims) : option (list string) :=
  option_map (fun roles => sort_defined string_order (js_filter (String.prefix "rdfm") roles))
    (claim_realm_roles c).

Record HomeView : Type := MkHomeView {
  loggedIn : bool;
  accMenuOpen : bool;
}.

Definition l_loggedIn : lens (world HomeView) bool.
Proof.
  refine (lens_comp local_state (Lens loggedIn (fun x s => MkHomeView x (accMenuOpen s)) _ _ _));
    lens_laws.
Defined.

Definition l_accMenuOpen : lens (world HomeView) bool.
Proof.
  refine (lens_comp local_state (Lens accMenuOpen (fun x s => MkHomeView (loggedIn s) x) _ _ _));
    lens_laws.
Defined.

(** A message of the event stream. *)
Record UpdateMessage : Type := MkUpdateMessage {
  um_device : string;
  um_version : option string;
  um_progress : option Z;
}.

Section Home.
Context `{BuildEnv} `{JsonParser}.

Abbreviation W := (world HomeView).

(** The token is only read while the user is logged in. *)
Definition parsedToken (s : W) : outcome (option Claims) :=
  if view l_loggedIn s then
    match token s with
    | Some t => match parseJWT t with Done c => Done (Some c) | Raised e => Raised e end
    | None => Done None
    end
  else Done None.

Definition userName (s : W) : outcome (option string) :=
  match parsedToken s with
  | Done (Some c) => Done (claim_preferred_username c)
  | Done None => Done None
  | Raised e => Raised e
  end.

(** Without the claim [realm_access] its property [roles] cannot be read. *)
Definition userRoles (s : W) : outcome (option (list UserRole)) :=
  match parsedToken s with
  | Done (Some c) =>
      match rdfm_roles c with
      | Some roles =>
          Done (Some (map (fun r => MkUserRole r (stringToColour (code_units r))) roles))
      | None => Raised TypeError
      end
  | Done None => Done None
  | Raised e => Raised e
  end.

(** The watcher of [userRoles]: the roles are stored, and the permissions of the
    user requested; that promise is not awaited. *)
Definition userRoles_changed (newValue : option (list UserRole)) : js W unit :=
  match newValue with
  | None => jthrow TypeError
  | Some roles =>
      assign (at_app l_adminRoles) (map role_name roles) ;;;
      detach (let* response := fetchGET DPermissions PERMISSIONS_ENDPOINT in
              match f_data response with
              | None => jthrow TypeError
              | Some [] => assign (at_app l_permissions) []
              | Some data =>
                  let* parsed := ask parsedToken in
                  let* parsed := jlift parsed in
                  match parsed with
                  | None => jthrow TypeError
                  | Some c => assign (at_app l_permissions) (own_permissions c data)
                  end
              end) (jret tt)
  end.

Definition loggedIn_changed (newValue : bool) : js W unit :=
  if negb newValue then assign (at_app l_href) LOGIN_PATH else jret tt.

Definition home_mounted : js W unit :=
  let* storage := read (at_app l_storage) in
  match storage !! "access_token" with
  | Some _ => assign l_loggedIn true
  | None => assign (at_app l_href) LOGIN_PATH
  end.
End Home.

(** ** The event stream *)

Section Stream.
Context {S : Type} `{HasApp S}.

Definition device_headline (device : string) : string := "Device " +:+ device.

(** The listener of [update]. *)
Definition sse_update (m : UpdateMessage) : js S unit :=
  let device := um_device m in
  let* updates := read (at_app l_deviceUpdates) in
  let* versions := read (at_app l_deviceVersions) in
  (if negb (bool_decide (is_Some (updates !! device))) &&
      negb (bool_decide (is_Some (versions !! device)))
   then notifySuccess (device_headline device) (Some "Device update started") else jret tt) ;;;
  (let* versions := read (at_app l_deviceVersions) in
   if truthy_str (um_version m) && negb (bool_decide (is_Some (versions !! device)))
   then update (at_app l_deviceVersions) (<[device := default "" (um_version m)]>) else jret tt) ;;;
  (if truthy_num (um_progress m)
   then update (at_app l_deviceUpdates) (<[device := default 0 (um_progress m)]>) else jret tt) ;;;
  let* updates := read (at_app l_deviceUpdates) in
  if bool_decide (updates !! device = Some 100) then
    notifySuccess (device_headline device) (Some "Device update finished") ;;;
    update (at_app l_deviceUpdates) (delete device) ;;;
    update (at_app l_deviceVersions) (delete device)
  else jret tt.

(** The listeners of [connect] and [disconnect]. *)
Definition sse_connect (device : string) : js S unit :=
  update (at_app l_deviceConnections) (<[device := true]>).
Definition sse_disconnect (device : string) : js S unit :=
  update (at_app l_deviceConnections) (<[device := false]>).
End Stream.
