(* ===== verification/HomeSpec.v ===== *)
(** * Colours of roles and tracking of device updates *)

From S2P Require Import Prelude Json Http Async App Utils Fetch Polling Notifications Jwt Uri Samples Groups HomeView.
From Stdlib Require Import Ascii.
From stdpp Require Import base tactics list gmap strings pretty.
#[local] Open Scope Z_scope.

(** ** Colours *)

Definition is_hex_char (c : ascii) : bool :=
  ((48 <=? code c) && (code c <=? 57)) || ((97 <=? code c) && (code c <=? 102)).

(** The number a hexadecimal text stands for. *)
Definition hex_number (l : list ascii) : Z :=
  fold_left (fun acc c => acc * 16 + default 0 (hex_value c)) l 0.

Lemma colour_hash_range units : Forall (fun u => 0 <= u) units -> 0 <= colour_hash units < colour_max.
Proof.
  unfold colour_hash. assert (Hgen : forall h, 0 <= h < colour_max ->
    Forall (fun u => 0 <= u) units -> 0 <= fold_left colour_step units h < colour_max).
  { induction units as [|u units IH]; cbn; intros h Hh Hu; [done|].
    inversion Hu; subst. apply IH; [|done]. apply Z.mod_pos_bound. done. }
  apply Hgen. unfold colour_max. lia.
Qed.

Lemma hex_char_value d : 0 <= d < 16 -> hex_value (hex_char d) = Some d /\ is_hex_char (hex_char d) = true.
Proof.
  intros Hd. assert (In (Z.to_nat d) (seq 0 16)) as Hin by (apply in_seq; lia).
  rewrite <- (Z2Nat.id d) by lia. revert Hin. generalize (Z.to_nat d).
  apply (proj1 (List.Forall_forall (fun n => hex_value (hex_char (Z.of_nat n)) = Some (Z.of_nat n) /\
    is_hex_char (hex_char (Z.of_nat n)) = true) (seq 0 16))).
  repeat constructor.
Qed.

Lemma hex_number_app l m : hex_number (l ++ m) = fold_left (fun acc c => acc * 16 + default 0 (hex_value c)) m (hex_number l).
Proof. unfold hex_number. apply fold_left_app. Qed.

Lemma hex_digits_spec fuel n :
  0 <= n < 16 ^ Z.of_nat fuel -> (0 < fuel)%nat ->
  hex_number (hex_digits fuel n) = n /\ Forall (fun c => is_hex_char c = true) (hex_digits fuel n) /\
  (1 <= length (hex_digits fuel n) <= fuel)%nat.
Proof.
  revert n. induction fuel as [|fuel IH]; intros n Hn Hf; [lia|]. cbn [hex_digits].
  destruct (n <? 16) eqn:E; reflect_bools.
  - destruct (hex_char_value n ltac:(lia)) as [Hv Hc]. cbn. rewrite Hv. cbn.
    split; [lia|]. split; [by constructor|lia].
  - rewrite Nat2Z.inj_succ, Z.pow_succ_r in Hn by lia.
    destruct (Nat.eq_dec fuel 0%nat) as [->|Hf0]; [cbn in Hn; lia|].
    destruct (IH (n / 16)) as (Hnum & Hall & Hlen); [|lia|].
    { split; [apply Z.div_pos; lia|apply Z.div_lt_upper_bound; lia]. }
    destruct (hex_char_value (n mod 16) ltac:(apply Z.mod_pos_bound; lia)) as [Hv Hc].
    rewrite hex_number_app, Hnum, length_app. cbn [fold_left length]. rewrite Hv. cbn [default].
    split; [|split; [|lia]].
    + pose proof (Z.div_mod n 16). cbn. lia.
    + apply Forall_app. auto.
Qed.

(** A number below [16^k] needs at most [k] digits. *)
Lemma hex_digits_length fuel n k :
  0 <= n < 16 ^ Z.of_nat k -> (0 < k <= fuel)%nat -> (length (hex_digits fuel n) <= k)%nat.
Proof.
  revert n k. induction fuel as [|fuel IH]; intros n k Hn Hk; [lia|]. cbn [hex_digits].
  destruct (n <? 16) eqn:E; reflect_bools; [cbn; lia|].
  destruct k as [|k]; [lia|]. rewrite Nat2Z.inj_succ, Z.pow_succ_r in Hn by lia.
  destruct (Nat.eq_dec k 0%nat) as [->|Hk0]; [cbn in Hn; lia|].
  rewrite length_app. cbn. specialize (IH (n / 16) k). enough (length (hex_digits fuel (n / 16)) <= k)%nat by lia.
  apply IH; [|lia]. split; [apply Z.div_pos; lia|apply Z.div_lt_upper_bound; lia].
Qed.

Lemma hex_number_pad l k : hex_number (replicate k (ascii_of_nat 48) ++ l) = hex_number l.
Proof.
  rewrite <- (rev_involutive l). unfold hex_number. induction k as [|k IH]; [done|].
  cbn [replicate app fold_left]. exact IH.
Qed.

(** C33: every text has a CSS colour: [#] and exactly six hexadecimal digits,
    which are the hash of the text; the hash never leaves the range of colours. *)
Theorem stringToColour_valid units :
  Forall (fun u => 0 <= u) units ->
  exists digits,
    stringToColour units = "#" +:+ String.string_of_list_ascii digits /\
    length digits = 6%nat /\ Forall (fun c => is_hex_char c = true) digits /\
    hex_number digits = colour_hash units /\ 0 <= colour_hash units < colour_max.
Proof.
  intros Hu. pose proof (colour_hash_range units Hu) as Hr. unfold colour_max in Hr.
  destruct (hex_digits_spec 16 (colour_hash units)) as (Hnum & Hall & _); [lia|lia|].
  assert (Hlen : (length (hex_digits 16 (colour_hash units)) <= 6)%nat)
    by (apply hex_digits_length; lia).
  eexists. split; [reflexivity|]. unfold padStart. split; [|split; [|split]].
  - rewrite length_app, length_replicate. lia.
  - apply Forall_app. split; [|done]. apply Forall_replicate. reflexivity.
  - now rewrite hex_number_pad.
  - unfold colour_max. lia.
Qed.

Lemma stringToColour_valid_witness :
  exists digits, stringToColour (code_units "rdfm_admin_rw") = "#" +:+ String.string_of_list_ascii digits /\
    length digits = 6%nat /\ Forall (fun c => is_hex_char c = true) digits /\
    hex_number digits = colour_hash (code_units "rdfm_admin_rw") /\
    0 <= colour_hash (code_units "rdfm_admin_rw") < colour_max.
Proof.
  refine (stringToColour_valid (code_units "rdfm_admin_rw") _).
  repeat (apply Forall_cons_2; [vm_compute; discriminate|]). apply Forall_nil_2.
Defined.

(** ** Device updates *)

(** What the stream announces to the user. *)
Inductive notice : Type := Started (device : string) | Finished (device : string).

#[export] Instance notice_eq_dec : EqDecision notice.
Proof. solve_decision. Defined.

Definition notice_toast (x : notice) : toast :=
  match x with
  | Started d => ToastSuccess (buildHTML (device_headline d) (Some "Device update started"))
  | Finished d => ToastSuccess (buildHTML (device_headline d) (Some "Device update finished"))
  end.

(** The maps [deviceUpdates] and [deviceVersions]. *)
Record tracking : Type := MkTracking {
  tr_updates : gmap string Z;
  tr_versions : gmap string string;
}.

Definition tracked (d : string) (t : tracking) : bool :=
  bool_decide (is_Some (tr_updates t !! d)) || bool_decide (is_Some (tr_versions t !! d)).

(** One message, as a transition of the two maps that emits notices. *)
Definition record_message (m : UpdateMessage) (t : tracking) : tracking :=
  let d := um_device m in
  MkTracking
    (if truthy_num (um_progress m) then <[d := default 0 (um_progress m)]> (tr_updates t)
     else tr_updates t)
    (if truthy_str (um_version m) && negb (bool_decide (is_Some (tr_versions t !! d)))
     then <[d := default "" (um_version m)]> (tr_versions t) else tr_versions t).

Definition stream_step (m : UpdateMessage) (t : tracking) : tracking * list notice :=
  let d := um_device m in
  let started := if tracked d t then [] else [Started d] in
  let t1 := record_message m t in
  if bool_decide (tr_updates t1 !! d = Some 100)
  then (MkTracking (delete d (tr_updates t1)) (delete d (tr_versions t1)), started ++ [Finished d])
  else (t1, started).

Fixpoint stream_run (ms : list UpdateMessage) (t : tracking) : tracking * list notice :=
  match ms with
  | [] => (t, [])
  | m :: ms =>
      let (t1, ns) := stream_step m t in
      let (t2, ns') := stream_run ms t1 in
      (t2, ns ++ ns')
  end.

Definition tracking_of (a : App) : tracking :=
  MkTracking (view l_deviceUpdates a) (view l_deviceVersions a).

(** The module state after a transition. *)
Definition tracking_done (t : tracking) (ns : list notice) (a : App) : App :=
  put l_toasts (foldl (fun ts x => enqueue (notice_toast x) ts) (view l_toasts a) ns)
    (put l_deviceVersions (tr_versions t) (put l_deviceUpdates (tr_updates t) a)).

Lemma sse_update_run m (srv : server) n (a : App) :
  let (t, ns) := stream_step m (tracking_of a) in
  run srv (sse_update m) n a = (Done tt, tracking_done t ns a, n).
Proof.
  destruct a as [b ts acc g p [dp dr dg ups vers conns acts]].
  unfold sse_update, stream_step, record_message, tracked, tracking_of, tracking_done,
    notifySuccess, over, at_app. cbn.
  destruct (bool_decide (is_Some (ups !! um_device m))) eqn:Eu,
    (bool_decide (is_Some (vers !! um_device m))) eqn:Ev; cbn; rewrite ?Ev;
    destruct (truthy_str (um_version m)); cbn; rewrite ?Ev; cbn;
    destruct (truthy_num (um_progress m)); cbn;
    destruct (bool_decide (_ = Some 100)); reflexivity.
Qed.

(** C34: a message of the event stream takes the transition of the two maps and
    shows exactly the notices it emits, in order. *)
Theorem sse_update_refines m (srv : server) n (a : App) :
  let (t, ns) := stream_step m (tracking_of a) in
  run srv (sse_update m) n a = (Done tt, tracking_done t ns a, n).
Proof. exact (sse_update_run m srv n a). Qed.

(** The listener, called with the messages of the stream one after the other. *)
Fixpoint on_updates (ms : list UpdateMessage) : js App unit :=
  match ms with
  | [] => jret tt
  | m :: ms => sse_update m ;;; on_updates ms
  end.

Lemma tracking_of_done t ns a : tracking_of (tracking_done t ns a) = t.
Proof. now destruct a, t. Qed.

Lemma tracking_done_done t ns t' ns' a :
  tracking_done t' ns' (tracking_done t ns a) = tracking_done t' (ns ++ ns') a.
Proof. destruct a as [b ts acc g p []]. unfold tracking_done. cbn. now rewrite foldl_app. Qed.

Lemma on_updates_run ms (srv : server) n (a : App) :
  let (t, ns) := stream_run ms (tracking_of a) in
  run srv (on_updates ms) n a = (Done tt, tracking_done t ns a, n).
Proof.
  revert a. induction ms as [|m ms IH]; intros a; cbn [stream_run on_updates].
  - destruct a as [b ts acc g p []]. reflexivity.
  - pose proof (sse_update_run m srv n a) as Hm. destruct (stream_step m (tracking_of a)) as [t1 ns1].
    specialize (IH (tracking_done t1 ns1 a)). rewrite tracking_of_done in IH.
    destruct (stream_run ms t1) as [t2 ns2]. rewrite run_jbind, Hm, IH. now rewrite tracking_done_done.
Qed.

(** ** Starts and finishes *)

(** A message that says something: the server reports a version or a progress. *)
Definition informative (m : UpdateMessage) : bool :=
  truthy_str (um_version m) || truthy_num (um_progress m).

Definition starts (d : string) (ns : list notice) : nat :=
  length (js_filter (fun x => bool_decide (x = Started d)) ns).
Definition finishes (d : string) (ns : list notice) : nat :=
  length (js_filter (fun x => bool_decide (x = Finished d)) ns).

Lemma starts_app d l m : starts d (l ++ m) = (starts d l + starts d m)%nat.
Proof. unfold starts, js_filter. now rewrite List.filter_app, length_app. Qed.
Lemma finishes_app d l m : finishes d (l ++ m) = (finishes d l + finishes d m)%nat.
Proof. unfold finishes, js_filter. now rewrite List.filter_app, length_app. Qed.

(** Recorded progress is neither missing nor complete. *)
Definition progress_ok (t : tracking) : Prop :=
  forall d p, tr_updates t !! d = Some p -> p <> 0 /\ p <> 100.

Definition balance (d : string) (t : tracking) : nat := if tracked d t then 1 else 0.

Lemma tracked_record_other d m t : d <> um_device m -> tracked d (record_message m t) = tracked d t.
Proof.
  intros Hd. unfold tracked, record_message. cbn [tr_updates tr_versions].
  destruct (truthy_num _), (_ && _); rewrite ?lookup_insert_ne by congruence; reflexivity.
Qed.

Lemma tracked_record m t : informative m = true -> tracked (um_device m) (record_message m t) = true.
Proof.
  unfold informative, tracked, record_message. cbn [tr_updates tr_versions].
  intros Hm. destruct (truthy_num (um_progress m)).
  - rewrite lookup_insert_eq. apply orb_true_iff. left. now apply bool_decide_eq_true_2.
  - rewrite orb_false_r in Hm. rewrite Hm. cbn [andb]. apply orb_true_iff. right.
    destruct (bool_decide (is_Some (tr_versions t !! um_device m))) eqn:Hv; cbn [negb]; [exact Hv|].
    rewrite lookup_insert_eq. now apply bool_decide_eq_true_2.
Qed.

Lemma balance_delete d d0 t :
  balance d (MkTracking (delete d0 (tr_updates t)) (delete d0 (tr_versions t))) =
  if String.eqb d d0 then 0%nat else balance d t.
Proof.
  unfold balance, tracked. cbn [tr_updates tr_versions].
  destruct (String.eqb_spec d d0) as [->|Hne].
  - now rewrite !lookup_delete_eq.
  - now rewrite !lookup_delete_ne by congruence.
Qed.

Lemma balance_other d m t : d <> um_device m -> balance d (record_message m t) = balance d t.
Proof. intros Hd. unfold balance. now rewrite tracked_record_other. Qed.

Lemma stream_step_balance d m t t' ns :
  informative m = true -> stream_step m t = (t', ns) ->
  (starts d ns + balance d t = finishes d ns + balance d t')%nat.
Proof.
  intros Hm Hs. unfold stream_step in Hs.
  set (started := if tracked (um_device m) t then [] else [Started (um_device m)]) in Hs.
  assert (Hstart : (starts d started + balance d t = if String.eqb d (um_device m) then 1 else balance d t)%nat
    /\ finishes d started = 0%nat).
  { unfold started, balance. destruct (String.eqb_spec d (um_device m)) as [->|Hne].
    - destruct (tracked (um_device m) t); [auto|]. unfold starts, finishes. cbn.
      now rewrite bool_decide_eq_true_2.
    - destruct (tracked (um_device m) t); [auto|]. unfold starts, finishes. cbn.
      now rewrite bool_decide_eq_false_2 by congruence. }
  destruct Hstart as [Hst Hfin].
  destruct (bool_decide _); apply pair_equal_spec in Hs as [<- <-].
  - rewrite starts_app, finishes_app, Hfin.
    assert (Hs0 : starts d [Finished (um_device m)] = 0%nat) by (unfold starts; cbn; now rewrite bool_decide_eq_false_2).
    rewrite Hs0, balance_delete. unfold finishes. cbn.
    destruct (String.eqb_spec d (um_device m)) as [->|Hne].
    + rewrite bool_decide_eq_true_2 by done. cbn. lia.
    + rewrite bool_decide_eq_false_2 by congruence. cbn. rewrite balance_other by done. lia.
  - rewrite Hfin. destruct (String.eqb_spec d (um_device m)) as [->|Hne].
    + unfold balance at 2. rewrite tracked_record by done. lia.
    + rewrite balance_other by done. lia.
Qed.

Lemma stream_step_progress m t t' ns :
  progress_ok t -> stream_step m t = (t', ns) -> progress_ok t'.
Proof.
  intros Ht Hs. unfold stream_step in Hs. 
  assert (Hrec : forall d p, tr_updates (record_message m t) !! d = Some p ->
    p <> 0 /\ (p = 100 -> d = um_device m)).
  { intros d p. unfold record_message. cbn [tr_updates]. destruct (um_progress m) as [q|]; cbn.
    - destruct (Z.eqb_spec q 0); cbn; [intros Hd; split; [now apply Ht in Hd|intros ->; now apply Ht in Hd]|].
      destruct (decide (d = um_device m)) as [->|Hne].
      + rewrite lookup_insert_eq. intros [= <-]. auto.
      + rewrite lookup_insert_ne by done. intros Hd. split; [now apply Ht in Hd|].
        intros ->. now apply Ht in Hd.
    - intros Hd. split; [now apply Ht in Hd|]. intros ->. now apply Ht in Hd. }
  destruct (bool_decide _) eqn:E; injection Hs as <- _; intros d p Hd; cbn [tr_updates] in Hd.
  - destruct (decide (d = um_device m)) as [->|Hne]; [now rewrite lookup_delete_eq in Hd|].
    rewrite lookup_delete_ne in Hd by done. apply Hrec in Hd as [H0 H1]. split; [done|]. intros ->. auto.
  - apply bool_decide_eq_false in E. pose proof (Hrec d p Hd) as [H0 H1]. split; [done|].
    intros ->. rewrite (H1 eq_refl) in Hd. done.
Qed.

Lemma stream_run_balance ms t t' ns :
  Forall (fun m => informative m = true) ms -> progress_ok t -> stream_run ms t = (t', ns) ->
  progress_ok t' /\ forall d, (starts d ns + balance d t = finishes d ns + balance d t')%nat.
Proof.
  revert t t' ns. induction ms as [|m ms IH]; cbn; intros t t' ns Hms Ht Hrun.
  - injection Hrun as <- <-. auto.
  - inversion Hms; subst. destruct (stream_step m t) as [t1 ns1] eqn:E1.
    destruct (stream_run ms t1) as [t2 ns2] eqn:E2. injection Hrun as <- <-.
    destruct (IH t1 t2 ns2) as [Hok Hbal]; [done|exact (stream_step_progress m t t1 ns1 Ht E1)|done|].
    split; [done|]. intros d. specialize (Hbal d).
    pose proof (stream_step_balance d m t t1 ns1 ltac:(done) E1).
    rewrite starts_app, finishes_app. lia.
Qed.

(** C35: handling any stream of informative messages announces updates in pairs. The
    listener sends nothing and never raises; it changes only the two maps and the
    notifications, which are those of a list [ns] of announcements, in order; for every
    device the starts among them, plus one if the device was tracked before, are as many
    as the finishes, plus one if it is tracked afterwards. Recorded progress stays
    neither zero nor complete, so that a device whose update is complete is not tracked
    any more. *)
Theorem stream_balanced ms (srv : server) n (a : App) :
  Forall (fun m => informative m = true) ms -> progress_ok (tracking_of a) ->
  exists ns a', run srv (on_updates ms) n a = (Done tt, a', n) /\
    view l_toasts a' = foldl (fun ts x => enqueue (notice_toast x) ts) (view l_toasts a) ns /\
    a' = put l_toasts (view l_toasts a') (put l_deviceVersions (view l_deviceVersions a')
           (put l_deviceUpdates (view l_deviceUpdates a') a)) /\
    progress_ok (tracking_of a') /\
    forall d, (starts d ns + balance d (tracking_of a) = finishes d ns + balance d (tracking_of a'))%nat.
Proof.
  intros Hms Ha. pose proof (on_updates_run ms srv n a) as Hrun.
  destruct (stream_run ms (tracking_of a)) as [t ns] eqn:E.
  destruct (stream_run_balance ms _ t ns Hms Ha E) as [Hok Hbal].
  exists ns, (tracking_done t ns a). rewrite tracking_of_done. now destruct a.
Qed.

(** Two devices, one of which finishes. *)
Lemma stream_balanced_witness :
  let ms := [MkUpdateMessage "a" (Some "v2") (Some 10); MkUpdateMessage "b" None (Some 5);
             MkUpdateMessage "a" (Some "v2") (Some 100)] in
  exists ns a', run accepting (on_updates ms) idle sample_state = (Done tt, a', idle) /\
    (starts "a" ns = finishes "a" ns)%nat /\ (starts "b" ns = finishes "b" ns + 1)%nat.
Proof.
  intros ms. destruct (stream_balanced ms accepting idle sample_state) as (ns & a' & Hrun & _ & _ & _ & Hbal).
  - repeat constructor.
  - intros d p Hd. vm_compute in Hd. discriminate.
  - exists ns, a'. split; [exact Hrun|]. pose proof (Hbal "a") as Hb1. pose proof (Hbal "b") as Hb2.
    assert (Ha : a' = (run accepting (on_updates ms) idle sample_state).1.2) by now rewrite Hrun.
    replace (balance "a" (tracking_of sample_state)) with 0%nat in Hb1 by (vm_compute; reflexivity).
    replace (balance "b" (tracking_of sample_state)) with 0%nat in Hb2 by (vm_compute; reflexivity).
    replace (balance "a" (tracking_of a')) with 0%nat in Hb1 by (rewrite Ha; vm_compute; reflexivity).
    replace (balance "b" (tracking_of a')) with 1%nat in Hb2 by (rewrite Ha; vm_compute; reflexivity).
    lia.
Defined.
