(* ===== verification/HomeTemplate.v ===== *)
(** * The routes and the template of [views/HomeView.vue]

    The pages of the application are shown by the home view, below its bar with the
    menu of the account and the tabs. Matching a path with the routes is the router
    library's part; here a route is given by its record. *)

From S2P Require Import Prelude Json Http Async App Html Utils Fetch Polling Notifications Jwt Samples HomeView.
From stdpp Require Import base tactics list gmap strings pretty.
#[local] Open Scope Z_scope.

(** ** Tabs and routes *)

Inductive ActiveTab : Type := TabDevice | TabDevices | TabPackages | TabGroups.

#[export] Instance ActiveTab_eq_dec : EqDecision ActiveTab.
Proof. solve_decision. Defined.

Definition tab_name (t : ActiveTab) : string :=
  match t with
  | TabDevice => "device" | TabDevices => "devices" | TabPackages => "packages" | TabGroups => "groups"
  end.

Definition SECTIONS : list ActiveTab := [TabDevices; TabPackages; TabGroups].

Inductive route_component : Type := HomeViewComponent | LoginHandler | LogoutHandler.

Record RouteRecord : Type := MkRouteRecord {
  rt_path : string;
  rt_name : option string;
  rt_redirect : option string;
  rt_component : option route_component;
  rt_activeTab : option ActiveTab;
  rt_tag : bool;                       (* the property [tag] is [route.params.tag] *)
}.

Definition routes : list RouteRecord :=
  [MkRouteRecord "/" None (Some "/groups") None None false] ++
  map (fun activeTab => MkRouteRecord ("/" +:+ tab_name activeTab) (Some (tab_name activeTab)) None
         (Some HomeViewComponent) (Some activeTab) false) SECTIONS ++
  [MkRouteRecord "/devices/:id" (Some (tab_name TabDevice)) None (Some HomeViewComponent)
     (Some TabDevice) false;
   MkRouteRecord "/devices/tag/:tag" (Some (tab_name TabDevices +:+ " with tag")) None
     (Some HomeViewComponent) (Some TabDevices) true;
   MkRouteRecord "/auth_data" (Some "login") None (Some LoginHandler) None false;
   MkRouteRecord "/logout" (Some "logout") None (Some LogoutHandler) None false].

(** ** The template *)

Inductive home_handler : Type :=
| HMenu (open : bool)
| HSection (tab : ActiveTab).

(** A page inside the home view, as far as the view hears of it: the listeners of the
    page run processes of the page, but their modifiers decide whether a click goes on. *)
Definition mute {P H} (l : listener P) : list (listener H) :=
  match l with OnClick mods _ => [OnClick mods None] | _ => [] end.

Fixpoint muted {P H} (t : html P) : html H :=
  match t with
  | Text c => Text c
  | El tag attrs on kids => El tag attrs (flat_map mute on) (map muted kids)
  end.

Section Template.
Context `{BuildEnv} `{JsonParser}.
(** [route.name], the property [tag], and what the page below the bar renders. *)
Context (route_name : string) (tag : option string) {P : Type} (inner : list (html P)).

Abbreviation W := (world HomeView).
Abbreviation tree := (html home_handler).

Definition id_attr (s : string) : string * content := ("id", TStr s).

(** [$refs.menu.contains(e.target)], for a target in the main element. *)
Definition in_menu (path : list nat) : bool :=
  match path with 0%nat :: 1%nat :: 0%nat :: _ => true | _ => false end.

Definition role_tag (r : UserRole) : tree :=
  El "div"
    [cls "tag"; ("style", TStr ("border: 1px solid" +:+ role_colour r +:+ "; color: " +:+ role_colour r))] []
    [str (role_name r)].

Definition account_menu (s : W) (user : option string) (roles : option (list UserRole)) : tree :=
  El "div" [cls "menu"; ("style", TStr (if view l_accMenuOpen s then "display: grid" else "display: none"))] []
    ([div "menu-section-header" [str "Account"];
      div "menu-row username"
        [node "span" [str "username:"]; node "span" [Text (t_opt user)]];
      El "a" [("href", TStr LOGOUT_PATH); cls "menu-row"] [] [str "Logout"; leaf "LogoutIcon"];
      div "menu-section-header" [str "Roles"]] ++
     map role_tag (default [] roles)).

(** The bar; its link to the login page is inside an element for users who are logged in. *)
Definition logobar (s : W) (user : option string) (roles : option (list UserRole)) : tree :=
  El "div" [id_attr "logobar"] []
    [El "Logo" [id_attr "logo"] [] [];
     El "div" [id_attr "settings"] []
       (when (negb (view l_loggedIn s))
          [El "a" [cls "action-button gray"; ("href", TStr LOGIN_PATH)] [] [str "Login"]] ++
        [El "div" [("style", TStr "position: relative")] []
           [El "img" [("src", TStr "../../public/assets/person.png")]
              [OnClick [] (Some (HMenu true))] [];
            account_menu s user roles]])].

(** [tab.startsWith(route.name)] *)
Definition active (tab : ActiveTab) : bool := String.prefix route_name (tab_name tab).

Definition navbar_item (tab : ActiveTab) : tree :=
  El "div" [cls (if active tab then "navbar-item active" else "navbar-item")]
    [OnClick [] (Some (HSection tab))] [str (tab_name tab)].

Definition navbar : tree := El "div" [id_attr "navbar"] [] (map navbar_item SECTIONS).

(** The page below the bar. *)
Definition named (tab : ActiveTab) : bool := String.eqb route_name (tab_name tab).

Definition component (name : string) (props : list (string * content)) : tree :=
  El name props [] (map muted inner).

Definition pages : list tree :=
  match tag with Some t => [component "DevicesList" [("tag", TStr t)]] | None => [] end ++
  when (named TabDevices) [component "DevicesList" []] ++
  when (named TabPackages) [component "PackagesList" []] ++
  when (named TabGroups) [component "GroupsList" []] ++
  when (named TabDevice) [component "Device" []].

Definition HomeView_template (s : W) : outcome (list tree) :=
  if negb (view l_loggedIn s) then Done []
  else match userName s, userRoles s with
  | Done user, Done roles =>
      Done [El "div" [id_attr "main"] [OnClickIn in_menu (HMenu true) (HMenu false)]
        ([logobar s user roles; navbar] ++ pages)]
  | Raised e, _ | _, Raised e => Raised e
  end.

Definition home_perform (h : home_handler) : js W unit :=
  match h with
  | HMenu open => assign l_accMenuOpen open
  | HSection tab => navigate ("/" +:+ tab_name tab)
  end.
End Template.

(** ** What the template shows *)

Section Shown.
Context {H : Type}.

Definition page_component (t : html H) : list string :=
  match t with
  | El tag _ _ _ => if includes tag ["DevicesList"; "PackagesList"; "GroupsList"; "Device"] then [tag] else []
  | Text _ => []
  end.

Definition active_tab (t : html H) : list content :=
  match t with
  | El _ [("class", TStr c)] _ [Text name] => if String.eqb c "navbar-item active" then [name] else []
  | _ => []
  end.

(** The pages below the bar, and the tabs that are marked. *)
Definition shown_pages (page : list (html H)) : list string :=
  gather page_component page.
Definition active_tabs (page : list (html H)) : list content :=
  gather active_tab page.
End Shown.

(** The component and the section of a tab. *)
Definition tab_component (t : ActiveTab) : string :=
  match t with
  | TabDevice => "Device" | TabDevices => "DevicesList" | TabPackages => "PackagesList" | TabGroups => "GroupsList"
  end.

Definition tab_section (t : ActiveTab) : ActiveTab :=
  match t with TabDevice => TabDevices | t => t end.

Section Spec.
Context `{BuildEnv} `{JsonParser}.

(** The bar contains neither pages nor tabs. *)
Lemma logobar_shown s user roles :
  shown_pages [logobar s user roles] = [] /\ active_tabs [logobar s user roles] = [].
Proof.
  unfold shown_pages, active_tabs, logobar, account_menu.
  set (tags := map role_tag _).
  assert (Hpages : gather page_component tags = []) by (now apply gather_map).
  assert (Htabs : gather active_tab tags = []) by (now apply gather_map).
  clearbody tags. destruct (view l_loggedIn s); gather_all; rewrite Hpages, Htabs; now cbn.
Qed.

(** C31: every route of the home view shows exactly one page, the component of its
    tab, and marks exactly one tab as active, the section of the page; only the
    route of the devices with a tag marks none. What the component renders in turn is
    left out here. *)
Theorem home_routes r activeTab tag (s : world HomeView) page :
  In r routes -> rt_component r = Some HomeViewComponent -> rt_activeTab r = Some activeTab ->
  (is_Some tag <-> rt_tag r = true) -> view l_loggedIn s = true ->
  HomeView_template (P := home_handler) (default "" (rt_name r)) tag [] s = Done page ->
  shown_pages page = [tab_component activeTab] /\
  active_tabs page = if rt_tag r then [] else [TStr (tab_name (tab_section activeTab))].
Proof.
  intros Hr Hc Ha Ht Hl Hp. unfold HomeView_template in Hp. rewrite Hl in Hp. cbn [negb] in Hp.
  destruct (userName s) as [user|]; [|done]. destruct (userRoles s) as [roles|]; [|done].
  injection Hp as <-. destruct (logobar_shown s user roles) as [Hpages Htabs].
  unfold shown_pages, active_tabs in *. rewrite !gather_el. cbn [app].
  rewrite (gather_cons page_component), (gather_cons active_tab), Hpages, Htabs. cbn [app].
  repeat (destruct Hr as [<-|Hr]; [cbn in Hc, Ha, Ht; try discriminate; injection Ha as <-|]);
    try contradiction; destruct tag; try (destruct Ht; naive_solver).
  all: split; reflexivity.
Qed.

(** *** Clicks *)

Lemma muted_disabled {P Q} tag attrs on kids :
  muted (P := P) (H := Q) (El tag attrs on kids) = El tag attrs (flat_map mute on) (map muted kids).
Proof. reflexivity. Qed.

Lemma lookup_map {A B} (f : A -> B) l i : map f l !! i = option_map f (l !! i).
Proof. exact (list_lookup_fmap f l i). Qed.

Lemma fire_muted {P Q} path (on : list (listener P)) :
  fire (H := Q) path (flat_map mute on) = ([], (fire path on).2).
Proof.
  unfold fire. f_equal; induction on as [|l on IH]; cbn [flat_map existsb]; try done.
  - rewrite flat_map_app, IH. now destruct l.
  - rewrite existsb_app, IH. destruct l; cbn; rewrite ?orb_false_r; reflexivity.
Qed.

(** A muted page runs nothing, and stops what the page stops. *)
Lemma bubble_muted {P Q} (t : html P) path :
  bubble (muted (H := Q) t) path = option_map (fun r => ([], snd r)) (bubble t path).
Proof.
  revert path. induction t as [c|tag attrs on kids IH] using html_tree_ind; intros path;
    [now rewrite (bubble_text (H := P)); cbn [muted]; rewrite bubble_text|].
  rewrite muted_disabled, !bubble_el. destruct (disabled tag attrs); [done|].
  destruct path as [|i path]; [cbn [option_map snd]; now rewrite fire_muted; destruct (fire [] on)|].
  rewrite lookup_map. destruct (kids !! i) as [k|] eqn:Hi; [|done]. cbn [option_map mbind option_bind].
  rewrite (Forall_lookup_1 _ _ _ _ IH Hi). destruct (bubble k path) as [[hs [|]]|]; cbn [option_map snd]; try done.
  rewrite fire_muted. now destruct (fire (i :: path) on).
Qed.

Lemma muted_clicks {P Q} (t : html P) : clicks (muted (H := Q) t) = [].
Proof.
  induction t as [c|tag attrs on kids IH] using html_tree_ind; [done|]. rewrite muted_disabled, collect_el.
  destruct (disabled tag attrs); [done|].
  assert (flat_map heard (flat_map (mute (H := Q)) on) = []) as ->.
  { induction on as [|l on IHo]; cbn [flat_map]; [done|]. rewrite flat_map_app, IHo. now destruct l. }
  unfold page_collect. induction IH as [|k kids Hk _ IHk]; cbn [map flat_map app]; [done|]. now rewrite Hk, IHk.
Qed.

Lemma muted_page_clicks {P Q} (inner : list (html P)) : page_clicks (map (muted (H := Q)) inner) = [].
Proof. unfold page_collect. induction inner as [|t l IH]; cbn [map flat_map]; [done|]. now rewrite muted_clicks, IH. Qed.

Lemma pages_elem {P} name tag (inner : list (html P)) t :
  t ∈ pages name tag inner -> exists n props, t = component inner n props /\ disabled n props = false.
Proof.
  unfold pages. rewrite !elem_of_app.
  assert (Hw : forall b n, n = "DevicesList" \/ n = "PackagesList" \/ n = "GroupsList" \/ n = "Device" ->
    t ∈ when b [component inner n []] -> exists n props, t = component inner n props /\ disabled n props = false).
  { intros [] n Hn; cbn [when]; [|now intros ?%elem_of_nil]. intros ->%list_elem_of_singleton.
    exists n, []. split; [done|]. now destruct Hn as [->|[->|[-> | ->]]]. }
  intros [Ht|[Ht|[Ht|[Ht|Ht]]]]; try (eapply Hw; [|exact Ht]; tauto).
  destruct tag as [x|]; [apply list_elem_of_singleton in Ht as ->|now apply elem_of_nil in Ht].
  now eexists _, _.
Qed.

(** Only tabs and the picture above the menu are heard below the main element. *)
Lemma main_clicks {P} name tag (inner : list (html P)) s user roles h :
  h ∈ page_clicks ([logobar s user roles; navbar name] ++ pages name tag inner) ->
  h = HMenu true \/ exists tab, h = HSection tab.
Proof.
  rewrite page_collect_app, elem_of_app. intros [Hh|Hh].
  - revert Hh. unfold logobar, account_menu, role_tag, navbar, navbar_item, id_attr. click_cases; eauto.
  - apply flat_map_elem in Hh as (t & Ht & Hh). apply pages_elem in Ht as (n & props & -> & Hd).
    unfold component in Hh. rewrite collect_el, Hd in Hh. cbn [flat_map app] in Hh.
    rewrite muted_page_clicks in Hh. now apply elem_of_nil in Hh.
Qed.

Lemma bar_calm name s user roles : Forall calm [logobar s user roles; navbar name].
Proof.
  unfold logobar, account_menu, role_tag, navbar, navbar_item, id_attr, div, node, leaf, str.
  auto 60 with calm.
Qed.

(** The page below the bar keeps a click for itself: one of its listeners stops it, or
    its target is in a disabled button. *)
Definition kept_by_page {P} (inner : list (html P)) (path : list nat) : bool :=
  match path with
  | i :: j :: path =>
      (2 <=? i)%nat &&
      match inner !! j ≫= fun t => bubble t path with Some (_, stopped) => stopped | None => false end
  | _ => false
  end.

(** Opening the menu and choosing a tab only change the menu and go to sections. *)
Definition goes_to_section (e : event) : Prop :=
  exists tab, e = ENavigate ("/" +:+ tab_name tab).

Lemma dispatch_home hs b (s : world HomeView) :
  (forall h, h ∈ hs -> h = HMenu true \/ exists tab, h = HSection tab) ->
  exists cbs es, Forall goes_to_section es /\
    advance (dispatch home_perform (hs ++ [HMenu b])) s = (put l_accMenuOpen b s, Ret tt, cbs, es).
Proof.
  revert s. induction hs as [|h hs IH]; intros s Hhs; [now exists [], []|].
  assert (Htl : forall h', h' ∈ hs -> h' = HMenu true \/ exists tab, h' = HSection tab)
    by (intros h' Hh'; apply Hhs; now right).
  destruct (Hhs h) as [->|[tab ->]]; [now left| |].
  - destruct (IH (put l_accMenuOpen true s) Htl) as (cbs & es & He & Hadv).
    exists cbs, es. split; [done|]. change (advance (dispatch home_perform (hs ++ [HMenu b]))
      (put l_accMenuOpen true s) = (put l_accMenuOpen b s, Ret tt, cbs, es)).
    now rewrite Hadv, put_put.
  - destruct (IH s Htl) as (cbs & es & He & Hadv).
    change (dispatch home_perform ((HSection tab :: hs) ++ [HMenu b])) with
      (detach (home_perform (HSection tab)) (dispatch home_perform (hs ++ [HMenu b]))).
    unfold home_perform at 1, navigate, await. cbn [detach advance]. rewrite Hadv.
    do 2 eexists. split; [|reflexivity]. constructor; [now exists tab|done].
Qed.

(** Whether a click below the main element reaches it is up to the page. *)
Lemma main_reached {P} name tag (inner : list (html P)) s user roles i path hs b :
  ([logobar s user roles; navbar name] ++ pages name tag inner) !! i ≫= (fun k => bubble k path) = Some (hs, b) ->
  b = kept_by_page inner (i :: path) /\ (b = true -> hs = []).
Proof.
  set (bar := [_; _]) in *. destruct (bar !! i) as [k|] eqn:Hi.
  - assert (Hlt := lookup_lt_Some _ _ _ Hi). rewrite lookup_app_l by done. rewrite Hi. cbn [mbind option_bind].
    intros Hb. rewrite (Forall_lookup_1 _ _ _ _ (bar_calm name s user roles) Hi _ _ _ Hb).
    split; [|done]. cbn in Hlt. destruct path; [done|]. cbn [kept_by_page].
    now replace (2 <=? i)%nat with false by (symmetry; apply Nat.leb_gt; lia).
  - apply lookup_ge_None in Hi as Hge. rewrite lookup_app_r by done.
    destruct (pages name tag inner !! (i - length bar)%nat) as [k|] eqn:Hk; [|done].
    apply list_elem_of_lookup_2, pages_elem in Hk as (n & props & -> & Hd). cbn [mbind option_bind].
    unfold component. rewrite bubble_el, Hd. destruct path as [|j path]; [now intros [= <- <-]|].
    rewrite lookup_map. cbn [kept_by_page].
    replace (2 <=? i)%nat with true by (symmetry; apply Nat.leb_le; exact Hge). cbn [andb].
    destruct (inner !! j) as [t|]; [|done]. cbn [option_map mbind option_bind]. rewrite bubble_muted.
    destruct (bubble t path) as [[hs1 [|]]|]; cbn [option_map snd]; [now intros [= <- <-]| |done].
    now intros [= <- <-].
Qed.

(** C32: a click on the home view leaves the menu of the account open if its target
    lies in the menu and closed otherwise, whatever else the click runs in the view,
    which is only to go to sections; but a click in the page below the bar that the
    page keeps for itself, by a listener with [.stop] or a disabled button, does
    nothing here, and leaves an open menu open. *)
Theorem home_click {P} name tag (inner : list (html P)) (s : world HomeView) page path hs :
  HomeView_template name tag inner s = Done page -> click page (0%nat :: path) = Some hs ->
  if kept_by_page inner path then hs = []
  else exists cbs es, Forall goes_to_section es /\
    advance (dispatch home_perform hs) s = (put l_accMenuOpen (in_menu path) s, Ret tt, cbs, es).
Proof.
  unfold HomeView_template. destruct (negb _); [now intros [= <-]|].
  destruct (userName s) as [user|]; [|done]. destruct (userRoles s) as [roles|]; [|done].
  intros [= <-]. cbn [click lookup list_lookup]. rewrite bubble_el. cbn [disabled String.eqb Ascii.eqb Bool.eqb andb].
  assert (Hfire : forall q, fire q [OnClickIn in_menu (HMenu true) (HMenu false)] = ([HMenu (in_menu q)], false))
    by (intros q; unfold fire; cbn; now destruct (in_menu q)).
  destruct path as [|i path].
  { rewrite Hfire. intros [= <-]. cbn [kept_by_page]. apply (dispatch_home []). now intros h ?%elem_of_nil. }
  destruct (_ ≫= _) as [[hs1 b]|] eqn:E; [|done].
  destruct (main_reached name tag inner s user roles i path hs1 b E) as [<- Hs]. destruct b.
  - intros [= <-]. auto.
  - rewrite Hfire. intros [= <-]. apply dispatch_home. intros h Hh.
    apply (main_clicks name tag inner s user roles).
    destruct (_ !! i) as [k|] eqn:Hk in E; [|done]. apply flat_map_elem. exists k.
    split; [exact (list_elem_of_lookup_2 _ _ _ Hk)|]. exact (bubble_clicks _ _ _ _ _ E Hh).
Qed.
End Spec.

(** ** The theorems at concrete inputs *)

#[local] Existing Instance sample_env.

(** Every token is that of a user with one role that concerns RDFM. *)
#[local] Instance role_parser : JsonParser := fun t =>
  Some (MkClaims (Some t) (Some "user") (Some ["rdfm_admin_ro"; "offline_access"])).

Definition logged_in_home (open : bool) : world HomeView := (sample_app ∅, MkHomeView true open).

(** The page of the devices with a tag. *)
Lemma home_routes_witness :
  exists page, HomeView_template (P := home_handler) "devices with tag" (Some "beta") [] (logged_in_home false) = Done page /\
    shown_pages page = ["DevicesList"] /\ active_tabs page = [].
Proof.
  destruct (HomeView_template (P := home_handler) "devices with tag" (Some "beta") [] (logged_in_home false)) as [page|] eqn:Ep;
    [|vm_compute in Ep; discriminate].
  exists page. split; [done|].
  exact (home_routes (MkRouteRecord "/devices/tag/:tag" (Some "devices with tag") None
    (Some HomeViewComponent) (Some TabDevices) true) TabDevices (Some "beta") (logged_in_home false) page
    ltac:(cbn; tauto) eq_refl eq_refl (conj (fun _ => eq_refl) (fun _ => ex_intro _ "beta" eq_refl)) eq_refl Ep).
Defined.

(** A page with a button whose clicks it stops. *)
Definition stopping_page : list (html unit) :=
  [El "div" [] [] [El "button" [] [OnClick [MStop] (Some tt)] []; El "p" [] [] []]].

(** A click on a tab while the menu is open; one on the button of the page, and one
    beside it. *)
Lemma home_click_witness :
  (exists cbs es, Forall goes_to_section es /\
    advance (dispatch home_perform [HSection TabPackages; HMenu false]) (logged_in_home true) =
      (logged_in_home false, Ret tt, cbs, es) /\ length es = 1%nat) /\
  exists page, HomeView_template "devices" None stopping_page (logged_in_home true) = Done page /\
    click page [0; 2; 0; 0]%nat = Some [] /\ click page [0; 2; 0; 1]%nat = Some [HMenu false].
Proof.
  destruct (HomeView_template "devices" None stopping_page (logged_in_home true)) as [page|] eqn:Ep;
    [|vm_compute in Ep; discriminate].
  assert (Hc : click page [0; 1; 1]%nat = Some [HSection TabPackages; HMenu false])
    by (vm_compute in Ep; injection Ep as <-; vm_compute; reflexivity).
  destruct (home_click "devices" None stopping_page (logged_in_home true) page [1; 1]%nat _ Ep Hc)
    as (cbs & es & He & Hadv).
  split.
  - exists cbs, es. split; [done|]. split; [exact Hadv|].
    apply (f_equal (fun x => length (snd x))) in Hadv. cbn [snd] in Hadv. rewrite <- Hadv.
    vm_compute. reflexivity.
  - exists page. split; [done|]. vm_compute in Ep. injection Ep as <-. split; vm_compute; reflexivity.
Defined.
