(* ===== verification/Application.v ===== *)
(** * The pages of the application together

    A user moves between the pages, and the home view mounts a new instance of a
    component each time; handlers of instances that have been left are resumed when
    their answers arrive. All instances work on the one module state, which the event
    stream of the server writes to as well. The file puts the home view and any number
    of instances of the four pages into one event loop and shows that what holds of
    each page alone holds of them together: the invariant of the shared state is kept
    by all, and each instance only sees its own part of the rest. *)

From S2P Require Import Prelude Json Http Async App Html Utils Fetch Polling Notifications Jwt Preserves SharedState Settles Samples Groups GroupsList Widgets SimpleDropdown GroupsView GroupsPage GroupsSettle Packages PackagesPage Devices DevicesList DevicesPage Device DevicePage PagesSettle HomeView HomeTemplate.
From stdpp Require Import base tactics list gmap strings vector relations.
#[local] Open Scope Z_scope.

(** ** A component among others *)

(** [c] is a part of [p] that [Lok] describes, in a whole that [Pok] describes. *)
Record part_ok {P C} (l : lens P C) (Pok : P -> Prop) (Lok : C -> Prop) : Prop := {
  part_view : forall p, Pok p -> Lok (view l p);
  part_put : forall c p, Lok c -> Pok p -> Pok (put l c p);
}.

(** The module state with a part of the rest. *)
Definition with_part {P C} (l : lens P C) : lens (world P) (world C).
Proof.
  refine (Lens (fun s => (fst s, view l (snd s))) (fun t s => (fst t, put l (snd t) (snd s))) _ _ _).
  - intros [a c] s. cbn. now rewrite view_put.
  - intros [a p]. cbn. now rewrite put_view.
  - intros t t' s. cbn. now rewrite put_put.
Defined.

Section Keeps.
Context {event : Type} {reply : event -> Type} {state : Type}.

Lemma keeps_weaken (I J : state -> Prop) (P Q : event -> Prop) {A} (p : proc reply state A) s :
  (forall s, I s <-> J s) -> (forall e, P e -> Q e) -> keeps I P p s -> keeps J Q p s.
Proof.
  intros HI HP. unfold keeps. revert s.
  induction p as [A a|A e|A k IH|A t k IH|A e k IH|A e h IHh k IH]; cbn; intros s Hp.
  - now apply HI.
  - now apply HI.
  - now apply IH.
  - now apply IH.
  - destruct Hp as (He & Hs & Hk). split_and!; [auto|now apply HI|].
    intros r s' Hs'. apply IH, Hk. now apply HI.
  - destruct Hp as (He & Hh & Hk). split_and!; [auto| |now apply IH].
    intros r s' Hs'. apply IHh, Hh. now apply HI.
Qed.
End Keeps.

(** A process that keeps the invariant of its component keeps that of the whole. *)
Lemma keeps_part {P C A} (l : lens P C) Pok Lok Aok (E F : event -> Prop) (p : js (world C) A) s :
  part_ok l Pok Lok -> (forall e, E e -> F e) ->
  parts_ok Pok Aok s -> keeps (parts_ok Lok Aok) E p (view (with_part l) s) ->
  keeps (parts_ok Pok Aok) F (zoom (with_part l) p) s.
Proof.
  intros [Hv Hp] He [HP HA] Hk.
  apply (keeps_weaken (fun s => (forall c, Lok c -> Pok (put l c (snd s))) /\
    parts_ok Lok Aok (view (with_part l) s)) _ E); [|done|].
  - intros [a q]. unfold parts_ok. cbn. split; [intros [Hq [Hl Ha]]|intros [Hq Ha]; auto]. split; [|done].
    rewrite <- (put_view l q). auto.
  - apply keeps_zoom_frame; [|auto|exact Hk]. intros t [a q]. cbn. intros Hq c Hc.
    rewrite put_put. auto.
Qed.

(** The [i]-th of several instances. *)
Definition nth_instance {C n} (i : fin n) : lens (vec C n) C.
Proof.
  refine (Lens (fun v => v !!! i) (fun c v => vinsert i c v) _ _ _).
  - intros c v. apply vlookup_insert.
  - intros v. apply vlookup_insert_self.
  - intros c c' v. apply vec_eq. intros j. destruct (decide (i = j)) as [->|Hj];
      [now rewrite !vlookup_insert|now rewrite !vlookup_insert_ne].
Defined.

Lemma nth_instance_part {C n} (Lok : fin n -> C -> Prop) i :
  part_ok (nth_instance i) (fun v => forall j, Lok j (v !!! j)) (Lok i).
Proof.
  split; [now intros v Hv|]. intros c v Hc Hv j. cbn. destruct (decide (i = j)) as [->|Hj];
    [now rewrite vlookup_insert|now rewrite vlookup_insert_ne].
Qed.

Lemma part_comp {P Q C} (l : lens P Q) (m : lens Q C) Pok Qok Lok :
  part_ok l Pok Qok -> part_ok m Qok Lok -> part_ok (lens_comp l m) Pok Lok.
Proof.
  intros [Hv Hp] [Hv' Hp']. split; cbn; [auto|]. intros c p Hc HP. apply Hp; auto.
Qed.

(** ** The instances of the pages *)

Section Application.
Context {n : nat}.

Record Pages : Type := MkPages {
  pg_groups : vec (GroupsList * SimpleDropdown) n;
  pg_packages : vec (PackagesList * DownloadButton) n;
  pg_devices : vec DevicesList n;
  pg_device : vec (DevicePage * DownloadButton) n;
  pg_home : HomeView;
}.

Definition l_pg_groups : lens Pages (vec (GroupsList * SimpleDropdown) n).
Proof.
  refine (Lens pg_groups (fun v p => MkPages v (pg_packages p) (pg_devices p) (pg_device p) (pg_home p)) _ _ _); lens_laws.
Defined.
Definition l_pg_packages : lens Pages (vec (PackagesList * DownloadButton) n).
Proof.
  refine (Lens pg_packages (fun v p => MkPages (pg_groups p) v (pg_devices p) (pg_device p) (pg_home p)) _ _ _); lens_laws.
Defined.
Definition l_pg_devices : lens Pages (vec DevicesList n).
Proof.
  refine (Lens pg_devices (fun v p => MkPages (pg_groups p) (pg_packages p) v (pg_device p) (pg_home p)) _ _ _); lens_laws.
Defined.
Definition l_pg_device : lens Pages (vec (DevicePage * DownloadButton) n).
Proof.
  refine (Lens pg_device (fun v p => MkPages (pg_groups p) (pg_packages p) (pg_devices p) v (pg_home p)) _ _ _); lens_laws.
Defined.
Definition l_pg_home : lens Pages HomeView.
Proof.
  refine (Lens pg_home (fun h p => MkPages (pg_groups p) (pg_packages p) (pg_devices p) (pg_device p) h) _ _ _);
    lens_laws.
Defined.

(** An instance with the module state it works on. *)
Definition at_groups (i : fin n) : lens (world Pages) (world (GroupsList * SimpleDropdown)) :=
  with_part (lens_comp l_pg_groups (nth_instance i)).
Definition at_packages (i : fin n) : lens (world Pages) (world (PackagesList * DownloadButton)) :=
  with_part (lens_comp l_pg_packages (nth_instance i)).
Definition at_devices (i : fin n) : lens (world Pages) (world DevicesList) :=
  with_part (lens_comp l_pg_devices (nth_instance i)).
Definition at_device (i : fin n) : lens (world Pages) (world (DevicePage * DownloadButton)) :=
  with_part (lens_comp l_pg_device (nth_instance i)).
Definition at_home : lens (world Pages) (world HomeView) := with_part l_pg_home.

(** Nothing has been mounted but the home view. *)
Definition initial_pages : Pages :=
  MkPages (vreplicate n (initial_groups_list, MkSimpleDropdown false None))
    (vreplicate n (initial_packages_list, MkDownloadButton None))
    (vreplicate n initial_devices_list)
    (vreplicate n (initial_device_page, MkDownloadButton None))
    (MkHomeView true false).

Context `{BuildEnv} `{JsonParser} `{Collation}.
(** The roles and permissions of the session; the tags of the lists of devices; the
    routes of the pages of single devices and the devices they lead to. *)
Context (acc : access) (tags : fin n -> option string).
Context (routes : fin n -> string) (targets : fin n -> RegisteredDevice).

(** What the user and the event stream of the server cause in the home view, whose
    watcher has stored the roles and permissions of the session. *)
Inductive home_handler_of : world HomeView -> js (world HomeView) unit -> Prop :=
| home_user {P : Type} name tag (inner : list (html P)) s page q :
    HomeView_template name tag inner s = Done page -> user_event home_perform page q -> home_handler_of s q
| home_update s m : home_handler_of s (sse_update m)
| home_connect s device : home_handler_of s (sse_connect device)
| home_disconnect s device : home_handler_of s (sse_disconnect device)
| home_logged s b : home_handler_of s (loggedIn_changed b).

(** Everything that can happen to the home view and to an instance. *)
Inductive app_handler (resolves : fin n -> world DevicePage -> Prop) : world Pages -> js (world Pages) unit -> Prop :=
| on_home s p : home_handler_of (view at_home s) p -> app_handler resolves s (zoom at_home p)
| on_groups i s p :
    GroupsPage.page_handler (view (at_groups i) s) p -> app_handler resolves s (zoom (at_groups i) p)
| on_packages i s p :
    PackagesPage.page_handler (view (at_packages i) s) p -> app_handler resolves s (zoom (at_packages i) p)
| on_devices i s p :
    DevicesPage.page_handler (tags i) acc (view (at_devices i) s) p ->
    app_handler resolves s (zoom (at_devices i) p)
| on_device i s p :
    DevicePage.page_handler (routes i) (resolves i) (view (at_device i) s) p ->
    app_handler resolves s (zoom (at_device i) p).

(** Each route leads to its target, if it leads to a device. *)
Definition leads_to_target (i : fin n) : world DevicePage -> Prop := resolves_to (routes i) (targets i).

(** The lists of groups on which decisions about packages are based. *)
Context (listed : option (list Group) -> Prop).

Abbreviation packages_policy := (PackagesPage.access_policy acc listed).

(** A request that one of the pages may send for the user. *)
Definition app_request (e : event) : Prop :=
  GroupsPage.page_request (GroupsPage.access_policy acc) e \/
  PackagesPage.page_request packages_policy e \/
  (exists i, DevicesPage.page_request (tags i) acc e) \/
  (exists i, DevicePage.page_request acc (targets i) e) \/
  goes_to_section e.

(** *** The invariant *)

Record pages_ok (p : Pages) : Prop := {
  groups_ok : forall i, GroupsPage.popups_ok (GroupsPage.access_policy acc) (fst (pg_groups p !!! i));
  packages_ok : forall i, PackagesPage.popups_ok packages_policy (fst (pg_packages p !!! i));
  devices_ok : forall i, DevicesPage.popups_ok acc (pg_devices p !!! i);
  device_pages_ok : forall i, DevicePage.device_ok acc (targets i) (fst (pg_device p !!! i));
}.

Lemma groups_part :
  part_ok l_pg_groups pages_ok (fun v => forall i, GroupsPage.popups_ok (GroupsPage.access_policy acc) (fst (v !!! i))).
Proof. split; [now intros p []|]. intros v p Hv []. now split. Qed.
Lemma packages_part :
  part_ok l_pg_packages pages_ok (fun v => forall i, PackagesPage.popups_ok packages_policy (fst (v !!! i))).
Proof. split; [now intros p []|]. intros v p Hv []. now split. Qed.
Lemma devices_part : part_ok l_pg_devices pages_ok (fun v => forall i, DevicesPage.popups_ok acc (v !!! i)).
Proof. split; [now intros p []|]. intros v p Hv []. now split. Qed.
Lemma device_part :
  part_ok l_pg_device pages_ok (fun v => forall i, DevicePage.device_ok acc (targets i) (fst (v !!! i))).
Proof. split; [now intros p []|]. intros v p Hv []. now split. Qed.

Lemma home_part : part_ok l_pg_home pages_ok (fun _ => True).
Proof. split; [done|]. intros v p _ []. now split. Qed.

Abbreviation data_ok := (app_ok all_resources (granted_by acc)).
Abbreviation all_ok := (parts_ok pages_ok data_ok).

Hypothesis no_creator : hasAdminRole acc CREATE_GROUP = false.
Hypothesis no_uploader : hasUploadAccess acc = hasAdminRole acc RW.

(** The home view only goes to sections, and keeps the shared state. *)
Abbreviation home_ok := (parts_ok (fun _ : HomeView => True) data_ok).
Abbreviation safe := (preserves home_ok goes_to_section).

Lemma safe_home h : safe (home_perform h).
Proof.
  destruct h; cbn [home_perform]; [|apply preserves_navigate; now eexists].
  apply preserves_assign. intros [a l] [_ Ha]. now split.
Qed.

Lemma safe_sse_update m : safe (sse_update m).
Proof.
  assert (Hu : forall f, safe (update (at_app l_deviceUpdates) f))
    by (intros f; apply preserves_update; data_writes).
  assert (Hv : forall f, safe (update (at_app l_deviceVersions) f))
    by (intros f; apply preserves_update; data_writes).
  unfold sse_update.
  repeat first [apply preserves_bind; [|intros ?] | case_match]; auto with page.
Qed.

Lemma home_handlers_keep p s : home_handler_of s p -> home_ok s -> keeps home_ok goes_to_section p s.
Proof.
  intros Hh Hs. revert s p Hh Hs.
  cut (forall s p, home_handler_of s p -> safe p); [intros Hsafe s p Hh; exact (Hsafe s p Hh s)|].
  intros s p [P name tag inner s' page q Hp Hu|s' m|s' device|s' device|s' b].
  - destruct Hu as [(path & hs & _ & ->)|(h & _ & ->)]; [|apply safe_home].
    apply preserves_dispatch. apply Forall_forall. intros h _. apply safe_home.
  - apply safe_sse_update.
  - apply preserves_update. data_writes.
  - apply preserves_update. data_writes.
  - unfold loggedIn_changed. destruct (negb b); [|apply preserves_ret].
    apply preserves_assign. data_writes.
Qed.

Lemma app_handlers_keep p s :
  listed (loaded_groups (fst s)) -> app_handler leads_to_target s p -> all_ok s -> keeps all_ok app_request p s.
Proof.
  intros Hl Hh. revert Hl. destruct Hh as [s' q Hq|i s' q Hq|i s' q Hq|i s' q Hq|i s' q Hq]; intros Hl Hs.
  - refine (keeps_part _ _ _ _ _ _ q s' home_part _ Hs _); [intros e He; right; right; right; right; exact He|].
    apply (home_handlers_keep q _ Hq). now split; [|exact (proj2 Hs)].
  - refine (keeps_part _ _ (fun v => GroupsPage.popups_ok _ (fst v)) _ _ _ q s' _ _ Hs _);
      [eapply part_comp; [apply groups_part|]; exact (nth_instance_part (fun _ v => _) i)
      |intros e He; left; exact He|].
    refine (groups_handlers_keep all_resources _ (groups_access_policy_ok acc no_creator) q _ Hq _).
    split; [apply (groups_ok _ (proj1 Hs))|exact (proj2 Hs)].
  - refine (keeps_part _ _ (fun v => PackagesPage.popups_ok _ (fst v)) _ _ _ q s' _ _ Hs _);
      [eapply part_comp; [apply packages_part|]; exact (nth_instance_part (fun _ v => _) i)
      |intros e He; right; left; exact He|].
    refine (packages_handlers_keep all_resources _ (packages_access_policy_ok acc listed no_uploader) q (view (at_packages i) s') Hl Hq _).
    split; [apply (packages_ok _ (proj1 Hs))|exact (proj2 Hs)].
  - refine (keeps_part _ _ (DevicesPage.popups_ok acc) _ (DevicesPage.page_request (tags i) acc) _ q s' _ _ Hs _);
      [eapply part_comp; [apply devices_part|]; exact (nth_instance_part (fun _ v => _) i)
      |intros e He; right; right; left; now exists i|].
    refine (devices_handlers_keep all_resources (tags i) acc q _ Hq _).
    split; [apply (devices_ok _ (proj1 Hs))|exact (proj2 Hs)].
  - refine (keeps_part _ _ (fun v => DevicePage.device_ok acc (targets i) (fst v)) _
      (DevicePage.page_request acc (targets i)) _ q s' _ _ Hs _);
      [eapply part_comp; [apply device_part|]; exact (nth_instance_part (fun j v => _) i)
      |intros e He; right; right; right; left; now exists i|].
    refine (device_handlers_keep all_resources (routes i) acc (targets i) q _ Hq _).
    split; [apply (device_pages_ok _ (proj1 Hs))|exact (proj2 Hs)].
Qed.

Lemma initial_pages_ok : pages_ok initial_pages.
Proof.
  split; intros i; unfold initial_pages; cbn [pg_groups pg_packages pg_devices pg_device];
    rewrite vlookup_replicate; cbn [fst].
  - split; now cbn.
  - split; now cbn.
  - apply initial_popups_ok.
  - apply initial_device_ok; [now left|done].
Qed.

Definition home_requests (h : home_handler) : nat := match h with HSection _ => 1 | HMenu _ => 0 end.

Lemma within_home_perform h : within (home_requests h) (home_perform h).
Proof. destruct h; [cbn; intros; exact I|apply within_navigate]. Qed.

Lemma home_template_cheap {P} name tag (inner : list (html P)) s page :
  HomeView_template name tag inner s = Done page -> Forall (cheap home_requests 1) page.
Proof.
  assert (Hi : Forall (cheap home_requests 1) (map muted inner)).
  { apply Forall_map_all. intros t. apply cheap_free. rewrite muted_clicks. now intros h ?%elem_of_nil. }
  unfold HomeView_template. destruct (negb _); [now intros [= <-]|].
  destruct (userName s) as [user|]; [|done]. destruct (userRoles s) as [roles|]; [|done]. intros [= <-].
  assert (Hr : forall l, Forall (cheap home_requests 1) (map role_tag l))
    by (intros l; apply Forall_map_all; intros r; unfold role_tag; auto with cheap).
  assert (Hn : Forall (cheap home_requests 1) (map (navbar_item name) SECTIONS))
    by (apply Forall_map_all; intros tab; unfold navbar_item; auto with cheap).
  unfold logobar, account_menu, navbar, pages, component, id_attr. destruct tag; auto 60 with cheap.
Qed.

Lemma home_handler_within s p : home_handler_of s p -> within 1 p.
Proof.
  intros [P name tag inner s' page q Hp Hu|s' m|s' device|s' device|s' b].
  - refine (within_user_event home_perform home_requests 1 page q within_home_perform
      (home_template_cheap name tag inner s' page Hp) _ Hu). intros []; cbn; lia.
  - unfold sse_update. at_rest.
  - at_rest.
  - at_rest.
  - unfold loggedIn_changed. at_rest.
Qed.

(** The effect that loads the actions of a device has no bound (see [pages_settle]). *)
Definition app_loads_actions (p : js (world Pages) unit) : Prop :=
  exists i q, p = zoom (at_device i) q /\ loads_actions q.

Lemma app_handler_within resolves s p : app_handler resolves s p -> ~ app_loads_actions p -> within 8 p.
Proof.
  intros [s' q Hq|i s' q Hq|i s' q Hq|i s' q Hq|i s' q Hq] Hn; apply within_zoom.
  - apply within_mono with 1%nat; [lia|]. exact (home_handler_within _ q Hq).
  - exact (groups_handler_within _ q Hq).
  - apply within_mono with 3%nat; [lia|]. exact (packages_handler_within _ q Hq).
  - apply within_mono with 4%nat; [lia|]. exact (devices_handler_within _ _ _ q Hq).
  - apply within_mono with 2%nat; [lia|]. apply (device_handler_within _ _ _ q Hq).
    intros Hl. apply Hn. now exists i, q.
Qed.

(** But for this effect the application comes to rest, whatever instances there are. *)
Theorem application_settles resolves s :
  comes_to_rest (fun s p => app_handler resolves s p /\ ~ app_loads_actions p) 8 s.
Proof.
  refine (rests _ 8 _ some_reply s). intros s' p [Hp Hn]. exact (app_handler_within resolves s' p Hp Hn).
Qed.
End Application.

(** ** The theorem *)

(** C9: what holds of each page alone holds of all of them together. Whatever pages
    the user moves between, however many instances of them have been mounted and left,
    in whatever order the handlers of all these instances, of the home view and of the
    event stream are resumed on the module state they share, and whatever the server
    answers: for a user whose permissions are not fetched again, every request of the
    application is one that a page may send for this user or a change of the section;
    a right on a group counts for a package only if a list of groups that has been
    loaded has the package in the group. The notifications stay bounded, all polled
    resources stay consistent, and the rights of the session stay what they were. *)
Theorem application_authorized `{BuildEnv} `{JsonParser} `{Collation} {n} a
    (tags : fin n -> option string) (routes : fin n -> string) (targets : fin n -> RegisteredDevice) past c :
  let acc := app_access a in
  let loaded gs := exists s, s ∈ past /\ loaded_groups (fst s) = gs in
  hasAdminRole acc CREATE_GROUP = false -> hasUploadAccess acc = hasAdminRole acc RW ->
  toasts_ok (view l_toasts a) -> (forall r, resource_ok a r) ->
  passes (app_handler acc tags routes (leads_to_target routes targets)) (a, initial_pages) past c ->
  Forall (app_request acc tags targets loaded) (trace c) /\
  toasts_ok (view l_toasts (fst (store c))) /\ (forall r, resource_ok (fst (store c)) r) /\
  granted_by acc (app_access (fst (store c))).
Proof.
  intros acc loaded Hc Hu Ht Hr Hp. apply passes_reachable in Hp as [_ Hreach].
  assert (Hk : forall p s, s ∈ past /\ app_handler acc tags routes (leads_to_target routes targets) s p ->
    parts_ok (pages_ok acc targets loaded) (app_ok all_resources (granted_by acc)) s ->
    keeps (parts_ok (pages_ok acc targets loaded) (app_ok all_resources (granted_by acc)))
      (app_request acc tags targets loaded) p s).
  { intros p s [Hin Hh]. apply (app_handlers_keep acc tags routes targets loaded Hc Hu p s); [now exists s|done]. }
  destruct (reachable_ok _ _ _ Hk (a, initial_pages) c)
    as ((_ & [Htoasts Hres Hrights]) & _ & Htr); [|done|].
  - split; [apply initial_pages_ok|]. split; [done|now intros r _|apply granted_refl].
  - split_and!; [done|done|now intros r; apply Hres|done].
Qed.

(** ** The application at a concrete input *)

#[local] Existing Instance sample_env.
#[local] Existing Instance subject_parser.
#[local] Existing Instance sample_collation.

(** The groups page is left for the packages while its first poll is under way. *)
Lemma application_authorized_witness :
  let s0 := (loaded_state, initial_pages (n := 1)) in
  let '(s1, p1, cbs1, es1) := advance (zoom (at_groups 0%fin) (zoom l_page GroupsList.onMounted)) s0 in
  let '(s2, p2, cbs2, es2) := advance (zoom (at_groups 0%fin) (zoom l_page GroupsList.onUnmounted)) s1 in
  let '(s3, p3, cbs3, es3) := advance (zoom (at_packages 0%fin) (zoom l_page Packages.onMounted)) s2 in
  let loaded gs := exists s, s ∈ [s0; s1; s2; s3] /\ loaded_groups (fst s) = gs in
  length (es1 ++ es2 ++ es3) = 2%nat /\
  Forall (app_request (n := 1) deleter (fun _ => None) (fun _ => sample_device 7) loaded) (es1 ++ es2 ++ es3).
Proof.
  cbv zeta. set (s0 := (loaded_state, initial_pages (n := 1))).
  destruct (advance (zoom (at_groups 0%fin) (zoom l_page GroupsList.onMounted)) s0) as [[[s1 p1] cbs1] es1] eqn:E1.
  destruct (advance (zoom (at_groups 0%fin) (zoom l_page GroupsList.onUnmounted)) s1) as [[[s2 p2] cbs2] es2] eqn:E2.
  destruct (advance (zoom (at_packages 0%fin) (zoom l_page Packages.onMounted)) s2) as [[[s3 p3] cbs3] es3] eqn:E3.
  split.
  - pose proof (f_equal (fun x => fst (fst (fst x))) E1) as H1.
    pose proof (f_equal (fun x => fst (fst (fst x))) E2) as H2. cbn [fst] in H1, H2.
    apply (f_equal (fun x => length (snd x))) in E1, E2, E3. cbn [snd] in E1, E2, E3.
    rewrite !length_app, <- E1, <- E2, <- E3, <- H2, <- H1. vm_compute. reflexivity.
  - rewrite app_assoc. set (h := app_handler deleter (fun _ : fin 1 => None) (fun _ => "7"%string)
      (leads_to_target (fun _ => "7"%string) (fun _ => sample_device 7))).
    refine (proj1 (application_authorized loaded_state (fun _ => None) (fun _ => "7"%string)
      (fun _ => sample_device 7) [s0; s1; s2; s3]
      (Config s3 (((p1 :: cbs1) ++ p2 :: cbs2) ++ p3 :: cbs3) ((es1 ++ es2) ++ es3))
      eq_refl eq_refl toasts_ok_init _ _)); [intros []; now cbn|].
    refine (passes_step h s0 [s0; s1; s2] (Config s2 ((p1 :: cbs1) ++ p2 :: cbs2) (es1 ++ es2)) (Config s3 _ _) _ _);
      [refine (passes_step h s0 [s0; s1] (Config s1 (p1 :: cbs1) es1) (Config s2 _ _) _ _);
       [exact (passes_step h s0 [s0] _ (Config s1 (p1 :: cbs1) es1) (passes_init h s0)
          (step_start h s0 [] [] _ _ _ _ _ (on_groups _ _ _ _ 0%fin s0 _ (GroupsPage.h_mounted _)) E1))|]|].
    + exact (step_start h s1 _ _ _ _ _ _ _ (on_groups _ _ _ _ 0%fin s1 _ (GroupsPage.h_unmounted _)) E2).
    + exact (step_start h s2 _ _ _ _ _ _ _ (on_packages _ _ _ _ 0%fin s2 _ (PackagesPage.h_mounted _)) E3).
Defined.
