(* ===== verification/Session.v ===== *)
(** * The session: [main.ts], [router/index.ts], [LoginHandler.vue] and
    [LogoutHandler.vue]

    The matching of paths against the routes is vue-router's; it is a parameter. *)

From S2P Require Import Prelude Json Http Async App Utils Fetch Notifications Jwt Uri Samples Groups.
From Stdlib Require Import Ascii.
From stdpp Require Import base tactics list gmap strings pretty.
#[local] Open Scope Z_scope.

(** [router.resolve(path).matched.length > 0] *)
Class Router : Type := route_matches : string -> bool.


Section Session.
Context `{BuildEnv} {S : Type} `{HasApp S}.

Definition setItem (name value : string) : js S unit :=
  update (at_app l_storage) (<[name := value]>).

(** [router.push(path)] without [await]. *)
Definition push (path : string) : js S unit := detach (navigate path) (jret tt).




(** [LoginHandler.mounted]; [hash] is the fragment of the route, with its [#]. *)
Definition login_mounted `{Router} (hash : string) : js S unit :=
  let params := search_params hash in
  let token := params_get "access_token" params in
  if negb (truthy_str token) then assign (at_app l_href) LOGIN_PATH
  else
    setItem "access_token" (default "" token) ;;;
    let* storage := read (at_app l_storage) in
    let currentPath := default "/" (storage !! "current_path") in
    if negb (route_matches currentPath) then push "/" else push currentPath.

(** [LogoutHandler.setup] *)
Definition logout_setup : js S unit :=
  update (at_app l_storage) (delete "access_token") ;;; push "/".
End Session.

(** ** Properties *)

Section Login.
Context `{BuildEnv} `{Router} {S : Type} `{HasApp S}.








(** The fragment of a redirection in which the token is the first parameter. *)
Definition token_first (tok rest : string) : string :=
  ("#access_token=" +:+ tok) +:+ String ampersand rest.

(** The fragment in which another parameter comes first. *)
Definition token_later (first tok rest : string) : string :=
  first +:+ String ampersand (("access_token=" +:+ tok) +:+ String ampersand rest).

Lemma strip_prefix_none first rest :
  String.prefix "#" first = true -> Json.strip_prefix "?" (first +:+ rest) = None.
Proof.
  destruct first as [|c f]; [done|]. intros Hp.
  change (String c f +:+ rest) with (String c (f +:+ rest)). cbn [String.prefix] in Hp.
  destruct (ascii_dec "#" c) as [<-|]; [reflexivity|done].
Qed.

(** C37: the fragment is parsed with its leading [#], so that the position of the
    token matters: it is found behind another parameter, but when it is the first
    parameter it is lost, the token is not stored and the user is sent back to
    log in. *)
Theorem login_token_position (srv : server) n (s : S) first tok rest :
  str_has ampersand tok = false -> str_has ampersand first = false ->
  String.prefix "#" first = true -> fst (parse_pair first) <> "access_token" ->
  params_get "access_token" (query_params rest) = None ->
  params_get "access_token" (search_params (token_later first tok rest)) = Some (decode_param tok) /\
  run srv (login_mounted (token_first tok rest)) n s =
    (Done tt, put (at_app l_href) LOGIN_PATH s, n).
Proof.
  intros Htok Hf Hhash Hname Hrest. split.
  - unfold search_params, token_later. rewrite strip_prefix_none by done.
    rewrite query_params_cons; [|done|now destruct first].
    rewrite query_params_cons; [|now rewrite str_has_app|done].
    rewrite !params_get_cons. apply String.eqb_neq in Hname. rewrite Hname.
    change ("access_token=" +:+ tok) with ("access_token" +:+ String equals tok).
    now rewrite parse_pair_value.
  - unfold login_mounted, search_params, token_first.
    rewrite strip_prefix_none by reflexivity.
    rewrite query_params_cons; [|now rewrite str_has_app|done]. rewrite params_get_cons.
    change ("#access_token=" +:+ tok) with ("#access_token" +:+ String equals tok).
    rewrite parse_pair_value by reflexivity. cbn [fst]. rewrite Hrest. reflexivity.
Qed.
End Login.

(** ** The theorems at concrete inputs *)

#[local] Existing Instance sample_env.

(** A router that knows the pages of the application. *)
Definition sample_router : Router := fun p => includes p ["/groups"; "/devices"; "/packages"].
#[local] Existing Instance sample_router.


Lemma login_token_position_witness :
  params_get "access_token" (search_params "#state=1&access_token=abc&expires_in=60") = Some "abc" /\
  run accepting (login_mounted "#access_token=abc&expires_in=60") idle (app_with ∅ initial_headers) =
    (Done tt, put l_href LOGIN_PATH (app_with ∅ initial_headers), idle).
Proof.
  exact (login_token_position accepting idle (app_with ∅ initial_headers) "#state=1" "abc"
    "expires_in=60" eq_refl eq_refl eq_refl ltac:(vm_compute; discriminate)
    ltac:(vm_compute; reflexivity)).
Defined.
