(* ===== verification/Terminal.v ===== *)
(** * [components/Terminal.vue]: the device shell

    The component connects an hterm terminal to a WebSocket of the server. Its
    handlers never wait; the browser calls them when the socket or the terminal
    has something to report. Unmounting removes the [close] listener alone, so that
    what the browser reports afterwards ([socket_ends]) still reaches the others. *)

From S2P Require Import Prelude Json Http Async App Utils Fetch Notifications Jwt Samples Groups GroupsList.
From stdpp Require Import base tactics list gmap strings pretty.
#[local] Open Scope Z_scope.

(** [WebSocket.readyState] *)
Inductive ReadyState : Type := CONNECTING | OPEN | CLOSING | CLOSED.

#[export] Instance ReadyState_eq_dec : EqDecision ReadyState.
Proof. solve_decision. Defined.

Record Socket : Type := MkSocket {
  sk_url : string;
  readyState : ReadyState;
  sk_sent : list string;          (* what was handed to [send], in order *)
  sk_listening : bool;            (* the [close] listener is registered *)
}.

Record TerminalView : Type := MkTerminalView {
  tv_socket : option Socket;
  tv_printed : list string;       (* [term.io.print] *)
  firstMessage : bool;
  screenSize : Z * Z;             (* height and width *)
  shell_disconnected : nat;       (* how often the event was emitted *)
}.

Definition l_socket : lens (world TerminalView) (option Socket).
Proof.
  refine (lens_comp local_state (Lens tv_socket (fun x s => MkTerminalView x (tv_printed s)
    (firstMessage s) (screenSize s) (shell_disconnected s)) _ _ _)); lens_laws.
Defined.
Definition l_printed : lens (world TerminalView) (list string).
Proof.
  refine (lens_comp local_state (Lens tv_printed (fun x s => MkTerminalView (tv_socket s) x
    (firstMessage s) (screenSize s) (shell_disconnected s)) _ _ _)); lens_laws.
Defined.
Definition l_firstMessage : lens (world TerminalView) bool.
Proof.
  refine (lens_comp local_state (Lens firstMessage (fun x s => MkTerminalView (tv_socket s)
    (tv_printed s) x (screenSize s) (shell_disconnected s)) _ _ _)); lens_laws.
Defined.
Definition l_screenSize : lens (world TerminalView) (Z * Z).
Proof.
  refine (lens_comp local_state (Lens screenSize (fun x s => MkTerminalView (tv_socket s)
    (tv_printed s) (firstMessage s) x (shell_disconnected s)) _ _ _)); lens_laws.
Defined.

Definition initial_terminal : TerminalView := MkTerminalView None [] true (24, 80) 0.

(** The settings of hterm that are stored when the terminal is mounted. *)
Definition htermSettings : list (string * json) :=
  [("background-color", JStr "#000000"); ("cursor-color", JStr "white");
   ("mouse-right-click-paste", JBool false); ("pass-meta-v", JBool false);
   ("mouse-paste-button", JStr "no-button"); ("pass-on-drop", JBool false);
   ("shift-insert-paste", JBool false)].

Section Terminal.
Context `{BuildEnv}.
(** [props.device] *)
Context (device : option string).

Abbreviation W := (world TerminalView).

Definition print (text : string) : js W unit := update l_printed (fun l => l ++ [text]).

Definition setHTermPreferences : js W unit :=
  update (at_app l_storage) (fun storage =>
    foldl (fun m '(key, v) => <["/hterm/profiles/default/" +:+ key := stringify v]> m)
      storage htermSettings).

(** [socket.send(data)]: raises while connecting, and drops the data of a socket
    that is no longer open. *)
Definition socket_send (data : string) : js W unit :=
  let* socket := read l_socket in
  match socket with
  | None => jthrow TypeError
  | Some k =>
      match readyState k with
      | CONNECTING => jthrow (JsError "InvalidStateError")
      | OPEN => assign l_socket (Some (MkSocket (sk_url k) OPEN (sk_sent k ++ [data]) (sk_listening k)))
      | _ => jret tt
      end
  end.

Definition resize_message (size : Z * Z) : string :=
  "resize " +:+ pretty (fst size) +:+ " " +:+ pretty (snd size).

(** [term.onTerminalReady] *)
Definition onTerminalReady : js W unit :=
  if truthy_str device then
    let* storage := read (at_app l_storage) in
    let accessToken := match storage !! "access_token" with Some t => t | None => "null" end in
    assign l_socket (Some (MkSocket (DEVICE_SHELL_ENDPOINT (default "" device) accessToken)
                             CONNECTING [] true)) ;;;
    assign l_firstMessage true
  else
    print ("Unable to connect. Device is undefined." +:+ chr 10 +:+ chr 13) ;;;
    notifyError "Unable to connect to device shell" (Some "Device is undefined").

(** The browser has opened the socket: its state changes before the listener. *)
Definition on_open : js W unit :=
  update l_socket (option_map (fun k => MkSocket (sk_url k) OPEN (sk_sent k) (sk_listening k))) ;;;
  print ("Connecting to device " +:+ template device +:+ "..." +:+ chr 10 +:+ chr 13) ;;;
  let* size := read l_screenSize in
  socket_send (resize_message size).

Definition on_message (text : string) : js W unit :=
  print text ;;;
  let* first := read l_firstMessage in
  if first : bool then
    notifySuccess ("Device " +:+ template device +:+ " shell available") None ;;;
    assign l_firstMessage false
  else jret tt.



(** [io.onVTKeystroke] and [io.sendString] *)
Definition sendMessage (str : string) : js W unit := socket_send str.




(** ** Properties *)

(** A sequence of messages, each handled when it arrives. *)
Fixpoint on_messages (texts : list string) : js W unit :=
  match texts with
  | [] => jret tt
  | text :: texts => on_message text ;;; on_messages texts
  end.

Definition available_toast : toast :=
  ToastSuccess (buildHTML ("Device " +:+ template device +:+ " shell available") None).

Definition shown (texts : list string) (first : bool) (a : App) : App :=
  match texts with
  | [] => a
  | _ => if first then over l_toasts (enqueue available_toast) a else a
  end.

(** Everything the shell sends is printed, in order, and the user is told
    once, at the first message, that the shell is available. *)
Theorem on_messages_spec texts (srv : server) n (a : App) (l : TerminalView) :
  run srv (on_messages texts) n (a, l) =
  (Done tt,
   (shown texts (firstMessage l) a,
    MkTerminalView (tv_socket l) (tv_printed l ++ texts)
      (match texts with [] => firstMessage l | _ => false end) (screenSize l)
      (shell_disconnected l)), n).
Proof.
  revert a l. induction texts as [|text texts IH]; intros a l; cbn [on_messages].
  - destruct l. cbn. now rewrite app_nil_r.
  - assert (Hone : run srv (on_message text) n (a, l) =
      (Done tt, (if firstMessage l then over l_toasts (enqueue available_toast) a else a,
        MkTerminalView (tv_socket l) (tv_printed l ++ [text]) false (screenSize l)
          (shell_disconnected l)), n)).
    { destruct l as [k pr [] sz d]; reflexivity. }
    rewrite run_jbind, Hone, IH. cbn. rewrite <- app_assoc. cbn.
    destruct texts; reflexivity.
Qed.




End Terminal.
