(* ===== verification/PollingSpec.v ===== *)
(** * Polling timers: mounting and unmounting the list pages

    The handlers of the three pages that mount and unmount them, by the lemmas of
    [Polling.v]: their fetches leave the timers alone, whatever is answered. *)

From S2P Require Import Prelude Json Http Async App Utils Fetch Polling Notifications Jwt Samples Groups GroupsList Packages Devices DevicesList PackagesSpec.
From stdpp Require Import base tactics list gmap strings relations.
#[local] Open Scope Z_scope.

(** ** Fetching awaits everything and suspends at once *)

Section Fetching.
Context `{BuildEnv} {S : Type} `{HasApp S}.

Lemma spawn_free_fetchWrapper d url method h0 b :
  spawn_free (fetchWrapper (S := S) d url method (HNew h0) b).
Proof.
  unfold fetchWrapper, headers_obj_set, jbind. apply spawn_free_catch; [|done].
  cbn. intros s. apply spawn_free_bind.
  - destruct (truthy_str _); [|done]. cbn. intros s1. now destruct (headers_set _ _ _).
  - intros o s1. cbn. intros [|st [data|]]; cbn; [done| |]; now destruct (response_ok st).
Qed.

Lemma spawn_free_fetchResources (g : getter S) : spawn_free (fetchResources g).
Proof.
  unfold fetchResources, fetchGET, jbind. apply spawn_free_bind; [apply spawn_free_fetchWrapper|].
  intros out. destruct (f_success out); [now cbn|]. destruct (bool_decide _); now cbn.
Qed.

(** With a token that fits in a header a poll begins with its request. *)
Lemma advance_fetchResources {A} (g : getter S) (f : unit -> js S A) s own :
  authorized (token s) ∅ = Some own ->
  exists e k es, advance (jbind (fetchResources g) f) s = (s, Await e k, [], es).
Proof.
  intros Hown. unfold fetchResources, fetchGET, jbind. rewrite pbind_assoc.
  match goal with |- context [pbind (fetchWrapper _ _ _ _ _) ?K] =>
    destruct (advance_fetch (g_doc g) (g_url g) "GET" ∅ None K s)
      as [(own' & k & _ & Hadv & _)|[Hno _]] end; [|congruence].
  unfold jbind in Hadv. rewrite Hadv. eauto.
Qed.
End Fetching.

(** ** The three pages *)

Section Pages.
Context `{BuildEnv} `{JsonParser}.

Lemma quiet_groups : quiet groups_interval fetchGroupsListResources.
Proof.
  unfold fetchGroupsListResources.
  repeat apply quiet_bind; apply quiet_fetchResources; now intros r [].
Qed.

Lemma quiet_packages : quiet pl_interval fetchPackagesListResources.
Proof.
  unfold fetchPackagesListResources.
  repeat apply quiet_bind; apply quiet_fetchResources; now intros r [].
Qed.

Lemma quiet_devices tag : quiet dl_interval (fetchDevicesListResources tag).
Proof.
  unfold fetchDevicesListResources. repeat apply quiet_bind; apply quiet_fetchResources;
    intros r [a l]; try reflexivity.
  revert r. unfold devices. destruct (truthy_str tag); intros r; reflexivity.
Qed.

Lemma spawn_free_groups : spawn_free fetchGroupsListResources.
Proof.
  unfold fetchGroupsListResources.
  repeat (apply spawn_free_bind; [|intros _]); apply spawn_free_fetchResources.
Qed.

(** Following a tag to its only device is quiet: its promise is not awaited. *)
Lemma quiet_redirect tag : quiet dl_interval (redirect_single tag).
Proof.
  intros srv n s. unfold redirect_single. js_run.
  destruct (truthy_str tag); [|now exists s, n].
  destruct (shown_devices _ s) as [[|device [|? ?]]|]; [now exists s, n| |now exists s, n|now exists s, n].
  cbn. now destruct (srv _ _); do 2 eexists.
Qed.

Lemma quiet_upload_flag b : quiet pl_interval (assign l_uploadInProgress b).
Proof. intros srv n [a l]. now do 2 eexists. Qed.

(** C39: on each of the list pages, when the first fetches have been answered before
    the page is left, mounting it starts exactly one timer, whatever the answers are,
    and leaving it stops this timer: the timers that run are as before. *)
Theorem polling_balanced tag :
  starts_and_stops groups_interval GroupsList.onMounted GroupsList.onUnmounted /\
  starts_and_stops pl_interval Packages.onMounted Packages.onUnmounted /\
  starts_and_stops dl_interval (DevicesList.onMounted tag) DevicesList.onUnmounted.
Proof.
  split; [|split].
  - apply starts_alone. change GroupsList.onUnmounted with
      (jret tt ;;; stop_polling groups_interval).
    apply mount_unmount_run; auto using quiet_groups, quiet_ret.
  - apply starts_alone, mount_unmount_run; auto using quiet_packages, quiet_ret, quiet_upload_flag.
  - change DevicesList.onUnmounted with (jret tt ;;; stop_polling dl_interval).
    apply mount_unmount_run; auto using quiet_devices, quiet_ret, quiet_redirect.
Qed.

(** C40: when the groups page is left while its first fetch is under way, nothing
    is cleared and the timer that is started afterwards is never stopped: there
    is an execution in which the page has been left, all its handlers have
    finished, and one more timer runs. *)
Theorem groups_polling_leak (s : world GroupsList) own :
  authorized (token s) ∅ = Some own -> view (Polling.intervalID groups_interval) s = None ->
  exists c, reachable (fun _ p => p = GroupsList.onMounted \/ p = GroupsList.onUnmounted) s c /\
    Forall finished (threads c) /\
    fst (view (at_app l_timers) (store c)) =
      fst (view (at_app l_timers) s) ++ [snd (view (at_app l_timers) s)].
Proof.
  intros Hown Hid.
  assert (Hadv : exists e k es, advance GroupsList.onMounted s = (s, Await e k, [], es)).
  { unfold GroupsList.onMounted, mounted, fetchGroupsListResources. unfold jbind at 1 2 3.
    rewrite !pbind_assoc. now apply (advance_fetchResources packagesResources _ s own). }
  destruct Hadv as (e & k & es & Hadv).
  exact (unmount_leaks groups_interval fetchGroupsListResources s e k es quiet_groups
    spawn_free_groups Hid Hadv).
Qed.
End Pages.

(** ** At concrete inputs *)

#[local] Existing Instance sample_env.
#[local] Existing Instance subject_parser.

(** The groups page is mounted and left in a state without timers. *)
Lemma polling_balanced_witness :
  let s : world GroupsList := (sample_state, initial_groups_list) in
  exists s1 n1 s2 n2, run accepting GroupsList.onMounted idle s = (Done tt, s1, n1) /\
    fst (view (at_app l_timers) s1) = [1] /\
    run accepting GroupsList.onUnmounted n1 s1 = (Done tt, s2, n2) /\ fst (view (at_app l_timers) s2) = [].
Proof.
  exact (proj1 (polling_balanced None) accepting idle (sample_state, initial_groups_list) eq_refl
    (Forall_nil_2 _)).
Defined.

Lemma groups_polling_leak_witness :
  let s : world GroupsList := (sample_state, initial_groups_list) in
  exists c, reachable (fun _ p => p = GroupsList.onMounted \/ p = GroupsList.onUnmounted) s c /\
    Forall finished (threads c) /\ fst (view (at_app l_timers) (store c)) = [1].
Proof.
  exact (groups_polling_leak (sample_state, initial_groups_list) bearer_only
    (sample_authorized initial_groups_list) eq_refl).
Defined.
